(** * The OpenGL renderer of VLC (modules/video_output/opengl/renderer.c)

    A shallow embedding of the matrix module, the mesh builders, the
    viewpoint state and the per-frame draw decision of the renderer, and
    the properties of them that the specification states.

    C [float] and [double] computations are written once, over an
    interface of floating-point operations ([FloatOps]).  Two instances
    are given: IEEE-754 binary32/binary64 as the compiler evaluates the
    code ([binary_ops], over the Standard Library's [spec_float], the
    libm functions left as parameters), and the real numbers ([real_ops]),
    the exact arithmetic that the floating-point code approximates. *)

From Stdlib Require Import ZArith List Lia Bool QArith Qpower Reals Lra.
From Stdlib Require Import Floats.SpecFloat.
From stdpp Require Import base list.
Import ListNotations.

Local Open Scope Z_scope.

(** ** Floating-point arithmetic *)

(** The operations of C that the renderer uses on [float] and [double]
    values.  The carrier holds values of both types: a [float] is promoted
    to [double] without change and [float_of_double] rounds back. *)
Class FloatOps (F : Type) := {
  (* (float) n *)
  float_of_int : Z -> F;
  fadd : F -> F -> F;
  fsub : F -> F -> F;
  fmul : F -> F -> F;
  fdiv : F -> F -> F;
  fneg : F -> F;
  fabsf : F -> F;
  (* x < y and x <= y; both false when an operand is a NaN *)
  flt : F -> F -> bool;
  fle : F -> F -> bool;
  (* (double) n and the arithmetic of double *)
  double_of_int : Z -> F;
  dadd : F -> F -> F;
  dsub : F -> F -> F;
  dmul : F -> F -> F;
  ddiv : F -> F -> F;
  float_of_double : F -> F;
  (* <math.h> *)
  M_PI : F;
  tanf : F -> F;
  atanf : F -> F;
  sinf : F -> F;
  sqrtf : F -> F;
  sincosf : F -> F * F
}.

Declare Scope cfloat_scope.
Delimit Scope cfloat_scope with cfloat.
Notation "x +! y" := (fadd x y) (at level 50, left associativity) : cfloat_scope.
Notation "x -! y" := (fsub x y) (at level 50, left associativity) : cfloat_scope.
Notation "x *! y" := (fmul x y) (at level 40, left associativity) : cfloat_scope.
Notation "x /! y" := (fdiv x y) (at level 40, left associativity) : cfloat_scope.
Notation "x +!! y" := (dadd x y) (at level 50, left associativity) : cfloat_scope.
Notation "x -!! y" := (dsub x y) (at level 50, left associativity) : cfloat_scope.
Notation "x *!! y" := (dmul x y) (at level 40, left associativity) : cfloat_scope.
Notation "x /!! y" := (ddiv x y) (at level 40, left associativity) : cfloat_scope.

(** *** IEEE-754 binary32 and binary64 *)

(** The exact value of a binary floating-point number; 0 for what has none. *)
Definition SF2Q (x : spec_float) : Q :=
  match x with
  | S754_finite s m e => (inject_Z (cond_Zopp s (Zpos m)) * Qpower 2 e)%Q
  | _ => 0%Q
  end.

Module Binary.

Definition prec32 : Z := 24.
Definition emax32 : Z := 128.
Definition prec64 : Z := 53.
Definition emax64 : Z := 1024.

(** Rounding of a value of either format to the given format. *)
Definition round_to (prec emax : Z) (x : spec_float) : spec_float :=
  match x with
  | S754_finite s m e => binary_round prec emax s m e
  | _ => x
  end.

(** The functions of libm that are not correctly rounded by the
    standard, and so are not fixed by it. *)
Record libm := {
  libm_tanf : spec_float -> spec_float;
  libm_atanf : spec_float -> spec_float;
  libm_sinf : spec_float -> spec_float;
  libm_sincosf : spec_float -> spec_float * spec_float
}.

(** M_PI, the double nearest to pi: 0x400921FB54442D18. *)
Definition M_PI_double : spec_float := S754_finite false 7074237752028440 (-51).

(** The order of two values.  The carrier holds floats and doubles, and C
    compares a float with a double after it has converted the float, which
    keeps its value: two numbers are compared by their values, whatever
    the formats they are in.  [None] when an operand is a NaN. *)
Definition is_number (x : spec_float) : bool :=
  match x with
  | S754_zero _ | S754_finite _ _ _ => true
  | _ => false
  end.

Definition compare (x y : spec_float) : option comparison :=
  if is_number x && is_number y then Some (SF2Q x ?= SF2Q y)%Q
  else SFcompare x y.

Definition ltb (x y : spec_float) : bool :=
  match compare x y with
  | Some Lt => true
  | _ => false
  end.

Definition leb (x y : spec_float) : bool :=
  match compare x y with
  | Some (Lt | Eq) => true
  | _ => false
  end.

Definition binary_ops (lm : libm) : FloatOps spec_float := {|
  float_of_int n := binary_normalize prec32 emax32 n 0 false;
  fadd := SFadd prec32 emax32;
  fsub := SFsub prec32 emax32;
  fmul := SFmul prec32 emax32;
  fdiv := SFdiv prec32 emax32;
  fneg := SFopp;
  fabsf := SFabs;
  flt := ltb;
  fle := leb;
  double_of_int n := binary_normalize prec64 emax64 n 0 false;
  dadd := SFadd prec64 emax64;
  dsub := SFsub prec64 emax64;
  dmul := SFmul prec64 emax64;
  ddiv := SFdiv prec64 emax64;
  float_of_double := round_to prec32 emax32;
  M_PI := M_PI_double;
  tanf := libm_tanf lm;
  atanf := libm_atanf lm;
  sinf := libm_sinf lm;
  sqrtf := SFsqrt prec32 emax32;
  sincosf := libm_sincosf lm
|}.

(** A binary32 value given by its mantissa and exponent. *)
Definition b32 (m : Z) (e : Z) : spec_float :=
  binary_normalize prec32 emax32 m e false.

End Binary.

(** *** Exact arithmetic *)

Module Exact.

Definition Rltb (x y : R) : bool := if Rlt_dec x y then true else false.
Definition Rleb (x y : R) : bool := if Rle_dec x y then true else false.

Definition real_ops : FloatOps R := {|
  float_of_int := IZR;
  fadd := Rplus;
  fsub := Rminus;
  fmul := Rmult;
  fdiv := Rdiv;
  fneg := Ropp;
  fabsf := Rabs;
  flt := Rltb;
  fle := Rleb;
  double_of_int := IZR;
  dadd := Rplus;
  dsub := Rminus;
  dmul := Rmult;
  ddiv := Rdiv;
  float_of_double := fun x => x;
  M_PI := PI;
  tanf := tan;
  atanf := atan;
  sinf := sin;
  sqrtf := sqrt;
  sincosf := fun x => (sin x, cos x)
|}.

End Exact.

(** ** Data model *)

(** The types of vlc_es.h, vlc_viewpoint.h and renderer.h that renderer.c
    uses.  An enumeration that the code switches over with a [default]
    case keeps a constructor for the values the code names no case for. *)

Inductive video_orientation_t :=
| ORIENT_NORMAL
| ORIENT_TRANSPOSED
| ORIENT_ANTI_TRANSPOSED
| ORIENT_HFLIPPED
| ORIENT_VFLIPPED
| ORIENT_ROTATED_180
| ORIENT_ROTATED_270
| ORIENT_ROTATED_90.

Inductive video_projection_mode_t :=
| PROJECTION_MODE_RECTANGULAR
| PROJECTION_MODE_EQUIRECTANGULAR
| PROJECTION_MODE_CUBEMAP_LAYOUT_STANDARD
| PROJECTION_MODE_other (raw : Z).

Inductive video_multiview_mode_t :=
| MULTIVIEW_2D
| MULTIVIEW_STEREO_SBS
| MULTIVIEW_STEREO_TB
| MULTIVIEW_other (raw : Z).

(** Return codes of vlc_common.h. *)
Definition VLC_SUCCESS : Z := 0.
Definition VLC_EGENERIC : Z := -1.
Definition VLC_ENOMEM : Z := -2.
Definition VLC_EBADVAR : Z := -7.

(** The fields of video_format_t that the renderer reads; the sizes and
    offsets are C [unsigned]. *)
Record video_format_t := {
  i_width : Z;
  i_height : Z;
  i_x_offset : Z;
  i_y_offset : Z;
  i_visible_width : Z;
  i_visible_height : Z;
  orientation : video_orientation_t;
  projection_mode : video_projection_mode_t;
  multiview_mode : video_multiview_mode_t;
  i_cubemap_padding : Z
}.

(** Arithmetic of C [unsigned int]. *)
Definition UINT_MAX : Z := 4294967295.
Definition wrap_unsigned (n : Z) : Z := n mod (UINT_MAX + 1).
(** Conversion to GLushort. *)
Definition wrap_ushort (n : Z) : Z := n mod 65536.


(** A viewpoint (vlc_viewpoint.h): angles and field of view in degrees. *)
Record vlc_viewpoint_t {F : Type} := {
  yaw : F;
  pitch : F;
  roll : F;
  fov : F
}.
Arguments vlc_viewpoint_t : clear implicits.

(** ** The matrix module *)

Section Matrix.
Context {F : Type} `{FloatOps F}.
Local Open Scope cfloat_scope.

(** The float constants [0.f], [1.f] and [2.f]. *)
Definition f0 : F := float_of_int 0.
Definition f1 : F := float_of_int 1.
Definition f2 : F := float_of_int 2.

(** A decimal float literal p/q with p and q exact in binary32, such as
    [0.001f] or [0.5]: the float nearest to the quotient. *)
Definition float_lit (p q : Z) : F := float_of_int p /! float_of_int q.

(** [(float) M_PI] *)
Definition M_PI_f : F := float_of_double M_PI.

(** A GLfloat[16], column after column as OpenGL reads it. *)
Definition identity : list F := [
  f1; f0; f0; f0;
  f0; f1; f0; f0;
  f0; f0; f1; f0;
  f0; f0; f0; f1
].

Definition getZoomMatrix (zoom : F) : list F := [
  f1; f0; f0; f0;
  f0; f1; f0; f0;
  f0; f0; f1; f0;
  f0; f0; zoom; f1
].

(** [float zFar = 1000; float zNear = 0.01;]: the second is the double
    literal 0.01, the correctly rounded quotient 1/100, converted to float. *)
Definition getProjectionMatrix (sar fovy : F) : list F :=
  let zFar := float_of_int 1000 in
  let zNear := float_of_double (double_of_int 1 /!! double_of_int 100) in
  let f := f1 /! tanf (fovy /! f2) in
  [ f /! sar; f0; f0; f0;
    f0; f; f0; f0;
    f0; f0; (zNear +! zFar) /! (zNear -! zFar); fneg f1;
    f0; f0; (float_of_int 2 *! zNear *! zFar) /! (zNear -! zFar); f0 ].

(** [matrix[i] = n] for an [int] n. *)
Definition set_int (i : nat) (n : Z) (matrix : list F) : list F :=
  <[i := float_of_int n]> matrix.

Definition getOrientationTransformMatrix (orientation : video_orientation_t)
  : list F :=
  let matrix := identity in
  let k_cos_pi := -1 in
  let k_cos_pi_2 := 0 in
  let k_cos_n_pi_2 := 0 in
  let k_sin_pi := 0 in
  let k_sin_pi_2 := 1 in
  let k_sin_n_pi_2 := -1 in
  match orientation with
  | ORIENT_ROTATED_90 =>
      let matrix := set_int (0 * 4 + 0) k_cos_pi_2 matrix in
      let matrix := set_int (0 * 4 + 1) (- k_sin_pi_2) matrix in
      let matrix := set_int (1 * 4 + 0) k_sin_pi_2 matrix in
      let matrix := set_int (1 * 4 + 1) k_cos_pi_2 matrix in
      let matrix := set_int (3 * 4 + 1) 1 matrix in
      matrix
  | ORIENT_ROTATED_180 =>
      let matrix := set_int (0 * 4 + 0) k_cos_pi matrix in
      let matrix := set_int (0 * 4 + 1) (- k_sin_pi) matrix in
      let matrix := set_int (1 * 4 + 0) k_sin_pi matrix in
      let matrix := set_int (1 * 4 + 1) k_cos_pi matrix in
      let matrix := set_int (3 * 4 + 0) 1 matrix in
      let matrix := set_int (3 * 4 + 1) 1 matrix in
      matrix
  | ORIENT_ROTATED_270 =>
      let matrix := set_int (0 * 4 + 0) k_cos_n_pi_2 matrix in
      let matrix := set_int (0 * 4 + 1) (- k_sin_n_pi_2) matrix in
      let matrix := set_int (1 * 4 + 0) k_sin_n_pi_2 matrix in
      let matrix := set_int (1 * 4 + 1) k_cos_n_pi_2 matrix in
      let matrix := set_int (3 * 4 + 0) 1 matrix in
      matrix
  | ORIENT_HFLIPPED =>
      let matrix := set_int (0 * 4 + 0) (-1) matrix in
      let matrix := set_int (3 * 4 + 0) 1 matrix in
      matrix
  | ORIENT_VFLIPPED =>
      let matrix := set_int (1 * 4 + 1) (-1) matrix in
      let matrix := set_int (3 * 4 + 1) 1 matrix in
      matrix
  | ORIENT_TRANSPOSED =>
      let matrix := set_int (0 * 4 + 0) 0 matrix in
      let matrix := set_int (1 * 4 + 1) 0 matrix in
      let matrix := set_int (2 * 4 + 2) (-1) matrix in
      let matrix := set_int (0 * 4 + 1) 1 matrix in
      let matrix := set_int (1 * 4 + 0) 1 matrix in
      matrix
  | ORIENT_ANTI_TRANSPOSED =>
      let matrix := set_int (0 * 4 + 0) 0 matrix in
      let matrix := set_int (1 * 4 + 1) 0 matrix in
      let matrix := set_int (2 * 4 + 2) (-1) matrix in
      let matrix := set_int (0 * 4 + 1) (-1) matrix in
      let matrix := set_int (1 * 4 + 0) (-1) matrix in
      let matrix := set_int (3 * 4 + 0) 1 matrix in
      let matrix := set_int (3 * 4 + 1) 1 matrix in
      matrix
  | _ => matrix
  end.

End Matrix.

(** The matrix of each orientation, as integers, column after column. *)
Definition orientation_table (o : video_orientation_t) : list Z :=
  match o with
  | ORIENT_NORMAL =>
      [ 1; 0; 0; 0;   0; 1; 0; 0;   0; 0; 1; 0;   0; 0; 0; 1 ]
  | ORIENT_ROTATED_90 =>
      [ 0; -1; 0; 0;   1; 0; 0; 0;   0; 0; 1; 0;   0; 1; 0; 1 ]
  | ORIENT_ROTATED_180 =>
      [ -1; 0; 0; 0;   0; -1; 0; 0;   0; 0; 1; 0;   1; 1; 0; 1 ]
  | ORIENT_ROTATED_270 =>
      [ 0; 1; 0; 0;   -1; 0; 0; 0;   0; 0; 1; 0;   1; 0; 0; 1 ]
  | ORIENT_HFLIPPED =>
      [ -1; 0; 0; 0;   0; 1; 0; 0;   0; 0; 1; 0;   1; 0; 0; 1 ]
  | ORIENT_VFLIPPED =>
      [ 1; 0; 0; 0;   0; -1; 0; 0;   0; 0; 1; 0;   0; 1; 0; 1 ]
  | ORIENT_TRANSPOSED =>
      [ 0; 1; 0; 0;   1; 0; 0; 0;   0; 0; -1; 0;   0; 0; 0; 1 ]
  | ORIENT_ANTI_TRANSPOSED =>
      [ 0; -1; 0; 0;   -1; 0; 0; 0;   0; 0; -1; 0;   1; 1; 0; 1 ]
  end.

(** The rotation, in quarter turns, of the three rotated orientations. *)
Definition quarter_turns (o : video_orientation_t) : option Z :=
  match o with
  | ORIENT_ROTATED_90 => Some 1
  | ORIENT_ROTATED_180 => Some 2
  | ORIENT_ROTATED_270 => Some (-1)
  | _ => None
  end.

(** ** The renderer state *)

(** A texture plane of the interop: its subsampling ratios (vlc_rational_t,
    [unsigned] numerator and denominator). *)
Record vlc_gl_tex_cfg := {
  w_num : Z;
  w_den : Z;
  h_num : Z;
  h_den : Z
}.

(** What the renderer reads of its interop (interop.h).  [transform_matrix]
    is what [ops->get_transform_matrix] answers, [None] for NULL or for an
    interop without the operation. *)
Record vlc_gl_interop {F : Type} := {
  tex_count : nat;
  tex_target : Z;
  texs : list vlc_gl_tex_cfg;
  transform_matrix : option (list F)
}.
Arguments vlc_gl_interop : clear implicits.

(** [renderer->var] *)
Record renderer_var {F : Type} := {
  OrientationMatrix : list F;
  ProjectionMatrix : list F;
  ZoomMatrix : list F;
  ViewMatrix : list F
}.
Arguments renderer_var : clear implicits.

(** [renderer->last_source] *)
Record last_source_t := {
  last_x_offset : Z;
  last_y_offset : Z;
  last_visible_width : Z;
  last_visible_height : Z
}.

(** [renderer->uloc] and [renderer->aloc] *)
Record renderer_loc := {
  uloc_TransformMatrix : Z;
  uloc_OrientationMatrix : Z;
  uloc_ProjectionMatrix : Z;
  uloc_ViewMatrix : Z;
  uloc_ZoomMatrix : Z;
  aloc_MultiTexCoord : list Z;
  aloc_VertexPosition : Z
}.

(** struct vlc_gl_renderer (renderer.h) *)
Record vlc_gl_renderer {F : Type} := {
  interop : vlc_gl_interop F;
  program_id : Z;
  fmt : video_format_t;
  last_source : last_source_t;
  loc : renderer_loc;
  var : renderer_var F;
  textures : list Z;
  tex_width : list Z;
  tex_height : list Z;
  nb_indices : Z;
  vertex_buffer_object : Z;
  index_buffer_object : Z;
  texture_buffer_object : list Z;
  vp : vlc_viewpoint_t F;
  f_fovx : F;
  f_fovy : F;
  f_z : F;
  f_sar : F
}.
Arguments vlc_gl_renderer : clear implicits.

Section RendererFields.
Context {F : Type}.

(** Assignments to one field of the renderer. *)
Definition set_var (v : renderer_var F) (r : vlc_gl_renderer F) :=
  {| interop := interop r; program_id := program_id r; fmt := fmt r;
     last_source := last_source r; loc := loc r; var := v;
     textures := textures r; tex_width := tex_width r;
     tex_height := tex_height r; nb_indices := nb_indices r;
     vertex_buffer_object := vertex_buffer_object r;
     index_buffer_object := index_buffer_object r;
     texture_buffer_object := texture_buffer_object r;
     vp := vp r; f_fovx := f_fovx r; f_fovy := f_fovy r; f_z := f_z r;
     f_sar := f_sar r |}.

Definition set_last_source (s : last_source_t) (r : vlc_gl_renderer F) :=
  {| interop := interop r; program_id := program_id r; fmt := fmt r;
     last_source := s; loc := loc r; var := var r;
     textures := textures r; tex_width := tex_width r;
     tex_height := tex_height r; nb_indices := nb_indices r;
     vertex_buffer_object := vertex_buffer_object r;
     index_buffer_object := index_buffer_object r;
     texture_buffer_object := texture_buffer_object r;
     vp := vp r; f_fovx := f_fovx r; f_fovy := f_fovy r; f_z := f_z r;
     f_sar := f_sar r |}.

Definition set_nb_indices (n : Z) (r : vlc_gl_renderer F) :=
  {| interop := interop r; program_id := program_id r; fmt := fmt r;
     last_source := last_source r; loc := loc r; var := var r;
     textures := textures r; tex_width := tex_width r;
     tex_height := tex_height r; nb_indices := n;
     vertex_buffer_object := vertex_buffer_object r;
     index_buffer_object := index_buffer_object r;
     texture_buffer_object := texture_buffer_object r;
     vp := vp r; f_fovx := f_fovx r; f_fovy := f_fovy r; f_z := f_z r;
     f_sar := f_sar r |}.

Definition set_vp (v : vlc_viewpoint_t F) (r : vlc_gl_renderer F) :=
  {| interop := interop r; program_id := program_id r; fmt := fmt r;
     last_source := last_source r; loc := loc r; var := var r;
     textures := textures r; tex_width := tex_width r;
     tex_height := tex_height r; nb_indices := nb_indices r;
     vertex_buffer_object := vertex_buffer_object r;
     index_buffer_object := index_buffer_object r;
     texture_buffer_object := texture_buffer_object r;
     vp := v; f_fovx := f_fovx r; f_fovy := f_fovy r; f_z := f_z r;
     f_sar := f_sar r |}.

Definition set_f_fovx (x : F) (r : vlc_gl_renderer F) :=
  {| interop := interop r; program_id := program_id r; fmt := fmt r;
     last_source := last_source r; loc := loc r; var := var r;
     textures := textures r; tex_width := tex_width r;
     tex_height := tex_height r; nb_indices := nb_indices r;
     vertex_buffer_object := vertex_buffer_object r;
     index_buffer_object := index_buffer_object r;
     texture_buffer_object := texture_buffer_object r;
     vp := vp r; f_fovx := x; f_fovy := f_fovy r; f_z := f_z r;
     f_sar := f_sar r |}.

Definition set_f_fovy (x : F) (r : vlc_gl_renderer F) :=
  {| interop := interop r; program_id := program_id r; fmt := fmt r;
     last_source := last_source r; loc := loc r; var := var r;
     textures := textures r; tex_width := tex_width r;
     tex_height := tex_height r; nb_indices := nb_indices r;
     vertex_buffer_object := vertex_buffer_object r;
     index_buffer_object := index_buffer_object r;
     texture_buffer_object := texture_buffer_object r;
     vp := vp r; f_fovx := f_fovx r; f_fovy := x; f_z := f_z r;
     f_sar := f_sar r |}.

Definition set_f_z (x : F) (r : vlc_gl_renderer F) :=
  {| interop := interop r; program_id := program_id r; fmt := fmt r;
     last_source := last_source r; loc := loc r; var := var r;
     textures := textures r; tex_width := tex_width r;
     tex_height := tex_height r; nb_indices := nb_indices r;
     vertex_buffer_object := vertex_buffer_object r;
     index_buffer_object := index_buffer_object r;
     texture_buffer_object := texture_buffer_object r;
     vp := vp r; f_fovx := f_fovx r; f_fovy := f_fovy r; f_z := x;
     f_sar := f_sar r |}.

Definition set_f_sar (x : F) (r : vlc_gl_renderer F) :=
  {| interop := interop r; program_id := program_id r; fmt := fmt r;
     last_source := last_source r; loc := loc r; var := var r;
     textures := textures r; tex_width := tex_width r;
     tex_height := tex_height r; nb_indices := nb_indices r;
     vertex_buffer_object := vertex_buffer_object r;
     index_buffer_object := index_buffer_object r;
     texture_buffer_object := texture_buffer_object r;
     vp := vp r; f_fovx := f_fovx r; f_fovy := f_fovy r; f_z := f_z r;
     f_sar := x |}.

End RendererFields.

(** ** Viewpoint and zoom *)

Section Viewpoint.
Context {F : Type} `{FloatOps F}.
Local Open Scope cfloat_scope.

(** Of vlc_viewpoint.h, which renderer.c includes: the inline functions
    [vlc_viewpoint_reverse] and [vlc_viewpoint_to_4x4], and the bounds of
    the field of view, in degrees. *)
Variable vlc_viewpoint_reverse : vlc_viewpoint_t F -> vlc_viewpoint_t F.
Variable vlc_viewpoint_to_4x4 : vlc_viewpoint_t F -> list F.
Variable FIELD_OF_VIEW_DEGREES_MAX : F.
Variable FIELD_OF_VIEW_DEGREES_MIN : F.

(** [#define SPHERE_RADIUS 1.f] *)
Definition SPHERE_RADIUS : F := f1.

Definition getViewpointMatrixes (projection_mode : video_projection_mode_t)
    (renderer : vlc_gl_renderer F) : vlc_gl_renderer F :=
  match projection_mode with
  | PROJECTION_MODE_EQUIRECTANGULAR
  | PROJECTION_MODE_CUBEMAP_LAYOUT_STANDARD =>
      set_var
        {| OrientationMatrix := OrientationMatrix (var renderer);
           ProjectionMatrix :=
             getProjectionMatrix (f_sar renderer) (f_fovy renderer);
           ZoomMatrix := getZoomMatrix (f_z renderer);
           (* renderer->vp has been reversed and is a world transform *)
           ViewMatrix := vlc_viewpoint_to_4x4 (vp renderer) |}
        renderer
  | _ =>
      set_var
        {| OrientationMatrix := OrientationMatrix (var renderer);
           ProjectionMatrix := identity;
           ZoomMatrix := identity;
           ViewMatrix := identity |}
        renderer
  end.

(** The minimal z value that lets the camera zoom out without seeing the
    outside of the sphere. *)
Definition z_min_of (fovx fovy : F) : F :=
  let tan_fovx_2 := tanf (fovx /! float_of_int 2) in
  let tan_fovy_2 := tanf (fovy /! float_of_int 2) in
  fneg SPHERE_RADIUS /!
    sinf (atanf (sqrtf (tan_fovx_2 *! tan_fovx_2 +! tan_fovy_2 *! tan_fovy_2))).

(** [z_thresh * M_PI / 180], computed in double. *)
Definition z_thresh : F := float_of_int 90.
Definition z_thresh_rad : F := z_thresh *!! M_PI /!! double_of_int 180.

Definition UpdateZ (renderer : vlc_gl_renderer F) : vlc_gl_renderer F :=
  let z_min := z_min_of (f_fovx renderer) (f_fovy renderer) in
  if fle (f_fovx renderer) z_thresh_rad then
    set_f_z (float_of_int 0) renderer
  else
    let f := float_of_double
      (z_min /!! ((FIELD_OF_VIEW_DEGREES_MAX -! z_thresh) *!! M_PI
                    /!! double_of_int 180)) in
    let renderer := set_f_z
      (float_of_double
         (f *! f_fovx renderer -!! f *! z_thresh *!! M_PI /!! double_of_int 180))
      renderer in
    if flt (f_z renderer) z_min then set_f_z z_min renderer else renderer.

Definition UpdateFOVy (renderer : vlc_gl_renderer F) : vlc_gl_renderer F :=
  set_f_fovy
    (float_of_int 2 *!
       atanf (tanf (f_fovx renderer /! float_of_int 2) /! f_sar renderer))
    renderer.

Definition vlc_gl_renderer_SetViewpoint (renderer : vlc_gl_renderer F)
    (p_vp : vlc_viewpoint_t F) : Z * vlc_gl_renderer F :=
  if flt FIELD_OF_VIEW_DEGREES_MAX (fov p_vp)
     || flt (fov p_vp) FIELD_OF_VIEW_DEGREES_MIN
  then (VLC_EBADVAR, renderer)
  else
    (* Convert degree into radian *)
    let f_fovx' := fov p_vp *! M_PI_f /! float_of_int 180 in
    (* vgl->vp needs to be converted into world transform *)
    let renderer := set_vp (vlc_viewpoint_reverse p_vp) renderer in
    let renderer :=
      if fle (float_lit 1 1000) (fabsf (f_fovx' -! f_fovx renderer)) then
        (* FOVx has changed. *)
        UpdateZ (UpdateFOVy (set_f_fovx f_fovx' renderer))
      else renderer in
    (VLC_SUCCESS,
     getViewpointMatrixes (projection_mode (fmt renderer)) renderer).

Definition vlc_gl_renderer_SetWindowAspectRatio (renderer : vlc_gl_renderer F)
    (f_sar' : F) : vlc_gl_renderer F :=
  let renderer := set_f_sar f_sar' renderer in
  let renderer := UpdateZ (UpdateFOVy renderer) in
  getViewpointMatrixes (projection_mode (fmt renderer)) renderer.

End Viewpoint.

(** ** Memory *)

(** The heap as the mesh builders see it: the blocks that are live, the
    next fresh block, and the outcomes of the coming calls of [malloc]
    ([false]: the call returns NULL; when the list is used up, every call
    succeeds). *)
Record heap := {
  heap_live : list Z;
  heap_next : Z;
  heap_outcomes : list bool
}.

Definition malloc (h : heap) : option Z * heap :=
  match heap_outcomes h with
  | false :: s =>
      (None,
       {| heap_live := heap_live h; heap_next := heap_next h;
          heap_outcomes := s |})
  | _ =>
      (Some (heap_next h),
       {| heap_live := heap_next h :: heap_live h;
          heap_next := heap_next h + 1;
          heap_outcomes := tail (heap_outcomes h) |})
  end.

Definition free (p : Z) (h : heap) : heap :=
  {| heap_live := List.filter (fun q => negb (q =? p)) (heap_live h);
     heap_next := heap_next h;
     heap_outcomes := heap_outcomes h |}.

(** [vlc_alloc] of vlc_common.h: NULL when count * size overflows size_t,
    [malloc (count * size)] otherwise. *)
Definition SIZE_MAX : Z := 2 ^ 64 - 1.
Definition vlc_alloc (count size : Z) (h : heap) : option Z * heap :=
  if SIZE_MAX <? count * size then (None, h) else malloc h.

Definition sizeof_GLfloat : Z := 4.
Definition sizeof_GLushort : Z := 2.

(** [for (unsigned i = 0; i < n; i++) body] *)
Definition for_loop {S : Type} (n : nat) (body : nat -> S -> S) (s : S) : S :=
  fold_left (fun s i => body i s) (seq 0 n) s.

(** [memcpy (dst, src, n * sizeof *src)] on arrays. *)
Definition memcpy {A : Type} (dst src : list A) (n : nat) : list A :=
  take n src ++ drop n dst.

(** ** The mesh builders *)

(** What a builder hands to its caller: the three arrays, with the heap
    blocks they live in, and the two counts. *)
Record mesh {F : Type} := {
  vertexCoord_ptr : Z;
  vertexCoord : list F;
  textureCoord_ptr : Z;
  textureCoord : list F;
  nbVertices : Z;
  indices_ptr : Z;
  indices : list Z;
  nbIndices : Z
}.
Arguments mesh : clear implicits.

Section MeshBuilder.
Context {F : Type} `{FloatOps F}.
Local Open Scope cfloat_scope.

(** What memory holds before it is written: the contents of a block that
    [malloc] returns, and of a local array. *)
Variable indeterminate_float : nat -> F.
Variable indeterminate_ushort : nat -> Z.

Definition uninit_floats (n : Z) : list F :=
  map indeterminate_float (seq 0 (Z.to_nat n)).
Definition uninit_ushorts (n : Z) : list Z :=
  map (fun i => wrap_ushort (indeterminate_ushort i)) (seq 0 (Z.to_nat n)).

(** Arrays are lists.  [a[i]] for a float array: a read past the end, which
    C leaves undefined, answers an indeterminate value, and a write past
    the end ([<[i := v]> a]) leaves the list as it is. *)
Definition at_ (a : list F) (i : nat) : F := nth i a (indeterminate_float i).

(** The three allocations that open every builder, with the exits on
    failure. *)
Definition alloc_mesh (nbPlanes : nat) (nbVertices nbIndices : Z) (h : heap)
  : Z * option (mesh F) * heap :=
  match vlc_alloc (wrap_unsigned (nbVertices * 3)) sizeof_GLfloat h with
  | (None, h) => (VLC_ENOMEM, None, h)
  | (Some vertexCoord, h) =>
    match vlc_alloc (wrap_unsigned (Z.of_nat nbPlanes * nbVertices * 2))
            sizeof_GLfloat h with
    | (None, h) =>
        let h := free vertexCoord h in
        (VLC_ENOMEM, None, h)
    | (Some textureCoord, h) =>
      match vlc_alloc nbIndices sizeof_GLushort h with
      | (None, h) =>
          let h := free textureCoord h in
          let h := free vertexCoord h in
          (VLC_ENOMEM, None, h)
      | (Some indices, h) =>
          (VLC_SUCCESS,
           Some {| vertexCoord_ptr := vertexCoord;
                   vertexCoord := uninit_floats (wrap_unsigned (nbVertices * 3));
                   textureCoord_ptr := textureCoord;
                   textureCoord :=
                     uninit_floats
                       (wrap_unsigned (Z.of_nat nbPlanes * nbVertices * 2));
                   nbVertices := nbVertices;
                   indices_ptr := indices;
                   indices := uninit_ushorts nbIndices;
                   nbIndices := nbIndices |},
           h)
      end
    end
  end.

(** Replaces the three arrays of a mesh. *)
Definition fill_mesh (m : mesh F) (vc tc : list F) (ix : list Z) : mesh F :=
  {| vertexCoord_ptr := vertexCoord_ptr m; vertexCoord := vc;
     textureCoord_ptr := textureCoord_ptr m; textureCoord := tc;
     nbVertices := nbVertices m;
     indices_ptr := indices_ptr m; indices := ix;
     nbIndices := nbIndices m |}.

(** *** The sphere *)

(** The first pair of loops of BuildSphere: positions and texture
    coordinates. *)
Definition sphere_coords (nbPlanes nbLatBands nbLonBands : nat)
    (left top right bottom : list F) (vertexCoord textureCoord : list F)
  : list F * list F :=
  for_loop (nbLatBands + 1) (fun lat '(vertexCoord, textureCoord) =>
    let theta :=
      float_of_int (Z.of_nat lat) *! M_PI_f /! float_of_int (Z.of_nat nbLatBands) in
    let '(sinTheta, cosTheta) := sincosf theta in
    for_loop (nbLonBands + 1) (fun lon '(vertexCoord, textureCoord) =>
      let phi :=
        float_of_int (wrap_unsigned (Z.of_nat lon * 2)) *! M_PI_f
          /! float_of_int (Z.of_nat nbLonBands) in
      let '(sinPhi, cosPhi) := sincosf phi in
      let x := cosPhi *! sinTheta in
      let y := cosTheta in
      let z := sinPhi *! sinTheta in
      let off1 := ((lat * (nbLonBands + 1) + lon) * 3)%nat in
      let vertexCoord := <[off1 := SPHERE_RADIUS *! x]> vertexCoord in
      let vertexCoord := <[(off1 + 1)%nat := SPHERE_RADIUS *! y]> vertexCoord in
      let vertexCoord := <[(off1 + 2)%nat := SPHERE_RADIUS *! z]> vertexCoord in
      let textureCoord :=
        for_loop nbPlanes (fun p textureCoord =>
          let off2 :=
            ((p * (nbLatBands + 1) * (nbLonBands + 1)
              + lat * (nbLonBands + 1) + lon) * 2)%nat in
          let width := at_ right p -! at_ left p in
          let height := at_ bottom p -! at_ top p in
          let u :=
            float_of_int (Z.of_nat lon) /! float_of_int (Z.of_nat nbLonBands)
              *! width in
          let v :=
            float_of_int (Z.of_nat lat) /! float_of_int (Z.of_nat nbLatBands)
              *! height in
          let textureCoord := <[off2 := u]> textureCoord in
          let textureCoord := <[(off2 + 1)%nat := v]> textureCoord in
          textureCoord) textureCoord in
      (vertexCoord, textureCoord)) (vertexCoord, textureCoord))
  (vertexCoord, textureCoord).

(** The second pair of loops: the two triangles of each cell.  The values
    are [unsigned] and are stored as GLushort. *)
Definition sphere_indices (nbLatBands nbLonBands : nat) (indices : list Z)
  : list Z :=
  for_loop nbLatBands (fun lat indices =>
    for_loop nbLonBands (fun lon indices =>
      let first := Z.of_nat (lat * (nbLonBands + 1) + lon) in
      let second := first + Z.of_nat nbLonBands + 1 in
      let off := ((lat * nbLatBands + lon) * 3 * 2)%nat in
      let indices := <[off := wrap_ushort first]> indices in
      let indices := <[(off + 1)%nat := wrap_ushort second]> indices in
      let indices := <[(off + 2)%nat := wrap_ushort (first + 1)]> indices in
      let indices := <[(off + 3)%nat := wrap_ushort second]> indices in
      let indices := <[(off + 4)%nat := wrap_ushort (second + 1)]> indices in
      let indices := <[(off + 5)%nat := wrap_ushort (first + 1)]> indices in
      indices) indices) indices.

(** BuildSphere with its two band counts as arguments. *)
Definition BuildSphere_bands (nbLatBands nbLonBands : nat) (nbPlanes : nat)
    (left top right bottom : list F) (h : heap)
  : Z * option (mesh F) * heap :=
  let nbVertices := wrap_unsigned (Z.of_nat ((nbLatBands + 1) * (nbLonBands + 1))) in
  let nbIndices := wrap_unsigned (Z.of_nat (nbLatBands * nbLonBands * 3 * 2)) in
  match alloc_mesh nbPlanes nbVertices nbIndices h with
  | (_, Some m, h) =>
      let '(vc, tc) :=
        sphere_coords nbPlanes nbLatBands nbLonBands left top right bottom
          (vertexCoord m) (textureCoord m) in
      let ix := sphere_indices nbLatBands nbLonBands (indices m) in
      (VLC_SUCCESS, Some (fill_mesh m vc tc ix), h)
  | failure => failure
  end.

Definition BuildSphere : nat -> list F -> list F -> list F -> list F -> heap
  -> Z * option (mesh F) * heap :=
  let nbLatBands := 128%nat in
  let nbLonBands := 128%nat in
  BuildSphere_bands nbLatBands nbLonBands.

(** *** The cube *)

Definition cube_coord : list F :=
  let p := float_of_int 1 in
  let n := float_of_int (-1) in
  [ n; p; n;   n; n; n;   p; p; n;   p; n; n;    (* front *)
    n; p; p;   n; n; p;   p; p; p;   p; n; p;    (* back *)
    n; p; n;   n; n; n;   n; p; p;   n; n; p;    (* left *)
    p; p; n;   p; n; n;   p; p; p;   p; n; p;    (* right *)
    n; n; p;   n; n; n;   p; n; p;   p; n; n;    (* bottom *)
    n; p; p;   n; p; n;   p; p; p;   p; p; n ].  (* top *)

Definition cube_tex (padW padH left top right bottom : F) : list F :=
  let width := right -! left in
  let height := bottom -! top in
  let col0 := left in
  let col1 := left +! width *! float_of_int 1 /! float_of_int 3 in
  let col2 := left +! width *! float_of_int 2 /! float_of_int 3 in
  let col3 := left +! width in
  let row0 := top in
  let row1 := top +! height *! float_of_int 1 /! float_of_int 2 in
  let row2 := top +! height in
  [ col1 +! padW; row1 +! padH;    (* front *)
    col1 +! padW; row2 -! padH;
    col2 -! padW; row1 +! padH;
    col2 -! padW; row2 -! padH;

    col3 -! padW; row1 +! padH;    (* back *)
    col3 -! padW; row2 -! padH;
    col2 +! padW; row1 +! padH;
    col2 +! padW; row2 -! padH;

    col2 -! padW; row0 +! padH;    (* left *)
    col2 -! padW; row1 -! padH;
    col1 +! padW; row0 +! padH;
    col1 +! padW; row1 -! padH;

    col0 +! padW; row0 +! padH;    (* right *)
    col0 +! padW; row1 -! padH;
    col1 -! padW; row0 +! padH;
    col1 -! padW; row1 -! padH;

    col0 +! padW; row2 -! padH;    (* bottom *)
    col0 +! padW; row1 +! padH;
    col1 -! padW; row2 -! padH;
    col1 -! padW; row1 +! padH;

    col2 +! padW; row0 +! padH;    (* top *)
    col2 +! padW; row1 -! padH;
    col3 -! padW; row0 +! padH;
    col3 -! padW; row1 -! padH ].

Definition cube_ind : list Z := [
  0; 1; 2;       2; 1; 3;      (* front *)
  6; 7; 4;       4; 7; 5;      (* back *)
  10; 11; 8;     8; 11; 9;     (* left *)
  12; 13; 14;    14; 13; 15;   (* right *)
  18; 19; 16;    16; 19; 17;   (* bottom *)
  20; 21; 22;    22; 21; 23    (* top *)
].

(** The copy of [tex] into the part of textureCoord of each plane, which
    starts at p * nbVertices * 2. *)
Definition copy_planes (nbPlanes : nat) (nbVertices : Z)
    (tex : nat -> list F) (textureCoord : list F) : list F :=
  for_loop nbPlanes (fun p textureCoord =>
    let off := (p * Z.to_nat nbVertices * 2)%nat in
    take off textureCoord
      ++ memcpy (drop off textureCoord) (tex p) (Z.to_nat nbVertices * 2))
    textureCoord.

Definition BuildCube (nbPlanes : nat) (padW padH : F)
    (left top right bottom : list F) (h : heap)
  : Z * option (mesh F) * heap :=
  let nbVertices := 4 * 6 in
  let nbIndices := 6 * 6 in
  match alloc_mesh nbPlanes nbVertices nbIndices h with
  | (_, Some m, h) =>
      let vc := memcpy (vertexCoord m) cube_coord (Z.to_nat nbVertices * 3) in
      let tc :=
        copy_planes nbPlanes nbVertices
          (fun p => cube_tex padW padH (at_ left p) (at_ top p)
                      (at_ right p) (at_ bottom p))
          (textureCoord m) in
      let ix := memcpy (indices m) cube_ind (Z.to_nat nbIndices) in
      (VLC_SUCCESS, Some (fill_mesh m vc tc ix), h)
  | failure => failure
  end.

(** *** The rectangle *)

Definition rectangle_coord : list F :=
  let p := float_of_int 1 in
  let n := float_of_int (-1) in
  [ n; p; n;
    n; n; n;
    p; p; n;
    p; n; n ].

Definition rectangle_tex (left top right bottom : F) : list F :=
  [ left; top;
    left; bottom;
    right; top;
    right; bottom ].

Definition rectangle_ind : list Z := [
  0; 1; 2;
  2; 1; 3
].

Definition BuildRectangle (nbPlanes : nat)
    (left top right bottom : list F) (h : heap)
  : Z * option (mesh F) * heap :=
  let nbVertices := 4 in
  let nbIndices := 6 in
  match alloc_mesh nbPlanes nbVertices nbIndices h with
  | (_, Some m, h) =>
      let vc := memcpy (vertexCoord m) rectangle_coord (Z.to_nat nbVertices * 3) in
      let tc :=
        copy_planes nbPlanes nbVertices
          (fun p => rectangle_tex (at_ left p) (at_ top p)
                      (at_ right p) (at_ bottom p))
          (textureCoord m) in
      let ix := memcpy (indices m) rectangle_ind (Z.to_nat nbIndices) in
      (VLC_SUCCESS, Some (fill_mesh m vc tc ix), h)
  | failure => failure
  end.

End MeshBuilder.

(** ** The OpenGL context *)

Inductive gl_buffer_target := GL_ARRAY_BUFFER | GL_ELEMENT_ARRAY_BUFFER.

(** The contents of a buffer object. *)
Inductive gl_buffer_data {F : Type} :=
| GLfloat_data (l : list F)
| GLushort_data (l : list Z).
Arguments gl_buffer_data : clear implicits.

(** The calls that the renderer makes through its vtable, and its call of
    the shader's [pf_prepare_shader]. *)
Inductive gl_call {F : Type} :=
| glClear
| glUseProgram (program : Z)
| glBindBuffer (target : gl_buffer_target) (buffer : Z)
| glBufferData (target : gl_buffer_target) (size : Z) (data : gl_buffer_data F)
| glActiveTexture (unit : Z)
| glBindTexture (target texture : Z)
| glEnableVertexAttribArray (index : Z)
| glVertexAttribPointer (index size : Z)
| glUniformMatrix4fv (location : Z) (value : list F)
| glDrawElements (count : Z)
| prepare_shader (tex_width tex_height : list Z) (alpha : F).
Arguments gl_call : clear implicits.

(** The context: the calls made so far, the two buffer bindings, and the
    contents of the buffer objects, by name. *)
Record gl_state {F : Type} := {
  gl_calls : list (gl_call F);
  array_buffer_binding : Z;
  element_array_buffer_binding : Z;
  gl_buffers : list (Z * gl_buffer_data F)
}.
Arguments gl_state : clear implicits.

Section GL.
Context {F : Type}.

(** The contents of a buffer object: those of its last glBufferData. *)
Fixpoint buffer_contents (buffers : list (Z * gl_buffer_data F)) (name : Z)
  : option (gl_buffer_data F) :=
  match buffers with
  | [] => None
  | (n, d) :: rest => if n =? name then Some d else buffer_contents rest name
  end.

Definition bound_buffer (target : gl_buffer_target) (gl : gl_state F) : Z :=
  match target with
  | GL_ARRAY_BUFFER => array_buffer_binding gl
  | GL_ELEMENT_ARRAY_BUFFER => element_array_buffer_binding gl
  end.

(** The effect of a call on the context. *)
Definition gl_do (c : gl_call F) (gl : gl_state F) : gl_state F :=
  {| gl_calls := gl_calls gl ++ [c];
     array_buffer_binding :=
       match c with
       | glBindBuffer GL_ARRAY_BUFFER b => b
       | _ => array_buffer_binding gl
       end;
     element_array_buffer_binding :=
       match c with
       | glBindBuffer GL_ELEMENT_ARRAY_BUFFER b => b
       | _ => element_array_buffer_binding gl
       end;
     gl_buffers :=
       match c with
       | glBufferData target _ data =>
           (bound_buffer target gl, data) :: gl_buffers gl
       | _ => gl_buffers gl
       end |}.

Definition is_BufferData (c : gl_call F) : bool :=
  match c with
  | glBufferData _ _ _ => true
  | _ => false
  end.

(** The number of buffer uploads among the calls. *)
Definition uploads (gl : gl_state F) : nat :=
  length (List.filter is_BufferData (gl_calls gl)).

(** The number of uploads of an index buffer, one for each mesh that has
    been handed to the context. *)
Definition is_index_upload (c : gl_call F) : bool :=
  match c with
  | glBufferData GL_ELEMENT_ARRAY_BUFFER _ _ => true
  | _ => false
  end.
Definition mesh_uploads (gl : gl_state F) : nat :=
  length (List.filter is_index_upload (gl_calls gl)).

End GL.

(** ** Geometry and drawing *)

(** A function returns, or the process stops in it: on a failed assertion,
    or on a call through a null pointer. *)
Inductive outcome (A : Type) :=
| Returns (a : A)
| Stops.
Arguments Returns {A} a.
Arguments Stops {A}.

(** The arrays left, top, right and bottom of Draw: the sampling rectangle
    of each texture plane. *)
Record rects {F : Type} := {
  rect_left : list F;
  rect_top : list F;
  rect_right : list F;
  rect_bottom : list F
}.
Arguments rects : clear implicits.

Definition GL_TEXTURE0 : Z := 33984.
Definition PICTURE_PLANE_MAX : Z := 5.

Section Draw.
Context {F : Type} `{FloatOps F}.
Local Open Scope cfloat_scope.

Variable indeterminate_float : nat -> F.
Variable indeterminate_ushort : nat -> Z.

Abbreviation at_ := (at_ indeterminate_float).

Definition SetupCoords (renderer : vlc_gl_renderer F)
    (left top right bottom : list F) (gl : gl_state F) (h : heap)
  : Z * vlc_gl_renderer F * gl_state F * heap :=
  let interop := interop renderer in
  let '(i_ret, built, h) :=
    match projection_mode (fmt renderer) with
    | PROJECTION_MODE_RECTANGULAR =>
        BuildRectangle indeterminate_float indeterminate_ushort
          (tex_count interop) left top right bottom h
    | PROJECTION_MODE_EQUIRECTANGULAR =>
        BuildSphere indeterminate_float indeterminate_ushort
          (tex_count interop) left top right bottom h
    | PROJECTION_MODE_CUBEMAP_LAYOUT_STANDARD =>
        BuildCube indeterminate_float indeterminate_ushort
          (tex_count interop)
          (float_of_int (i_cubemap_padding (fmt renderer))
             /! float_of_int (i_width (fmt renderer)))
          (float_of_int (i_cubemap_padding (fmt renderer))
             /! float_of_int (i_height (fmt renderer)))
          left top right bottom h
    | PROJECTION_MODE_other _ => (VLC_EGENERIC, None, h)
    end in
  match built with
  | None => (i_ret, renderer, gl, h)
  | Some m =>
      let gl :=
        for_loop (tex_count interop) (fun j gl =>
          let gl :=
            gl_do (glBindBuffer GL_ARRAY_BUFFER
                     (nth j (texture_buffer_object renderer) 0)) gl in
          gl_do (glBufferData GL_ARRAY_BUFFER
                   (nbVertices m * 2 * sizeof_GLfloat)
                   (GLfloat_data
                      (take (Z.to_nat (nbVertices m) * 2)
                         (drop (j * Z.to_nat (nbVertices m) * 2)
                            (textureCoord m))))) gl) gl in
      let gl :=
        gl_do (glBindBuffer GL_ARRAY_BUFFER (vertex_buffer_object renderer)) gl in
      let gl :=
        gl_do (glBufferData GL_ARRAY_BUFFER
                 (nbVertices m * 3 * sizeof_GLfloat)
                 (GLfloat_data (vertexCoord m))) gl in
      let gl :=
        gl_do (glBindBuffer GL_ELEMENT_ARRAY_BUFFER
                 (index_buffer_object renderer)) gl in
      let gl :=
        gl_do (glBufferData GL_ELEMENT_ARRAY_BUFFER
                 (nbIndices m * sizeof_GLushort)
                 (GLushort_data (indices m))) gl in
      let h := free (textureCoord_ptr m) h in
      let h := free (vertexCoord_ptr m) h in
      let h := free (indices_ptr m) h in
      (VLC_SUCCESS, set_nb_indices (nbIndices m) renderer, gl, h)
  end.

(** [NDEBUG]: whether the assertions are compiled out.  An iteration of
    the loop over the planes starts from the context that the iterations
    before it have left, when none of them has stopped the process. *)
Definition DrawWithShaders (NDEBUG : bool) (renderer : vlc_gl_renderer F)
    (gl : gl_state F) : outcome (gl_state F) :=
  let interop := interop renderer in
  let gl :=
    gl_do (prepare_shader (tex_width renderer) (tex_height renderer)
             (float_of_int 1)) gl in
  let planes :=
    for_loop (tex_count interop) (fun j planes =>
      match planes with
      | Stops => Stops
      | Returns gl =>
          (* assert(renderer->textures[j] != 0) *)
          if NDEBUG || negb (nth j (textures renderer) 0 =? 0) then
            let gl := gl_do (glActiveTexture (GL_TEXTURE0 + Z.of_nat j)) gl in
            let gl :=
              gl_do (glBindTexture (tex_target interop)
                       (nth j (textures renderer) 0)) gl in
            let gl :=
              gl_do (glBindBuffer GL_ARRAY_BUFFER
                       (nth j (texture_buffer_object renderer) 0)) gl in
            (* assert(renderer->aloc.MultiTexCoord[j] != -1) *)
            if NDEBUG
               || negb (nth j (aloc_MultiTexCoord (loc renderer)) 0 =? -1)
            then
              let gl :=
                gl_do (glEnableVertexAttribArray
                         (nth j (aloc_MultiTexCoord (loc renderer)) 0)) gl in
              Returns
                (gl_do (glVertexAttribPointer
                          (nth j (aloc_MultiTexCoord (loc renderer)) 0) 2) gl)
            else Stops
          else Stops
      end) (Returns gl) in
  match planes with
  | Stops => Stops
  | Returns gl =>
      let gl :=
        gl_do (glBindBuffer GL_ARRAY_BUFFER (vertex_buffer_object renderer))
          gl in
      let gl :=
        gl_do (glBindBuffer GL_ELEMENT_ARRAY_BUFFER
                 (index_buffer_object renderer)) gl in
      let gl :=
        gl_do (glEnableVertexAttribArray (aloc_VertexPosition (loc renderer)))
          gl in
      let gl :=
        gl_do (glVertexAttribPointer (aloc_VertexPosition (loc renderer)) 3)
          gl in
      let tm :=
        match transform_matrix interop with
        | Some tm => tm
        | None => identity
        end in
      let gl :=
        gl_do (glUniformMatrix4fv (uloc_TransformMatrix (loc renderer)) tm)
          gl in
      let gl :=
        gl_do (glUniformMatrix4fv (uloc_OrientationMatrix (loc renderer))
                 (OrientationMatrix (var renderer))) gl in
      let gl :=
        gl_do (glUniformMatrix4fv (uloc_ProjectionMatrix (loc renderer))
                 (ProjectionMatrix (var renderer))) gl in
      let gl :=
        gl_do (glUniformMatrix4fv (uloc_ViewMatrix (loc renderer))
                 (ViewMatrix (var renderer))) gl in
      let gl :=
        gl_do (glUniformMatrix4fv (uloc_ZoomMatrix (loc renderer))
                 (ZoomMatrix (var renderer))) gl in
      Returns (gl_do (glDrawElements (nb_indices renderer)) gl)
  end.

Definition GetTextureCropParamsForStereo (i_nbTextures : nat)
    (stereoCoefs stereoOffsets : list F) (r : rects F) : rects F :=
  for_loop i_nbTextures (fun i r =>
    let left := rect_left r in
    let top := rect_top r in
    let right := rect_right r in
    let bottom := rect_bottom r in
    let f_2eyesWidth := at_ right i -! at_ left i in
    let left := <[i := at_ left i +! f_2eyesWidth *! at_ stereoOffsets 0]> left in
    let right := <[i := at_ left i +! f_2eyesWidth *! at_ stereoCoefs 0]> right in
    let f_2eyesHeight := at_ bottom i -! at_ top i in
    let top := <[i := at_ top i +! f_2eyesHeight *! at_ stereoOffsets 1]> top in
    let bottom := <[i := at_ top i +! f_2eyesHeight *! at_ stereoCoefs 1]> bottom in
    {| rect_left := left; rect_top := top;
       rect_right := right; rect_bottom := bottom |}) r.

Definition TextureCropForStereo (renderer : vlc_gl_renderer F) (r : rects F)
  : rects F :=
  let interop := interop renderer in
  match multiview_mode (fmt renderer) with
  | MULTIVIEW_STEREO_TB =>
      (* Display only the left eye. *)
      let stereoCoefs := [float_of_int 1; float_lit 1 2] in
      let stereoOffsets := [float_of_int 0; float_of_int 0] in
      GetTextureCropParamsForStereo (tex_count interop)
        stereoCoefs stereoOffsets r
  | MULTIVIEW_STEREO_SBS =>
      (* Display only the left eye. *)
      let stereoCoefs := [float_lit 1 2; float_of_int 1] in
      let stereoOffsets := [float_of_int 0; float_of_int 0] in
      GetTextureCropParamsForStereo (tex_count interop)
        stereoCoefs stereoOffsets r
  | _ => r
  end.

(** The test that opens the rebuild of the mesh in Draw. *)
Definition source_changed (source : video_format_t) (last : last_source_t)
  : bool :=
  negb (i_x_offset source =? last_x_offset last)
  || negb (i_y_offset source =? last_y_offset last)
  || negb (i_visible_width source =? last_visible_width last)
  || negb (i_visible_height source =? last_visible_height last).

(** The sampling rectangle of each plane for the visible part of the
    source. *)
Definition plane_rects (renderer : vlc_gl_renderer F) (source : video_format_t)
  : rects F :=
  let interop := interop renderer in
  let local := uninit_floats indeterminate_float PICTURE_PLANE_MAX in
  for_loop (tex_count interop) (fun j r =>
    let left := rect_left r in
    let top := rect_top r in
    let right := rect_right r in
    let bottom := rect_bottom r in
    let tex := nth j (texs interop) {| w_num := 0; w_den := 0; h_num := 0; h_den := 0 |} in
    let scale_w :=
      float_of_int (w_num tex) /! float_of_int (w_den tex)
        /! float_of_int (nth j (tex_width renderer) 0) in
    let scale_h :=
      float_of_int (h_num tex) /! float_of_int (h_den tex)
        /! float_of_int (nth j (tex_height renderer) 0) in
    let left :=
      <[j := float_of_int (wrap_unsigned (i_x_offset source + 0)) *! scale_w]> left in
    let top :=
      <[j := float_of_int (wrap_unsigned (i_y_offset source + 0)) *! scale_h]> top in
    let right :=
      <[j := float_of_int
               (wrap_unsigned (i_x_offset source + i_visible_width source))
             *! scale_w]> right in
    let bottom :=
      <[j := float_of_int
               (wrap_unsigned (i_y_offset source + i_visible_height source))
             *! scale_h]> bottom in
    {| rect_left := left; rect_top := top;
       rect_right := right; rect_bottom := bottom |})
    {| rect_left := local; rect_top := local;
       rect_right := local; rect_bottom := local |}.

(** Draw returns a code with the renderer, the context and the heap as
    it leaves them, unless the process stops in DrawWithShaders. *)
Definition vlc_gl_renderer_Draw (NDEBUG : bool) (renderer : vlc_gl_renderer F)
    (source : video_format_t) (gl : gl_state F) (h : heap)
  : outcome (Z * vlc_gl_renderer F * gl_state F * heap) :=
  let gl := gl_do glClear gl in
  let gl := gl_do (glUseProgram (program_id renderer)) gl in
  if source_changed source (last_source renderer) then
    let r := plane_rects renderer source in
    let r := TextureCropForStereo renderer r in
    let '(ret, renderer, gl, h) :=
      SetupCoords renderer (rect_left r) (rect_top r)
        (rect_right r) (rect_bottom r) gl h in
    if negb (ret =? VLC_SUCCESS) then Returns (ret, renderer, gl, h)
    else
      let renderer :=
        set_last_source
          {| last_x_offset := i_x_offset source;
             last_y_offset := i_y_offset source;
             last_visible_width := i_visible_width source;
             last_visible_height := i_visible_height source |}
          renderer in
      match DrawWithShaders NDEBUG renderer gl with
      | Returns gl => Returns (VLC_SUCCESS, renderer, gl, h)
      | Stops => Stops
      end
  else
    match DrawWithShaders NDEBUG renderer gl with
    | Returns gl => Returns (VLC_SUCCESS, renderer, gl, h)
    | Stops => Stops
    end.

End Draw.

(** ** Concrete inputs *)

(** Inputs in binary32 on which the properties below are instantiated and
    evaluated. *)
Module Examples.

(** A libm that answers NaN, for the computations that call none of its
    functions. *)
Definition libm_nan : Binary.libm := {|
  Binary.libm_tanf := fun _ => S754_nan;
  Binary.libm_atanf := fun _ => S754_nan;
  Binary.libm_sinf := fun _ => S754_nan;
  Binary.libm_sincosf := fun _ => (S754_nan, S754_nan)
|}.

Definition ops : FloatOps spec_float := Binary.binary_ops libm_nan.

(** The bounds of the field of view of VLC, 150 and 20 degrees. *)
Definition FOV_MAX : spec_float := Binary.b32 150 0.
Definition FOV_MIN : spec_float := Binary.b32 20 0.

(** vlc_viewpoint_reverse as VLC defines it: the angles negated, the field
    of view kept. *)
Definition reverse (v : vlc_viewpoint_t spec_float) : vlc_viewpoint_t spec_float :=
  {| yaw := SFopp (yaw v); pitch := SFopp (pitch v); roll := SFopp (roll v);
     fov := fov v |}.

(** A stand-in for vlc_viewpoint_to_4x4. *)
Definition to_4x4 (v : vlc_viewpoint_t spec_float) : list spec_float :=
  [yaw v; pitch v; roll v; fov v].

Definition junk_float (i : nat) : spec_float := S754_nan.
Definition junk_ushort (i : nat) : Z := 65535.

Definition zero : spec_float := S754_zero false.

(** A viewpoint whose field of view is not a number. *)
Definition nan_viewpoint : vlc_viewpoint_t spec_float :=
  {| yaw := zero; pitch := zero; roll := zero; fov := S754_nan |}.

Section AnyArithmetic.
Context {F : Type} `{FloatOps F}.

Definition viewpoint_of (fov_degrees : Z) : vlc_viewpoint_t F :=
  {| yaw := float_of_int 0; pitch := float_of_int 0; roll := float_of_int 0;
     fov := float_of_int fov_degrees |}.

(** A 720x576 picture in one plane, not yet drawn. *)
Definition format (p : video_projection_mode_t) (mv : video_multiview_mode_t)
  : video_format_t :=
  {| i_width := 720; i_height := 576; i_x_offset := 0; i_y_offset := 0;
     i_visible_width := 720; i_visible_height := 576;
     orientation := ORIENT_NORMAL; projection_mode := p;
     multiview_mode := mv; i_cubemap_padding := 0 |}.

Definition renderer_of (p : video_projection_mode_t)
    (mv : video_multiview_mode_t) : vlc_gl_renderer F :=
  {| interop :=
       {| tex_count := 1; tex_target := 3553;
          texs := [ {| w_num := 1; w_den := 1; h_num := 1; h_den := 1 |} ];
          transform_matrix := None |};
     program_id := 1;
     fmt := format p mv;
     last_source :=
       {| last_x_offset := 0; last_y_offset := 0;
          last_visible_width := 0; last_visible_height := 0 |};
     loc :=
       {| uloc_TransformMatrix := 0; uloc_OrientationMatrix := 1;
          uloc_ProjectionMatrix := 2; uloc_ViewMatrix := 3;
          uloc_ZoomMatrix := 4; aloc_MultiTexCoord := [1; -1; -1];
          aloc_VertexPosition := 0 |};
     var :=
       {| OrientationMatrix := identity;
          ProjectionMatrix := identity;
          ZoomMatrix := identity;
          ViewMatrix := identity |};
     textures := [1];
     tex_width := [720];
     tex_height := [576];
     nb_indices := 0;
     vertex_buffer_object := 1;
     index_buffer_object := 2;
     texture_buffer_object := [3];
     vp := viewpoint_of 80;
     f_fovx := float_of_int 0;
     f_fovy := float_of_int 0;
     f_z := float_of_int 0;
     f_sar := float_of_int 1 |}.

End AnyArithmetic.

(** In binary32 and in the reals. *)
Definition viewpoint : Z -> vlc_viewpoint_t spec_float :=
  @viewpoint_of spec_float ops.
Definition renderer
  : video_projection_mode_t -> video_multiview_mode_t
    -> vlc_gl_renderer spec_float :=
  @renderer_of spec_float ops.
Definition real_renderer
  : video_projection_mode_t -> video_multiview_mode_t -> vlc_gl_renderer R :=
  @renderer_of R Exact.real_ops.

Definition gl0 : gl_state spec_float :=
  {| gl_calls := []; array_buffer_binding := 0;
     element_array_buffer_binding := 0; gl_buffers := [] |}.

(** A heap where the coming calls of malloc have the given outcomes. *)
Definition heap_with (outcomes : list bool) : heap :=
  {| heap_live := []; heap_next := 1; heap_outcomes := outcomes |}.

End Examples.

(** ** Laws of the comparisons *)

(** What the properties below use of [<] and [<=]: no value is below
    itself, and [x <= y] excludes [y < x].  Both hold of IEEE-754
    comparisons, NaN included, and of the reals. *)
Class FloatOrder (F : Type) `{FloatOps F} := {
  flt_irrefl : forall x : F, flt x x = false;
  flt_fle : forall x y : F, flt x y = true -> fle x y = true;
  fle_not_flt : forall x y : F, fle x y = true -> flt y x = false
}.

(** A value is a number when it compares with itself, which a NaN does
    not; two numbers are comparable. *)
Class FloatTotal (F : Type) `{FloatOps F} := {
  fle_total : forall x y : F,
    fle x x = true -> fle y y = true -> fle x y = true \/ flt y x = true
}.

(** ** Vocabulary of the properties *)

(** A normal binary32 number whose half is normal too. *)
Definition halvable32 (x : spec_float) : Prop :=
  match x with
  | S754_finite _ m e => digits2_pos m = 24%positive /\ -148 <= e <= 104
  | _ => False
  end.

(** Its half: the same mantissa, the exponent one less. *)
Definition half32 (x : spec_float) : spec_float :=
  match x with
  | S754_finite s m e => S754_finite s m (e - 1)
  | _ => x
  end.

Section CropVocabulary.
Context {F : Type} `{FloatOps F}.
Local Open Scope cfloat_scope.

(** What GetTextureCropParamsForStereo computes for one plane, from its
    rectangle (left, top, right, bottom): the new rectangle, in the same
    order. *)
Definition crop_plane (coef0 coef1 offset0 offset1 : F) (l t r b : F)
  : F * F * F * F :=
  let l' := l +! (r -! l) *! offset0 in
  let r' := l' +! (r -! l) *! coef0 in
  let t' := t +! (b -! t) *! offset1 in
  let b' := t' +! (b -! t) *! coef1 in
  (l', t', r', b').

(** The rectangle of plane i. *)
Definition plane_rect (indeterminate_float : nat -> F) (r : rects F) (i : nat)
  : F * F * F * F :=
  (at_ indeterminate_float (rect_left r) i,
   at_ indeterminate_float (rect_top r) i,
   at_ indeterminate_float (rect_right r) i,
   at_ indeterminate_float (rect_bottom r) i).

(** The four arrays have room for n planes. *)
Definition rects_hold (n : nat) (r : rects F) : Prop :=
  (n <= length (rect_left r))%nat /\ (n <= length (rect_top r))%nat
  /\ (n <= length (rect_right r))%nat /\ (n <= length (rect_bottom r))%nat.

End CropVocabulary.

(** The PAL picture of the examples, in top-bottom stereo, its 8 top and
    bottom lines cropped: the sampling rectangles that Draw computes, and
    their crop for stereo. *)
Module CropExample.

Definition source : video_format_t :=
  {| i_width := 720; i_height := 576; i_x_offset := 0; i_y_offset := 8;
     i_visible_width := 720; i_visible_height := 568;
     orientation := ORIENT_NORMAL;
     projection_mode := PROJECTION_MODE_RECTANGULAR;
     multiview_mode := MULTIVIEW_STEREO_TB; i_cubemap_padding := 0 |}.

Definition renderer : vlc_gl_renderer spec_float :=
  Examples.renderer PROJECTION_MODE_RECTANGULAR MULTIVIEW_STEREO_TB.

Definition before : rects spec_float :=
  @plane_rects spec_float Examples.ops Examples.junk_float renderer source.

Definition after : rects spec_float :=
  @TextureCropForStereo spec_float Examples.ops Examples.junk_float
    renderer before.

Definition top_before : spec_float := nth 0 (rect_top before) S754_nan.
Definition bottom_before : spec_float := nth 0 (rect_bottom before) S754_nan.
Definition top_after : spec_float := nth 0 (rect_top after) S754_nan.
Definition bottom_after : spec_float := nth 0 (rect_bottom after) S754_nan.

(** A rectangle that covers its plane, from the origin. *)
Definition whole_plane : rects spec_float :=
  {| rect_left := [S754_zero false]; rect_top := [S754_zero false];
     rect_right := [Binary.b32 1 0]; rect_bottom := [Binary.b32 1 0] |}.

End CropExample.

(** Every live block is older than the next fresh one. *)
Definition heap_wf (h : heap) : Prop :=
  Forall (fun p => p < heap_next h) (heap_live h).

(** One of the coming three calls of malloc returns NULL. *)
Definition alloc_fails (h : heap) : bool :=
  existsb negb (take 3 (heap_outcomes h)).

(** The snapshot that Draw stores of a source. *)
Definition snapshot_of (source : video_format_t) : last_source_t :=
  {| last_x_offset := i_x_offset source;
     last_y_offset := i_y_offset source;
     last_visible_width := i_visible_width source;
     last_visible_height := i_visible_height source |}.

(** Two calls of Draw with the same source, on a flat picture that has not
    been drawn yet, when the first call of malloc returns NULL and the
    later ones succeed. *)
Module DrawExample.

Definition renderer : vlc_gl_renderer spec_float :=
  Examples.renderer PROJECTION_MODE_RECTANGULAR MULTIVIEW_2D.

Definition source : video_format_t :=
  Examples.format PROJECTION_MODE_RECTANGULAR MULTIVIEW_2D.

(** Draw as it is built by default, with its assertions. *)
Definition Draw :=
  @vlc_gl_renderer_Draw spec_float Examples.ops
    Examples.junk_float Examples.junk_ushort false.

Definition first_call :=
  Draw renderer source Examples.gl0 (Examples.heap_with [false]).

Definition second_call :=
  match first_call with
  | Returns (_, renderer, gl, h) => Draw renderer source gl h
  | Stops => Stops
  end.

(** The same, when every call of malloc succeeds. *)
Definition first_call_ok :=
  Draw renderer source Examples.gl0 (Examples.heap_with []).

(** The code that a call returns and the meshes uploaded when it returns. *)
Definition code_of
    (call : outcome (Z * vlc_gl_renderer spec_float * gl_state spec_float
                     * heap)) : option Z :=
  match call with
  | Returns (ret, _, _, _) => Some ret
  | Stops => None
  end.

Definition mesh_uploads_of
    (call : outcome (Z * vlc_gl_renderer spec_float * gl_state spec_float
                     * heap)) : option nat :=
  match call with
  | Returns (_, _, gl, _) => Some (mesh_uploads gl)
  | Stops => None
  end.

(** The same renderer when the texture of its plane has not been
    generated: its name is 0. *)
Definition renderer_without_texture : vlc_gl_renderer spec_float :=
  {| interop := interop renderer; program_id := program_id renderer;
     fmt := fmt renderer; last_source := last_source renderer;
     loc := loc renderer; var := var renderer;
     textures := [0]; tex_width := tex_width renderer;
     tex_height := tex_height renderer; nb_indices := nb_indices renderer;
     vertex_buffer_object := vertex_buffer_object renderer;
     index_buffer_object := index_buffer_object renderer;
     texture_buffer_object := texture_buffer_object renderer;
     vp := vp renderer; f_fovx := f_fovx renderer; f_fovy := f_fovy renderer;
     f_z := f_z renderer; f_sar := f_sar renderer |}.

End DrawExample.

(** The buffer objects hold what they held, and no upload was made. *)
Definition same_buffers {F : Type} (gl gl' : gl_state F) : Prop :=
  uploads gl' = uploads gl /\ mesh_uploads gl' = mesh_uploads gl
  /\ gl_buffers gl' = gl_buffers gl.

(** *** The sphere *)

(** The six indices of the cell (lat, lon) of the sphere, in the order
    BuildSphere stores them: the triangles (first, second, first + 1) and
    (second, second + 1, first + 1). *)
Definition cell_indices (nbLonBands lat lon : nat) : list Z :=
  let first := Z.of_nat (lat * (nbLonBands + 1) + lon) in
  let second := first + Z.of_nat nbLonBands + 1 in
  [first; second; first + 1; second; second + 1; first + 1].

(** The index that BuildSphere stores at the place k of the index array,
    for n bands each way. *)
Definition sphere_index (n k : nat) : Z :=
  nth (k mod 6) (cell_indices n ((k / 6) / n) ((k / 6) mod n)) 0.

Section SphereVocabulary.
Context {F : Type} `{FloatOps F}.
Local Open Scope cfloat_scope.

(** The angles of the vertex (lat, lon). *)
Definition sphere_theta (nbLatBands lat : nat) : F :=
  float_of_int (Z.of_nat lat) *! M_PI_f /! float_of_int (Z.of_nat nbLatBands).
Definition sphere_phi (nbLonBands lon : nat) : F :=
  float_of_int (wrap_unsigned (Z.of_nat lon * 2)) *! M_PI_f
    /! float_of_int (Z.of_nat nbLonBands).

(** The position that BuildSphere stores for the vertex (lat, lon). *)
Definition sphere_vertex (nbLatBands nbLonBands lat lon : nat) : list F :=
  let '(sinTheta, cosTheta) := sincosf (sphere_theta nbLatBands lat) in
  let '(sinPhi, cosPhi) := sincosf (sphere_phi nbLonBands lon) in
  [ SPHERE_RADIUS *! (cosPhi *! sinTheta);
    SPHERE_RADIUS *! cosTheta;
    SPHERE_RADIUS *! (sinPhi *! sinTheta) ].

(** The coordinate stored at the place k of the position array. *)
Definition sphere_coordinate (nbLatBands nbLonBands k : nat) : option F :=
  sphere_vertex nbLatBands nbLonBands
    ((k / 3) / (nbLonBands + 1)) ((k / 3) mod (nbLonBands + 1))
  !! (k mod 3)%nat.

End SphereVocabulary.

(** The sphere with 2 bands of latitude and 1 of longitude: its index
    array, for a block that held 65535 everywhere. *)
Definition unequal_bands_indices : list Z :=
  sphere_indices 2 1 (repeat 65535 12).

(** *** Matrices and viewpoint *)

(** The point (s', t') that the matrix of the table sends the texture
    coordinate (s, t, 0, 1) to, the matrix read column after column. *)
Definition apply_table (m : list Z) (s t : Z) : Z * Z :=
  (nth 0 m 0 * s + nth 4 m 0 * t + nth 12 m 0,
   nth 1 m 0 * s + nth 5 m 0 * t + nth 13 m 0).

Section ViewVocabulary.
Context {F : Type} `{FloatOps F}.
Variable vlc_viewpoint_to_4x4 : vlc_viewpoint_t F -> list F.

(** What UpdateFOVy and UpdateZ leave alone. *)
Definition same_but_fov (r r' : vlc_gl_renderer F) : Prop :=
  interop r' = interop r /\ program_id r' = program_id r /\ fmt r' = fmt r
  /\ last_source r' = last_source r /\ loc r' = loc r /\ var r' = var r
  /\ textures r' = textures r /\ tex_width r' = tex_width r
  /\ tex_height r' = tex_height r /\ nb_indices r' = nb_indices r
  /\ vertex_buffer_object r' = vertex_buffer_object r
  /\ index_buffer_object r' = index_buffer_object r
  /\ texture_buffer_object r' = texture_buffer_object r
  /\ vp r' = vp r /\ f_sar r' = f_sar r.

(** The matrices that getViewpointMatrixes stores for a projection mode,
    from the state of the renderer. *)
Definition transforms_of (r : vlc_gl_renderer F) : list F * list F * list F :=
  match projection_mode (fmt r) with
  | PROJECTION_MODE_EQUIRECTANGULAR
  | PROJECTION_MODE_CUBEMAP_LAYOUT_STANDARD =>
      (getProjectionMatrix (f_sar r) (f_fovy r), getZoomMatrix (f_z r),
       vlc_viewpoint_to_4x4 (vp r))
  | _ => (identity, identity, identity)
  end.

End ViewVocabulary.

(** z_min as the specification writes it, over the reals. *)
Definition z_min_formula (radius fovx fovy : R) : R :=
  (- radius / sin (atan (sqrt ((tan (fovx / 2))² + (tan (fovy / 2))²))))%R.

(** *** Builders and context *)

Section BuilderVocabulary.
Context {F : Type}.

(** What a builder answers: VLC_SUCCESS with a mesh, or VLC_ENOMEM without. *)
Definition builder_answer (answer : Z * option (mesh F) * heap) : Prop :=
  (exists m h', answer = (VLC_SUCCESS, Some m, h'))
  \/ (exists h', answer = (VLC_ENOMEM, None, h')).

(** What it answers when an allocation fails, on the heap h. *)
Definition builder_failure (h : heap) (answer : Z * option (mesh F) * heap)
  : Prop :=
  exists h', answer = (VLC_ENOMEM, None, h') /\ heap_live h' = heap_live h.

(** The context when Draw reaches its test: cleared, the program in use. *)
Definition gl_enter (renderer : vlc_gl_renderer F) (gl : gl_state F)
  : gl_state F :=
  gl_do (glUseProgram (program_id renderer)) (gl_do glClear gl).

End BuilderVocabulary.

Section DrawVocabulary.
Context {F : Type} `{FloatOps F}.

(** The two assertions of DrawWithShaders hold for every plane: the plane
    has a texture, and the program a location for its coordinates. *)
Definition draw_assertions (renderer : vlc_gl_renderer F) : bool :=
  forallb
    (fun j =>
       negb (nth j (textures renderer) 0 =? 0)
       && negb (nth j (aloc_MultiTexCoord (loc renderer)) 0 =? -1))
    (seq 0 (tex_count (interop renderer))).

(** The context that DrawWithShaders leaves when it returns. *)
Definition drawn (renderer : vlc_gl_renderer F) (gl : gl_state F)
  : gl_state F :=
  let interop := interop renderer in
  let gl :=
    gl_do (prepare_shader (tex_width renderer) (tex_height renderer)
             (float_of_int 1)) gl in
  let gl :=
    for_loop (tex_count interop) (fun j gl =>
      let gl := gl_do (glActiveTexture (GL_TEXTURE0 + Z.of_nat j)) gl in
      let gl :=
        gl_do (glBindTexture (tex_target interop)
                 (nth j (textures renderer) 0)) gl in
      let gl :=
        gl_do (glBindBuffer GL_ARRAY_BUFFER
                 (nth j (texture_buffer_object renderer) 0)) gl in
      let gl :=
        gl_do (glEnableVertexAttribArray
                 (nth j (aloc_MultiTexCoord (loc renderer)) 0)) gl in
      gl_do (glVertexAttribPointer
               (nth j (aloc_MultiTexCoord (loc renderer)) 0) 2) gl) gl in
  let gl :=
    gl_do (glBindBuffer GL_ARRAY_BUFFER (vertex_buffer_object renderer)) gl in
  let gl :=
    gl_do (glBindBuffer GL_ELEMENT_ARRAY_BUFFER
             (index_buffer_object renderer)) gl in
  let gl :=
    gl_do (glEnableVertexAttribArray (aloc_VertexPosition (loc renderer))) gl in
  let gl :=
    gl_do (glVertexAttribPointer (aloc_VertexPosition (loc renderer)) 3) gl in
  let tm :=
    match transform_matrix interop with
    | Some tm => tm
    | None => identity
    end in
  let gl :=
    gl_do (glUniformMatrix4fv (uloc_TransformMatrix (loc renderer)) tm) gl in
  let gl :=
    gl_do (glUniformMatrix4fv (uloc_OrientationMatrix (loc renderer))
             (OrientationMatrix (var renderer))) gl in
  let gl :=
    gl_do (glUniformMatrix4fv (uloc_ProjectionMatrix (loc renderer))
             (ProjectionMatrix (var renderer))) gl in
  let gl :=
    gl_do (glUniformMatrix4fv (uloc_ViewMatrix (loc renderer))
             (ViewMatrix (var renderer))) gl in
  let gl :=
    gl_do (glUniformMatrix4fv (uloc_ZoomMatrix (loc renderer))
             (ZoomMatrix (var renderer))) gl in
  gl_do (glDrawElements (nb_indices renderer)) gl.

End DrawVocabulary.

(** The three projection modes that have a builder. *)
Definition has_builder (p : video_projection_mode_t) : bool :=
  match p with
  | PROJECTION_MODE_other _ => false
  | _ => true
  end.

(** *** The arrays of the sphere while they are written *)

(** The writes of one cell, when the two band counts are n: the offset of
    the cell c = lat * n + lon is c * 6. *)
Definition write_cell (n lat lon : nat) (indices : list Z) : list Z :=
  let first := Z.of_nat (lat * (n + 1) + lon) in
  let second := first + Z.of_nat n + 1 in
  let off := ((lat * n + lon) * 3 * 2)%nat in
  let indices := <[off := wrap_ushort first]> indices in
  let indices := <[(off + 1)%nat := wrap_ushort second]> indices in
  let indices := <[(off + 2)%nat := wrap_ushort (first + 1)]> indices in
  let indices := <[(off + 3)%nat := wrap_ushort second]> indices in
  let indices := <[(off + 4)%nat := wrap_ushort (second + 1)]> indices in
  let indices := <[(off + 5)%nat := wrap_ushort (first + 1)]> indices in
  indices.

(** The first c cells are written. *)
Definition cells_written (n c len : nat) (indices : list Z) : Prop :=
  length indices = len
  /\ forall k, (k < c * 6)%nat ->
       indices !! k = Some (wrap_ushort (sphere_index n k)).

(** The first c vertices are written. *)
Definition vertices_written {F : Type} `{FloatOps F}
    (nbLatBands nbLonBands c len : nat) (vertexCoord : list F) : Prop :=
  length vertexCoord = len
  /\ forall k, (k < c * 3)%nat ->
       vertexCoord !! k = sphere_coordinate nbLatBands nbLonBands k.

(** The zoom in binary32 for a square window, at fields of view of 80, 90
    and 150 degrees, the last the maximum of VLC: a libm that returns the
    values of tan, atan and sin at the points where UpdateFOVy and UpdateZ
    ask for them, rounded to binary32, and a NaN elsewhere. *)
Module ZoomExample.

Definition SFeq (x y : spec_float) : bool := SFeqb x y.

Definition table (entries : list (spec_float * spec_float)) (x : spec_float)
  : spec_float :=
  match find (fun entry => SFeq x (fst entry)) entries with
  | Some entry => snd entry
  | None => S754_nan
  end.

(** tanf, atanf and sinf rounded to the nearest float, at the arguments
    that SetViewpoint meets for a field of view of 80, 90 and 150 degrees
    in a square window. *)
Definition libm_table : Binary.libm := {|
  Binary.libm_tanf := table [
    (S754_finite false 11712707 (-24), S754_finite false 14077757 (-24));
    (S754_finite false 13176795 (-24), S754_finite false 8388608 (-23));
    (S754_finite false 10980663 (-23), S754_finite false 15653362 (-22)) ];
  Binary.libm_atanf := table [
    (S754_finite false 14077757 (-24), S754_finite false 11712707 (-24));
    (S754_finite false 9954478 (-23), S754_finite false 14605529 (-24));
    (S754_finite false 8388608 (-23), S754_finite false 13176795 (-24));
    (S754_finite false 11863283 (-23), S754_finite false 16027553 (-24));
    (S754_finite false 15653362 (-22), S754_finite false 10980663 (-23));
    (S754_finite false 11068599 (-21), S754_finite false 11606036 (-23)) ];
  Binary.libm_sinf := table [
    (S754_finite false 14605529 (-24), S754_finite false 12829340 (-24));
    (S754_finite false 16027553 (-24), S754_finite false 13698539 (-24));
    (S754_finite false 11606036 (-23), S754_finite false 16483951 (-24)) ];
  Binary.libm_sincosf := fun _ => (S754_nan, S754_nan)
|}.

Definition ops : FloatOps spec_float := Binary.binary_ops libm_table.

(** fov * (float) M_PI / 180.f, the field of view as SetViewpoint stores
    it. *)
Definition radians (degrees : Z) : spec_float :=
  @fdiv _ ops (@fmul _ ops (@float_of_int _ ops degrees) (@M_PI_f _ ops))
    (@float_of_int _ ops 180).

Definition renderer : vlc_gl_renderer spec_float :=
  set_f_fovy (radians 150)
    (set_f_fovx (radians 150)
       (Examples.renderer PROJECTION_MODE_EQUIRECTANGULAR MULTIVIEW_2D)).

Definition z_min : spec_float :=
  @z_min_of _ ops (f_fovx renderer) (f_fovy renderer).

(** SetViewpoint on a renderer that has no field of view yet. *)
Definition SetViewpoint (degrees : Z) : Z * vlc_gl_renderer spec_float :=
  @vlc_gl_renderer_SetViewpoint spec_float ops
    Examples.reverse Examples.to_4x4 Examples.FOV_MAX Examples.FOV_MIN
    (Examples.renderer PROJECTION_MODE_EQUIRECTANGULAR MULTIVIEW_2D)
    (Examples.viewpoint degrees).

(** The largest float that is not above the threshold 90.f * M_PI / 180
    of UpdateZ, and the float after it. *)
Definition below_threshold : spec_float := S754_finite false 13176794 (-23).
Definition above_threshold : spec_float := S754_finite false 13176795 (-23).

End ZoomExample.

(** ** Vocabulary of the further properties *)

(** *** Viewpoint, zoom and matrices *)

(** What the properties of SetViewpoint use of the subtraction: the
    distance of a value to itself is below the threshold [0.001f].  It
    holds of IEEE-754 arithmetic, where x - x is a zero or a NaN, and of
    the reals. *)
Class FloatDistance (F : Type) `{FloatOps F} := {
  self_distance_small :
    forall x : F, fle (float_lit 1 1000) (fabsf (fsub x x)) = false
}.

Section SyncVocabulary.
Context {F : Type} `{FloatOps F}.
Variable vlc_viewpoint_to_4x4 : vlc_viewpoint_t F -> list F.
Variable FIELD_OF_VIEW_DEGREES_MAX : F.

(** The fields that the renderer derives from its field of view, its
    aspect ratio and its viewpoint are those that UpdateFOVy, UpdateZ and
    getViewpointMatrixes compute from the current ones. *)
Definition in_sync (r : vlc_gl_renderer F) : Prop :=
  f_fovy r = f_fovy (UpdateFOVy r)
  /\ f_z r = f_z (UpdateZ FIELD_OF_VIEW_DEGREES_MAX r)
  /\ (ProjectionMatrix (var r), ZoomMatrix (var r), ViewMatrix (var r))
     = transforms_of vlc_viewpoint_to_4x4 r.

End SyncVocabulary.

Section ClipVocabulary.
Context {F : Type} `{FloatOps F}.
Local Open Scope cfloat_scope.

(** The product [m * v] of GLSL, as the vertex shader of BuildVertexShader
    writes it, of a mat4 read column after column and a vec4. *)
Definition mat4_vec (m v : list F) : list F :=
  map (fun row =>
         nth (0 * 4 + row) m f0 *! nth 0 v f0
         +! nth (1 * 4 + row) m f0 *! nth 1 v f0
         +! nth (2 * 4 + row) m f0 *! nth 2 v f0
         +! nth (3 * 4 + row) m f0 *! nth 3 v f0)
    [0; 1; 2; 3]%nat.

(** The attribute MultiTexCoord of the vertex shader, a vec4 that is fed
    two floats: (s, t, 0, 1). *)
Definition tex_coord (s t : F) : list F := [s; t; f0; f1].

End ClipVocabulary.

(** The orientation that undoes an orientation. *)
Definition opposite (o : video_orientation_t) : video_orientation_t :=
  match o with
  | ORIENT_ROTATED_90 => ORIENT_ROTATED_270
  | ORIENT_ROTATED_270 => ORIENT_ROTATED_90
  | o => o
  end.

(** *** Meshes *)

(** The texture coordinates of a flat mesh: those of its vertices for the
    first plane, then for the second, and so on. *)
Definition planes_tex {F : Type} (nbPlanes : nat) (tex : nat -> list F)
  : list F :=
  concat (map tex (seq 0 nbPlanes)).

(** The axis that the four vertices of a face of the cube share (0 for x,
    1 for y, 2 for z) and their coordinate on it; the faces in the order
    of BuildCube: front, back, left, right, bottom, top. *)
Definition cube_axis (face : nat) : nat :=
  match face with
  | 0 | 1 => 2
  | 2 | 3 => 0
  | _ => 1
  end%nat.
Definition cube_side (face : nat) : Z :=
  match face with
  | 0%nat | 2%nat | 4%nat => -1
  | _ => 1
  end.

(** The cell of the atlas, three columns by two rows, that a face of the
    cube samples: its column and its row. *)
Definition cube_cell (face : nat) : Z * Z :=
  match face with
  | 0%nat => (1, 1)
  | 1%nat => (2, 1)
  | 2%nat => (1, 0)
  | 3%nat => (0, 0)
  | 4%nat => (0, 1)
  | _ => (2, 0)
  end.

Section SphereTexVocabulary.
Context {F : Type} `{FloatOps F}.
Variable indeterminate_float : nat -> F.
Local Open Scope cfloat_scope.

(** The texture coordinates that BuildSphere stores for the vertex
    (lat, lon) in the plane whose rectangle is (l, t, r, b). *)
Definition sphere_uv (nbLatBands nbLonBands : nat) (l t r b : F)
    (lat lon : nat) : F * F :=
  (float_of_int (Z.of_nat lon) /! float_of_int (Z.of_nat nbLonBands)
     *! (r -! l),
   float_of_int (Z.of_nat lat) /! float_of_int (Z.of_nat nbLatBands)
     *! (b -! t)).

(** The texture coordinates of the first c vertices are written, in every
    plane. *)
Definition uvs_written (nbPlanes nbLatBands nbLonBands c len : nat)
    (rect_l rect_t rect_r rect_b : list F) (textureCoord : list F) : Prop :=
  length textureCoord = len
  /\ forall p k, (p < nbPlanes)%nat -> (k < c)%nat ->
       let uv :=
         sphere_uv nbLatBands nbLonBands
           (at_ indeterminate_float rect_l p) (at_ indeterminate_float rect_t p)
           (at_ indeterminate_float rect_r p) (at_ indeterminate_float rect_b p)
           (k / (nbLonBands + 1)) (k mod (nbLonBands + 1)) in
       let off := ((p * (nbLatBands + 1) * (nbLonBands + 1) + k) * 2)%nat in
       textureCoord !! off = Some (fst uv)
       /\ textureCoord !! (off + 1)%nat = Some (snd uv).

End SphereTexVocabulary.

Section MeshVocabulary.
Context {F : Type}.

(** A mesh that glDrawElements can draw: its arrays have the sizes that
    its counts announce, for nbPlanes planes, and every index is the index
    of one of its vertices. *)
Definition mesh_valid (nbPlanes : nat) (m : mesh F) : Prop :=
  0 <= nbVertices m
  /\ length (vertexCoord m) = (Z.to_nat (nbVertices m) * 3)%nat
  /\ length (textureCoord m) = (nbPlanes * (Z.to_nat (nbVertices m) * 2))%nat
  /\ Z.of_nat (length (indices m)) = nbIndices m
  /\ Forall (fun i => 0 <= i < nbVertices m) (indices m).

(** The heap after the three allocations of a builder, and the blocks of
    the mesh. *)
Definition granted (h : heap) (m : mesh F) (h' : heap) : Prop :=
  h' = {| heap_live :=
            heap_next h + 1 + 1 :: heap_next h + 1 :: heap_next h
              :: heap_live h;
          heap_next := heap_next h + 1 + 1 + 1;
          heap_outcomes := drop 3 (heap_outcomes h) |}
  /\ vertexCoord_ptr m = heap_next h
  /\ textureCoord_ptr m = heap_next h + 1
  /\ indices_ptr m = heap_next h + 1 + 1.

End MeshVocabulary.

Section BuilderOfMode.
Context {F : Type} `{FloatOps F}.
Variable indeterminate_float : nat -> F.
Variable indeterminate_ushort : nat -> Z.
Local Open Scope cfloat_scope.

(** The switch of SetupCoords: the builder that it calls for the
    projection mode of the renderer. *)
Definition builder_of (renderer : vlc_gl_renderer F) (l t r b : list F)
    (h : heap) : Z * option (mesh F) * heap :=
  match projection_mode (fmt renderer) with
  | PROJECTION_MODE_RECTANGULAR =>
      BuildRectangle indeterminate_float indeterminate_ushort
        (tex_count (interop renderer)) l t r b h
  | PROJECTION_MODE_EQUIRECTANGULAR =>
      BuildSphere indeterminate_float indeterminate_ushort
        (tex_count (interop renderer)) l t r b h
  | PROJECTION_MODE_CUBEMAP_LAYOUT_STANDARD =>
      BuildCube indeterminate_float indeterminate_ushort
        (tex_count (interop renderer))
        (float_of_int (i_cubemap_padding (fmt renderer))
           /! float_of_int (i_width (fmt renderer)))
        (float_of_int (i_cubemap_padding (fmt renderer))
           /! float_of_int (i_height (fmt renderer)))
        l t r b h
  | PROJECTION_MODE_other _ => (VLC_EGENERIC, None, h)
  end.

End BuilderOfMode.

(** The number of indices of the mesh of a projection mode. *)
Definition indices_of_mode (p : video_projection_mode_t) : Z :=
  match p with
  | PROJECTION_MODE_RECTANGULAR => 6
  | PROJECTION_MODE_EQUIRECTANGULAR => 128 * 128 * 3 * 2
  | PROJECTION_MODE_CUBEMAP_LAYOUT_STANDARD => 36
  | PROJECTION_MODE_other _ => 0
  end.

(** *** The context after an upload and a draw *)

Section UploadVocabulary.
Context {F : Type}.

(** The buffer objects that SetupCoords fills with a mesh, the one filled
    last first: the indices, the positions, and the texture coordinates
    of each plane, those of the last plane first. *)
Definition mesh_buffers (renderer : vlc_gl_renderer F) (m : mesh F)
  : list (Z * gl_buffer_data F) :=
  (index_buffer_object renderer, GLushort_data (indices m))
  :: (vertex_buffer_object renderer, GLfloat_data (vertexCoord m))
  :: rev (map (fun j =>
                 (nth j (texture_buffer_object renderer) 0,
                  GLfloat_data
                    (take (Z.to_nat (nbVertices m) * 2)
                       (drop (j * Z.to_nat (nbVertices m) * 2)
                          (textureCoord m)))))
            (seq 0 (tex_count (interop renderer)))).

(** The texture units that the calls select, in order. *)
Definition active_textures (calls : list (gl_call F)) : list Z :=
  flat_map (fun c => match c with
                     | glActiveTexture unit => [unit]
                     | _ => []
                     end) calls.

(** The matrices that the calls set, with their locations, in order. *)
Definition uniforms (calls : list (gl_call F)) : list (Z * list F) :=
  flat_map (fun c => match c with
                     | glUniformMatrix4fv location value => [(location, value)]
                     | _ => []
                     end) calls.

End UploadVocabulary.

(** *** The rectangles of Draw *)

Section PlaneRectsVocabulary.
Context {F : Type} `{FloatOps F}.
Local Open Scope cfloat_scope.

(** The scales of the plane j, from pixels of the picture to texture
    coordinates: scale_w and scale_h of Draw. *)
Definition scale_w (renderer : vlc_gl_renderer F) (j : nat) : F :=
  let tex := nth j (texs (interop renderer))
               {| w_num := 0; w_den := 0; h_num := 0; h_den := 0 |} in
  float_of_int (w_num tex) /! float_of_int (w_den tex)
    /! float_of_int (nth j (tex_width renderer) 0).
Definition scale_h (renderer : vlc_gl_renderer F) (j : nat) : F :=
  let tex := nth j (texs (interop renderer))
               {| w_num := 0; w_den := 0; h_num := 0; h_den := 0 |} in
  float_of_int (h_num tex) /! float_of_int (h_den tex)
    /! float_of_int (nth j (tex_height renderer) 0).

End PlaneRectsVocabulary.

(** The right and bottom edges that the crop for stereo leaves of the unit
    square: the left eye is the left half or the top half. *)
Definition left_eye (mv : video_multiview_mode_t) : R * R :=
  match mv with
  | MULTIVIEW_STEREO_TB => (1, 1 / 2)%R
  | MULTIVIEW_STEREO_SBS => (1 / 2, 1)%R
  | _ => (1, 1)%R
  end.

(** The picture is not cropped and the texture of each plane has the size
    of the plane. *)
Definition whole_picture (renderer : vlc_gl_renderer R)
    (source : video_format_t) : Prop :=
  i_x_offset source = 0 /\ i_y_offset source = 0
  /\ 0 < i_visible_width source <= UINT_MAX
  /\ 0 < i_visible_height source <= UINT_MAX
  /\ forall j, (j < tex_count (interop renderer))%nat ->
       exists tex,
         texs (interop renderer) !! j = Some tex
         /\ 0 < w_num tex /\ 0 < w_den tex /\ 0 < h_num tex /\ 0 < h_den tex
         /\ nth j (tex_width renderer) 0 * w_den tex
            = i_visible_width source * w_num tex
         /\ nth j (tex_height renderer) 0 * h_den tex
            = i_visible_height source * h_num tex.

(** A renderer in binary32 after a change of the aspect ratio of its
    window, and the picture of the examples over the reals. *)
Module SyncExample.

Definition renderer : vlc_gl_renderer spec_float :=
  @vlc_gl_renderer_SetWindowAspectRatio spec_float Examples.ops
    Examples.to_4x4 Examples.FOV_MAX
    (Examples.renderer PROJECTION_MODE_EQUIRECTANGULAR MULTIVIEW_2D)
    (Binary.b32 1 0).

Definition real_gl0 : gl_state R :=
  {| gl_calls := []; array_buffer_binding := 0;
     element_array_buffer_binding := 0; gl_buffers := [] |}.

End SyncExample.

(** ** Shaders and program *)

From Stdlib Require String Ascii DecimalString.

Module Link.
Import String.StringSyntax.

(** The calls that BuildVertexShader and opengl_link_program make through
    the vtable, to opengl_fragment_shader_init of fragment_shaders.c, to
    the converter and to the logger.  A call of glGet* is with the
    question it asks; the answers are those of the driver below. *)
Inductive vt_call :=
| CreateShader_vertex
| ShaderSource (shader : Z) (code : String.string)
| CompileShader (shader : Z)
| opengl_fragment_shader_init (tex_target : Z)
| GetShaderiv_info_log_length (shader : Z)
| GetShaderInfoLog (shader : Z) (infoLength : Z)
| CreateProgram
| AttachShader (program shader : Z)
| LinkProgram (program : Z)
| DeleteShader (shader : Z)
| GetProgramiv_info_log_length (program : Z)
| GetProgramInfoLog (program : Z) (infoLength : Z)
| GetProgramiv_link_status (program : Z)
| GetUniformLocation (program : Z) (name : String.string)
| GetAttribLocation (program : Z) (name : String.string)
| pf_fetch_locations (program : Z)
| DeleteProgram (program : Z)
| msg_Dbg (format : String.string)
| msg_Err (format : String.string).

(** What the driver, the fragment shader module and the converter answer:
    the names of the objects they create, the lengths of their logs, the
    locations of the variables of the program.  [fetch_locations] is
    [None] when opengl_fragment_shader_init has left the pointer
    pf_fetch_locations NULL, and what the function returns otherwise. *)
Record gl_driver := {
  vertex_shader_name : Z;
  fragment_shader_name : Z;
  update_textures_set : bool;
  prepare_shader_set : bool;
  fetch_locations : option Z;
  shader_info_log_length : Z -> Z;
  program_name : Z;
  program_info_log_length : Z;
  program_link_status : bool;
  uniform_location : String.string -> Z;
  attrib_location : String.string -> Z
}.

Section RendererFields2.
Context {F : Type}.

Definition set_program_id (p : Z) (r : vlc_gl_renderer F) :=
  {| interop := interop r; program_id := p; fmt := fmt r;
     last_source := last_source r; loc := loc r; var := var r;
     textures := textures r; tex_width := tex_width r;
     tex_height := tex_height r; nb_indices := nb_indices r;
     vertex_buffer_object := vertex_buffer_object r;
     index_buffer_object := index_buffer_object r;
     texture_buffer_object := texture_buffer_object r;
     vp := vp r; f_fovx := f_fovx r; f_fovy := f_fovy r; f_z := f_z r;
     f_sar := f_sar r |}.

Definition set_loc (l : renderer_loc) (r : vlc_gl_renderer F) :=
  {| interop := interop r; program_id := program_id r; fmt := fmt r;
     last_source := last_source r; loc := l; var := var r;
     textures := textures r; tex_width := tex_width r;
     tex_height := tex_height r; nb_indices := nb_indices r;
     vertex_buffer_object := vertex_buffer_object r;
     index_buffer_object := index_buffer_object r;
     texture_buffer_object := texture_buffer_object r;
     vp := vp r; f_fovx := f_fovx r; f_fovy := f_fovy r; f_z := f_z r;
     f_sar := f_sar r |}.

End RendererFields2.

(** Assignments to the fields of [renderer->uloc] and [renderer->aloc]. *)
Inductive location :=
| uloc_of_TransformMatrix
| uloc_of_OrientationMatrix
| uloc_of_ProjectionMatrix
| uloc_of_ViewMatrix
| uloc_of_ZoomMatrix
| aloc_of_VertexPosition
| aloc_of_MultiTexCoord (i : nat).

Definition set_location (x : location) (v : Z) (l : renderer_loc)
  : renderer_loc :=
  {| uloc_TransformMatrix :=
       match x with uloc_of_TransformMatrix => v | _ => uloc_TransformMatrix l end;
     uloc_OrientationMatrix :=
       match x with uloc_of_OrientationMatrix => v | _ => uloc_OrientationMatrix l end;
     uloc_ProjectionMatrix :=
       match x with uloc_of_ProjectionMatrix => v | _ => uloc_ProjectionMatrix l end;
     uloc_ViewMatrix :=
       match x with uloc_of_ViewMatrix => v | _ => uloc_ViewMatrix l end;
     uloc_ZoomMatrix :=
       match x with uloc_of_ZoomMatrix => v | _ => uloc_ZoomMatrix l end;
     aloc_MultiTexCoord :=
       match x with
       | aloc_of_MultiTexCoord i => <[i := v]> (aloc_MultiTexCoord l)
       | _ => aloc_MultiTexCoord l
       end;
     aloc_VertexPosition :=
       match x with aloc_of_VertexPosition => v | _ => aloc_VertexPosition l end |}.

Definition is_attribute (x : location) : bool :=
  match x with
  | aloc_of_VertexPosition | aloc_of_MultiTexCoord _ => true
  | _ => false
  end.

(** The state that the functions below work on: the calls made so far,
    the heap and the renderer. *)
Record world {F : Type} := {
  calls : list vt_call;
  memory : heap;
  the_renderer : vlc_gl_renderer F
}.
Arguments world : clear implicits.

Section Programs.
Context {F : Type}.

(** A piece of code: from a state to a result and a state, unless the
    process stops. *)
Definition prog (A : Type) : Type := world F -> outcome (A * world F).

Definition ret {A : Type} (a : A) : prog A := fun w => Returns (a, w).

Definition bind {A B : Type} (m : prog A) (k : A -> prog B) : prog B :=
  fun w =>
    match m w with
    | Returns (a, w) => k a w
    | Stops => Stops
    end.

End Programs.

(** [for (i = 0; i < n; i++) body (a[i])] *)
Fixpoint for_each {F A : Type} (l : list A) (body : A -> prog (F := F) unit)
  : prog (F := F) unit :=
  match l with
  | [] => ret tt
  | a :: l => bind (body a) (fun _ => for_each l body)
  end.

Declare Scope prog_scope.
Delimit Scope prog_scope with prog.
Notation "x <- m ;; k" := (bind m (fun x => k))
  (at level 100, m at next level, right associativity) : prog_scope.
Notation "m ;; k" := (bind m (fun _ => k))
  (at level 100, right associativity) : prog_scope.

Section Shaders.
Context {F : Type}.
Local Open Scope prog_scope.
Local Open Scope string_scope.

(** [NDEBUG]: whether the assertions are compiled out.  The answers of the
    driver.  The fields glsl_version and b_dump_shaders of the renderer. *)
Variable NDEBUG : bool.
Variable driver : gl_driver.
Variable glsl_version : Z.
Variable b_dump_shaders : bool.

(** A call through the vtable, or to the logger. *)
Definition vt (c : vt_call) : prog (F := F) unit :=
  fun w =>
    Returns (tt, {| calls := calls w ++ [c]; memory := memory w;
                    the_renderer := the_renderer w |}).

(** [malloc] and [free] on the heap of the state. *)
Definition alloc : prog (F := F) (option Z) :=
  fun w =>
    let '(p, h) := malloc (memory w) in
    Returns (p, {| calls := calls w; memory := h;
                   the_renderer := the_renderer w |}).

Definition release (p : Z) : prog (F := F) unit :=
  fun w =>
    Returns (tt, {| calls := calls w; memory := free p (memory w);
                    the_renderer := the_renderer w |}).

(** [assert (c)] *)
Definition assert_ (c : bool) : prog (F := F) unit :=
  fun w => if NDEBUG || c then Returns (tt, w) else Stops.

(** An assignment to the renderer, and a read of it. *)
Definition update (f : vlc_gl_renderer F -> vlc_gl_renderer F)
  : prog (F := F) unit :=
  fun w =>
    Returns (tt, {| calls := calls w; memory := memory w;
                    the_renderer := f (the_renderer w) |}).

Definition renderer_ : prog (F := F) (vlc_gl_renderer F) :=
  fun w => Returns (the_renderer w, w).

Definition nl : String.string := String.String (Ascii.ascii_of_nat 10) "".

(** The format of the message that dumps the vertex shader. *)
Definition dump_format : String.string :=
  String.concat ""
    [nl; "=== Vertex shader for fourcc: %4.4s ==="; nl; "%s"; nl].

(** The code that asprintf prints from the template of the vertex
    shader. *)
Definition vertex_shader_code
    (coord1_header coord2_header coord1_code coord2_code : String.string)
  : String.string :=
  String.concat "" [
    "#version ";
    DecimalString.NilZero.string_of_uint (N.to_uint (Z.to_N glsl_version)); nl;
    "varying vec2 TexCoord0;"; nl;
    "attribute vec4 MultiTexCoord0;"; nl;
    coord1_header; coord2_header;
    "attribute vec3 VertexPosition;"; nl;
    "uniform mat4 TransformMatrix;"; nl;
    "uniform mat4 OrientationMatrix;"; nl;
    "uniform mat4 ProjectionMatrix;"; nl;
    "uniform mat4 ZoomMatrix;"; nl;
    "uniform mat4 ViewMatrix;"; nl;
    "void main() {"; nl;
    " TexCoord0 = vec4(TransformMatrix * OrientationMatrix * MultiTexCoord0).st;"; nl;
    coord1_code; coord2_code;
    " gl_Position = ProjectionMatrix * ZoomMatrix * ViewMatrix"; nl;
    "               * vec4(VertexPosition, 1.0);"; nl;
    "}" ].

(** asprintf allocates the code and fails when its allocation does. *)
Definition BuildVertexShader (plane_count : Z) : prog (F := F) Z :=
  let coord1_header :=
    if 1 <? plane_count
    then String.concat "" ["varying vec2 TexCoord1;"; nl;
                           "attribute vec4 MultiTexCoord1;"; nl]
    else "" in
  let coord1_code :=
    if 1 <? plane_count
    then String.concat ""
           [" TexCoord1 = vec4(TransformMatrix * OrientationMatrix * MultiTexCoord1).st;"; nl]
    else "" in
  let coord2_header :=
    if 2 <? plane_count
    then String.concat "" ["varying vec2 TexCoord2;"; nl;
                           "attribute vec4 MultiTexCoord2;"; nl]
    else "" in
  let coord2_code :=
    if 2 <? plane_count
    then String.concat ""
           [" TexCoord2 = vec4(TransformMatrix * OrientationMatrix * MultiTexCoord2).st;"; nl]
    else "" in
  code <- alloc ;;
  match code with
  | None => ret 0
  | Some code =>
      vt CreateShader_vertex ;;
      let shader := vertex_shader_name driver in
      vt (ShaderSource shader
            (vertex_shader_code coord1_header coord2_header
               coord1_code coord2_code)) ;;
      (if b_dump_shaders
       then vt (msg_Dbg dump_format)
       else ret tt) ;;
      vt (CompileShader shader) ;;
      release code ;;
      ret shader
  end.

(** The log of a shader or of the program, when it has one: printed
    through a block of the heap, when malloc grants it. *)
Definition print_log (get_log : vt_call) (format : String.string)
  : prog (F := F) unit :=
  infolog <- alloc ;;
  match infolog with
  | Some infolog =>
      vt get_log ;;
      vt (msg_Err format) ;;
      release infolog
  | None => ret tt
  end.

(** The body of the loop over the two shaders. *)
Definition check_shader (shader : Z) : prog (F := F) unit :=
  vt (GetShaderiv_info_log_length shader) ;;
  let infoLength := shader_info_log_length driver shader in
  if infoLength <=? 1 then ret tt
  else print_log (GetShaderInfoLog shader infoLength) "shader %u: %s".

(** GET_LOC: the location is stored, and then checked.  The answer is
    whether the function goes on, [false] for [goto error]. *)
Definition GET_LOC (x : location) (program_id : Z) (str : String.string)
  : prog (F := F) bool :=
  vt (if is_attribute x then GetAttribLocation program_id str
      else GetUniformLocation program_id str) ;;
  let v :=
    if is_attribute x then attrib_location driver str
    else uniform_location driver str in
  update (fun r => set_loc (set_location x v (loc r)) r) ;;
  assert_ (negb (v =? -1)) ;;
  if v =? -1 then
    vt (msg_Err (if is_attribute x then "Unable to GetAttribLocation(%s)"
                 else "Unable to GetUniformLocation(%s)")) ;;
    ret false
  else ret true.

(** A step that can leave for [error], and what follows it. *)
Definition and_then (step rest : prog (F := F) bool) : prog (F := F) bool :=
  go_on <- step ;;
  if go_on then rest else ret false.

(** The block that fetches the locations of the uniforms and of the
    attributes, and then those of the converter; the answer is [false]
    for [goto error]. *)
Definition fetch_all_locations (program_id : Z) (interop : vlc_gl_interop F)
  : prog (F := F) bool :=
  and_then (GET_LOC uloc_of_TransformMatrix program_id "TransformMatrix")
 (and_then (GET_LOC uloc_of_OrientationMatrix program_id "OrientationMatrix")
 (and_then (GET_LOC uloc_of_ProjectionMatrix program_id "ProjectionMatrix")
 (and_then (GET_LOC uloc_of_ViewMatrix program_id "ViewMatrix")
 (and_then (GET_LOC uloc_of_ZoomMatrix program_id "ZoomMatrix")
 (and_then (GET_LOC aloc_of_VertexPosition program_id "VertexPosition")
 (and_then (GET_LOC (aloc_of_MultiTexCoord 0) program_id "MultiTexCoord0")
 (* MultiTexCoord 1 and 2 can be optimized out if not used *)
 (and_then
    (if 1 <? Z.of_nat (tex_count interop)
     then GET_LOC (aloc_of_MultiTexCoord 1) program_id "MultiTexCoord1"
     else update (fun r =>
            set_loc (set_location (aloc_of_MultiTexCoord 1) (-1) (loc r)) r) ;;
          ret true)
 (and_then
    (if 2 <? Z.of_nat (tex_count interop)
     then GET_LOC (aloc_of_MultiTexCoord 2) program_id "MultiTexCoord2"
     else update (fun r =>
            set_loc (set_location (aloc_of_MultiTexCoord 2) (-1) (loc r)) r) ;;
          ret true)
    (vt (pf_fetch_locations program_id) ;;
     match fetch_locations driver with
     | None => fun _ => Stops
     | Some ret_ =>
         assert_ (ret_ =? VLC_SUCCESS) ;;
         if negb (ret_ =? VLC_SUCCESS) then
           vt (msg_Err "Unable to get locations from tex_conv") ;;
           ret false
         else ret true
     end))))))))).

(** The messages of the program, and its link status when it has
    messages; the answer is [false] for [goto error]. *)
Definition check_program (program_id : Z) : prog (F := F) bool :=
  vt (GetProgramiv_info_log_length program_id) ;;
  let infoLength := program_info_log_length driver in
  if 1 <? infoLength then
    print_log (GetProgramInfoLog program_id infoLength) "shader program: %s" ;;
    (* If there is some message, better to check linking is ok *)
    vt (GetProgramiv_link_status program_id) ;;
    if program_link_status driver then ret true
    else vt (msg_Err "Unable to use program") ;; ret false
  else ret true.

(** What opengl_link_program asserts once opengl_fragment_shader_init has
    returned a shader. *)
Definition link_assertion (interop : vlc_gl_interop F) : bool :=
  negb (tex_target interop =? 0)
  && (0 <? Z.of_nat (tex_count interop))
  && update_textures_set driver
  && (match fetch_locations driver with Some _ => true | None => false end)
  && prepare_shader_set driver.

Definition opengl_link_program : prog (F := F) Z :=
  renderer <- renderer_ ;;
  let interop := interop renderer in
  vertex_shader <- BuildVertexShader (Z.of_nat (tex_count interop)) ;;
  if vertex_shader =? 0 then ret VLC_EGENERIC else
  vt (opengl_fragment_shader_init (tex_target interop)) ;;
  let fragment_shader := fragment_shader_name driver in
  if fragment_shader =? 0 then ret VLC_EGENERIC else
  assert_ (link_assertion interop) ;;
  (* Check shaders messages *)
  for_each [fragment_shader; vertex_shader] check_shader ;;
  vt CreateProgram ;;
  let program_id := program_name driver in
  update (set_program_id program_id) ;;
  vt (AttachShader program_id fragment_shader) ;;
  vt (AttachShader program_id vertex_shader) ;;
  vt (LinkProgram program_id) ;;
  vt (DeleteShader vertex_shader) ;;
  vt (DeleteShader fragment_shader) ;;
  (* Check program messages *)
  ok <- and_then (check_program program_id)
          (fetch_all_locations program_id interop) ;;
  if ok then ret VLC_SUCCESS
  else
    (* error: *)
    vt (DeleteProgram program_id) ;;
    update (set_program_id 0) ;;
    ret VLC_EGENERIC.

End Shaders.

(** A driver that answers 1, 2, 3 for the objects and 0 .. 8 for the
    locations, with no log. *)

(** *** Vocabulary of the properties of the program *)

Section LinkVocabulary.
Import String.StringSyntax.
Local Open Scope string_scope.

(** The locations that opengl_link_program stores when it succeeds, for an
    interop of n planes. *)
Definition linked_loc (driver : gl_driver) (n : nat) (l : renderer_loc)
  : renderer_loc :=
  {| uloc_TransformMatrix := uniform_location driver "TransformMatrix";
     uloc_OrientationMatrix := uniform_location driver "OrientationMatrix";
     uloc_ProjectionMatrix := uniform_location driver "ProjectionMatrix";
     uloc_ViewMatrix := uniform_location driver "ViewMatrix";
     uloc_ZoomMatrix := uniform_location driver "ZoomMatrix";
     aloc_MultiTexCoord :=
       <[2%nat := if 2 <? Z.of_nat n
                  then attrib_location driver "MultiTexCoord2" else -1]>
         (<[1%nat := if 1 <? Z.of_nat n
                     then attrib_location driver "MultiTexCoord1" else -1]>
            (<[0%nat := attrib_location driver "MultiTexCoord0"]>
               (aloc_MultiTexCoord l)));
     aloc_VertexPosition := attrib_location driver "VertexPosition" |}.

(** The driver has a location for every variable that the program of an
    interop of n planes uses. *)
Definition locations_found (driver : gl_driver) (n : nat) : Prop :=
  uniform_location driver "TransformMatrix" <> -1
  /\ uniform_location driver "OrientationMatrix" <> -1
  /\ uniform_location driver "ProjectionMatrix" <> -1
  /\ uniform_location driver "ViewMatrix" <> -1
  /\ uniform_location driver "ZoomMatrix" <> -1
  /\ attrib_location driver "VertexPosition" <> -1
  /\ attrib_location driver "MultiTexCoord0" <> -1
  /\ (1 < Z.of_nat n -> attrib_location driver "MultiTexCoord1" <> -1)
  /\ (2 < Z.of_nat n -> attrib_location driver "MultiTexCoord2" <> -1).

End LinkVocabulary.

(** The state after the two first steps of GET_LOC: the question is
    asked and the answer stored. *)
Definition located {F : Type} (driver : gl_driver) (x : location)
    (p : Z) (str : String.string) (w : world F) : world F :=
  {| calls :=
       calls w
       ++ [if is_attribute x then GetAttribLocation p str
           else GetUniformLocation p str];
     memory := memory w;
     the_renderer :=
       set_loc
         (set_location x
            (if is_attribute x then attrib_location driver str
             else uniform_location driver str)
            (loc (the_renderer w)))
         (the_renderer w) |}.

(** The allocation of asprintf is granted and the driver gives names to
    the two shaders. *)
Definition shaders_created {F : Type} (driver : gl_driver) (w : world F)
  : Prop :=
  head (heap_outcomes (memory w)) <> Some false
  /\ vertex_shader_name driver <> 0
  /\ fragment_shader_name driver <> 0.

(** The second state has the calls of the first and then others, and the
    live blocks of the first. *)
Definition goes_on {F : Type} (w w' : world F) : Prop :=
  (exists l, calls w' = calls w ++ l)
  /\ (heap_wf (memory w) ->
      heap_wf (memory w') /\ heap_live (memory w') = heap_live (memory w)).

(** A step of the block of the locations changes the locations only, and
    leaves for [error] only when the assertions are compiled out. *)
Definition loc_step {F : Type} (NDEBUG : bool) (m : prog (F := F) bool)
  : Prop :=
  forall w b w',
    m w = Returns (b, w') ->
    goes_on w w'
    /\ (exists l, the_renderer w' = set_loc l (the_renderer w))
    /\ (b = false -> NDEBUG = true).

(** A step that always goes on, and a piece of code that always
    returns. *)
Definition finds {F : Type} (m : prog (F := F) bool) : Prop :=
  forall w, exists w', m w = Returns (true, w').

Definition returns {F A : Type} (m : prog (F := F) A) : Prop :=
  forall w, exists a w', m w = Returns (a, w').

End Link.

(** *** A program and its drivers *)

Module LinkExample.
Import Link.
Import String.StringSyntax.
Local Open Scope string_scope.

Definition driver : gl_driver := {|
  vertex_shader_name := 1;
  fragment_shader_name := 2;
  update_textures_set := true;
  prepare_shader_set := true;
  fetch_locations := Some VLC_SUCCESS;
  shader_info_log_length := fun _ => 0;
  program_name := 3;
  program_info_log_length := 0;
  program_link_status := true;
  uniform_location := fun s => Z.of_nat (String.length s);
  attrib_location := fun s => Z.of_nat (String.length s)
|}.

(** A driver that has no fragment shader, and one whose program has no
    variable ViewMatrix. *)
Definition driver_without_fragment_shader : gl_driver := {|
  vertex_shader_name := 1;
  fragment_shader_name := 0;
  update_textures_set := true;
  prepare_shader_set := true;
  fetch_locations := Some VLC_SUCCESS;
  shader_info_log_length := fun _ => 0;
  program_name := 3;
  program_info_log_length := 0;
  program_link_status := true;
  uniform_location := fun s => Z.of_nat (String.length s);
  attrib_location := fun s => Z.of_nat (String.length s)
|}.

Definition driver_without_ViewMatrix : gl_driver := {|
  vertex_shader_name := 1;
  fragment_shader_name := 2;
  update_textures_set := true;
  prepare_shader_set := true;
  fetch_locations := Some VLC_SUCCESS;
  shader_info_log_length := fun _ => 0;
  program_name := 3;
  program_info_log_length := 0;
  program_link_status := true;
  uniform_location :=
    fun s => if String.eqb s "ViewMatrix" then -1
             else Z.of_nat (String.length s);
  attrib_location := fun s => Z.of_nat (String.length s)
|}.

Definition world0 : world spec_float :=
  {| calls := []; memory := Examples.heap_with [];
     the_renderer := Examples.renderer PROJECTION_MODE_RECTANGULAR MULTIVIEW_2D |}.

Definition linked := opengl_link_program false driver 120 false world0.

(** The state that the call above leaves. *)
Definition linked_world : world spec_float :=
  match linked with
  | Returns (_, w) => w
  | Stops => world0
  end.

(** The same with a driver that has no fragment shader. *)
Definition no_fragment :=
  opengl_link_program false driver_without_fragment_shader 120 false world0.

Definition no_fragment_world : world spec_float :=
  match no_fragment with
  | Returns (_, w) => w
  | Stops => world0
  end.

(** The same with the assertions compiled out and a program that has no
    variable ViewMatrix. *)
Definition not_linked :=
  opengl_link_program true driver_without_ViewMatrix 120 false world0.

Definition not_linked_world : world spec_float :=
  match not_linked with
  | Returns (_, w) => w
  | Stops => world0
  end.

End LinkExample.

(** * Properties *)

(** ** The comparisons of the two instances *)

Lemma SFcompare_refl (x : spec_float) :
  SFcompare x x = Some Eq \/ SFcompare x x = None.
Proof.
  destruct x as [s | s | | s m e]; simpl; auto.
  - destruct s; auto.
  - rewrite Z.compare_refl, Pos.compare_cont_refl. destruct s; auto.
Qed.

Lemma SFcompare_antisym (x y : spec_float) :
  SFcompare y x = option_map CompOpp (SFcompare x y).
Proof.
  destruct x as [sx | sx | | sx mx ex], y as [sy | sy | | sy my ey];
    simpl; try reflexivity;
    try (destruct sx; reflexivity); try (destruct sy; reflexivity);
    try (destruct sx, sy; reflexivity).
  assert (Hc : Pos.compare_cont Eq my mx = CompOpp (Pos.compare_cont Eq mx my))
    by (rewrite Pos.compare_cont_antisym; reflexivity).
  rewrite (Z.compare_antisym ex ey), Hc.
  destruct sx, sy; simpl; try reflexivity;
    destruct (ex ?= ey); simpl; try reflexivity;
    destruct (Pos.compare_cont Eq mx my); reflexivity.
Qed.

Lemma compare_refl (x : spec_float) :
  Binary.compare x x = Some Eq \/ Binary.compare x x = None.
Proof.
  unfold Binary.compare. destruct (Binary.is_number x); cbn [andb].
  - left. f_equal. apply Qeq_alt. reflexivity.
  - apply SFcompare_refl.
Qed.

Lemma compare_antisym (x y : spec_float) :
  Binary.compare y x = option_map CompOpp (Binary.compare x y).
Proof.
  unfold Binary.compare.
  destruct (Binary.is_number x), (Binary.is_number y); cbn [andb option_map];
    try apply SFcompare_antisym.
  rewrite Qcompare_antisym. reflexivity.
Qed.

(** Two numbers are compared as their values are. *)
Lemma leb_numbers (x y : spec_float) :
  Binary.is_number x = true -> Binary.is_number y = true ->
  Binary.leb x y = true <-> (SF2Q x <= SF2Q y)%Q.
Proof.
  intros Hx Hy. unfold Binary.leb, Binary.compare. rewrite Hx, Hy.
  cbn [andb]. rewrite Qle_alt.
  destruct (SF2Q x ?= SF2Q y)%Q; split; congruence.
Qed.

Lemma ltb_numbers (x y : spec_float) :
  Binary.is_number x = true -> Binary.is_number y = true ->
  Binary.ltb x y = true <-> (SF2Q x < SF2Q y)%Q.
Proof.
  intros Hx Hy. unfold Binary.ltb, Binary.compare. rewrite Hx, Hy.
  cbn [andb]. rewrite Qlt_alt.
  destruct (SF2Q x ?= SF2Q y)%Q; split; congruence.
Qed.

(** A NaN is neither below nor above a value. *)
Lemma ltb_nan_l (x : spec_float) : Binary.ltb S754_nan x = false.
Proof. reflexivity. Qed.

Lemma ltb_nan_r (x : spec_float) : Binary.ltb x S754_nan = false.
Proof. destruct x as [[|] | [|] | | [|] m e]; reflexivity. Qed.

Lemma leb_nan_l (x : spec_float) : Binary.leb S754_nan x = false.
Proof. reflexivity. Qed.

Lemma leb_nan_r (x : spec_float) : Binary.leb x S754_nan = false.
Proof. destruct x as [[|] | [|] | | [|] m e]; reflexivity. Qed.

#[export] Instance binary_order (lm : Binary.libm) :
  @FloatOrder spec_float (Binary.binary_ops lm).
Proof.
  split; simpl.
  - intros x. unfold Binary.ltb.
    destruct (compare_refl x) as [-> | ->]; reflexivity.
  - intros x y. unfold Binary.leb, Binary.ltb.
    destruct (Binary.compare x y) as [[] |]; simpl; congruence.
  - intros x y. unfold Binary.leb, Binary.ltb. rewrite (compare_antisym x y).
    destruct (Binary.compare x y) as [[] |]; simpl; congruence.
Qed.

(** What is not a NaN compares with everything that is not. *)
Lemma compare_numbers (x y : spec_float) :
  x <> S754_nan -> y <> S754_nan -> exists c, Binary.compare x y = Some c.
Proof.
  intros Hx Hy. unfold Binary.compare.
  destruct x as [sx | sx | | sx mx ex]; try congruence;
    destruct y as [sy | sy | | sy my ey]; try congruence;
    cbn [Binary.is_number andb SFcompare]; eexists; reflexivity.
Qed.

Lemma leb_self_number (x : spec_float) :
  Binary.leb x x = true -> x <> S754_nan.
Proof. intros H ->. discriminate H. Qed.

#[export] Instance binary_total (lm : Binary.libm) :
  @FloatTotal spec_float (Binary.binary_ops lm).
Proof.
  split. simpl. intros x y Hx Hy.
  apply leb_self_number in Hx, Hy.
  destruct (compare_numbers x y Hx Hy) as (c & E).
  unfold Binary.leb, Binary.ltb. rewrite (compare_antisym x y), E.
  destruct c; simpl; auto.
Qed.

(** The order of the values is transitive.  Below a number that is below
    another, and above a number that is above another. *)
Lemma leb_below (x a t : spec_float) :
  Binary.is_number a = true -> Binary.is_number t = true ->
  Binary.leb a t = true -> Binary.leb x a = true -> Binary.leb x t = true.
Proof.
  intros Ha Ht Hat Hxa.
  destruct (Binary.is_number x) eqn:Hx.
  - apply leb_numbers in Hat, Hxa; try assumption.
    apply leb_numbers; try assumption.
    eapply Qle_trans; eassumption.
  - destruct x as [sx | sx | | sx mx ex]; try discriminate Hx.
    + destruct a as [sa | sa | | sa ma ea]; try discriminate Ha;
        destruct sx; try discriminate Hxa;
        destruct t as [st | st | | st mt et]; try discriminate Ht;
        reflexivity.
    + discriminate Hxa.
Qed.

Lemma leb_above (x a t : spec_float) :
  Binary.is_number a = true -> Binary.is_number t = true ->
  Binary.ltb t a = true -> Binary.leb a x = true -> Binary.leb x t = false.
Proof.
  intros Ha Ht Hta Hax.
  destruct (Binary.is_number x) eqn:Hx.
  - apply ltb_numbers in Hta; try assumption.
    apply leb_numbers in Hax; try assumption.
    destruct (Binary.leb x t) eqn:E; [| reflexivity].
    apply leb_numbers in E; try assumption.
    exfalso. apply (Qlt_irrefl (SF2Q t)).
    eapply Qlt_le_trans; [exact Hta |].
    eapply Qle_trans; eassumption.
  - destruct x as [sx | sx | | sx mx ex]; try discriminate Hx.
    + destruct a as [sa | sa | | sa ma ea]; try discriminate Ha;
        destruct sx; try discriminate Hax;
        destruct t as [st | st | | st mt et]; try discriminate Ht;
        reflexivity.
    + reflexivity.
Qed.

#[export] Instance real_order : @FloatOrder R Exact.real_ops.
Proof.
  split; simpl; unfold Exact.Rltb, Exact.Rleb.
  - intros x. destruct (Rlt_dec x x) as [Hlt | _]; [lra | reflexivity].
  - intros x y. destruct (Rlt_dec x y), (Rle_dec x y); first [lra | congruence].
  - intros x y. destruct (Rle_dec x y), (Rlt_dec y x); first [lra | congruence].
Qed.

#[export] Instance real_total : @FloatTotal R Exact.real_ops.
Proof.
  split. simpl. unfold Exact.Rltb, Exact.Rleb. intros x y _ _.
  destruct (Rle_dec x y), (Rlt_dec y x); auto; lra.
Qed.

(** ** The matrix module *)

Section MatrixProperties.
Context {F : Type} `{FloatOps F}.

Lemma identity_table : identity = map float_of_int (orientation_table ORIENT_NORMAL).
Proof. reflexivity. Qed.

Lemma getOrientationTransformMatrix_table (o : video_orientation_t) :
  getOrientationTransformMatrix o = map float_of_int (orientation_table o).
Proof. destruct o; reflexivity. Qed.

Lemma getOrientationTransformMatrix_length (o : video_orientation_t) :
  length (getOrientationTransformMatrix o) = 16%nat.
Proof. destruct o; reflexivity. Qed.

End MatrixProperties.

(** Every entry of the table is -1, 0 or 1: a cosine or sine of a multiple
    of a quarter turn, a unit translation or a unit scale. *)
Lemma orientation_table_entries (o : video_orientation_t) :
  Forall (fun n => n = -1 \/ n = 0 \/ n = 1) (orientation_table o).
Proof. destruct o; simpl; repeat (constructor; [lia |]); constructor. Qed.

Lemma orientation_table_action (o : video_orientation_t) (s t : Z) :
  apply_table (orientation_table o) s t =
  match o with
  | ORIENT_NORMAL => (s, t)
  | ORIENT_HFLIPPED => (1 - s, t)
  | ORIENT_VFLIPPED => (s, 1 - t)
  | ORIENT_ROTATED_180 => (1 - s, 1 - t)
  | ORIENT_TRANSPOSED => (t, s)
  | ORIENT_ANTI_TRANSPOSED => (1 - t, 1 - s)
  | ORIENT_ROTATED_90 => (t, 1 - s)
  | ORIENT_ROTATED_270 => (1 - t, s)
  end.
Proof. destruct o; unfold apply_table; simpl; f_equal; lia. Qed.

(** C1. For each of the 8 source orientations getOrientationTransformMatrix
    returns exactly the fixed 4x4 matrix of [orientation_table], whatever
    the arithmetic: the 16 entries are the integers of the table converted
    to float, each of them -1, 0 or 1.  For the three rotations the upper
    left block holds the exact cosine and sine of the angle (a quarter
    turn, a half turn, minus a quarter turn), and in binary32 the entries
    are the floats -1.0, +0.0 and 1.0. *)
Theorem C1_orientation_matrix_table :
  (forall (F : Type) (ops : FloatOps F) (o : video_orientation_t),
     getOrientationTransformMatrix o = map float_of_int (orientation_table o)
     /\ length (orientation_table o) = 16%nat
     /\ Forall (fun n => n = -1 \/ n = 0 \/ n = 1) (orientation_table o))
  /\ (forall o : video_orientation_t,
        let m := @getOrientationTransformMatrix R Exact.real_ops o in
        match quarter_turns o with
        | Some k =>
            let angle := (IZR k * (PI / 2))%R in
            nth 0 m 0%R = cos angle /\ nth 1 m 0%R = (- sin angle)%R
            /\ nth 4 m 0%R = sin angle /\ nth 5 m 0%R = cos angle
        | None => True
        end)
  /\ (forall (lm : Binary.libm) (o : video_orientation_t),
        @getOrientationTransformMatrix spec_float (Binary.binary_ops lm) o =
        map (fun n : Z =>
               match n with
               | 0 => S754_zero false
               | Zpos _ => S754_finite false 8388608 (-23)
               | Zneg _ => S754_finite true 8388608 (-23)
               end) (orientation_table o)).
Proof.
  split; [| split].
  - intros F ops o. split; [apply getOrientationTransformMatrix_table |].
    split; [destruct o; reflexivity | apply orientation_table_entries].
  - intros o. destruct o; simpl; trivial; cbv [Z.opp].
    + (* half turn *)
      replace (2 * (PI / 2))%R with PI by lra.
      rewrite cos_PI, sin_PI. repeat split; lra.
    + (* minus a quarter turn *)
      replace (-1 * (PI / 2))%R with (- (PI / 2))%R by lra.
      rewrite cos_neg, sin_neg, cos_PI2, sin_PI2. repeat split; lra.
    + (* a quarter turn *)
      replace (1 * (PI / 2))%R with (PI / 2)%R by lra.
      rewrite cos_PI2, sin_PI2. repeat split; lra.
  - intros lm o. destruct o; reflexivity.
Qed.

(** ** Viewpoint *)

Section ViewpointProperties.
Context {F : Type} `{FloatOrder F}.
Variable vlc_viewpoint_reverse : vlc_viewpoint_t F -> vlc_viewpoint_t F.
Variable vlc_viewpoint_to_4x4 : vlc_viewpoint_t F -> list F.
Variable FIELD_OF_VIEW_DEGREES_MAX : F.
Variable FIELD_OF_VIEW_DEGREES_MIN : F.
Local Open Scope cfloat_scope.

Lemma UpdateFOVy_frame (r : vlc_gl_renderer F) :
  same_but_fov r (UpdateFOVy r) /\ f_fovx (UpdateFOVy r) = f_fovx r
  /\ f_z (UpdateFOVy r) = f_z r.
Proof. unfold same_but_fov, UpdateFOVy. simpl. tauto. Qed.

Lemma UpdateZ_frame (r : vlc_gl_renderer F) :
  same_but_fov r (UpdateZ FIELD_OF_VIEW_DEGREES_MAX r)
  /\ f_fovx (UpdateZ FIELD_OF_VIEW_DEGREES_MAX r) = f_fovx r
  /\ f_fovy (UpdateZ FIELD_OF_VIEW_DEGREES_MAX r) = f_fovy r.
Proof.
  unfold same_but_fov, UpdateZ.
  destruct (fle (f_fovx r) z_thresh_rad); simpl.
  - tauto.
  - match goal with |- context [if ?c then _ else _] => destruct c end;
      simpl; tauto.
Qed.

Lemma UpdateZ_set_vp (v : vlc_viewpoint_t F) (r : vlc_gl_renderer F) :
  UpdateZ FIELD_OF_VIEW_DEGREES_MAX (set_vp v r)
  = set_vp v (UpdateZ FIELD_OF_VIEW_DEGREES_MAX r).
Proof.
  unfold UpdateZ. simpl.
  destruct (fle (f_fovx r) z_thresh_rad); [reflexivity |].
  simpl.
  match goal with |- context [if ?c then _ else _] => destruct c end;
    reflexivity.
Qed.

Lemma getViewpointMatrixes_transforms (r : vlc_gl_renderer F) :
  let r' := getViewpointMatrixes vlc_viewpoint_to_4x4 (projection_mode (fmt r)) r in
  (ProjectionMatrix (var r'), ZoomMatrix (var r'), ViewMatrix (var r'))
    = transforms_of vlc_viewpoint_to_4x4 r'
  /\ OrientationMatrix (var r') = OrientationMatrix (var r)
  /\ fmt r' = fmt r /\ vp r' = vp r /\ f_fovx r' = f_fovx r
  /\ f_fovy r' = f_fovy r /\ f_z r' = f_z r /\ f_sar r' = f_sar r
  /\ last_source r' = last_source r /\ nb_indices r' = nb_indices r
  /\ interop r' = interop r.
Proof.
  unfold transforms_of, getViewpointMatrixes.
  destruct (projection_mode (fmt r)) eqn:E; simpl; rewrite E; tauto.
Qed.

(** C2. In the flat rectangular projection mode getViewpointMatrixes stores
    the identity matrix as ProjectionMatrix, ZoomMatrix and ViewMatrix,
    whatever the field of view, the zoom, the aspect ratio and the
    viewpoint of the renderer; the identity is the matrix with 1.0 on the
    diagonal and 0.0 elsewhere, and nothing else of the renderer changes.
    So does a change of the aspect ratio of the window of a renderer whose
    format is flat. *)
Theorem C2_flat_projection_is_identity :
  (forall r : vlc_gl_renderer F,
     let r' := getViewpointMatrixes vlc_viewpoint_to_4x4
                 PROJECTION_MODE_RECTANGULAR r in
     ProjectionMatrix (var r') = identity
     /\ ZoomMatrix (var r') = identity
     /\ ViewMatrix (var r') = identity
     /\ OrientationMatrix (var r') = OrientationMatrix (var r)
     /\ same_but_fov (set_var (var r') r) r'
     /\ f_fovx r' = f_fovx r /\ f_fovy r' = f_fovy r /\ f_z r' = f_z r)
  /\ @identity F _ =
       map float_of_int [1; 0; 0; 0;  0; 1; 0; 0;  0; 0; 1; 0;  0; 0; 0; 1]
  /\ (forall (r : vlc_gl_renderer F) (sar : F),
        let r' := vlc_gl_renderer_SetWindowAspectRatio vlc_viewpoint_to_4x4
                    FIELD_OF_VIEW_DEGREES_MAX r sar in
        match projection_mode (fmt r) with
        | PROJECTION_MODE_RECTANGULAR =>
            ProjectionMatrix (var r') = identity
            /\ ZoomMatrix (var r') = identity
            /\ ViewMatrix (var r') = identity
        | _ => True
        end).
Proof.
  split; [| split].
  - intros r. unfold same_but_fov. simpl. tauto.
  - reflexivity.
  - intros r sar. unfold vlc_gl_renderer_SetWindowAspectRatio.
    set (r1 := UpdateZ _ (UpdateFOVy (set_f_sar sar r))).
    assert (Hfmt : fmt r1 = fmt r).
    { unfold r1.
      destruct (UpdateZ_frame (UpdateFOVy (set_f_sar sar r))) as [Hz _].
      destruct (UpdateFOVy_frame (set_f_sar sar r)) as [Hy _].
      unfold same_but_fov in Hz, Hy.
      destruct Hz as (_ & _ & -> & _). destruct Hy as (_ & _ & -> & _).
      reflexivity. }
    simpl. rewrite Hfmt.
    destruct (projection_mode (fmt r)); simpl; tauto.
Qed.

End ViewpointProperties.

Section SetViewpointProperties.
Context {F : Type} `{FloatOrder F}.
Variable vlc_viewpoint_reverse : vlc_viewpoint_t F -> vlc_viewpoint_t F.
Variable vlc_viewpoint_to_4x4 : vlc_viewpoint_t F -> list F.
Variable FIELD_OF_VIEW_DEGREES_MAX : F.
Variable FIELD_OF_VIEW_DEGREES_MIN : F.
Local Open Scope cfloat_scope.

Abbreviation SetViewpoint :=
  (vlc_gl_renderer_SetViewpoint vlc_viewpoint_reverse vlc_viewpoint_to_4x4
     FIELD_OF_VIEW_DEGREES_MAX FIELD_OF_VIEW_DEGREES_MIN).

(** A field of view above the maximum or below the minimum is refused. *)
Lemma SetViewpoint_refused (r : vlc_gl_renderer F) (p_vp : vlc_viewpoint_t F) :
  flt FIELD_OF_VIEW_DEGREES_MAX (fov p_vp) = true
  \/ flt (fov p_vp) FIELD_OF_VIEW_DEGREES_MIN = true ->
  SetViewpoint r p_vp = (VLC_EBADVAR, r).
Proof.
  intros Hout. unfold vlc_gl_renderer_SetViewpoint.
  destruct Hout as [-> | ->]; [reflexivity |].
  rewrite orb_true_r. reflexivity.
Qed.

(** The guard lets through every field of view of the legal range. *)
Lemma fov_guard_inside (x : F) :
  fle FIELD_OF_VIEW_DEGREES_MIN x = true ->
  fle x FIELD_OF_VIEW_DEGREES_MAX = true ->
  flt FIELD_OF_VIEW_DEGREES_MAX x || flt x FIELD_OF_VIEW_DEGREES_MIN = false.
Proof.
  intros Hmin Hmax.
  rewrite (fle_not_flt _ _ Hmin), (fle_not_flt _ _ Hmax). reflexivity.
Qed.

(** The zoom that UpdateZ stores, from the two fields of view. *)
Lemma UpdateZ_value (r : vlc_gl_renderer F) :
  let fovx := f_fovx r in
  let tan_fovx_2 := tanf (fovx /! float_of_int 2) in
  let tan_fovy_2 := tanf (f_fovy r /! float_of_int 2) in
  let z_min :=
    fneg (float_of_int 1)
    /! sinf (atanf (sqrtf (tan_fovx_2 *! tan_fovx_2
                           +! tan_fovy_2 *! tan_fovy_2))) in
  let f :=
    float_of_double
      (z_min /!! ((FIELD_OF_VIEW_DEGREES_MAX -! float_of_int 90) *!! M_PI
                  /!! double_of_int 180)) in
  let line :=
    float_of_double
      (f *! fovx -!! f *! float_of_int 90 *!! M_PI /!! double_of_int 180) in
  f_z (UpdateZ FIELD_OF_VIEW_DEGREES_MAX r)
  = if fle fovx (float_of_int 90 *!! M_PI /!! double_of_int 180)
    then float_of_int 0
    else if flt line z_min then z_min else line.
Proof.
  cbv zeta. unfold UpdateZ, z_min_of, z_thresh_rad, z_thresh, SPHERE_RADIUS, f1.
  destruct (fle (f_fovx r) _); [reflexivity |].
  cbn [f_z set_f_z f_fovx].
  match goal with |- context [if ?c then _ else _] => destruct c end;
    reflexivity.
Qed.

(** C4. A viewpoint whose field of view is in the legal range is accepted
    with VLC_SUCCESS.  The renderer then holds the reversed viewpoint, and
    its three matrices are those of its projection mode for the state it
    is left in.  With new the field of view in radians, fov * (float) M_PI
    / 180, when the test fabsf (new - f_fovx) >= 0.001f of the code holds:
    f_fovx becomes new, f_fovy becomes 2 * atanf (tanf (new / 2) / f_sar),
    and f_z becomes 0 when new is at most 90.f * M_PI / 180 and otherwise
    the value at new of the line f * new - f * 90.f * M_PI / 180, with f =
    z_min / ((FIELD_OF_VIEW_DEGREES_MAX - 90.f) * M_PI / 180), replaced by
    z_min when it is below z_min = - 1.f / sinf (atanf (sqrtf (tan^2 (new /
    2) + tan^2 (f_fovy / 2)))).  When the test does not hold, the three
    keep their values.  So the field of view is stored when it differs
    from the stored one by more than 0.001f, and is not when it differs by
    less.  Nothing else of the renderer changes. *)
Theorem C4_SetViewpoint_accepts_fov_in_range
    (r : vlc_gl_renderer F) (p_vp : vlc_viewpoint_t F) :
  fle FIELD_OF_VIEW_DEGREES_MIN (fov p_vp) = true ->
  fle (fov p_vp) FIELD_OF_VIEW_DEGREES_MAX = true ->
  let new := fov p_vp *! M_PI_f /! float_of_int 180 in
  let distance := fabsf (new -! f_fovx r) in
  let new_fovy :=
    float_of_int 2 *! atanf (tanf (new /! float_of_int 2) /! f_sar r) in
  let tan_fovx_2 := tanf (new /! float_of_int 2) in
  let tan_fovy_2 := tanf (new_fovy /! float_of_int 2) in
  let z_min :=
    fneg (float_of_int 1)
    /! sinf (atanf (sqrtf (tan_fovx_2 *! tan_fovx_2
                           +! tan_fovy_2 *! tan_fovy_2))) in
  let f :=
    float_of_double
      (z_min /!! ((FIELD_OF_VIEW_DEGREES_MAX -! float_of_int 90) *!! M_PI
                  /!! double_of_int 180)) in
  let line :=
    float_of_double
      (f *! new -!! f *! float_of_int 90 *!! M_PI /!! double_of_int 180) in
  let new_z :=
    if fle new (float_of_int 90 *!! M_PI /!! double_of_int 180)
    then float_of_int 0
    else if flt line z_min then z_min else line in
  let r' := snd (SetViewpoint r p_vp) in
  fst (SetViewpoint r p_vp) = VLC_SUCCESS
  /\ vp r' = vlc_viewpoint_reverse p_vp
  /\ (ProjectionMatrix (var r'), ZoomMatrix (var r'), ViewMatrix (var r'))
       = transforms_of vlc_viewpoint_to_4x4 r'
  /\ (if fle (float_lit 1 1000) distance
      then f_fovx r' = new /\ f_fovy r' = new_fovy /\ f_z r' = new_z
      else f_fovx r' = f_fovx r /\ f_fovy r' = f_fovy r /\ f_z r' = f_z r)
  /\ (flt (float_lit 1 1000) distance = true -> f_fovx r' = new)
  /\ (flt distance (float_lit 1 1000) = true -> f_fovx r' = f_fovx r)
  /\ OrientationMatrix (var r') = OrientationMatrix (var r)
  /\ f_sar r' = f_sar r /\ fmt r' = fmt r /\ interop r' = interop r
  /\ last_source r' = last_source r /\ nb_indices r' = nb_indices r.
Proof.
  intros Hmin Hmax new distance new_fovy tan_fovx_2 tan_fovy_2 z_min f line
    new_z.
  unfold vlc_gl_renderer_SetViewpoint.
  rewrite (fov_guard_inside _ Hmin Hmax).
  fold new. fold distance.
  set (r1 := set_vp (vlc_viewpoint_reverse p_vp) r).
  change (f_fovx r1) with (f_fovx r). fold distance.
  set (r2 := if fle (float_lit 1 1000) distance
             then UpdateZ FIELD_OF_VIEW_DEGREES_MAX
                    (UpdateFOVy (set_f_fovx new r1))
             else r1).
  cbn [fst snd]. cbv zeta.
  assert (Hframe : same_but_fov r1 r2).
  { unfold r2. destruct (fle (float_lit 1 1000) distance).
    - destruct (UpdateZ_frame FIELD_OF_VIEW_DEGREES_MAX
                  (UpdateFOVy (set_f_fovx new r1))) as [Hz _].
      unfold same_but_fov in *. simpl in Hz. exact Hz.
    - unfold same_but_fov. tauto. }
  assert (Hfov :
    if fle (float_lit 1 1000) distance
    then f_fovx r2 = new /\ f_fovy r2 = new_fovy /\ f_z r2 = new_z
    else f_fovx r2 = f_fovx r /\ f_fovy r2 = f_fovy r /\ f_z r2 = f_z r).
  { unfold r2. destruct (fle (float_lit 1 1000) distance).
    - destruct (UpdateZ_frame FIELD_OF_VIEW_DEGREES_MAX
                  (UpdateFOVy (set_f_fovx new r1))) as (_ & -> & ->).
      split; [reflexivity |]. split; [reflexivity |].
      rewrite UpdateZ_value. reflexivity.
    - simpl. tauto. }
  destruct (getViewpointMatrixes_transforms vlc_viewpoint_to_4x4 r2)
    as (Ht & Ho & Hf & Hv & Hx & Hy & Hz & Hs & Hl & Hn & Hin).
  cbv zeta in Ht, Ho, Hf, Hv, Hx, Hy, Hz, Hs, Hl, Hn, Hin.
  unfold same_but_fov in Hframe.
  destruct Hframe as (Hi & _ & Hfmt & Hls & _ & Hvar & _ & _ & _ & Hnb
                      & _ & _ & _ & Hvp & Hsar).
  rewrite Hx, Hy, Hz, Hv, Ho, Hs, Hf, Hl, Hn, Hin.
  split; [reflexivity |].
  split; [rewrite Hvp; reflexivity |].
  split; [exact Ht |].
  split; [exact Hfov |].
  split.
  { intros Hgt. rewrite (flt_fle _ _ Hgt) in Hfov. apply Hfov. }
  split.
  { intros Hlt. destruct (fle (float_lit 1 1000) distance) eqn:E.
    - rewrite (fle_not_flt _ _ E) in Hlt. discriminate.
    - apply Hfov. }
  rewrite Hvar, Hsar, Hfmt, Hi, Hls, Hnb. repeat split; reflexivity.
Qed.

End SetViewpointProperties.

(** In binary32 a field of view that is not a number passes the guard of
    SetViewpoint and fails its test of 0.001f: the reversed viewpoint is
    stored, the matrices are computed, and the fields of view and the zoom
    stay. *)
Lemma SetViewpoint_nan_accepted
    (lm : Binary.libm)
    (vlc_viewpoint_reverse : vlc_viewpoint_t spec_float -> vlc_viewpoint_t spec_float)
    (vlc_viewpoint_to_4x4 : vlc_viewpoint_t spec_float -> list spec_float)
    (FIELD_OF_VIEW_DEGREES_MAX FIELD_OF_VIEW_DEGREES_MIN : spec_float)
    (r : vlc_gl_renderer spec_float) (p_vp : vlc_viewpoint_t spec_float) :
  fov p_vp = S754_nan ->
  @vlc_gl_renderer_SetViewpoint spec_float (Binary.binary_ops lm)
    vlc_viewpoint_reverse vlc_viewpoint_to_4x4
    FIELD_OF_VIEW_DEGREES_MAX FIELD_OF_VIEW_DEGREES_MIN r p_vp
  = (VLC_SUCCESS,
     @getViewpointMatrixes spec_float (Binary.binary_ops lm)
       vlc_viewpoint_to_4x4 (projection_mode (fmt r))
       (set_vp (vlc_viewpoint_reverse p_vp) r)).
Proof.
  intros Hnan. unfold vlc_gl_renderer_SetViewpoint. rewrite Hnan.
  cbn [flt fle fmul fdiv fsub fabsf Binary.binary_ops].
  rewrite ltb_nan_r, ltb_nan_l. cbn [orb].
  assert (Hconv :
    SFdiv Binary.prec32 Binary.emax32
      (SFmul Binary.prec32 Binary.emax32 S754_nan
         (@M_PI_f spec_float (Binary.binary_ops lm)))
      (@float_of_int spec_float (Binary.binary_ops lm) 180)
    = S754_nan) by reflexivity.
  rewrite Hconv.
  assert (Hdist : forall x, SFabs (SFsub Binary.prec32 Binary.emax32 S754_nan x)
                            = S754_nan).
  { intros x. destruct x as [[|] | [|] | | [|] m e]; reflexivity. }
  rewrite Hdist, leb_nan_r. reflexivity.
Qed.

(** C3, as the code has it.  In any arithmetic where numbers are
    comparable, a viewpoint whose field of view is a number that is not in
    the legal range, from FIELD_OF_VIEW_DEGREES_MIN to
    FIELD_OF_VIEW_DEGREES_MAX, is refused with VLC_EBADVAR, which is not
    VLC_SUCCESS, and the renderer is returned as it was: the stored
    viewpoint, f_fovx, f_fovy, f_z and the matrices with every other field.
    In binary32 a field of view that is not a number is not in the range
    either, and is accepted: SetViewpoint returns VLC_SUCCESS with the
    reversed viewpoint stored and the matrices computed anew, and f_fovx,
    f_fovy and f_z keep their values. *)
Theorem C3_SetViewpoint_rejects_fov_out_of_range :
  (forall (F : Type) (ops : FloatOps F) (total : FloatTotal F)
          (vlc_viewpoint_reverse : vlc_viewpoint_t F -> vlc_viewpoint_t F)
          (vlc_viewpoint_to_4x4 : vlc_viewpoint_t F -> list F)
          (FIELD_OF_VIEW_DEGREES_MAX FIELD_OF_VIEW_DEGREES_MIN : F)
          (r : vlc_gl_renderer F) (p_vp : vlc_viewpoint_t F),
     fle (fov p_vp) (fov p_vp) = true ->
     fle FIELD_OF_VIEW_DEGREES_MIN FIELD_OF_VIEW_DEGREES_MIN = true ->
     fle FIELD_OF_VIEW_DEGREES_MAX FIELD_OF_VIEW_DEGREES_MAX = true ->
     fle FIELD_OF_VIEW_DEGREES_MIN (fov p_vp)
     && fle (fov p_vp) FIELD_OF_VIEW_DEGREES_MAX = false ->
     vlc_gl_renderer_SetViewpoint vlc_viewpoint_reverse vlc_viewpoint_to_4x4
       FIELD_OF_VIEW_DEGREES_MAX FIELD_OF_VIEW_DEGREES_MIN r p_vp
     = (VLC_EBADVAR, r)
     /\ VLC_EBADVAR <> VLC_SUCCESS)
  /\ (forall (lm : Binary.libm)
             (vlc_viewpoint_reverse
                : vlc_viewpoint_t spec_float -> vlc_viewpoint_t spec_float)
             (vlc_viewpoint_to_4x4 : vlc_viewpoint_t spec_float -> list spec_float)
             (FIELD_OF_VIEW_DEGREES_MAX FIELD_OF_VIEW_DEGREES_MIN : spec_float)
             (r : vlc_gl_renderer spec_float)
             (p_vp : vlc_viewpoint_t spec_float),
        fov p_vp = S754_nan ->
        let r' :=
          snd (@vlc_gl_renderer_SetViewpoint spec_float (Binary.binary_ops lm)
                 vlc_viewpoint_reverse vlc_viewpoint_to_4x4
                 FIELD_OF_VIEW_DEGREES_MAX FIELD_OF_VIEW_DEGREES_MIN r p_vp) in
        Binary.leb FIELD_OF_VIEW_DEGREES_MIN (fov p_vp)
        && Binary.leb (fov p_vp) FIELD_OF_VIEW_DEGREES_MAX = false
        /\ @vlc_gl_renderer_SetViewpoint spec_float (Binary.binary_ops lm)
             vlc_viewpoint_reverse vlc_viewpoint_to_4x4
             FIELD_OF_VIEW_DEGREES_MAX FIELD_OF_VIEW_DEGREES_MIN r p_vp
           = (VLC_SUCCESS,
              @getViewpointMatrixes spec_float (Binary.binary_ops lm)
                vlc_viewpoint_to_4x4 (projection_mode (fmt r))
                (set_vp (vlc_viewpoint_reverse p_vp) r))
        /\ vp r' = vlc_viewpoint_reverse p_vp
        /\ f_fovx r' = f_fovx r /\ f_fovy r' = f_fovy r /\ f_z r' = f_z r).
Proof.
  split.
  - intros F ops total rev to_4x4 MAX MIN r p_vp Hfov Hmin Hmax Hout.
    split; [| discriminate].
    unfold vlc_gl_renderer_SetViewpoint.
    apply andb_false_iff in Hout as [Hlow | Hhigh].
    + destruct (fle_total _ _ Hmin Hfov) as [Hc | Hc]; [congruence |].
      rewrite Hc, orb_true_r. reflexivity.
    + destruct (fle_total _ _ Hfov Hmax) as [Hc | Hc]; [congruence |].
      rewrite Hc. reflexivity.
  - intros lm rev to_4x4 MAX MIN r p_vp Hnan r'. split.
    + rewrite Hnan, leb_nan_r. reflexivity.
    + unfold r'.
      rewrite (SetViewpoint_nan_accepted lm rev to_4x4 MAX MIN r p_vp Hnan).
      split; [reflexivity |]. cbn [snd].
      destruct (projection_mode (fmt r)); repeat split; reflexivity.
Qed.

(** A field of view that is not a number is outside the legal range and
    SetViewpoint does not refuse it: it returns VLC_SUCCESS, and the
    renderer it returns holds another viewpoint than the one it held. *)
Lemma C3_counterexample_nan_fov :
  Binary.leb Examples.FOV_MIN (fov Examples.nan_viewpoint)
  && Binary.leb (fov Examples.nan_viewpoint) Examples.FOV_MAX = false
  /\ fst (@vlc_gl_renderer_SetViewpoint spec_float Examples.ops
            Examples.reverse Examples.to_4x4 Examples.FOV_MAX Examples.FOV_MIN
            (Examples.renderer PROJECTION_MODE_EQUIRECTANGULAR MULTIVIEW_2D)
            Examples.nan_viewpoint)
     = VLC_SUCCESS
  /\ vp (snd (@vlc_gl_renderer_SetViewpoint spec_float Examples.ops
                Examples.reverse Examples.to_4x4
                Examples.FOV_MAX Examples.FOV_MIN
                (Examples.renderer PROJECTION_MODE_EQUIRECTANGULAR MULTIVIEW_2D)
                Examples.nan_viewpoint))
     = Examples.reverse Examples.nan_viewpoint
  /\ Examples.reverse Examples.nan_viewpoint
     <> vp (Examples.renderer PROJECTION_MODE_EQUIRECTANGULAR MULTIVIEW_2D).
Proof.
  split; [reflexivity |]. split; [reflexivity |]. split; [reflexivity |].
  intros E. apply (f_equal fov) in E. vm_compute in E. discriminate E.
Qed.

(** A field of view of 200 degrees is refused, VLC's bounds being 20 and
    150 degrees. *)
Lemma C3_witness_fov_200 :
  Binary.leb (fov (Examples.viewpoint 200)) (fov (Examples.viewpoint 200)) = true
  /\ Binary.leb Examples.FOV_MIN (fov (Examples.viewpoint 200))
     && Binary.leb (fov (Examples.viewpoint 200)) Examples.FOV_MAX = false
  /\ @vlc_gl_renderer_SetViewpoint spec_float Examples.ops
       Examples.reverse Examples.to_4x4 Examples.FOV_MAX Examples.FOV_MIN
       (Examples.renderer PROJECTION_MODE_EQUIRECTANGULAR MULTIVIEW_2D)
       (Examples.viewpoint 200)
     = (VLC_EBADVAR,
        Examples.renderer PROJECTION_MODE_EQUIRECTANGULAR MULTIVIEW_2D).
Proof.
  split; [reflexivity |]. split; [reflexivity |].
  exact (proj1 (proj1 C3_SetViewpoint_rejects_fov_out_of_range
                  spec_float Examples.ops (binary_total Examples.libm_nan)
                  Examples.reverse Examples.to_4x4
                  Examples.FOV_MAX Examples.FOV_MIN
                  (Examples.renderer PROJECTION_MODE_EQUIRECTANGULAR
                     MULTIVIEW_2D)
                  (Examples.viewpoint 200)
                  eq_refl eq_refl eq_refl eq_refl)).
Defined.

(** A field of view of 80 degrees, in a square window, on a renderer that
    has none yet: it is accepted and the reversed viewpoint stored; f_fovx
    and f_fovy become 11712707 * 2^-23, about 1.3962635 radians, and the
    zoom +0.0, 80 degrees being below the threshold of UpdateZ. *)
Lemma C4_witness_fov_80 :
  Binary.leb Examples.FOV_MIN (fov (Examples.viewpoint 80)) = true
  /\ Binary.leb (fov (Examples.viewpoint 80)) Examples.FOV_MAX = true
  /\ fst (ZoomExample.SetViewpoint 80) = VLC_SUCCESS
  /\ vp (snd (ZoomExample.SetViewpoint 80))
     = Examples.reverse (Examples.viewpoint 80)
  /\ f_fovx (snd (ZoomExample.SetViewpoint 80))
     = S754_finite false 11712707 (-23)
  /\ f_fovy (snd (ZoomExample.SetViewpoint 80))
     = S754_finite false 11712707 (-23)
  /\ f_z (snd (ZoomExample.SetViewpoint 80)) = S754_zero false.
Proof.
  split; [reflexivity |]. split; [reflexivity |].
  pose proof
    (@C4_SetViewpoint_accepts_fov_in_range spec_float ZoomExample.ops
       (binary_order ZoomExample.libm_table)
       Examples.reverse Examples.to_4x4 Examples.FOV_MAX Examples.FOV_MIN
       (Examples.renderer PROJECTION_MODE_EQUIRECTANGULAR MULTIVIEW_2D)
       (Examples.viewpoint 80) eq_refl eq_refl) as Hspec.
  cbv zeta in Hspec.
  destruct Hspec as (Hret & Hvp & _ & Hfov & _).
  fold (ZoomExample.SetViewpoint 80) in Hret, Hvp, Hfov.
  split; [exact Hret |]. split; [exact Hvp |].
  match type of Hfov with
  | if ?test then _ else _ =>
      replace test with true in Hfov by (vm_compute; reflexivity)
  end.
  destruct Hfov as (-> & -> & ->).
  repeat split; vm_compute; reflexivity.
Defined.

(** ** The minimum zoom *)

Section UpdateZProperties.
Context {F : Type} `{FloatOrder F}.
Variable FIELD_OF_VIEW_DEGREES_MAX : F.

(** At or below the threshold of 90 degrees the zoom is 0. *)
Lemma UpdateZ_below_threshold (r : vlc_gl_renderer F) :
  fle (f_fovx r) z_thresh_rad = true ->
  f_z (UpdateZ FIELD_OF_VIEW_DEGREES_MAX r) = float_of_int 0.
Proof. intros Hle. unfold UpdateZ. rewrite Hle. reflexivity. Qed.


End UpdateZProperties.

Lemma z_min_of_real (fovx fovy : R) :
  @z_min_of R Exact.real_ops fovx fovy = z_min_formula 1 fovx fovy.
Proof. reflexivity. Qed.

(** The threshold of UpdateZ in binary32, 90.f * M_PI / 180 computed in
    double, lies between two floats that follow each other. *)
Lemma z_thresh_rad_between (lm : Binary.libm) :
  @z_thresh_rad spec_float (Binary.binary_ops lm)
  = S754_finite false 7074237752028440 (-52)
  /\ Binary.leb ZoomExample.below_threshold
       (@z_thresh_rad spec_float (Binary.binary_ops lm)) = true
  /\ Binary.ltb (@z_thresh_rad spec_float (Binary.binary_ops lm))
       ZoomExample.above_threshold = true.
Proof. repeat split; vm_compute; reflexivity. Qed.

(** A field of view at most the float below the threshold is at most the
    threshold, and one that is at least the float above it is not. *)
Lemma z_thresh_rad_floats (lm : Binary.libm) (x : spec_float) :
  (Binary.leb x ZoomExample.below_threshold = true ->
   @fle _ (Binary.binary_ops lm) x (@z_thresh_rad _ (Binary.binary_ops lm))
   = true)
  /\ (Binary.leb ZoomExample.above_threshold x = true ->
      @fle _ (Binary.binary_ops lm) x (@z_thresh_rad _ (Binary.binary_ops lm))
      = false).
Proof.
  destruct (z_thresh_rad_between lm) as (E & Hlow & Hhigh).
  rewrite E in *. cbn [fle Binary.binary_ops]. split; intros Hx.
  - exact (leb_below x ZoomExample.below_threshold
             (S754_finite false 7074237752028440 (-52))
             eq_refl eq_refl Hlow Hx).
  - exact (leb_above x ZoomExample.above_threshold
             (S754_finite false 7074237752028440 (-52))
             eq_refl eq_refl Hhigh Hx).
Qed.




(** ** Loops and arrays *)

Lemma for_loop_S {S : Type} (n : nat) (body : nat -> S -> S) (s : S) :
  for_loop (Datatypes.S n) body s = body n (for_loop n body s).
Proof. unfold for_loop. rewrite seq_S, fold_left_app. reflexivity. Qed.

(** An invariant of the iterations holds when the loop ends. *)
Lemma for_loop_ind {S : Type} (P : nat -> S -> Prop) (n : nat)
    (body : nat -> S -> S) (s : S) :
  P 0%nat s ->
  (forall i s, (i < n)%nat -> P i s -> P (Datatypes.S i) (body i s)) ->
  P n (for_loop n body s).
Proof.
  intros H0 Hstep.
  assert (Hk : forall k, (k <= n)%nat -> P k (for_loop k body s)).
  { induction k as [| k IH]; intros Hle.
    - exact H0.
    - rewrite for_loop_S. apply Hstep; [lia |]. apply IH. lia. }
  apply Hk. lia.
Qed.

Section ArrayProperties.
Context {F : Type}.
Variable indeterminate_float : nat -> F.
Abbreviation get := (at_ indeterminate_float).

Lemma at_insert_eq (l : list F) (i : nat) (v : F) :
  (i < length l)%nat -> get (<[i := v]> l) i = v.
Proof.
  intros Hi. unfold at_. rewrite nth_lookup.
  rewrite list_lookup_insert_eq by exact Hi. reflexivity.
Qed.

Lemma at_insert_ne (l : list F) (i j : nat) (v : F) :
  i <> j -> get (<[i := v]> l) j = get l j.
Proof.
  intros Hij. unfold at_. rewrite !nth_lookup.
  rewrite list_lookup_insert_ne by exact Hij. reflexivity.
Qed.

End ArrayProperties.

(** ** The crop for stereo *)

Section StereoCropProperties.
Context {F : Type} `{FloatOps F}.
Variable indeterminate_float : nat -> F.
Abbreviation get := (at_ indeterminate_float).
Local Open Scope cfloat_scope.

(** GetTextureCropParamsForStereo crops each of the first planes on its
    own, and leaves the others. *)
Lemma GetTextureCropParamsForStereo_plane (n : nat)
    (stereoCoefs stereoOffsets : list F) (r : rects F) (i : nat) :
  rects_hold n r ->
  plane_rect indeterminate_float
    (GetTextureCropParamsForStereo indeterminate_float n
       stereoCoefs stereoOffsets r) i
  = if (i <? n)%nat
    then
      let '(l, t, r_, b) := plane_rect indeterminate_float r i in
      crop_plane (get stereoCoefs 0) (get stereoCoefs 1)
        (get stereoOffsets 0) (get stereoOffsets 1) l t r_ b
    else plane_rect indeterminate_float r i.
Proof.
  intros (Hl & Ht & Hr & Hb).
  unfold GetTextureCropParamsForStereo.
  revert i.
  apply (for_loop_ind
    (fun k (r' : rects F) =>
       (length (rect_left r') = length (rect_left r)
        /\ length (rect_top r') = length (rect_top r)
        /\ length (rect_right r') = length (rect_right r)
        /\ length (rect_bottom r') = length (rect_bottom r))
       /\ forall i,
            plane_rect indeterminate_float r' i
            = if (i <? k)%nat
              then
                let '(l, t, r_, b) := plane_rect indeterminate_float r i in
                crop_plane (get stereoCoefs 0) (get stereoCoefs 1)
                  (get stereoOffsets 0) (get stereoOffsets 1) l t r_ b
              else plane_rect indeterminate_float r i)).
  - split; [tauto |]. intros i. reflexivity.
  - intros k r' Hk ((Ll & Lt & Lr & Lb) & IH). split.
    + cbn [rect_left rect_top rect_right rect_bottom].
      rewrite !length_insert. tauto.
    + intros i.
      pose proof (IH k) as Hcur. rewrite Nat.ltb_irrefl in Hcur.
      unfold plane_rect in Hcur. injection Hcur as Hkl Hkt Hkr Hkb.
      unfold plane_rect at 1.
      cbn [rect_left rect_top rect_right rect_bottom].
      destruct (Nat.eq_dec i k) as [-> | Hne].
      * replace (k <? Datatypes.S k)%nat with true
          by (symmetry; apply Nat.ltb_lt; lia).
        rewrite !at_insert_eq by lia.
        unfold plane_rect, crop_plane.
        rewrite Hkl, Hkt, Hkr, Hkb. reflexivity.
      * rewrite !at_insert_ne by congruence.
        specialize (IH i). unfold plane_rect at 1 in IH. rewrite IH.
        replace (i <? Datatypes.S k)%nat with (i <? k)%nat; [reflexivity |].
        destruct (i <? k)%nat eqn:E1; symmetry.
        -- apply Nat.ltb_lt. apply Nat.ltb_lt in E1. lia.
        -- apply Nat.ltb_ge. apply Nat.ltb_ge in E1. lia.
Qed.

End StereoCropProperties.

(** *** Binary32: products by 1.0 and 0.5 *)

(** The product of a normal number by a power of two that keeps it normal
    is exact: the mantissa stays, the exponent moves. *)
Lemma SFmul_pow2 (s : bool) (m : positive) (e k : Z) :
  digits2_pos m = 24%positive -> -149 <= e + k + 23 <= 104 ->
  SFmul 24 128 (S754_finite s m e) (S754_finite false 8388608 k)
  = S754_finite s m (e + k + 23).
Proof.
  intros Hd Hr.
  unfold SFmul. rewrite xorb_false_r.
  rewrite Pos.mul_comm.
  change (8388608 * m)%positive
    with (m~0~0~0~0~0~0~0~0~0~0~0~0~0~0~0~0~0~0~0~0~0~0~0)%positive.
  unfold binary_round_aux, shr_fexp.
  unfold Zdigits2 at 1.
  cbn [digits2_pos]. rewrite Hd.
  change (Z.pos (Pos.succ _)) with 47.
  replace (fexp 24 128 (47 + (e + k)) - (e + k)) with 23
    by (unfold fexp, emin; lia).
  cbn [shr shr_record_of_loc].
  assert (Hshr :
    SpecFloat.iter_pos shr_1 23
      {| shr_m :=
           Z.pos (m~0~0~0~0~0~0~0~0~0~0~0~0~0~0~0~0~0~0~0~0~0~0~0);
         shr_r := false; shr_s := false |}
    = {| shr_m := Z.pos m; shr_r := false; shr_s := false |})
    by reflexivity.
  rewrite Hshr.
  cbn [shr_m loc_of_shr_record round_nearest_even Zdigits2].
  rewrite Hd.
  replace (fexp 24 128 (24 + (e + k + 23)) - (e + k + 23)) with 0
    by (unfold fexp, emin; lia).
  cbn [shr shr_m].
  replace (e + k + 23 <=? 128 - 24) with true by (symmetry; apply Z.leb_le; lia).
  reflexivity.
Qed.

Lemma SFmul_one (x : spec_float) :
  halvable32 x -> SFmul 24 128 x (S754_finite false 8388608 (-23)) = x.
Proof.
  destruct x as [| | | s m e]; cbn [halvable32 half32]; try tauto.
  intros [Hd He].
  rewrite SFmul_pow2 by (assumption || lia). f_equal. lia.
Qed.

Lemma SFmul_half (x : spec_float) :
  halvable32 x -> SFmul 24 128 x (S754_finite false 8388608 (-24)) = half32 x.
Proof.
  destruct x as [| | | s m e]; cbn [halvable32 half32]; try tauto.
  intros [Hd He].
  rewrite SFmul_pow2 by (assumption || lia). f_equal. lia.
Qed.

(** The value of the half is half the value. *)
Lemma SF2Q_half32 (x : spec_float) : (SF2Q (half32 x) * 2 == SF2Q x)%Q.
Proof.
  destruct x as [| | | s m e]; simpl; try reflexivity.
  replace e with ((e - 1) + 1) at 2 by lia.
  assert (H2 : ~ (2 == 0)%Q) by (intros Hc; discriminate Hc).
  rewrite (Qpower_plus 2 (e - 1) 1 H2).
  change (2 ^ 1)%Q with 2%Q. ring.
Qed.

(** The crop of a plane anchored at the origin, in binary32. *)
Lemma crop_plane_anchored32 (lm : Binary.libm) (r b : spec_float) :
  halvable32 r -> halvable32 b ->
  let one := @float_of_int _ (Binary.binary_ops lm) 1 in
  let half := @float_lit _ (Binary.binary_ops lm) 1 2 in
  let zero := @float_of_int _ (Binary.binary_ops lm) 0 in
  @crop_plane _ (Binary.binary_ops lm) one half zero zero zero zero r b
    = (zero, zero, r, half32 b)
  /\ @crop_plane _ (Binary.binary_ops lm) half one zero zero zero zero r b
    = (zero, zero, half32 r, b).
Proof.
  intros Hr Hb one half zero.
  change one with (S754_finite false 8388608 (-23)).
  change half with (S754_finite false 8388608 (-24)).
  change zero with (S754_zero false).
  unfold crop_plane. cbn [fadd fsub fmul Binary.binary_ops].
  unfold Binary.prec32, Binary.emax32.
  destruct r as [| | | sr mr er]; [destruct Hr .. |].
  destruct b as [| | | sb mb eb]; [destruct Hb .. |].
  cbn [SFsub].
  rewrite (SFmul_one _ Hr), (SFmul_one _ Hb).
  rewrite (SFmul_half _ Hr), (SFmul_half _ Hb).
  cbn [SFmul SFadd half32 xorb].
  destruct sr, sb; split; reflexivity.
Qed.

(** C8, as the code has it.  In exact arithmetic the crop for top-bottom
    stereo leaves every sampling rectangle a height that is exactly half
    the height it had, with the top, the left and the right unchanged, and
    the crop for side-by-side stereo a width that is exactly half, with the
    left, the top and the bottom unchanged; any other mode leaves the
    rectangle alone.  In binary32 the same holds of a rectangle whose left
    and top are +0.0 and whose right and bottom are normal numbers with a
    normal half: the cropped side is the same mantissa with the exponent
    one less.  In any arithmetic the rectangle after the crop is the one
    the code computes, from the width right - left and the height bottom -
    top of the rectangle before: left' = left + width * 0, top' = top +
    height * 0, and then right' = left' + width * 1 and bottom' = top' +
    height * 0.5 for top-bottom stereo, right' = left' + width * 0.5 and
    bottom' = top' + height * 1 for side-by-side stereo, each operation
    being one of the arithmetic. *)
Theorem C8_stereo_crop_halves :
  (forall (indeterminate : nat -> R) (renderer : vlc_gl_renderer R)
          (r : rects R) (i : nat),
     rects_hold (tex_count (interop renderer)) r ->
     (i < tex_count (interop renderer))%nat ->
     let '(l, t, r_, b) := plane_rect indeterminate r i in
     let '(l', t', r', b') :=
       plane_rect indeterminate
         (@TextureCropForStereo R Exact.real_ops indeterminate renderer r) i in
     match multiview_mode (fmt renderer) with
     | MULTIVIEW_STEREO_TB =>
         (b' - t' = (b - t) / 2 /\ t' = t /\ l' = l /\ r' = r_)%R
     | MULTIVIEW_STEREO_SBS =>
         (r' - l' = (r_ - l) / 2 /\ l' = l /\ t' = t /\ b' = b)%R
     | _ => (l', t', r', b') = (l, t, r_, b)
     end)
  /\ (forall (lm : Binary.libm) (indeterminate : nat -> spec_float)
             (renderer : vlc_gl_renderer spec_float) (r : rects spec_float)
             (i : nat) (right_ bottom_ : spec_float),
        rects_hold (tex_count (interop renderer)) r ->
        (i < tex_count (interop renderer))%nat ->
        plane_rect indeterminate r i
          = (S754_zero false, S754_zero false, right_, bottom_) ->
        halvable32 right_ -> halvable32 bottom_ ->
        plane_rect indeterminate
          (@TextureCropForStereo spec_float (Binary.binary_ops lm)
             indeterminate renderer r) i
        = match multiview_mode (fmt renderer) with
          | MULTIVIEW_STEREO_TB =>
              (S754_zero false, S754_zero false, right_, half32 bottom_)
          | MULTIVIEW_STEREO_SBS =>
              (S754_zero false, S754_zero false, half32 right_, bottom_)
          | _ => (S754_zero false, S754_zero false, right_, bottom_)
          end)
  /\ (forall (F : Type) (ops : FloatOps F) (indeterminate : nat -> F)
             (renderer : vlc_gl_renderer F) (r : rects F) (i : nat),
        rects_hold (tex_count (interop renderer)) r ->
        (i < tex_count (interop renderer))%nat ->
        let '(l, t, r_, b) := plane_rect indeterminate r i in
        let width := fsub r_ l in
        let height := fsub b t in
        let l' := fadd l (fmul width (float_of_int 0)) in
        let t' := fadd t (fmul height (float_of_int 0)) in
        plane_rect indeterminate
          (TextureCropForStereo indeterminate renderer r) i
        = match multiview_mode (fmt renderer) with
          | MULTIVIEW_STEREO_TB =>
              (l', t', fadd l' (fmul width (float_of_int 1)),
               fadd t' (fmul height (float_lit 1 2)))
          | MULTIVIEW_STEREO_SBS =>
              (l', t', fadd l' (fmul width (float_lit 1 2)),
               fadd t' (fmul height (float_of_int 1)))
          | _ => (l, t, r_, b)
          end).
Proof.
  split; [| split].
  - intros junk renderer r i Hhold Hi.
    destruct (plane_rect junk r i) as [[[l t] r_] b] eqn:E.
    unfold TextureCropForStereo.
    destruct (multiview_mode (fmt renderer)).
    + rewrite E. reflexivity.
    + rewrite (GetTextureCropParamsForStereo_plane junk _ _ _ r i Hhold).
      replace (i <? tex_count (interop renderer))%nat with true
        by (symmetry; apply Nat.ltb_lt; exact Hi).
      rewrite E. unfold crop_plane, at_, float_lit. simpl.
      repeat split; lra.
    + rewrite (GetTextureCropParamsForStereo_plane junk _ _ _ r i Hhold).
      replace (i <? tex_count (interop renderer))%nat with true
        by (symmetry; apply Nat.ltb_lt; exact Hi).
      rewrite E. unfold crop_plane, at_, float_lit. simpl.
      repeat split; lra.
    + rewrite E. reflexivity.
  - intros lm junk renderer r i right_ bottom_ Hhold Hi E Hr Hb.
    destruct (crop_plane_anchored32 lm right_ bottom_ Hr Hb) as [Htb Hsbs].
    cbv zeta in Htb, Hsbs.
    unfold TextureCropForStereo.
    destruct (multiview_mode (fmt renderer)).
    + exact E.
    + rewrite (GetTextureCropParamsForStereo_plane junk _ _ _ r i Hhold).
      replace (i <? tex_count (interop renderer))%nat with true
        by (symmetry; apply Nat.ltb_lt; exact Hi).
      rewrite E. exact Hsbs.
    + rewrite (GetTextureCropParamsForStereo_plane junk _ _ _ r i Hhold).
      replace (i <? tex_count (interop renderer))%nat with true
        by (symmetry; apply Nat.ltb_lt; exact Hi).
      rewrite E. exact Htb.
    + exact E.
  - intros F ops junk renderer r i Hhold Hi.
    destruct (plane_rect junk r i) as [[[l t] r_] b] eqn:E.
    cbv zeta. unfold TextureCropForStereo.
    destruct (multiview_mode (fmt renderer)).
    + exact E.
    + rewrite (GetTextureCropParamsForStereo_plane junk _ _ _ r i Hhold).
      replace (i <? tex_count (interop renderer))%nat with true
        by (symmetry; apply Nat.ltb_lt; exact Hi).
      rewrite E. reflexivity.
    + rewrite (GetTextureCropParamsForStereo_plane junk _ _ _ r i Hhold).
      replace (i <? tex_count (interop renderer))%nat with true
        by (symmetry; apply Nat.ltb_lt; exact Hi).
      rewrite E. reflexivity.
    + exact E.
Qed.

(** In binary32 the height after the crop is not always half the height
    before.  A 720x576 picture in top-bottom stereo with 8 lines cropped at
    the top: Draw computes top = 8/576 and bottom = 1 for the plane, the
    crop keeps the top and stores as bottom top + (bottom - top) * 0.5f,
    the difference, the product and the sum each rounded to float, and the
    height that is left is not half the height there was, neither as an
    exact value nor as the float difference. *)
Lemma C8_counterexample_cropped_source :
  CropExample.top_before = S754_finite false 14913081 (-30)
  /\ CropExample.bottom_before = S754_finite false 8388608 (-23)
  /\ CropExample.top_after = CropExample.top_before
  /\ CropExample.bottom_after = S754_finite false 8505116 (-24)
  /\ Qeq_bool
       (SF2Q CropExample.bottom_after - SF2Q CropExample.top_after)
       ((SF2Q CropExample.bottom_before - SF2Q CropExample.top_before) / 2)
     = false
  /\ SFsub 24 128 CropExample.bottom_after CropExample.top_after
     <> SFdiv 24 128
          (SFsub 24 128 CropExample.bottom_before CropExample.top_before)
          (Binary.b32 2 0).
Proof.
  repeat split; try (vm_compute; reflexivity).
  vm_compute. discriminate.
Qed.

(** The crop for top-bottom stereo of a rectangle that covers its plane:
    the bottom goes from 1.0 to 0.5. *)
Lemma C8_witness_whole_plane :
  halvable32 (Binary.b32 1 0)
  /\ plane_rect Examples.junk_float
       (@TextureCropForStereo spec_float Examples.ops Examples.junk_float
          CropExample.renderer CropExample.whole_plane) 0
     = (S754_zero false, S754_zero false, Binary.b32 1 0, Binary.b32 1 (-1)).
Proof.
  assert (Hh : halvable32 (Binary.b32 1 0)).
  { change (Binary.b32 1 0) with (S754_finite false 8388608 (-23)).
    cbn [halvable32]. split; [reflexivity | lia]. }
  split; [exact Hh |].
  refine (proj1 (proj2 C8_stereo_crop_halves)
            Examples.libm_nan Examples.junk_float
            CropExample.renderer CropExample.whole_plane 0%nat
            (Binary.b32 1 0) (Binary.b32 1 0) _ _ eq_refl Hh Hh).
  - unfold rects_hold. cbn. lia.
  - cbn. lia.
Defined.

(** ** Allocation *)

Lemma malloc_cases (h : heap) :
  (malloc h =
     (None, {| heap_live := heap_live h; heap_next := heap_next h;
               heap_outcomes := tail (heap_outcomes h) |})
   /\ head (heap_outcomes h) = Some false)
  \/ (malloc h =
        (Some (heap_next h),
         {| heap_live := heap_next h :: heap_live h;
            heap_next := heap_next h + 1;
            heap_outcomes := tail (heap_outcomes h) |})
      /\ head (heap_outcomes h) <> Some false).
Proof.
  unfold malloc. destruct (heap_outcomes h) as [| [|] s]; simpl.
  - right. split; [reflexivity | discriminate].
  - right. split; [reflexivity | discriminate].
  - left. split; reflexivity.
Qed.

(** The sizes of the renderer never overflow size_t. *)
Lemma vlc_alloc_malloc (count size : Z) (h : heap) :
  0 <= count <= UINT_MAX -> 0 <= size <= 4 ->
  vlc_alloc count size h = malloc h.
Proof.
  intros Hc Hs. unfold vlc_alloc.
  replace (SIZE_MAX <? count * size) with false; [reflexivity |].
  symmetry. apply Z.ltb_ge. unfold SIZE_MAX, UINT_MAX in *. nia.
Qed.

Lemma wrap_unsigned_range (n : Z) : 0 <= wrap_unsigned n <= UINT_MAX.
Proof.
  unfold wrap_unsigned, UINT_MAX.
  pose proof (Z.mod_pos_bound n (4294967295 + 1)). lia.
Qed.

(** Freeing the block that was allocated last gives the heap its live
    blocks back. *)
Lemma free_fresh (p : Z) (live : list Z) :
  Forall (fun q => q < p) live ->
  List.filter (fun q => negb (q =? p)) (p :: live) = live.
Proof.
  intros Hlt. simpl. rewrite Z.eqb_refl. simpl.
  induction Hlt as [| q l Hq Hl IH]; simpl; [reflexivity |].
  replace (q =? p) with false by (symmetry; apply Z.eqb_neq; lia).
  simpl. f_equal. exact IH.
Qed.

Lemma free_other (p q : Z) (live : list Z) :
  q <> p ->
  List.filter (fun x => negb (x =? p)) (q :: live)
  = q :: List.filter (fun x => negb (x =? p)) live.
Proof.
  intros Hne. simpl.
  replace (q =? p) with false by (symmetry; apply Z.eqb_neq; lia).
  reflexivity.
Qed.

Lemma filter_older (p : Z) (live : list Z) :
  Forall (fun q => q < p) live ->
  List.filter (fun q => negb (q =? p)) live = live.
Proof.
  intros Hlt. induction Hlt as [| q l Hq Hl IH]; simpl; [reflexivity |].
  replace (q =? p) with false by (symmetry; apply Z.eqb_neq; lia).
  simpl. f_equal. exact IH.
Qed.

Section AllocMeshProperties.
Context {F : Type}.
Variable indeterminate_float : nat -> F.
Variable indeterminate_ushort : nat -> Z.

Abbreviation alloc_mesh' := (alloc_mesh indeterminate_float indeterminate_ushort).
Abbreviation nbVertices_of := (@nbVertices F).
Abbreviation nbIndices_of := (@nbIndices F).

(** One call of vlc_alloc of a builder, on a heap whose outcomes are known. *)
Ltac step_alloc :=
  rewrite vlc_alloc_malloc
    by first [apply wrap_unsigned_range | unfold sizeof_GLfloat, sizeof_GLushort; lia];
  unfold malloc at 1;
  cbn [heap_outcomes heap_live heap_next tail].

(** When one of the three allocations fails, alloc_mesh returns VLC_ENOMEM
    and no mesh, and the blocks it had allocated are freed. *)
Lemma alloc_mesh_fails (nbPlanes : nat) (nbVertices nbIndices : Z) (h : heap) :
  0 <= nbIndices <= UINT_MAX -> heap_wf h -> alloc_fails h = true ->
  exists h',
    alloc_mesh' nbPlanes nbVertices nbIndices h = (VLC_ENOMEM, None, h')
    /\ heap_live h' = heap_live h.
Proof.
  intros Hni Hwf Hfail. destruct h as [live next outcomes].
  unfold heap_wf in Hwf. cbn [heap_live heap_next] in Hwf.
  unfold alloc_fails in Hfail. cbn [heap_outcomes] in Hfail.
  unfold alloc_mesh.
  destruct outcomes as [| [|] [| [|] [| [|] rest]]];
    try discriminate Hfail; clear Hfail;
    repeat step_alloc; unfold free; cbn [heap_live heap_next heap_outcomes];
    eexists; (split; [reflexivity |]); cbn [heap_live];
    try reflexivity;
    try (rewrite free_fresh
           by (constructor;
               [lia | eapply Forall_impl; [exact Hwf | cbv beta; intros; lia]]));
    apply free_fresh; exact Hwf.
Qed.

(** alloc_mesh answers VLC_SUCCESS with a mesh or VLC_ENOMEM without. *)
Lemma alloc_mesh_result (nbPlanes : nat) (nbVertices nbIndices : Z) (h : heap) :
  (exists m h',
     alloc_mesh' nbPlanes nbVertices nbIndices h = (VLC_SUCCESS, Some m, h')
     /\ nbVertices_of m = nbVertices /\ nbIndices_of m = nbIndices)
  \/ (exists h',
        alloc_mesh' nbPlanes nbVertices nbIndices h = (VLC_ENOMEM, None, h')).
Proof.
  unfold alloc_mesh.
  destruct (vlc_alloc (wrap_unsigned (nbVertices * 3)) sizeof_GLfloat h)
    as [[p1 |] h1]; [| right; eexists; reflexivity].
  destruct (vlc_alloc _ sizeof_GLfloat h1)
    as [[p2 |] h2]; [| right; eexists; reflexivity].
  destruct (vlc_alloc nbIndices sizeof_GLushort h2)
    as [[p3 |] h3]; [| right; eexists; reflexivity].
  left. eexists. eexists. split; [reflexivity |]. split; reflexivity.
Qed.

(** When the three allocations succeed, the three blocks are fresh. *)
Lemma alloc_mesh_succeeds (nbPlanes : nat) (nbVertices nbIndices : Z) (h : heap) :
  0 <= nbIndices <= UINT_MAX -> alloc_fails h = false ->
  exists m,
    alloc_mesh' nbPlanes nbVertices nbIndices h
    = (VLC_SUCCESS, Some m,
       {| heap_live :=
            heap_next h + 1 + 1 :: heap_next h + 1 :: heap_next h
              :: heap_live h;
          heap_next := heap_next h + 1 + 1 + 1;
          heap_outcomes := drop 3 (heap_outcomes h) |})
    /\ vertexCoord_ptr m = heap_next h
    /\ textureCoord_ptr m = heap_next h + 1
    /\ indices_ptr m = heap_next h + 1 + 1
    /\ nbVertices_of m = nbVertices
    /\ nbIndices_of m = nbIndices
    /\ vertexCoord m
       = uninit_floats indeterminate_float (wrap_unsigned (nbVertices * 3))
    /\ textureCoord m
       = uninit_floats indeterminate_float
           (wrap_unsigned (Z.of_nat nbPlanes * nbVertices * 2))
    /\ indices m = uninit_ushorts indeterminate_ushort nbIndices.
Proof.
  intros Hni Hok. destruct h as [live next outcomes].
  unfold alloc_fails in Hok. cbn [heap_outcomes] in Hok.
  unfold alloc_mesh.
  destruct outcomes as [| [|] [| [|] [| [|] rest]]];
    try discriminate Hok; clear Hok;
    repeat step_alloc; cbn [heap_live heap_next heap_outcomes drop];
    eexists; (split; [reflexivity | repeat split; reflexivity]).
Qed.

End AllocMeshProperties.

(** ** The builders and the upload *)

Section BuilderProperties.
Context {F : Type} `{FloatOps F}.
Variable indeterminate_float : nat -> F.
Variable indeterminate_ushort : nat -> Z.

Abbreviation BuildRectangle' :=
  (BuildRectangle indeterminate_float indeterminate_ushort).
Abbreviation BuildSphere' :=
  (BuildSphere indeterminate_float indeterminate_ushort).
Abbreviation BuildCube' :=
  (BuildCube indeterminate_float indeterminate_ushort).

Lemma BuildRectangle_answer nbPlanes l t r b h :
  builder_answer (BuildRectangle' nbPlanes l t r b h).
Proof.
  unfold BuildRectangle, builder_answer.
  destruct (alloc_mesh_result indeterminate_float indeterminate_ushort
              nbPlanes 4 6 h) as [(m & h' & -> & _) | (h' & ->)].
  - left. eexists. eexists. reflexivity.
  - right. eexists. reflexivity.
Qed.

Lemma BuildCube_answer nbPlanes padW padH l t r b h :
  builder_answer (BuildCube' nbPlanes padW padH l t r b h).
Proof.
  unfold BuildCube, builder_answer.
  destruct (alloc_mesh_result indeterminate_float indeterminate_ushort
              nbPlanes (4 * 6) (6 * 6) h) as [(m & h' & -> & _) | (h' & ->)].
  - left. eexists. eexists. reflexivity.
  - right. eexists. reflexivity.
Qed.

Lemma BuildSphere_bands_answer nbLat nbLon nbPlanes l t r b h :
  builder_answer
    (BuildSphere_bands indeterminate_float indeterminate_ushort
       nbLat nbLon nbPlanes l t r b h).
Proof.
  unfold BuildSphere_bands, builder_answer.
  match goal with |- context [alloc_mesh _ _ ?n ?v ?i h] =>
    destruct (alloc_mesh_result indeterminate_float indeterminate_ushort
                n v i h) as [(m & h' & -> & _) | (h' & ->)]
  end.
  - left. destruct (sphere_coords _ _ _ _ _ _ _ _ _).
    eexists. eexists. reflexivity.
  - right. eexists. reflexivity.
Qed.

Lemma BuildRectangle_fails nbPlanes l t r b h :
  heap_wf h -> alloc_fails h = true ->
  builder_failure h (BuildRectangle' nbPlanes l t r b h).
Proof.
  intros Hwf Hfail. unfold BuildRectangle, builder_failure.
  destruct (alloc_mesh_fails indeterminate_float indeterminate_ushort
              nbPlanes 4 6 h) as (h' & -> & Hlive);
    [unfold UINT_MAX; lia | assumption | assumption |].
  eexists. split; [reflexivity | exact Hlive].
Qed.

Lemma BuildCube_fails nbPlanes padW padH l t r b h :
  heap_wf h -> alloc_fails h = true ->
  builder_failure h (BuildCube' nbPlanes padW padH l t r b h).
Proof.
  intros Hwf Hfail. unfold BuildCube, builder_failure.
  destruct (alloc_mesh_fails indeterminate_float indeterminate_ushort
              nbPlanes (4 * 6) (6 * 6) h) as (h' & -> & Hlive);
    [unfold UINT_MAX; lia | assumption | assumption |].
  eexists. split; [reflexivity | exact Hlive].
Qed.

Lemma BuildSphere_bands_fails nbLat nbLon nbPlanes l t r b h :
  heap_wf h -> alloc_fails h = true ->
  builder_failure h
    (BuildSphere_bands indeterminate_float indeterminate_ushort
       nbLat nbLon nbPlanes l t r b h).
Proof.
  intros Hwf Hfail. unfold BuildSphere_bands, builder_failure.
  match goal with |- context [alloc_mesh _ _ ?n ?v ?i h] =>
    destruct (alloc_mesh_fails indeterminate_float indeterminate_ushort
                n v i h) as (h' & -> & Hlive);
      [apply wrap_unsigned_range | assumption | assumption |]
  end.
  eexists. split; [reflexivity | exact Hlive].
Qed.

End BuilderProperties.

(** ** The context *)

Section GLProperties.
Context {F : Type}.

Lemma uploads_gl_do (c : gl_call F) (gl : gl_state F) :
  uploads (gl_do c gl)
  = (uploads gl + if is_BufferData c then 1 else 0)%nat.
Proof.
  unfold uploads, gl_do. cbn [gl_calls].
  rewrite List.filter_app, length_app. cbn [List.filter].
  destruct (is_BufferData c); reflexivity.
Qed.

Lemma mesh_uploads_gl_do (c : gl_call F) (gl : gl_state F) :
  mesh_uploads (gl_do c gl)
  = (mesh_uploads gl + if is_index_upload c then 1 else 0)%nat.
Proof.
  unfold mesh_uploads, gl_do. cbn [gl_calls].
  rewrite List.filter_app, length_app. cbn [List.filter].
  destruct (is_index_upload c); reflexivity.
Qed.

Lemma same_buffers_refl (gl : gl_state F) : same_buffers gl gl.
Proof. unfold same_buffers. tauto. Qed.

Lemma same_buffers_trans (gl1 gl2 gl3 : gl_state F) :
  same_buffers gl1 gl2 -> same_buffers gl2 gl3 -> same_buffers gl1 gl3.
Proof.
  unfold same_buffers. intros (A1 & B1 & C1) (A2 & B2 & C2).
  repeat split; congruence.
Qed.

(** A call that is not glBufferData leaves the buffers. *)
Lemma same_buffers_gl_do (c : gl_call F) (gl : gl_state F) :
  is_BufferData c = false -> same_buffers gl (gl_do c gl).
Proof.
  intros Hc. unfold same_buffers.
  rewrite uploads_gl_do, mesh_uploads_gl_do, Hc.
  destruct c; try discriminate Hc; cbn; repeat split; lia.
Qed.

Lemma same_buffers_gl_do' (c : gl_call F) (gl gl' : gl_state F) :
  is_BufferData c = false -> same_buffers gl gl' ->
  same_buffers gl (gl_do c gl').
Proof.
  intros Hc Hs. eapply same_buffers_trans; [exact Hs |].
  apply same_buffers_gl_do. exact Hc.
Qed.

End GLProperties.

Section DrawProperties.
Context {F : Type} `{FloatOps F}.
Variable indeterminate_float : nat -> F.
Variable indeterminate_ushort : nat -> Z.

Abbreviation SetupCoords' :=
  (SetupCoords indeterminate_float indeterminate_ushort).
Abbreviation Draw' :=
  (vlc_gl_renderer_Draw indeterminate_float indeterminate_ushort).

(** DrawWithShaders returns when its assertions hold or are compiled out,
    and stops the process otherwise. *)
Lemma DrawWithShaders_run (NDEBUG : bool) (renderer : vlc_gl_renderer F)
    (gl : gl_state F) :
  DrawWithShaders NDEBUG renderer gl
  = if NDEBUG || draw_assertions renderer then Returns (drawn renderer gl)
    else Stops.
Proof.
  unfold DrawWithShaders, drawn, draw_assertions. cbv zeta.
  set (gl1 := gl_do (prepare_shader _ _ _) gl).
  set (ok := fun j =>
         negb (nth j (textures renderer) 0 =? 0)
         && negb (nth j (aloc_MultiTexCoord (loc renderer)) 0 =? -1)).
  set (plane := fun (j : nat) (gl : gl_state F) =>
         gl_do (glVertexAttribPointer
                  (nth j (aloc_MultiTexCoord (loc renderer)) 0) 2)
           (gl_do (glEnableVertexAttribArray
                     (nth j (aloc_MultiTexCoord (loc renderer)) 0))
              (gl_do (glBindBuffer GL_ARRAY_BUFFER
                        (nth j (texture_buffer_object renderer) 0))
                 (gl_do (glBindTexture (tex_target (interop renderer))
                           (nth j (textures renderer) 0))
                    (gl_do (glActiveTexture (GL_TEXTURE0 + Z.of_nat j)) gl))))).
  match goal with
  | |- match for_loop ?n ?body (Returns gl1) with _ => _ end = _ =>
      assert (Hloop :
        for_loop n body (Returns gl1)
        = if NDEBUG || forallb ok (seq 0 n)
          then Returns (for_loop n plane gl1) else Stops)
  end.
  { apply (for_loop_ind
      (fun k planes =>
         planes
         = if NDEBUG || forallb ok (seq 0 k)
           then Returns (for_loop k plane gl1) else Stops)).
    - rewrite orb_true_r. reflexivity.
    - intros j planes _ ->.
      rewrite seq_S, forallb_app, for_loop_S. cbn [forallb Nat.add].
      rewrite andb_true_r.
      destruct NDEBUG; cbn [orb]; [reflexivity |].
      destruct (forallb ok (seq 0 j)); cbn [andb]; [| reflexivity].
      unfold ok, plane.
      destruct (negb (nth j (textures renderer) 0 =? 0)); cbn [andb];
        [| reflexivity].
      destruct (negb (nth j (aloc_MultiTexCoord (loc renderer)) 0 =? -1));
        reflexivity. }
  rewrite Hloop.
  destruct (NDEBUG || forallb ok _); reflexivity.
Qed.

(** When it returns, it has bound, set uniforms and drawn: it has
    uploaded nothing. *)
Lemma drawn_same_buffers (renderer : vlc_gl_renderer F) (gl : gl_state F) :
  same_buffers gl (drawn renderer gl).
Proof.
  unfold drawn.
  repeat (apply same_buffers_gl_do'; [reflexivity |]).
  apply (for_loop_ind (fun _ gl' => same_buffers gl gl')).
  - apply same_buffers_gl_do. reflexivity.
  - intros j gl' _ Hs.
    repeat (apply same_buffers_gl_do'; [reflexivity |]). exact Hs.
Qed.

(** The upload of a mesh: one buffer for each plane, the positions and the
    indices. *)
Lemma upload_planes (n : nat) (bind : nat -> gl_call F)
    (data : nat -> gl_call F) (gl : gl_state F) :
  (forall j, is_BufferData (bind j) = false) ->
  (forall j, is_BufferData (data j) = true /\ is_index_upload (data j) = false) ->
  let gl' := for_loop n (fun j gl => gl_do (data j) (gl_do (bind j) gl)) gl in
  uploads gl' = (uploads gl + n)%nat /\ mesh_uploads gl' = mesh_uploads gl.
Proof.
  intros Hbind Hdata.
  apply (for_loop_ind
    (fun k gl' => uploads gl' = (uploads gl + k)%nat
                  /\ mesh_uploads gl' = mesh_uploads gl)).
  - split; [lia | reflexivity].
  - intros j gl' _ [Hu Hm].
    rewrite !uploads_gl_do, !mesh_uploads_gl_do.
    destruct (Hdata j) as [-> ->]. rewrite Hbind.
    assert (Hb : is_index_upload (bind j) = false).
    { specialize (Hbind j). destruct (bind j) as [| | | t ? ? | | | | | | |];
        try reflexivity. discriminate Hbind. }
    rewrite Hb. lia.
Qed.

(** SetupCoords either uploads one mesh and answers VLC_SUCCESS, or
    answers the error of the builder and touches neither the context nor
    the renderer. *)
Lemma SetupCoords_answer (renderer : vlc_gl_renderer F)
    (l t r b : list F) (gl : gl_state F) (h : heap) :
  (exists n gl' h',
     SetupCoords' renderer l t r b gl h
     = (VLC_SUCCESS, set_nb_indices n renderer, gl', h')
     /\ mesh_uploads gl' = (mesh_uploads gl + 1)%nat
     /\ uploads gl' = (uploads gl + tex_count (interop renderer) + 2)%nat)
  \/ (exists ret h',
        SetupCoords' renderer l t r b gl h = (ret, renderer, gl, h')
        /\ (ret = VLC_ENOMEM \/ ret = VLC_EGENERIC)).
Proof.
  unfold SetupCoords.
  set (answer :=
    match projection_mode (fmt renderer) with
    | PROJECTION_MODE_RECTANGULAR => BuildRectangle _ _ _ _ _ _ _ _
    | PROJECTION_MODE_EQUIRECTANGULAR => BuildSphere _ _ _ _ _ _ _ _
    | PROJECTION_MODE_CUBEMAP_LAYOUT_STANDARD => BuildCube _ _ _ _ _ _ _ _ _ _
    | PROJECTION_MODE_other _ => (VLC_EGENERIC, None, h)
    end).
  assert (Hanswer :
    builder_answer answer \/ answer = (VLC_EGENERIC, None, h)).
  { unfold answer. destruct (projection_mode (fmt renderer)).
    - left. apply BuildRectangle_answer.
    - left. apply BuildSphere_bands_answer.
    - left. apply BuildCube_answer.
    - right. reflexivity. }
  destruct Hanswer as [[(m & h' & ->) | (h' & ->)] | ->].
  - left. eexists. eexists. eexists. split; [reflexivity |].
    rewrite !mesh_uploads_gl_do, !uploads_gl_do. cbn [is_BufferData is_index_upload].
    match goal with |- context [for_loop ?n ?body gl] =>
      pose proof (upload_planes n
        (fun j => glBindBuffer GL_ARRAY_BUFFER
                    (nth j (texture_buffer_object renderer) 0))
        (fun j => glBufferData GL_ARRAY_BUFFER
                    (nbVertices m * 2 * sizeof_GLfloat)
                    (GLfloat_data
                       (take (Z.to_nat (nbVertices m) * 2)
                          (drop (j * Z.to_nat (nbVertices m) * 2)
                             (textureCoord m)))))
        gl (fun _ => eq_refl) (fun _ => conj eq_refl eq_refl)) as Hup
    end.
    cbv zeta in Hup. destruct Hup as [-> ->].
    split; lia.
  - right. eexists. eexists. split; [reflexivity |]. left; reflexivity.
  - right. eexists. eexists. split; [reflexivity |]. right; reflexivity.
Qed.

(** On a heap that grants the three allocations the builders succeed. *)
Lemma builders_succeed (nbPlanes : nat) (padW padH : F) (l t r b : list F)
    (h : heap) :
  alloc_fails h = false ->
  (exists m h',
     BuildRectangle indeterminate_float indeterminate_ushort nbPlanes l t r b h
     = (VLC_SUCCESS, Some m, h'))
  /\ (exists m h',
        BuildSphere indeterminate_float indeterminate_ushort nbPlanes l t r b h
        = (VLC_SUCCESS, Some m, h'))
  /\ (exists m h',
        BuildCube indeterminate_float indeterminate_ushort nbPlanes padW padH
          l t r b h
        = (VLC_SUCCESS, Some m, h')).
Proof.
  intros Hok. split; [| split].
  - unfold BuildRectangle.
    destruct (alloc_mesh_succeeds indeterminate_float indeterminate_ushort
                nbPlanes 4 6 h) as (m & -> & _);
      [unfold UINT_MAX; lia | exact Hok |].
    eexists. eexists. reflexivity.
  - unfold BuildSphere, BuildSphere_bands.
    match goal with |- context [alloc_mesh _ _ ?n ?v ?i h] =>
      destruct (alloc_mesh_succeeds indeterminate_float indeterminate_ushort
                  n v i h) as (m & -> & _);
        [apply wrap_unsigned_range | exact Hok |]
    end.
    destruct (sphere_coords _ _ _ _ _ _ _ _ _).
    eexists. eexists. reflexivity.
  - unfold BuildCube.
    destruct (alloc_mesh_succeeds indeterminate_float indeterminate_ushort
                nbPlanes (4 * 6) (6 * 6) h) as (m & -> & _);
      [unfold UINT_MAX; lia | exact Hok |].
    eexists. eexists. reflexivity.
Qed.

Lemma SetupCoords_succeeds (renderer : vlc_gl_renderer F)
    (l t r b : list F) (gl : gl_state F) (h : heap) :
  has_builder (projection_mode (fmt renderer)) = true ->
  alloc_fails h = false ->
  fst (fst (fst (SetupCoords' renderer l t r b gl h))) = VLC_SUCCESS.
Proof.
  intros Hmode Hok.
  destruct (builders_succeed (tex_count (interop renderer))
              (float_of_int (i_cubemap_padding (fmt renderer))
                 /! float_of_int (i_width (fmt renderer)))%cfloat
              (float_of_int (i_cubemap_padding (fmt renderer))
                 /! float_of_int (i_height (fmt renderer)))%cfloat
              l t r b h Hok)
    as ((m1 & h1 & E1) & (m2 & h2 & E2) & (m3 & h3 & E3)).
  unfold SetupCoords.
  destruct (projection_mode (fmt renderer)); try discriminate Hmode.
  - rewrite E1. reflexivity.
  - rewrite E2. reflexivity.
  - rewrite E3. reflexivity.
Qed.

Lemma SetupCoords_fails (renderer : vlc_gl_renderer F)
    (l t r b : list F) (gl : gl_state F) (h : heap) :
  has_builder (projection_mode (fmt renderer)) = true ->
  heap_wf h -> alloc_fails h = true ->
  exists h',
    SetupCoords' renderer l t r b gl h = (VLC_ENOMEM, renderer, gl, h')
    /\ heap_live h' = heap_live h.
Proof.
  intros Hmode Hwf Hfail. unfold SetupCoords.
  destruct (projection_mode (fmt renderer)); try discriminate Hmode.
  - destruct (BuildRectangle_fails indeterminate_float indeterminate_ushort
                (tex_count (interop renderer)) l t r b h Hwf Hfail)
      as (h' & -> & Hlive).
    eexists. split; [reflexivity | exact Hlive].
  - destruct (BuildSphere_bands_fails indeterminate_float indeterminate_ushort
                128 128 (tex_count (interop renderer)) l t r b h Hwf Hfail)
      as (h' & E & Hlive).
    unfold BuildSphere. rewrite E.
    eexists. split; [reflexivity | exact Hlive].
  - match goal with |- context [BuildCube _ _ ?n ?pw ?ph l t r b h] =>
      destruct (BuildCube_fails indeterminate_float indeterminate_ushort
                  n pw ph l t r b h Hwf Hfail) as (h' & -> & Hlive)
    end.
    eexists. split; [reflexivity | exact Hlive].
Qed.

Lemma gl_enter_same_buffers (renderer : vlc_gl_renderer F) (gl : gl_state F) :
  same_buffers gl (gl_enter renderer gl).
Proof.
  unfold gl_enter. apply same_buffers_gl_do'; [reflexivity |].
  apply same_buffers_gl_do. reflexivity.
Qed.

(** Draw with the rectangle of the snapshot: no rebuild. *)
Lemma Draw_unchanged (NDEBUG : bool) (renderer : vlc_gl_renderer F)
    (source : video_format_t) (gl : gl_state F) (h : heap) :
  source_changed source (last_source renderer) = false ->
  Draw' NDEBUG renderer source gl h
  = if NDEBUG || draw_assertions renderer
    then Returns (VLC_SUCCESS, renderer,
                  drawn renderer (gl_enter renderer gl), h)
    else Stops.
Proof.
  intros Hsame. unfold vlc_gl_renderer_Draw. rewrite Hsame.
  rewrite DrawWithShaders_run.
  destruct (NDEBUG || draw_assertions renderer); reflexivity.
Qed.

Lemma source_changed_snapshot (source : video_format_t) :
  source_changed source (snapshot_of source) = false.
Proof.
  unfold source_changed, snapshot_of. cbn. rewrite !Z.eqb_refl. reflexivity.
Qed.

(** Draw with another rectangle: the error of SetupCoords and nothing
    else, or one mesh uploaded, the snapshot taken and the picture drawn,
    unless an assertion of DrawWithShaders fails. *)
Lemma Draw_changed (NDEBUG : bool) (renderer : vlc_gl_renderer F)
    (source : video_format_t) (gl : gl_state F) (h : heap) :
  source_changed source (last_source renderer) = true ->
  (exists n gl1 h',
     Draw' NDEBUG renderer source gl h
     = (if NDEBUG || draw_assertions renderer
        then Returns (VLC_SUCCESS,
                      set_last_source (snapshot_of source)
                        (set_nb_indices n renderer),
                      drawn (set_last_source (snapshot_of source)
                               (set_nb_indices n renderer)) gl1,
                      h')
        else Stops)
     /\ mesh_uploads gl1 = (mesh_uploads gl + 1)%nat
     /\ uploads gl1 = (uploads gl + tex_count (interop renderer) + 2)%nat)
  \/ (exists ret h',
        Draw' NDEBUG renderer source gl h
        = Returns (ret, renderer, gl_enter renderer gl, h')
        /\ (ret = VLC_ENOMEM \/ ret = VLC_EGENERIC)).
Proof.
  intros Hchanged. unfold vlc_gl_renderer_Draw. rewrite Hchanged.
  fold (gl_enter renderer gl).
  set (rs := TextureCropForStereo _ _ _).
  destruct (SetupCoords_answer renderer (rect_left rs) (rect_top rs)
              (rect_right rs) (rect_bottom rs) (gl_enter renderer gl) h)
    as [(n & gl1 & h' & -> & Hm & Hu) | (ret & h' & -> & Hret)].
  - left. cbn [negb Z.eqb VLC_SUCCESS].
    exists n, gl1, h'. split.
    + rewrite DrawWithShaders_run.
      change (draw_assertions (set_last_source _ (set_nb_indices n renderer)))
        with (draw_assertions renderer).
      destruct (NDEBUG || draw_assertions renderer); reflexivity.
    + destruct (gl_enter_same_buffers renderer gl) as (Hu0 & Hm0 & _).
      rewrite Hm, Hu, Hm0, Hu0. split; reflexivity.
  - right. exists ret, h'.
    split; [| exact Hret].
    destruct Hret as [-> | ->]; reflexivity.
Qed.

End DrawProperties.

(** ** Draw *)

(** C6, as the code has it.  Draw leaves the mesh alone when the visible
    rectangle of the source is the one of the snapshot: it allocates
    nothing, uploads nothing and keeps the renderer.  When the rectangle
    differs, Draw rebuilds: either the rebuild fails, and Draw returns
    VLC_ENOMEM or VLC_EGENERIC and leaves the renderer, its snapshot and
    the buffers as they were, or it uploads exactly one mesh and takes the
    snapshot of the source, as it does whenever the three allocations
    succeed and the projection mode has a builder.  After the test and the
    rebuild Draw goes through DrawWithShaders: it returns VLC_SUCCESS when
    the assertions of DrawWithShaders hold or are compiled out, and the
    process stops there when they do not.  After a Draw that returned
    VLC_SUCCESS, a second Draw with the same source finds the rectangle of
    the snapshot, rebuilds nothing and returns VLC_SUCCESS. *)
Theorem C6_Draw_rebuilds_on_change :
  forall (F : Type) (ops : FloatOps F)
         (indeterminate_float : nat -> F) (indeterminate_ushort : nat -> Z)
         (NDEBUG : bool)
         (renderer : vlc_gl_renderer F) (source : video_format_t)
         (gl : gl_state F) (h : heap),
  let Draw :=
    vlc_gl_renderer_Draw indeterminate_float indeterminate_ushort NDEBUG in
  let asserted := NDEBUG || draw_assertions renderer in
  (source_changed source (last_source renderer) = false ->
   if asserted
   then exists gl',
          Draw renderer source gl h = Returns (VLC_SUCCESS, renderer, gl', h)
          /\ same_buffers gl gl'
   else Draw renderer source gl h = Stops)
  /\ (source_changed source (last_source renderer) = true ->
      (exists ret h',
         Draw renderer source gl h
         = Returns (ret, renderer, gl_enter renderer gl, h')
         /\ (ret = VLC_ENOMEM \/ ret = VLC_EGENERIC)
         /\ same_buffers gl (gl_enter renderer gl))
      \/ (if asserted
          then exists renderer' gl' h',
                 Draw renderer source gl h
                 = Returns (VLC_SUCCESS, renderer', gl', h')
                 /\ mesh_uploads gl' = (mesh_uploads gl + 1)%nat
                 /\ uploads gl'
                    = (uploads gl + tex_count (interop renderer) + 2)%nat
                 /\ last_source renderer' = snapshot_of source
          else Draw renderer source gl h = Stops))
  /\ (source_changed source (last_source renderer) = true ->
      has_builder (projection_mode (fmt renderer)) = true ->
      alloc_fails h = false ->
      if asserted
      then exists renderer' gl' h',
             Draw renderer source gl h
             = Returns (VLC_SUCCESS, renderer', gl', h')
      else Draw renderer source gl h = Stops)
  /\ (forall renderer' gl' h',
        Draw renderer source gl h = Returns (VLC_SUCCESS, renderer', gl', h') ->
        source_changed source (last_source renderer') = false
        /\ exists gl'',
             Draw renderer' source gl' h'
             = Returns (VLC_SUCCESS, renderer', gl'', h')
             /\ same_buffers gl' gl'').
Proof.
  intros F ops junkf junku NDEBUG renderer source gl h Draw asserted.
  assert (Hsecond : forall r' gl' h',
    NDEBUG || draw_assertions r' = true ->
    source_changed source (last_source r') = false ->
    exists gl'',
      Draw r' source gl' h' = Returns (VLC_SUCCESS, r', gl'', h')
      /\ same_buffers gl' gl'').
  { intros r' gl' h' Ha Hsame. eexists. split.
    - unfold Draw. rewrite (Draw_unchanged junkf junku NDEBUG r' source gl' h' Hsame), Ha.
      reflexivity.
    - eapply same_buffers_trans; [apply gl_enter_same_buffers |].
      apply drawn_same_buffers. }
  destruct (source_changed source (last_source renderer)) eqn:Hchanged.
  - (* the rectangle differs *)
    split; [discriminate |].
    destruct (Draw_changed junkf junku NDEBUG renderer source gl h Hchanged)
      as [(n & gl1 & h' & E & Hm & Hu) | (ret & h' & E & Hret)];
      fold Draw in E; fold asserted in E.
    + set (r' := set_last_source (snapshot_of source)
                   (set_nb_indices n renderer)) in *.
      destruct (drawn_same_buffers r' gl1) as (Hu' & Hm' & _).
      split.
      { intros _. right. destruct asserted.
        - exists r', (drawn r' gl1), h'. split; [exact E |].
          rewrite Hm', Hu', Hm, Hu. repeat split; reflexivity.
        - exact E. }
      split.
      { intros _ _ _. destruct asserted.
        - exists r', (drawn r' gl1), h'. exact E.
        - exact E. }
      intros r'' gl'' h'' E'. rewrite E in E'.
      destruct asserted eqn:Ha; [| discriminate E'].
      injection E' as <- <- <-.
      assert (Hsame : source_changed source (last_source r') = false)
        by apply source_changed_snapshot.
      split; [exact Hsame |]. apply Hsecond; [exact Ha | exact Hsame].
    + split.
      { intros _. left. exists ret, h'. split; [exact E |].
        split; [exact Hret | apply gl_enter_same_buffers]. }
      split.
      { intros _ Hmode Hok. exfalso.
        unfold Draw, vlc_gl_renderer_Draw in E. rewrite Hchanged in E.
        match type of E with
        | context [SetupCoords _ _ ?r ?a ?b ?c ?d ?g ?hh] =>
            pose proof (SetupCoords_succeeds junkf junku r a b c d g hh
                          Hmode Hok) as Hs;
            destruct (SetupCoords junkf junku r a b c d g hh)
              as [[[ret0 r0] gl0] h0]
        end.
        cbn [fst] in Hs. subst ret0. cbn [negb Z.eqb VLC_SUCCESS] in E.
        destruct (DrawWithShaders _ _ _); [| discriminate E].
        injection E as <- _ _ _. destruct Hret; discriminate. }
      intros r'' gl'' h'' E'. rewrite E in E'.
      injection E' as -> _ _ _. destruct Hret; discriminate.
  - (* the rectangle of the snapshot *)
    pose proof (Draw_unchanged junkf junku NDEBUG renderer source gl h Hchanged)
      as E.
    fold Draw in E. fold asserted in E.
    split.
    { intros _. destruct asserted.
      - eexists. split; [exact E |].
        eapply same_buffers_trans; [apply gl_enter_same_buffers |].
        apply drawn_same_buffers.
      - exact E. }
    split; [discriminate |].
    split; [discriminate |].
    intros r'' gl'' h'' E'. rewrite E in E'.
    destruct asserted eqn:Ha; [| discriminate E'].
    injection E' as <- <- <-.
    split; [exact Hchanged | apply Hsecond; [exact Ha | exact Hchanged]].
Qed.

(** Two calls of Draw with the same source do not always rebuild once at
    the first call and never at the second.  On a picture not drawn yet,
    the source differs from the snapshot; when malloc fails in the first
    call, this call returns VLC_ENOMEM and uploads no mesh, and the second
    call, with the same source, rebuilds and uploads the mesh. *)
Lemma C6_counterexample_failed_first_draw :
  source_changed DrawExample.source (last_source DrawExample.renderer) = true
  /\ DrawExample.code_of DrawExample.first_call = Some VLC_ENOMEM
  /\ DrawExample.mesh_uploads_of DrawExample.first_call = Some 0%nat
  /\ DrawExample.code_of DrawExample.second_call = Some VLC_SUCCESS
  /\ DrawExample.mesh_uploads_of DrawExample.second_call = Some 1%nat.
Proof. repeat split; vm_compute; reflexivity. Qed.

(** When malloc succeeds, the first call uploads the mesh. *)
Lemma Draw_first_call_ok :
  DrawExample.code_of DrawExample.first_call_ok = Some VLC_SUCCESS
  /\ DrawExample.mesh_uploads_of DrawExample.first_call_ok = Some 1%nat.
Proof. repeat split; vm_compute; reflexivity. Qed.

(** On a renderer whose plane has no texture, the process stops in the
    first Draw, after the mesh has been built. *)
Lemma Draw_stops_without_texture :
  DrawExample.Draw DrawExample.renderer_without_texture DrawExample.source
    Examples.gl0 (Examples.heap_with [])
  = Stops.
Proof. vm_compute. reflexivity. Qed.

(** C7. When one of the three allocations of a mesh builder fails, the
    builder answers VLC_ENOMEM and no mesh, and the heap holds the blocks it
    held before: what had been allocated is freed.  SetupCoords then
    answers VLC_ENOMEM with the context and the renderer untouched: no
    buffer is uploaded.  A Draw that rebuilds answers VLC_ENOMEM too; it
    has cleared the color buffer and selected the program and nothing else,
    so the buffer objects hold the mesh they held, and the renderer, with
    its snapshot and its count of indices, is as it was. *)
Theorem C7_allocation_failure_is_propagated
    (F : Type) (ops : FloatOps F)
    (indeterminate_float : nat -> F) (indeterminate_ushort : nat -> Z)
    (renderer : vlc_gl_renderer F) (source : video_format_t)
    (gl : gl_state F) (h : heap) :
  heap_wf h -> alloc_fails h = true ->
  (forall (nbPlanes : nat) (padW padH : F) (l t r b : list F),
     (exists h',
        BuildRectangle indeterminate_float indeterminate_ushort
          nbPlanes l t r b h = (VLC_ENOMEM, None, h')
        /\ heap_live h' = heap_live h)
     /\ (exists h',
           BuildSphere indeterminate_float indeterminate_ushort
             nbPlanes l t r b h = (VLC_ENOMEM, None, h')
           /\ heap_live h' = heap_live h)
     /\ (exists h',
           BuildCube indeterminate_float indeterminate_ushort
             nbPlanes padW padH l t r b h = (VLC_ENOMEM, None, h')
           /\ heap_live h' = heap_live h))
  /\ (has_builder (projection_mode (fmt renderer)) = true ->
      (forall l t r b : list F,
         exists h',
           SetupCoords indeterminate_float indeterminate_ushort
             renderer l t r b gl h = (VLC_ENOMEM, renderer, gl, h')
           /\ heap_live h' = heap_live h)
      /\ (source_changed source (last_source renderer) = true ->
          forall NDEBUG : bool,
          exists gl' h',
            vlc_gl_renderer_Draw indeterminate_float indeterminate_ushort
              NDEBUG renderer source gl h
            = Returns (VLC_ENOMEM, renderer, gl', h')
            /\ gl_calls gl'
               = gl_calls gl ++ [glClear; glUseProgram (program_id renderer)]
            /\ same_buffers gl gl'
            /\ heap_live h' = heap_live h)).
Proof.
  intros Hwf Hfail. split.
  - intros nbPlanes padW padH l t r b. split; [| split].
    + apply BuildRectangle_fails; assumption.
    + apply (BuildSphere_bands_fails indeterminate_float indeterminate_ushort
               128 128); assumption.
    + apply BuildCube_fails; assumption.
  - intros Hmode. split.
    + intros l t r b. apply SetupCoords_fails; assumption.
    + intros Hchanged NDEBUG.
      unfold vlc_gl_renderer_Draw. rewrite Hchanged.
      fold (gl_enter renderer gl).
      set (rs := TextureCropForStereo _ _ _).
      destruct (SetupCoords_fails indeterminate_float indeterminate_ushort
                  renderer (rect_left rs) (rect_top rs) (rect_right rs)
                  (rect_bottom rs) (gl_enter renderer gl) h Hmode Hwf Hfail)
        as (h' & -> & Hlive).
      exists (gl_enter renderer gl), h'. split; [reflexivity |].
      split.
      { unfold gl_enter, gl_do. cbn [gl_calls].
        rewrite <- app_assoc. reflexivity. }
      split; [apply gl_enter_same_buffers | exact Hlive].
Qed.

(** The Draw of the example whose first malloc fails. *)
Lemma C7_witness_first_malloc_fails :
  heap_wf (Examples.heap_with [false])
  /\ alloc_fails (Examples.heap_with [false]) = true
  /\ exists gl' h',
       DrawExample.first_call
       = Returns (VLC_ENOMEM, DrawExample.renderer, gl', h')
       /\ gl_calls gl' = [glClear; glUseProgram 1]
       /\ same_buffers Examples.gl0 gl'
       /\ heap_live h' = [].
Proof.
  assert (Hwf : heap_wf (Examples.heap_with [false])) by constructor.
  split; [exact Hwf |]. split; [reflexivity |].
  exact (proj2 (proj2
           (C7_allocation_failure_is_propagated spec_float Examples.ops
              Examples.junk_float Examples.junk_ushort
              DrawExample.renderer DrawExample.source Examples.gl0
              (Examples.heap_with [false]) Hwf eq_refl)
           eq_refl) eq_refl false).
Defined.

(** ** The sphere *)

(** *** The index array *)

Section SphereIndices.
Variable n : nat.

Lemma sphere_indices_write_cell (indices : list Z) :
  sphere_indices n n indices
  = for_loop n (fun lat => for_loop n (fun lon => write_cell n lat lon)) indices.
Proof. reflexivity. Qed.

Lemma write_cell_length lat lon indices :
  length (write_cell n lat lon indices) = length indices.
Proof. unfold write_cell. cbv zeta. rewrite !length_insert. reflexivity. Qed.

Lemma cell_of_place (lat lon j : nat) :
  (lon < n)%nat -> (j < 6)%nat ->
  (((lat * n + lon) * 6 + j) / 6 / n = lat
   /\ ((lat * n + lon) * 6 + j) / 6 mod n = lon
   /\ ((lat * n + lon) * 6 + j) mod 6 = j)%nat.
Proof.
  intros Hlon Hj.
  assert (H6 : (((lat * n + lon) * 6 + j) / 6 = lat * n + lon)%nat).
  { symmetry. apply (Nat.div_unique _ 6 _ j); lia. }
  rewrite H6. split; [| split].
  - symmetry. apply (Nat.div_unique _ n _ lon); lia.
  - symmetry. apply (Nat.mod_unique _ n lat lon); lia.
  - symmetry. apply (Nat.mod_unique _ 6 (lat * n + lon) j); lia.
Qed.

Lemma write_cell_step (lat lon len : nat) (indices : list Z) :
  (lon < n)%nat -> ((lat * n + lon) * 6 + 6 <= len)%nat ->
  cells_written n (lat * n + lon) len indices ->
  cells_written n (lat * n + lon + 1) len (write_cell n lat lon indices).
Proof.
  intros Hlon Hlen [Hl Hw]. split.
  - rewrite write_cell_length. exact Hl.
  - intros k Hk.
    destruct (Nat.lt_ge_cases k ((lat * n + lon) * 6)) as [Hold | Hnew].
    + unfold write_cell. cbv zeta.
      rewrite !list_lookup_insert_ne by lia. apply Hw. exact Hold.
    + assert (Hj : exists j, (j < 6)%nat /\ k = ((lat * n + lon) * 6 + j)%nat).
      { exists (k - (lat * n + lon) * 6)%nat. lia. }
      destruct Hj as (j & Hj & ->).
      unfold sphere_index.
      destruct (cell_of_place lat lon j Hlon Hj) as (-> & -> & ->).
      unfold write_cell, cell_indices. cbv zeta.
      replace ((lat * n + lon) * 3 * 2)%nat with ((lat * n + lon) * 6)%nat by lia.
      destruct j as [| [| [| [| [| [| j]]]]]]; [.. | lia]; cbn [nth];
        rewrite ?Nat.add_0_r;
        repeat (rewrite list_lookup_insert_ne by lia);
        rewrite list_lookup_insert_eq; try reflexivity;
        rewrite ?length_insert; lia.
Qed.

Lemma sphere_indices_written (len : nat) (indices : list Z) :
  (n * n * 6 <= len)%nat -> length indices = len ->
  cells_written n (n * n) len (sphere_indices n n indices).
Proof.
  intros Hlen Hl. rewrite sphere_indices_write_cell.
  apply (for_loop_ind (fun lat a => cells_written n (lat * n) len a)).
  - split; [exact Hl |]. intros k Hk. lia.
  - intros lat a Hlat Hrow.
    replace (Datatypes.S lat * n)%nat with (lat * n + n)%nat by lia.
    apply (for_loop_ind (fun lon a => cells_written n (lat * n + lon) len a)).
    + rewrite Nat.add_0_r. exact Hrow.
    + intros lon a' Hlon Hcells.
      replace (lat * n + Datatypes.S lon)%nat with (lat * n + lon + 1)%nat by lia.
      apply write_cell_step; [exact Hlon | nia | exact Hcells].
Qed.

(** Every index that is stored names a vertex of the sphere. *)
Lemma sphere_index_bound (k : nat) :
  (k < n * n * 6)%nat ->
  0 <= sphere_index n k < Z.of_nat ((n + 1) * (n + 1)).
Proof.
  intros Hk. unfold sphere_index, cell_indices.
  assert (Hn : (0 < n)%nat) by nia.
  assert (Hc : (k / 6 < n * n)%nat) by (apply Nat.Div0.div_lt_upper_bound; lia).
  assert (Hlat : (k / 6 / n < n)%nat)
    by (apply Nat.Div0.div_lt_upper_bound; lia).
  assert (Hlon : (k / 6 mod n < n)%nat) by (apply Nat.mod_upper_bound; lia).
  assert (Hj : (k mod 6 < 6)%nat) by (apply Nat.mod_upper_bound; lia).
  set (lat := (k / 6 / n)%nat) in *. set (lon := (k / 6 mod n)%nat) in *.
  destruct (k mod 6)%nat as [| [| [| [| [| [| j]]]]]]; [.. | lia];
    cbn [nth]; nia.
Qed.

End SphereIndices.

Lemma uninit_ushorts_length (junk : nat -> Z) (n : Z) :
  length (uninit_ushorts junk n) = Z.to_nat n.
Proof. unfold uninit_ushorts. rewrite length_map, length_seq. reflexivity. Qed.

Lemma uninit_floats_length {F : Type} (junk : nat -> F) (n : Z) :
  length (uninit_floats junk n) = Z.to_nat n.
Proof. unfold uninit_floats. rewrite length_map, length_seq. reflexivity. Qed.

(** The counts of the sphere, as C computes them. *)
Lemma sphere_counts :
  wrap_unsigned (Z.of_nat ((128 + 1) * (128 + 1))) = 16641
  /\ wrap_unsigned (Z.of_nat (128 * 128 * 3 * 2)) = 98304
  /\ wrap_unsigned (16641 * 3) = 49923.
Proof.
  rewrite !Nat2Z.inj_mul, !Nat2Z.inj_add. repeat split; reflexivity.
Qed.

(** *** The position array *)

Section SpherePositions.
Context {F : Type} `{FloatOps F}.
Variable indeterminate_float : nat -> F.
Variables nbPlanes nbLatBands nbLonBands : nat.
Variables rect_l rect_t rect_r rect_b : list F.
Local Open Scope cfloat_scope.

Lemma vertex_of_place (lat lon j : nat) :
  (lon < nbLonBands + 1)%nat -> (j < 3)%nat ->
  (((lat * (nbLonBands + 1) + lon) * 3 + j) / 3 / (nbLonBands + 1) = lat
   /\ ((lat * (nbLonBands + 1) + lon) * 3 + j) / 3 mod (nbLonBands + 1) = lon
   /\ ((lat * (nbLonBands + 1) + lon) * 3 + j) mod 3 = j)%nat.
Proof.
  intros Hlon Hj.
  assert (H3 : (((lat * (nbLonBands + 1) + lon) * 3 + j) / 3
                = lat * (nbLonBands + 1) + lon)%nat).
  { symmetry. apply (Nat.div_unique _ 3 _ j); lia. }
  rewrite H3. split; [| split].
  - symmetry. apply (Nat.div_unique _ (nbLonBands + 1) _ lon); lia.
  - symmetry. apply (Nat.mod_unique _ (nbLonBands + 1) lat lon); lia.
  - symmetry. apply (Nat.mod_unique _ 3 (lat * (nbLonBands + 1) + lon) j); lia.
Qed.

(** One turn of the inner loop writes the vertex (lat, lon). *)
Lemma sphere_vertex_step (lat lon len : nat) (sinTheta cosTheta : F)
    (vertexCoord textureCoord : list F) :
  sincosf (sphere_theta nbLatBands lat) = (sinTheta, cosTheta) ->
  (lon < nbLonBands + 1)%nat ->
  ((lat * (nbLonBands + 1) + lon) * 3 + 3 <= len)%nat ->
  vertices_written nbLatBands nbLonBands (lat * (nbLonBands + 1) + lon) len vertexCoord ->
  vertices_written nbLatBands nbLonBands (lat * (nbLonBands + 1) + lon + 1) len
    (fst
       (let phi := sphere_phi nbLonBands lon in
        let '(sinPhi, cosPhi) := sincosf phi in
        let x := cosPhi *! sinTheta in
        let y := cosTheta in
        let z := sinPhi *! sinTheta in
        let off1 := ((lat * (nbLonBands + 1) + lon) * 3)%nat in
        let vertexCoord := <[off1 := SPHERE_RADIUS *! x]> vertexCoord in
        let vertexCoord := <[(off1 + 1)%nat := SPHERE_RADIUS *! y]> vertexCoord in
        let vertexCoord := <[(off1 + 2)%nat := SPHERE_RADIUS *! z]> vertexCoord in
        let textureCoord :=
          for_loop nbPlanes (fun p textureCoord =>
            let off2 :=
              ((p * (nbLatBands + 1) * (nbLonBands + 1)
                + lat * (nbLonBands + 1) + lon) * 2)%nat in
            let width := at_ indeterminate_float rect_r p
                         -! at_ indeterminate_float rect_l p in
            let height := at_ indeterminate_float rect_b p
                          -! at_ indeterminate_float rect_t p in
            let u :=
              float_of_int (Z.of_nat lon) /! float_of_int (Z.of_nat nbLonBands)
                *! width in
            let v :=
              float_of_int (Z.of_nat lat) /! float_of_int (Z.of_nat nbLatBands)
                *! height in
            let textureCoord := <[off2 := u]> textureCoord in
            let textureCoord := <[(off2 + 1)%nat := v]> textureCoord in
            textureCoord) textureCoord in
        (vertexCoord, textureCoord))).
Proof.
  intros Etheta Hlon Hlen [Hl Hw]. cbv zeta.
  destruct (sincosf (sphere_phi nbLonBands lon)) as [sinPhi cosPhi] eqn:Ephi.
  cbn [fst]. split.
  - rewrite !length_insert. exact Hl.
  - intros k Hk.
    destruct (Nat.lt_ge_cases k ((lat * (nbLonBands + 1) + lon) * 3))
      as [Hold | Hnew].
    + rewrite !list_lookup_insert_ne by lia. apply Hw. exact Hold.
    + assert (Hj : exists j, (j < 3)%nat
                /\ k = ((lat * (nbLonBands + 1) + lon) * 3 + j)%nat).
      { exists (k - (lat * (nbLonBands + 1) + lon) * 3)%nat. lia. }
      destruct Hj as (j & Hj & ->).
      unfold sphere_coordinate.
      destruct (vertex_of_place lat lon j Hlon Hj) as (-> & -> & ->).
      unfold sphere_vertex. rewrite Etheta, Ephi.
      destruct j as [| [| [| j]]]; [.. | lia]; cbn [lookup list_lookup];
        rewrite ?Nat.add_0_r;
        repeat (rewrite list_lookup_insert_ne by lia);
        rewrite list_lookup_insert_eq; try reflexivity;
        rewrite ?length_insert; lia.
Qed.

Lemma sphere_coords_written (len : nat) (vertexCoord textureCoord : list F) :
  ((nbLatBands + 1) * (nbLonBands + 1) * 3 <= len)%nat ->
  length vertexCoord = len ->
  vertices_written nbLatBands nbLonBands ((nbLatBands + 1) * (nbLonBands + 1)) len
    (fst (sphere_coords indeterminate_float nbPlanes nbLatBands nbLonBands
            rect_l rect_t rect_r rect_b vertexCoord textureCoord)).
Proof.
  intros Hlen Hl. unfold sphere_coords.
  apply (for_loop_ind
    (fun lat s => vertices_written nbLatBands nbLonBands (lat * (nbLonBands + 1)) len (fst s))).
  - split; [exact Hl |]. intros k Hk. lia.
  - intros lat [vc tc] Hlat Hrow. cbn [fst] in Hrow.
    fold (sphere_theta nbLatBands lat).
    destruct (sincosf (sphere_theta nbLatBands lat))
      as [sinTheta cosTheta] eqn:Etheta.
    replace (Datatypes.S lat * (nbLonBands + 1))%nat
      with (lat * (nbLonBands + 1) + (nbLonBands + 1))%nat by lia.
    apply (for_loop_ind
      (fun lon s =>
         vertices_written nbLatBands nbLonBands (lat * (nbLonBands + 1) + lon) len (fst s))).
    + rewrite Nat.add_0_r. exact Hrow.
    + intros lon [vc' tc'] Hlon Hcells. cbn [fst] in Hcells.
      replace (lat * (nbLonBands + 1) + Datatypes.S lon)%nat
        with (lat * (nbLonBands + 1) + lon + 1)%nat by lia.
      apply (sphere_vertex_step lat lon len sinTheta cosTheta vc' tc' Etheta);
        [exact Hlon | nia | exact Hcells].
Qed.

End SpherePositions.

(** *** The mesh of the sphere *)

(** What BuildSphere answers when its allocations succeed: the counts, and
    the two arrays that the properties below read, place after place. *)
Lemma BuildSphere_mesh (F : Type) (ops : FloatOps F)
    (indeterminate_float : nat -> F) (indeterminate_ushort : nat -> Z)
    (nbPlanes : nat) (l t r b : list F) (h : heap) :
  alloc_fails h = false ->
  exists m h',
    BuildSphere indeterminate_float indeterminate_ushort nbPlanes l t r b h
    = (VLC_SUCCESS, Some m, h')
    /\ nbVertices m = 16641
    /\ nbIndices m = 98304
    /\ cells_written 128 (128 * 128) (128 * 128 * 6) (indices m)
    /\ vertices_written 128 128 ((128 + 1) * (128 + 1))
         ((128 + 1) * (128 + 1) * 3) (vertexCoord m).
Proof.
  intros Hok.
  destruct sphere_counts as (Hnv & Hni & Hnc).
  unfold BuildSphere, BuildSphere_bands. rewrite Hnv, Hni.
  destruct (alloc_mesh_succeeds indeterminate_float indeterminate_ushort
              nbPlanes 16641 98304 h)
    as (m & -> & _ & _ & _ & Hv & Hi & Hvc & _ & Hix);
    [unfold UINT_MAX; lia | exact Hok |].
  rewrite Hnc in Hvc.
  pose proof (sphere_coords_written indeterminate_float nbPlanes 128 128
                l t r b ((128 + 1) * (128 + 1) * 3) (vertexCoord m)
                (textureCoord m)) as Hwritten.
  destruct (sphere_coords _ _ _ _ _ _ _ _ _) as [vc tc].
  eexists. eexists. split; [reflexivity |].
  unfold fill_mesh.
  cbn [nbVertices nbIndices indices vertexCoord fst] in Hwritten |- *.
  split; [exact Hv |]. split; [exact Hi |]. split.
  - apply sphere_indices_written; [lia |].
    rewrite Hix, uninit_ushorts_length. apply Nat2Z.inj.
    rewrite Z2Nat.id by lia. rewrite !Nat2Z.inj_mul. reflexivity.
  - apply Hwritten; [lia |].
    rewrite Hvc, uninit_floats_length. apply Nat2Z.inj.
    rewrite Z2Nat.id by lia.
    rewrite !Nat2Z.inj_mul, !Nat2Z.inj_add. reflexivity.
Qed.


(** C10. When its allocations succeed, BuildSphere answers a mesh of 16641
    vertices whose index array has 128 * 128 * 6 = 98304 entries, every one of them
    written, whatever the block held: the entry at the place k is the
    index sphere_index 128 k of a corner of the cell k / 6.  Every entry
    is at least 0 and below the vertex count 16641, and below 65536, so
    that its conversion to GLushort keeps it.  The offset of the cell,
    (lat * nbLatBands + lon) * 6, puts the cells one after the other
    because the two band counts are equal. *)
Theorem C10_sphere_indices_in_range
    (F : Type) (ops : FloatOps F)
    (indeterminate_float : nat -> F) (indeterminate_ushort : nat -> Z)
    (nbPlanes : nat) (l t r b : list F) (h : heap) :
  alloc_fails h = false ->
  exists m h',
    BuildSphere indeterminate_float indeterminate_ushort nbPlanes l t r b h
    = (VLC_SUCCESS, Some m, h')
    /\ nbVertices m = 16641
    /\ nbIndices m = 98304
    /\ length (indices m) = (128 * 128 * 6)%nat
    /\ (forall k, (k < 128 * 128 * 6)%nat ->
          indices m !! k = Some (sphere_index 128 k)
          /\ wrap_ushort (sphere_index 128 k) = sphere_index 128 k)
    /\ Forall (fun i => 0 <= i < nbVertices m /\ i < 65536) (indices m).
Proof.
  intros Hok.
  destruct (BuildSphere_mesh F ops indeterminate_float indeterminate_ushort
              nbPlanes l t r b h Hok)
    as (m & h' & E & Hv & Hi & [Hl Hw] & _).
  exists m, h'. split; [exact E |].
  assert (Hbound : forall k, (k < 128 * 128 * 6)%nat ->
            0 <= sphere_index 128 k < 16641).
  { intros k Hk. pose proof (sphere_index_bound 128 k Hk) as Hb.
    rewrite !Nat2Z.inj_mul, !Nat2Z.inj_add in Hb. exact Hb. }
  assert (Hwrap : forall k, (k < 128 * 128 * 6)%nat ->
            wrap_ushort (sphere_index 128 k) = sphere_index 128 k).
  { intros k Hk. unfold wrap_ushort. apply Z.mod_small.
    specialize (Hbound k Hk). lia. }
  split; [exact Hv |]. split; [exact Hi |]. split; [exact Hl |].
  split.
  - intros k Hk. rewrite Hw by exact Hk. rewrite (Hwrap k Hk).
    split; reflexivity.
  - rewrite Hv. apply Forall_lookup. intros k x Hx.
    assert (Hk : (k < 128 * 128 * 6)%nat).
    { rewrite <- Hl. eapply lookup_lt_Some. exact Hx. }
    rewrite Hw in Hx by exact Hk. injection Hx as <-.
    rewrite (Hwrap k Hk). specialize (Hbound k Hk). lia.
Qed.

(** On a heap where every call of malloc succeeds. *)
Lemma C10_witness_heap_grants :
  alloc_fails (Examples.heap_with []) = false
  /\ exists m h',
       @BuildSphere spec_float Examples.ops
         Examples.junk_float Examples.junk_ushort 1
         [Examples.zero] [Examples.zero] [Binary.b32 1 0] [Binary.b32 1 0]
         (Examples.heap_with [])
       = (VLC_SUCCESS, Some m, h')
       /\ Forall (fun i => 0 <= i < 16641) (indices m).
Proof.
  split; [reflexivity |].
  destruct (C10_sphere_indices_in_range spec_float Examples.ops
              Examples.junk_float Examples.junk_ushort 1
              [Examples.zero] [Examples.zero] [Binary.b32 1 0] [Binary.b32 1 0]
              (Examples.heap_with []) eq_refl)
    as (m & h' & E & Hv & _ & _ & _ & Hall).
  exists m, h'. split; [exact E |].
  rewrite Hv in Hall. eapply Forall_impl; [exact Hall |].
  cbv beta. intros x Hx. exact (proj1 Hx).
Defined.

(** With two bands of latitude and one of longitude the offset of the
    second cell, (1 * 2 + 0) * 6 = 12, is past the end of the 12 entries:
    the cell is never written in the array, whose second half keeps what
    the block held. *)
Lemma sphere_indices_unequal_bands :
  unequal_bands_indices = [0; 2; 1; 2; 3; 1;
                           65535; 65535; 65535; 65535; 65535; 65535].
Proof. reflexivity. Qed.

(** The vertex (lat, lon) over the reals: on the sphere of radius 1, at
    the colatitude theta and the longitude phi. *)
Lemma sphere_vertex_real (lat lon : nat) :
  (lon <= 128)%nat ->
  let theta := (IZR (Z.of_nat lat) * PI / 128)%R in
  let phi := (IZR (Z.of_nat lon) * 2 * PI / 128)%R in
  let radius := 1%R in
  let x := (radius * (cos phi * sin theta))%R in
  let y := (radius * cos theta)%R in
  let z := (radius * (sin phi * sin theta))%R in
  @sphere_vertex R Exact.real_ops 128 128 lat lon = [x; y; z]
  /\ sqrt (x * x + y * y + z * z) = radius.
Proof.
  intros Hlon theta phi radius x y z. split.
  - unfold sphere_vertex, sphere_theta, sphere_phi.
    cbn [sincosf Exact.real_ops float_of_int fmul fdiv M_PI_f].
    unfold M_PI_f, SPHERE_RADIUS, f1.
    cbn [float_of_double M_PI float_of_int Exact.real_ops].
    change (Z.of_nat 128) with 128.
    unfold wrap_unsigned, UINT_MAX. rewrite Z.mod_small by lia.
    rewrite mult_IZR. reflexivity.
  - unfold x, y, z, radius.
    replace (1 * (cos phi * sin theta) * (1 * (cos phi * sin theta))
             + 1 * cos theta * (1 * cos theta)
             + 1 * (sin phi * sin theta) * (1 * (sin phi * sin theta)))%R
      with ((Rsqr (sin phi) + Rsqr (cos phi)) * Rsqr (sin theta)
            + Rsqr (cos theta))%R
      by (unfold Rsqr; ring).
    rewrite sin2_cos2, Rmult_1_l, sin2_cos2. apply sqrt_1.
Qed.


(** C5. When its allocations succeed, BuildSphere answers a mesh with
    (128 + 1) * (128 + 1) = 16641 vertices and 128 * 128 * 6 = 98304
    indices, in arrays of 3 * 16641 coordinates and 98304 indices.  The
    three coordinates of the vertex of the band (lat, lon), for lat and
    lon up to 128, are radius * (cos phi * sin theta), radius * cos theta
    and radius * (sin phi * sin theta), with the sine and cosine that
    sincosf returns for theta = lat * (float) M_PI / 128 and phi = lon * 2
    * (float) M_PI / 128, and the radius 1, whatever the arithmetic and
    whatever the block held.  Over the reals theta = lat * pi / 128, phi =
    lon * 2 * pi / 128 and the vertex is at distance radius from the
    origin. *)
Theorem C5_sphere_mesh :
  (forall (F : Type) (ops : FloatOps F)
          (indeterminate_float : nat -> F) (indeterminate_ushort : nat -> Z)
          (nbPlanes : nat) (l t r b : list F) (h : heap),
     alloc_fails h = false ->
     exists m h',
       BuildSphere indeterminate_float indeterminate_ushort nbPlanes l t r b h
       = (VLC_SUCCESS, Some m, h')
       /\ nbVertices m = (128 + 1) * (128 + 1) /\ nbVertices m = 16641
       /\ nbIndices m = 128 * 128 * 6 /\ nbIndices m = 98304
       /\ length (vertexCoord m) = ((128 + 1) * (128 + 1) * 3)%nat
       /\ length (indices m) = (128 * 128 * 6)%nat
       /\ forall lat lon j : nat,
            (lat <= 128)%nat -> (lon <= 128)%nat -> (j < 3)%nat ->
            vertexCoord m !! ((lat * (128 + 1) + lon) * 3 + j)%nat
            = sphere_vertex 128 128 lat lon !! j)
  /\ (forall lat lon : nat,
        (lat <= 128)%nat -> (lon <= 128)%nat ->
        let theta := (IZR (Z.of_nat lat) * PI / 128)%R in
        let phi := (IZR (Z.of_nat lon) * 2 * PI / 128)%R in
        let radius := 1%R in
        let x := (radius * (cos phi * sin theta))%R in
        let y := (radius * cos theta)%R in
        let z := (radius * (sin phi * sin theta))%R in
        @sphere_vertex R Exact.real_ops 128 128 lat lon = [x; y; z]
        /\ sqrt (x * x + y * y + z * z) = radius).
Proof.
  split.
  - intros F ops junkf junku nbPlanes l t r b h Hok.
    destruct (BuildSphere_mesh F ops junkf junku nbPlanes l t r b h Hok)
      as (m & h' & E & Hv & Hi & [Hl _] & [Hlen Hw]).
    exists m, h'. split; [exact E |].
    split; [rewrite Hv; reflexivity |]. split; [exact Hv |].
    split; [rewrite Hi; reflexivity |]. split; [exact Hi |].
    split; [exact Hlen |]. split; [exact Hl |].
    intros lat lon j Hlat Hlon Hj.
    rewrite Hw by nia. unfold sphere_coordinate.
    destruct (vertex_of_place 128 lat lon j) as (-> & -> & ->);
      [lia | exact Hj |]. reflexivity.
  - intros lat lon _ Hlon. apply sphere_vertex_real. exact Hlon.
Qed.

(** On a heap where every call of malloc succeeds, the north pole. *)
Lemma C5_witness_heap_grants :
  alloc_fails (Examples.heap_with []) = false
  /\ exists m h',
       @BuildSphere spec_float Examples.ops
         Examples.junk_float Examples.junk_ushort 1
         [Examples.zero] [Examples.zero] [Binary.b32 1 0] [Binary.b32 1 0]
         (Examples.heap_with [])
       = (VLC_SUCCESS, Some m, h')
       /\ nbVertices m = 16641 /\ nbIndices m = 98304
       /\ vertexCoord m !! 1%nat
          = @sphere_vertex spec_float Examples.ops 128 128 0 0 !! 1%nat.
Proof.
  split; [reflexivity |].
  destruct (proj1 C5_sphere_mesh spec_float Examples.ops
              Examples.junk_float Examples.junk_ushort 1%nat
              [Examples.zero] [Examples.zero] [Binary.b32 1 0] [Binary.b32 1 0]
              (Examples.heap_with []) eq_refl)
    as (m & h' & E & _ & Hv & _ & Hi & _ & _ & Hvertex).
  exists m, h'. split; [exact E |]. split; [exact Hv |]. split; [exact Hi |].
  apply (Hvertex 0%nat 0%nat 1%nat); lia.
Defined.

(** ** The zoom in binary32 *)

(** At the maximum field of view of VLC, 150 degrees, the line gives a
    value just below z_min and the clamp stores z_min itself. *)
Lemma UpdateZ_binary32_at_maximum :
  ZoomExample.z_min = S754_finite true 8537849 (-23)
  /\ f_z (@UpdateZ spec_float ZoomExample.ops Examples.FOV_MAX
            ZoomExample.renderer)
     = ZoomExample.z_min.
Proof. split; vm_compute; reflexivity. Qed.

(** The float that SetViewpoint stores for 90 degrees, 90.f * (float) M_PI
    / 180.f, is above the threshold 90.f * M_PI / 180 of UpdateZ, which is
    computed in double: (float) M_PI is above M_PI.  A field of view of
    exactly 90 degrees is on the side of the threshold where the zoom is
    interpolated. *)
Lemma radians_of_90_degrees_above_threshold :
  ZoomExample.radians 90 = S754_finite false 13176795 (-23)
  /\ @z_thresh_rad spec_float ZoomExample.ops
     = S754_finite false 7074237752028440 (-52)
  /\ @fle _ ZoomExample.ops (ZoomExample.radians 90)
       (@z_thresh_rad spec_float ZoomExample.ops)
     = false.
Proof. repeat split; vm_compute; reflexivity. Qed.

(** * Further properties *)

(** ** SetViewpoint twice *)

Lemma SFsub_diag (x : spec_float) :
  SFsub 24 128 x x = S754_zero false \/ SFsub 24 128 x x = S754_nan.
Proof.
  destruct x as [[|] | [|] | | s m e]; cbn [SFsub]; auto.
  left.
  match goal with |- binary_normalize _ _ ?t _ _ = _ =>
    replace t with 0; [reflexivity |]
  end.
  symmetry. apply Z.sub_diag.
Qed.

#[export] Instance binary_distance (lm : Binary.libm) :
  @FloatDistance spec_float (Binary.binary_ops lm).
Proof.
  split. intros x. cbn [fle fabsf fsub Binary.binary_ops].
  unfold Binary.prec32, Binary.emax32.
  destruct (SFsub_diag x) as [-> | ->]; reflexivity.
Qed.

#[export] Instance real_distance : @FloatDistance R Exact.real_ops.
Proof.
  split. intros x. cbn [fle fabsf fsub Exact.real_ops float_lit fdiv float_of_int].
  unfold Exact.Rleb. rewrite Rminus_diag, Rabs_R0.
  destruct (Rle_dec (1 / 1000) 0); [lra | reflexivity].
Qed.

Section SetViewpointTwice.
Context {F : Type} `{FloatOps F} `{!FloatDistance F}.
Variable vlc_viewpoint_reverse : vlc_viewpoint_t F -> vlc_viewpoint_t F.
Variable vlc_viewpoint_to_4x4 : vlc_viewpoint_t F -> list F.
Variable FIELD_OF_VIEW_DEGREES_MAX : F.
Variable FIELD_OF_VIEW_DEGREES_MIN : F.
Local Open Scope cfloat_scope.

Lemma getViewpointMatrixes_idempotent (p : video_projection_mode_t)
    (r : vlc_gl_renderer F) :
  getViewpointMatrixes vlc_viewpoint_to_4x4 p
    (getViewpointMatrixes vlc_viewpoint_to_4x4 p r)
  = getViewpointMatrixes vlc_viewpoint_to_4x4 p r.
Proof. destruct p; reflexivity. Qed.

Lemma set_vp_getViewpointMatrixes (p : video_projection_mode_t)
    (r : vlc_gl_renderer F) :
  set_vp (vp r) (getViewpointMatrixes vlc_viewpoint_to_4x4 p r)
  = getViewpointMatrixes vlc_viewpoint_to_4x4 p r.
Proof. destruct p; reflexivity. Qed.

(** A second SetViewpoint on what a first one left, when the first left
    the reversed viewpoint in r2 and the test of the second fails. *)
Lemma SetViewpoint_again (r2 : vlc_gl_renderer F) (p_vp : vlc_viewpoint_t F) :
  flt FIELD_OF_VIEW_DEGREES_MAX (fov p_vp)
  || flt (fov p_vp) FIELD_OF_VIEW_DEGREES_MIN = false ->
  vp r2 = vlc_viewpoint_reverse p_vp ->
  fle (float_lit 1 1000)
      (fabsf (fov p_vp *! M_PI_f /! float_of_int 180 -! f_fovx r2)) = false ->
  let r3 :=
    getViewpointMatrixes vlc_viewpoint_to_4x4 (projection_mode (fmt r2)) r2 in
  vlc_gl_renderer_SetViewpoint vlc_viewpoint_reverse vlc_viewpoint_to_4x4
    FIELD_OF_VIEW_DEGREES_MAX FIELD_OF_VIEW_DEGREES_MIN r3 p_vp
  = (VLC_SUCCESS, r3).
Proof.
  intros Hguard Hvp Htest r3.
  destruct (getViewpointMatrixes_transforms vlc_viewpoint_to_4x4 r2)
    as (_ & _ & Hf & _ & Hx & _).
  cbv zeta in Hf, Hx. fold r3 in Hf, Hx.
  unfold vlc_gl_renderer_SetViewpoint.
  rewrite Hguard.
  change (f_fovx (set_vp (vlc_viewpoint_reverse p_vp) r3)) with (f_fovx r3).
  rewrite Hx, Htest. rewrite <- Hvp.
  unfold r3. rewrite set_vp_getViewpointMatrixes.
  fold r3. rewrite Hf. unfold r3.
  rewrite getViewpointMatrixes_idempotent. reflexivity.
Qed.

(** X1. SetViewpoint is idempotent: called again with the same viewpoint
    on the renderer that it returned, it returns the same code and the
    same renderer, whether the viewpoint was refused, accepted with a new
    field of view or accepted without one. *)
Theorem X1_SetViewpoint_idempotent
    (r : vlc_gl_renderer F) (p_vp : vlc_viewpoint_t F) :
  let answer :=
    vlc_gl_renderer_SetViewpoint vlc_viewpoint_reverse vlc_viewpoint_to_4x4
      FIELD_OF_VIEW_DEGREES_MAX FIELD_OF_VIEW_DEGREES_MIN r p_vp in
  vlc_gl_renderer_SetViewpoint vlc_viewpoint_reverse vlc_viewpoint_to_4x4
    FIELD_OF_VIEW_DEGREES_MAX FIELD_OF_VIEW_DEGREES_MIN (snd answer) p_vp
  = answer.
Proof.
  intros answer.
  destruct (flt FIELD_OF_VIEW_DEGREES_MAX (fov p_vp)
            || flt (fov p_vp) FIELD_OF_VIEW_DEGREES_MIN) eqn:Hguard.
  { assert (Ea : answer = (VLC_EBADVAR, r)).
    { unfold answer, vlc_gl_renderer_SetViewpoint. rewrite Hguard.
      reflexivity. }
    rewrite Ea. cbn [snd]. rewrite <- Ea. reflexivity. }
  set (new := fov p_vp *! M_PI_f /! float_of_int 180).
  assert (Hfirst : exists r2,
    answer
    = (VLC_SUCCESS,
       getViewpointMatrixes vlc_viewpoint_to_4x4
         (projection_mode (fmt r2)) r2)
    /\ vp r2 = vlc_viewpoint_reverse p_vp
    /\ fle (float_lit 1 1000) (fabsf (new -! f_fovx r2)) = false).
  { unfold answer, vlc_gl_renderer_SetViewpoint.
    rewrite Hguard. fold new.
    change (f_fovx (set_vp (vlc_viewpoint_reverse p_vp) r)) with (f_fovx r).
    destruct (fle (float_lit 1 1000) (fabsf (new -! f_fovx r))) eqn:E1.
    - eexists. split; [reflexivity |].
      destruct (UpdateZ_frame FIELD_OF_VIEW_DEGREES_MAX
                  (UpdateFOVy (set_f_fovx new
                     (set_vp (vlc_viewpoint_reverse p_vp) r))))
        as (Hframe & Hx & _).
      unfold same_but_fov in Hframe.
      destruct Hframe
        as (_ & _ & _ & _ & _ & _ & _ & _ & _ & _ & _ & _ & _ & Hvp & _).
      split; [exact Hvp |].
      rewrite Hx. apply self_distance_small.
    - eexists. split; [reflexivity |]. split; [reflexivity | exact E1]. }
  destruct Hfirst as (r2 & -> & Hvp & Htest).
  cbn [snd]. apply SetViewpoint_again; assumption.
Qed.

End SetViewpointTwice.

(** ** The derived fields stay in sync *)

Section SyncProperties.
Context {F : Type} `{FloatOps F}.
Variable vlc_viewpoint_reverse : vlc_viewpoint_t F -> vlc_viewpoint_t F.
Variable vlc_viewpoint_to_4x4 : vlc_viewpoint_t F -> list F.
Variable FIELD_OF_VIEW_DEGREES_MAX : F.
Variable FIELD_OF_VIEW_DEGREES_MIN : F.
Local Open Scope cfloat_scope.

(** UpdateZ reads the two fields of view only. *)
Lemma UpdateZ_reads (r r' : vlc_gl_renderer F) :
  f_fovx r' = f_fovx r -> f_fovy r' = f_fovy r ->
  f_z (UpdateZ FIELD_OF_VIEW_DEGREES_MAX r')
  = f_z (UpdateZ FIELD_OF_VIEW_DEGREES_MAX r).
Proof.
  intros Hx Hy. unfold UpdateZ. rewrite Hx, Hy.
  destruct (fle (f_fovx r) z_thresh_rad); [reflexivity |].
  cbn [f_z set_f_z].
  match goal with |- context [if ?c then _ else _] => destruct c end;
    reflexivity.
Qed.

(** UpdateFOVy reads the horizontal field of view and the aspect ratio. *)
Lemma UpdateFOVy_reads (r r' : vlc_gl_renderer F) :
  f_fovx r' = f_fovx r -> f_sar r' = f_sar r ->
  f_fovy (UpdateFOVy r') = f_fovy (UpdateFOVy r).
Proof. intros Hx Hs. unfold UpdateFOVy. cbn [f_fovy set_f_fovy]. rewrite Hx, Hs. reflexivity. Qed.

(** After UpdateFOVy and UpdateZ, and then getViewpointMatrixes, the
    renderer is in sync. *)
Lemma in_sync_updated (r : vlc_gl_renderer F) :
  let r2 := UpdateZ FIELD_OF_VIEW_DEGREES_MAX (UpdateFOVy r) in
  in_sync vlc_viewpoint_to_4x4 FIELD_OF_VIEW_DEGREES_MAX
    (getViewpointMatrixes vlc_viewpoint_to_4x4 (projection_mode (fmt r2)) r2).
Proof.
  intros r2.
  destruct (getViewpointMatrixes_transforms vlc_viewpoint_to_4x4 r2)
    as (Ht & _ & _ & _ & Hx & Hy & Hz & Hs & _).
  cbv zeta in Ht, Hx, Hy, Hz, Hs.
  destruct (UpdateZ_frame FIELD_OF_VIEW_DEGREES_MAX (UpdateFOVy r))
    as (Hframe & Hx2 & Hy2).
  fold r2 in Hframe, Hx2, Hy2.
  assert (Hs2 : f_sar r2 = f_sar r) by apply Hframe.
  unfold in_sync. split; [| split; [| exact Ht]].
  - rewrite Hy, Hy2.
    apply eq_sym, UpdateFOVy_reads.
    + rewrite Hx, Hx2. reflexivity.
    + rewrite Hs, Hs2. reflexivity.
  - rewrite Hz. unfold r2 at 1.
    apply eq_sym, UpdateZ_reads.
    + rewrite Hx. exact Hx2.
    + rewrite Hy. exact Hy2.
Qed.

(** When a renderer in sync gets a new viewpoint and its matrices are
    computed again, it is in sync. *)
Lemma in_sync_set_vp (v : vlc_viewpoint_t F) (r : vlc_gl_renderer F) :
  in_sync vlc_viewpoint_to_4x4 FIELD_OF_VIEW_DEGREES_MAX r ->
  in_sync vlc_viewpoint_to_4x4 FIELD_OF_VIEW_DEGREES_MAX
    (getViewpointMatrixes vlc_viewpoint_to_4x4
       (projection_mode (fmt (set_vp v r))) (set_vp v r)).
Proof.
  intros (Hy0 & Hz0 & _).
  destruct (getViewpointMatrixes_transforms vlc_viewpoint_to_4x4 (set_vp v r))
    as (Ht & _ & _ & _ & Hx & Hy & Hz & Hs & _).
  cbv zeta in Ht, Hx, Hy, Hz, Hs.
  unfold in_sync. split; [| split; [| exact Ht]].
  - rewrite Hy. change (f_fovy (set_vp v r)) with (f_fovy r). rewrite Hy0.
    apply eq_sym, UpdateFOVy_reads; [rewrite Hx | rewrite Hs]; reflexivity.
  - rewrite Hz. change (f_z (set_vp v r)) with (f_z r). rewrite Hz0.
    apply eq_sym, UpdateZ_reads; [rewrite Hx | rewrite Hy]; reflexivity.
Qed.

(** What a change of the aspect ratio leaves alone. *)
Lemma SetWindowAspectRatio_frame (r : vlc_gl_renderer F) (f_sar' : F) :
  let r' := vlc_gl_renderer_SetWindowAspectRatio vlc_viewpoint_to_4x4
              FIELD_OF_VIEW_DEGREES_MAX r f_sar' in
  f_sar r' = f_sar' /\ f_fovx r' = f_fovx r /\ vp r' = vp r
  /\ fmt r' = fmt r
  /\ OrientationMatrix (var r') = OrientationMatrix (var r).
Proof.
  intros r'. unfold r', vlc_gl_renderer_SetWindowAspectRatio.
  set (r2 := UpdateZ FIELD_OF_VIEW_DEGREES_MAX
               (UpdateFOVy (set_f_sar f_sar' r))).
  destruct (getViewpointMatrixes_transforms vlc_viewpoint_to_4x4 r2)
    as (_ & Ho & Hf & Hv & Hx & _ & _ & Hs & _).
  cbv zeta in Ho, Hf, Hv, Hx, Hs.
  destruct (UpdateZ_frame FIELD_OF_VIEW_DEGREES_MAX
              (UpdateFOVy (set_f_sar f_sar' r))) as (Hframe & Hx2 & _).
  fold r2 in Hframe, Hx2.
  unfold same_but_fov in Hframe.
  destruct Hframe as (_ & _ & Hfmt & _ & _ & Hvar & _ & _ & _ & _
                      & _ & _ & _ & Hvp & Hsar).
  rewrite Hs, Hx, Hv, Hf, Ho, Hsar, Hx2, Hvp, Hfmt, Hvar.
  repeat split; reflexivity.
Qed.

(** X2. After SetWindowAspectRatio the renderer is in sync: f_fovy is
    what UpdateFOVy computes from f_fovx and the new f_sar, f_z is what
    UpdateZ computes from the two fields of view, and the three matrices
    are those of getViewpointMatrixes for these values.  f_sar is the new
    ratio; f_fovx, the viewpoint, the format and the orientation matrix
    are kept. *)
Theorem X2_SetWindowAspectRatio_in_sync (r : vlc_gl_renderer F) (f_sar' : F) :
  let r' := vlc_gl_renderer_SetWindowAspectRatio vlc_viewpoint_to_4x4
              FIELD_OF_VIEW_DEGREES_MAX r f_sar' in
  in_sync vlc_viewpoint_to_4x4 FIELD_OF_VIEW_DEGREES_MAX r'
  /\ f_sar r' = f_sar' /\ f_fovx r' = f_fovx r /\ vp r' = vp r
  /\ fmt r' = fmt r
  /\ OrientationMatrix (var r') = OrientationMatrix (var r).
Proof.
  intros r'. split.
  - apply (in_sync_updated (set_f_sar f_sar' r)).
  - apply SetWindowAspectRatio_frame.
Qed.

(** X3. SetViewpoint keeps a renderer in sync, whatever the viewpoint:
    refused, accepted with a change of the field of view, or accepted
    without. *)
Theorem X3_SetViewpoint_keeps_in_sync
    (r : vlc_gl_renderer F) (p_vp : vlc_viewpoint_t F) :
  in_sync vlc_viewpoint_to_4x4 FIELD_OF_VIEW_DEGREES_MAX r ->
  in_sync vlc_viewpoint_to_4x4 FIELD_OF_VIEW_DEGREES_MAX
    (snd (vlc_gl_renderer_SetViewpoint vlc_viewpoint_reverse
            vlc_viewpoint_to_4x4 FIELD_OF_VIEW_DEGREES_MAX
            FIELD_OF_VIEW_DEGREES_MIN r p_vp)).
Proof.
  intros Hsync. unfold vlc_gl_renderer_SetViewpoint.
  destruct (flt FIELD_OF_VIEW_DEGREES_MAX (fov p_vp)
            || flt (fov p_vp) FIELD_OF_VIEW_DEGREES_MIN); [exact Hsync |].
  cbn [snd].
  match goal with |- context [if ?c then _ else _] => destruct c end.
  - apply in_sync_updated.
  - apply in_sync_set_vp, Hsync.
Qed.

End SyncProperties.

(** ** Zoom, projection and orientation *)

Lemma z_min_nonpositive (fovx fovy : R) : (z_min_formula 1 fovx fovy <= 0)%R.
Proof.
  unfold z_min_formula.
  set (s := sqrt ((tan (fovx / 2))² + (tan (fovy / 2))²)).
  assert (Hs : (0 <= s)%R) by apply sqrt_pos.
  assert (Ha : (0 <= atan s)%R).
  { destruct Hs as [Hs | <-]; [| rewrite atan_0; lra].
    apply Rlt_le. rewrite <- atan_0. apply atan_increasing, Hs. }
  pose proof (atan_bound s) as [_ Hb]. pose proof PI_RGT_0 as Hpi.
  assert (Hsin : (0 <= sin (atan s))%R) by (apply sin_ge_0; lra).
  unfold Rdiv. destruct Hsin as [Hsin | <-].
  - apply Rinv_0_lt_compat in Hsin. nra.
  - rewrite Rinv_0. lra.
Qed.

(** X4. Over the reals, for a maximum field of view above 90 degrees,
    the zoom that UpdateZ stores is between z_min and 0, whatever the
    fields of view of the renderer. *)
Theorem X4_zoom_range (FIELD_OF_VIEW_DEGREES_MAX : R) (r : vlc_gl_renderer R) :
  (90 < FIELD_OF_VIEW_DEGREES_MAX)%R ->
  let z := f_z (@UpdateZ R Exact.real_ops FIELD_OF_VIEW_DEGREES_MAX r) in
  (z_min_formula 1 (f_fovx r) (f_fovy r) <= z <= 0)%R.
Proof.
  intros Hmax z.
  pose proof (z_min_nonpositive (f_fovx r) (f_fovy r)) as Hmin.
  pose proof PI_RGT_0 as Hpi.
  unfold z, UpdateZ. rewrite z_min_of_real.
  set (z_min := z_min_formula 1 (f_fovx r) (f_fovy r)) in *.
  unfold z_thresh_rad, z_thresh.
  cbn [fle flt fmul fsub dmul ddiv dsub double_of_int float_of_int
       float_of_double M_PI Exact.real_ops].
  unfold Exact.Rleb.
  destruct (Rle_dec (f_fovx r) (90 * PI / 180)%R) as [Hle | Hgt].
  - cbn [f_z set_f_z]. lra.
  - cbn [f_z set_f_z f_fovx]. unfold Exact.Rltb.
    assert (Hlin :
      (z_min / ((FIELD_OF_VIEW_DEGREES_MAX - 90) * PI / 180) * f_fovx r
         - z_min / ((FIELD_OF_VIEW_DEGREES_MAX - 90) * PI / 180) * 90 * PI / 180
       = z_min * ((f_fovx r - 90 * PI / 180)
                    / ((FIELD_OF_VIEW_DEGREES_MAX - 90) * PI / 180)))%R).
    { field. split; lra. }
    rewrite Hlin.
    assert (Hq : (0 < (f_fovx r - 90 * PI / 180)
                       / ((FIELD_OF_VIEW_DEGREES_MAX - 90) * PI / 180))%R).
    { apply Rdiv_lt_0_compat; [lra |]. apply Rdiv_lt_0_compat; [| lra].
      apply Rmult_lt_0_compat; lra. }
    destruct (Rlt_dec _ z_min) as [Hlt | Hge]; cbn [f_z set_f_z]; [lra |].
    split; [lra |]. nra.
Qed.

Section ZoomMatrixProperties.
Context {F : Type} `{FloatOrder F}.
Variable vlc_viewpoint_to_4x4 : vlc_viewpoint_t F -> list F.
Variable FIELD_OF_VIEW_DEGREES_MAX : F.

(** When f_fovx passes the test of UpdateZ, SetWindowAspectRatio leaves no
    zoom and keeps f_fovx. *)
Lemma SetWindowAspectRatio_no_zoom (r : vlc_gl_renderer F) (f_sar' : F) :
  fle (f_fovx r) z_thresh_rad = true ->
  let r' := vlc_gl_renderer_SetWindowAspectRatio vlc_viewpoint_to_4x4
              FIELD_OF_VIEW_DEGREES_MAX r f_sar' in
  f_fovx r' = f_fovx r /\ f_sar r' = f_sar'
  /\ f_z r' = float_of_int 0 /\ ZoomMatrix (var r') = identity.
Proof.
  intros Hle r'.
  unfold r', vlc_gl_renderer_SetWindowAspectRatio.
  set (r1 := UpdateFOVy (set_f_sar f_sar' r)).
  assert (Hz : f_z (UpdateZ FIELD_OF_VIEW_DEGREES_MAX r1) = float_of_int 0).
  { apply UpdateZ_below_threshold. exact Hle. }
  destruct (UpdateZ_frame FIELD_OF_VIEW_DEGREES_MAX r1) as (Hsame & Hx & _).
  assert (Hsar : f_sar (UpdateZ FIELD_OF_VIEW_DEGREES_MAX r1) = f_sar')
    by (unfold same_but_fov in Hsame; decompose [and] Hsame; assumption).
  change (f_fovx r1) with (f_fovx r) in Hx.
  revert Hz Hx Hsar. generalize (UpdateZ FIELD_OF_VIEW_DEGREES_MAX r1).
  intros r2 Hz Hx Hsar.
  destruct (projection_mode (fmt r2));
    cbn [getViewpointMatrixes set_var f_z f_fovx f_sar var ZoomMatrix];
    rewrite ?Hz; repeat split; assumption || reflexivity.
Qed.

End ZoomMatrixProperties.

(** X5. In binary32, whatever libm answers, for every renderer whose stored
    field of view f_fovx is at most 13176794 * 2^-23 radians, the float
    before the one SetViewpoint stores for 90 degrees,
    SetWindowAspectRatio leaves no zoom: it keeps f_fovx, stores the
    aspect ratio, f_z is +0.0 and ZoomMatrix is the identity, in every
    projection mode, for every aspect ratio and every maximum field of
    view. *)
Theorem X5_no_zoom_below_threshold
    (lm : Binary.libm)
    (vlc_viewpoint_to_4x4 : vlc_viewpoint_t spec_float -> list spec_float)
    (FIELD_OF_VIEW_DEGREES_MAX : spec_float)
    (r : vlc_gl_renderer spec_float) (f_sar' : spec_float) :
  Binary.leb (f_fovx r) (S754_finite false 13176794 (-23)) = true ->
  let r' := @vlc_gl_renderer_SetWindowAspectRatio spec_float
              (Binary.binary_ops lm) vlc_viewpoint_to_4x4
              FIELD_OF_VIEW_DEGREES_MAX r f_sar' in
  f_fovx r' = f_fovx r /\ f_sar r' = f_sar'
  /\ f_z r' = S754_zero false
  /\ ZoomMatrix (var r') = @identity spec_float (Binary.binary_ops lm).
Proof.
  intros Hx.
  apply (@SetWindowAspectRatio_no_zoom spec_float (Binary.binary_ops lm)).
  apply (proj1 (z_thresh_rad_floats lm (f_fovx r))). exact Hx.
Qed.

(** X6. Over the reals, the matrix of getProjectionMatrix sends the point
    (x, y, -d) to a clip position (x', y', z', w) with w = d, x' = x /
    (sar * tan (fovy / 2)) and y' = y / tan (fovy / 2); on the near plane,
    d = 0.01, z' = - w and on the far plane, d = 1000, z' = w. *)
Theorem X6_projection_clip_volume (sar fovy x y d : R) :
  sar <> 0%R -> tan (fovy / 2) <> 0%R ->
  let clip :=
    @mat4_vec R Exact.real_ops
      (@getProjectionMatrix R Exact.real_ops sar fovy) [x; y; (- d)%R; 1%R] in
  let w := nth 3 clip 0%R in
  w = d
  /\ (nth 0 clip 0 * (sar * tan (fovy / 2)) = x)%R
  /\ (nth 1 clip 0 * tan (fovy / 2) = y)%R
  /\ (d = (1 / 100)%R -> nth 2 clip 0%R = (- w)%R)
  /\ (d = 1000%R -> nth 2 clip 0%R = w).
Proof.
  intros Hsar Htan clip w.
  unfold w, clip, mat4_vec, getProjectionMatrix, f0, f1, f2.
  cbn [map nth Nat.add Nat.mul fadd fsub fmul fdiv fneg float_of_int
       double_of_int ddiv float_of_double tanf Exact.real_ops].
  split; [lra |]. split; [field; split; assumption |].
  split; [field; assumption |].
  split; intros ->; field; lra.
Qed.

(** X7. Over the reals, after SetWindowAspectRatio with a ratio that is
    not 0, tan (f_fovy / 2) * f_sar = tan (f_fovx / 2); and in the two
    spherical projection modes ProjectionMatrix sends a point on the edge
    of the horizontal field of view, (d * tan (f_fovx / 2), 0, -d), to the
    edge of the clip volume: x' = w = d. *)
Theorem X7_aspect_ratio_keeps_horizontal_fov
    (vlc_viewpoint_to_4x4 : vlc_viewpoint_t R -> list R)
    (FIELD_OF_VIEW_DEGREES_MAX : R) (r : vlc_gl_renderer R) (sar : R) :
  sar <> 0%R ->
  let r' := @vlc_gl_renderer_SetWindowAspectRatio R Exact.real_ops
              vlc_viewpoint_to_4x4 FIELD_OF_VIEW_DEGREES_MAX r sar in
  (tan (f_fovy r' / 2) * sar = tan (f_fovx r / 2))%R
  /\ (projection_mode (fmt r) = PROJECTION_MODE_EQUIRECTANGULAR
      \/ projection_mode (fmt r) = PROJECTION_MODE_CUBEMAP_LAYOUT_STANDARD ->
      tan (f_fovx r / 2) <> 0%R ->
      forall d : R,
        let clip :=
          @mat4_vec R Exact.real_ops (ProjectionMatrix (var r'))
            [(d * tan (f_fovx r / 2))%R; 0%R; (- d)%R; 1%R] in
        nth 0 clip 0%R = d /\ nth 3 clip 0%R = d).
Proof.
  intros Hsar r'.
  destruct (@in_sync_updated R Exact.real_ops vlc_viewpoint_to_4x4
              FIELD_OF_VIEW_DEGREES_MAX (set_f_sar sar r)) as (Hy & _ & Ht).
  destruct (@SetWindowAspectRatio_frame R Exact.real_ops
              vlc_viewpoint_to_4x4 FIELD_OF_VIEW_DEGREES_MAX r sar)
    as (Hs & Hx & _ & Hf & _).
  change (getViewpointMatrixes vlc_viewpoint_to_4x4 _ _) with r' in Hy, Ht.
  fold r' in Hs, Hx, Hf.
  assert (Htan : (tan (f_fovy r' / 2) * sar = tan (f_fovx r / 2))%R).
  { rewrite Hy. unfold UpdateFOVy.
    cbn [f_fovy set_f_fovy fmul fdiv float_of_int atanf tanf Exact.real_ops].
    rewrite Hs, Hx.
    replace (2 * atan (tan (f_fovx r / 2) / sar) / 2)%R
      with (atan (tan (f_fovx r / 2) / sar)) by field.
    rewrite tan_atan. field. exact Hsar. }
  split; [exact Htan |].
  intros Hmode Hfov d clip.
  assert (Hp : ProjectionMatrix (var r')
               = @getProjectionMatrix R Exact.real_ops sar (f_fovy r')).
  { assert (Hp := f_equal (fun t => fst (fst t)) Ht). cbn [fst] in Hp.
    rewrite Hp. unfold transforms_of. rewrite Hf, Hs.
    destruct Hmode as [-> | ->]; reflexivity. }
  assert (Hy2 : tan (f_fovy r' / 2) <> 0%R).
  { intros Hc. rewrite Hc in Htan. apply Hfov. lra. }
  unfold clip. rewrite Hp.
  unfold mat4_vec, getProjectionMatrix, f0, f1, f2.
  cbn [map nth Nat.add Nat.mul fadd fsub fmul fdiv fneg float_of_int
       double_of_int ddiv float_of_double tanf Exact.real_ops].
  rewrite <- Htan. split; [field; split; assumption | lra].
Qed.

(** Equality of two lists of reals of the same length, one entry after
    the other. *)
Ltac list_lra := repeat (apply (f_equal2 cons); [lra |]); reflexivity.

(** X8. Over the reals, the matrix of an orientation sends a texture
    coordinate (s, t, 0, 1) of the unit square to a texture coordinate
    (s', t', 0, 1) of the unit square, and the matrix of the opposite
    orientation (ROTATED_270 for ROTATED_90 and conversely, the same
    orientation for the others) sends it back to (s, t, 0, 1). *)
Theorem X8_orientation_keeps_unit_square (o : video_orientation_t) (s t : R) :
  (0 <= s <= 1)%R -> (0 <= t <= 1)%R ->
  let m := @getOrientationTransformMatrix R Exact.real_ops o in
  let back := @getOrientationTransformMatrix R Exact.real_ops (opposite o) in
  exists s' t' : R,
    @mat4_vec R Exact.real_ops m (@tex_coord R Exact.real_ops s t)
    = @tex_coord R Exact.real_ops s' t'
    /\ (0 <= s' <= 1)%R /\ (0 <= t' <= 1)%R
    /\ @mat4_vec R Exact.real_ops back (@tex_coord R Exact.real_ops s' t')
       = @tex_coord R Exact.real_ops s t.
Proof.
  intros Hs Ht m back.
  exists (nth 0 (@mat4_vec R Exact.real_ops m (@tex_coord R Exact.real_ops s t)) 0%R),
         (nth 1 (@mat4_vec R Exact.real_ops m (@tex_coord R Exact.real_ops s t)) 0%R).
  unfold m, back.
  destruct o;
    unfold mat4_vec, tex_coord, opposite, getOrientationTransformMatrix,
      set_int, identity, f0, f1;
    cbn [map nth Nat.add Nat.mul fadd fmul float_of_int Exact.real_ops
         list_insert insert];
    cbv [Z.opp];
    (split; [list_lra |]); (split; [lra |]); (split; [lra |]); list_lra.
Qed.

(** ** The flat meshes *)

Section CopyPlanes.
Context {F : Type}.

Lemma memcpy_all {A : Type} (dst src : list A) (n : nat) :
  length src = n -> length dst = n -> memcpy dst src n = src.
Proof.
  intros Hs Hd. unfold memcpy.
  rewrite take_ge by lia. rewrite drop_ge by lia. apply app_nil_r.
Qed.

Lemma copy_planes_written (nbPlanes : nat) (nbVertices : Z)
    (tex : nat -> list F) (textureCoord : list F) :
  (forall p, (p < nbPlanes)%nat ->
     length (tex p) = (Z.to_nat nbVertices * 2)%nat) ->
  length textureCoord = (nbPlanes * (Z.to_nat nbVertices * 2))%nat ->
  copy_planes nbPlanes nbVertices tex textureCoord
  = concat (map tex (seq 0 nbPlanes)).
Proof.
  intros Htex Hlen. unfold copy_planes.
  set (k := (Z.to_nat nbVertices * 2)%nat) in *.
  assert (Hpre : forall p, (p <= nbPlanes)%nat ->
            length (concat (map tex (seq 0 p))) = (p * k)%nat).
  { induction p as [| p IHp]; [reflexivity |]. intros Hp.
    rewrite seq_S, map_app, concat_app, length_app, IHp by lia.
    cbn [map concat Nat.add]. rewrite app_nil_r, Htex by lia. lia. }
  assert (Hinv :
    for_loop nbPlanes
      (fun p tc =>
         take (p * Z.to_nat nbVertices * 2) tc
           ++ memcpy (drop (p * Z.to_nat nbVertices * 2) tc) (tex p) k)
      textureCoord
    = concat (map tex (seq 0 nbPlanes)) ++ drop (nbPlanes * k) textureCoord).
  { apply (for_loop_ind
      (fun p tc => tc = concat (map tex (seq 0 p)) ++ drop (p * k) textureCoord)).
    - rewrite drop_0. reflexivity.
    - intros p tc Hp ->.
      replace (p * Z.to_nat nbVertices * 2)%nat with (p * k)%nat
        by (unfold k; lia).
      rewrite take_app_length' by (symmetry; apply Hpre; lia).
      rewrite drop_app_length' by (symmetry; apply Hpre; lia).
      unfold memcpy. rewrite take_ge by (rewrite Htex by lia; lia).
      rewrite drop_drop.
      rewrite seq_S, map_app, concat_app. cbn [map concat Nat.add].
      rewrite app_nil_r, <- app_assoc.
      replace (p * k + k)%nat with (Datatypes.S p * k)%nat by lia.
      reflexivity. }
  rewrite Hinv. rewrite drop_ge by lia. apply app_nil_r.
Qed.

End CopyPlanes.

Section PlanesTex.
Context {F : Type}.

Lemma planes_tex_lookup (nbPlanes k : nat) (tex : nat -> list F) (p j : nat) :
  (forall q, (q < nbPlanes)%nat -> length (tex q) = k) ->
  (p < nbPlanes)%nat -> (j < k)%nat ->
  concat (map tex (seq 0 nbPlanes)) !! (p * k + j)%nat = tex p !! j.
Proof.
  intros Hlen. revert p. induction nbPlanes as [| n IHn]; intros p Hp Hj; [lia |].
  assert (Hpre : length (concat (map tex (seq 0 n))) = (n * k)%nat).
  { clear IHn Hp. induction n as [| n IHn]; [reflexivity |].
    rewrite seq_S, map_app, concat_app, length_app, IHn
      by (intros q Hq; apply Hlen; lia).
    cbn [map concat Nat.add]. rewrite app_nil_r, Hlen by lia. lia. }
  rewrite seq_S, map_app, concat_app. cbn [map concat Nat.add].
  rewrite app_nil_r.
  destruct (Nat.eq_dec p n) as [-> | Hne].
  - rewrite lookup_app_r by lia.
    rewrite Hpre. f_equal. lia.
  - rewrite lookup_app_l by (rewrite Hpre; nia).
    apply IHn; [intros q Hq; apply Hlen; lia | lia | exact Hj].
Qed.

Lemma planes_tex_length (nbPlanes k : nat) (tex : nat -> list F) :
  (forall q, (q < nbPlanes)%nat -> length (tex q) = k) ->
  length (concat (map tex (seq 0 nbPlanes))) = (nbPlanes * k)%nat.
Proof.
  intros Hlen. induction nbPlanes as [| n IHn]; [reflexivity |].
  rewrite seq_S, map_app, concat_app, length_app, IHn
    by (intros q Hq; apply Hlen; lia).
  cbn [map concat Nat.add]. rewrite app_nil_r, Hlen by lia. lia.
Qed.

End PlanesTex.

Section FlatMeshes.
Context {F : Type} `{FloatOps F}.
Variable indeterminate_float : nat -> F.
Variable indeterminate_ushort : nat -> Z.
Abbreviation get := (at_ indeterminate_float).

Lemma wrap_unsigned_small (n : Z) : 0 <= n <= UINT_MAX -> wrap_unsigned n = n.
Proof. intros Hn. unfold wrap_unsigned. apply Z.mod_small. lia. Qed.

(** What BuildRectangle answers when its allocations succeed. *)
Lemma BuildRectangle_mesh (nbPlanes : nat) (l t r b : list F) (h : heap) :
  Z.of_nat nbPlanes <= PICTURE_PLANE_MAX -> alloc_fails h = false ->
  exists m h',
    BuildRectangle indeterminate_float indeterminate_ushort nbPlanes l t r b h
    = (VLC_SUCCESS, Some m, h')
    /\ nbVertices m = 4 /\ nbIndices m = 6
    /\ vertexCoord m = rectangle_coord
    /\ textureCoord m
       = planes_tex nbPlanes
           (fun p => rectangle_tex (get l p) (get t p) (get r p) (get b p))
    /\ indices m = rectangle_ind.
Proof.
  intros Hplanes Hok. unfold PICTURE_PLANE_MAX in Hplanes.
  unfold BuildRectangle.
  destruct (alloc_mesh_succeeds indeterminate_float indeterminate_ushort
              nbPlanes 4 6 h)
    as (m & -> & _ & _ & _ & Hv & Hi & Hvc & Htc & Hix);
    [unfold UINT_MAX; lia | exact Hok |].
  eexists. eexists. split; [reflexivity |].
  unfold fill_mesh. cbn [nbVertices nbIndices indices vertexCoord textureCoord].
  split; [exact Hv |]. split; [exact Hi |]. split; [| split].
  - apply memcpy_all; [reflexivity |].
    rewrite Hvc, uninit_floats_length. reflexivity.
  - unfold planes_tex. apply copy_planes_written.
    + intros p _. reflexivity.
    + rewrite Htc, uninit_floats_length.
      rewrite wrap_unsigned_small by (unfold UINT_MAX; lia).
      change (Z.to_nat 4 * 2)%nat with 8%nat. lia.
  - apply memcpy_all; [reflexivity |].
    rewrite Hix, uninit_ushorts_length. reflexivity.
Qed.

(** What BuildCube answers when its allocations succeed. *)
Lemma BuildCube_mesh (nbPlanes : nat) (padW padH : F) (l t r b : list F)
    (h : heap) :
  Z.of_nat nbPlanes <= PICTURE_PLANE_MAX -> alloc_fails h = false ->
  exists m h',
    BuildCube indeterminate_float indeterminate_ushort nbPlanes padW padH
      l t r b h
    = (VLC_SUCCESS, Some m, h')
    /\ nbVertices m = 24 /\ nbIndices m = 36
    /\ vertexCoord m = cube_coord
    /\ textureCoord m
       = planes_tex nbPlanes
           (fun p => cube_tex padW padH (get l p) (get t p) (get r p) (get b p))
    /\ indices m = cube_ind.
Proof.
  intros Hplanes Hok. unfold PICTURE_PLANE_MAX in Hplanes.
  unfold BuildCube.
  change (4 * 6) with 24. change (6 * 6) with 36.
  destruct (alloc_mesh_succeeds indeterminate_float indeterminate_ushort
              nbPlanes 24 36 h)
    as (m & -> & _ & _ & _ & Hv & Hi & Hvc & Htc & Hix);
    [unfold UINT_MAX; lia | exact Hok |].
  eexists. eexists. split; [reflexivity |].
  unfold fill_mesh. cbn [nbVertices nbIndices indices vertexCoord textureCoord].
  split; [exact Hv |]. split; [exact Hi |]. split; [| split].
  - apply memcpy_all; [reflexivity |].
    rewrite Hvc, uninit_floats_length. reflexivity.
  - unfold planes_tex. apply copy_planes_written.
    + intros p _. reflexivity.
    + rewrite Htc, uninit_floats_length.
      rewrite wrap_unsigned_small by (unfold UINT_MAX; lia).
      change (Z.to_nat 24 * 2)%nat with 48%nat. lia.
  - apply memcpy_all; [reflexivity |].
    rewrite Hix, uninit_ushorts_length. reflexivity.
Qed.

End FlatMeshes.

Section FlatMeshTheorems.
Context {F : Type} `{FloatOps F}.
Variable indeterminate_float : nat -> F.
Variable indeterminate_ushort : nat -> Z.
Abbreviation get := (at_ indeterminate_float).

(** X9. When its allocations succeed, BuildRectangle answers a mesh of 4
    vertices and the 6 indices 0, 1, 2, 2, 1, 3, whose arrays are written
    in full, whatever the blocks held: the vertex v is at x = -1 for v <
    2 and x = 1 otherwise, y = 1 for an even v and y = -1 otherwise, z =
    -1, and in each plane p its texture coordinate is left[p] where x =
    -1 and right[p] where x = 1, top[p] where y = 1 and bottom[p] where y
    = -1. *)
Theorem X9_rectangle_mesh (nbPlanes : nat) (l t r b : list F) (h : heap) :
  Z.of_nat nbPlanes <= PICTURE_PLANE_MAX -> alloc_fails h = false ->
  exists m h',
    BuildRectangle indeterminate_float indeterminate_ushort nbPlanes l t r b h
    = (VLC_SUCCESS, Some m, h')
    /\ nbVertices m = 4 /\ nbIndices m = 6
    /\ length (vertexCoord m) = 12%nat
    /\ length (textureCoord m) = (nbPlanes * 8)%nat
    /\ indices m = [0; 1; 2; 2; 1; 3]
    /\ forall v : nat, (v < 4)%nat ->
         vertexCoord m !! (v * 3)%nat
         = Some (float_of_int (if (v <? 2)%nat then -1 else 1))
         /\ vertexCoord m !! (v * 3 + 1)%nat
            = Some (float_of_int (if Nat.even v then 1 else -1))
         /\ vertexCoord m !! (v * 3 + 2)%nat = Some (float_of_int (-1))
         /\ forall p : nat, (p < nbPlanes)%nat ->
              textureCoord m !! ((p * 4 + v) * 2)%nat
              = Some (if (v <? 2)%nat then get l p else get r p)
              /\ textureCoord m !! ((p * 4 + v) * 2 + 1)%nat
                 = Some (if Nat.even v then get t p else get b p).
Proof.
  intros Hplanes Hok.
  destruct (BuildRectangle_mesh indeterminate_float indeterminate_ushort
              nbPlanes l t r b h Hplanes Hok)
    as (m & h' & E & Hv & Hi & Hvc & Htc & Hix).
  exists m, h'. split; [exact E |].
  split; [exact Hv |]. split; [exact Hi |].
  split; [rewrite Hvc; reflexivity |].
  split; [rewrite Htc; apply planes_tex_length; intros q _; reflexivity |].
  split; [exact Hix |].
  intros v Hlt. rewrite Hvc.
  assert (Hcases : v = 0%nat \/ v = 1%nat \/ v = 2%nat \/ v = 3%nat) by lia.
  split; [| split; [| split]];
    [destruct Hcases as [-> | [-> | [-> | ->]]]; reflexivity .. |].
  intros p Hp. rewrite Htc. unfold planes_tex.
  replace ((p * 4 + v) * 2)%nat with (p * 8 + v * 2)%nat by lia.
  replace (p * 8 + v * 2 + 1)%nat with (p * 8 + (v * 2 + 1))%nat by lia.
  rewrite !(planes_tex_lookup nbPlanes 8)
    by first [intros q _; reflexivity | lia].
  destruct Hcases as [-> | [-> | [-> | ->]]]; split; reflexivity.
Qed.

(** X10. When its allocations succeed, BuildCube answers a mesh of 24
    vertices and 36 indices whose arrays are written in full: every index
    is the index of a vertex, the six indices of a face are among the
    four vertices of the face, the four vertices of a face share the
    coordinate cube_side on the axis cube_axis, every coordinate is 1 or
    -1, and the texture coordinates of each plane are the table tex of
    BuildCube for the rectangle of the plane. *)
Theorem X10_cube_mesh (nbPlanes : nat) (padW padH : F) (l t r b : list F)
    (h : heap) :
  Z.of_nat nbPlanes <= PICTURE_PLANE_MAX -> alloc_fails h = false ->
  exists m h',
    BuildCube indeterminate_float indeterminate_ushort nbPlanes padW padH
      l t r b h
    = (VLC_SUCCESS, Some m, h')
    /\ nbVertices m = 24 /\ nbIndices m = 36
    /\ length (vertexCoord m) = 72%nat
    /\ length (textureCoord m) = (nbPlanes * 48)%nat
    /\ length (indices m) = 36%nat
    /\ (forall k : nat, (k < 36)%nat ->
          exists i : Z,
            indices m !! k = Some i /\ 0 <= i < nbVertices m
            /\ i / 4 = Z.of_nat (k / 6))
    /\ (forall face v : nat, (face < 6)%nat -> (v < 4)%nat ->
          vertexCoord m !! ((face * 4 + v) * 3 + cube_axis face)%nat
          = Some (float_of_int (cube_side face)))
    /\ (forall k : nat, (k < 72)%nat ->
          vertexCoord m !! k = Some (float_of_int 1)
          \/ vertexCoord m !! k = Some (float_of_int (-1)))
    /\ (forall p k : nat, (p < nbPlanes)%nat -> (k < 48)%nat ->
          textureCoord m !! (p * 48 + k)%nat
          = cube_tex padW padH (get l p) (get t p) (get r p) (get b p) !! k).
Proof.
  intros Hplanes Hok.
  destruct (BuildCube_mesh indeterminate_float indeterminate_ushort
              nbPlanes padW padH l t r b h Hplanes Hok)
    as (m & h' & E & Hv & Hi & Hvc & Htc & Hix).
  exists m, h'. split; [exact E |].
  split; [exact Hv |]. split; [exact Hi |].
  split; [rewrite Hvc; reflexivity |].
  split; [rewrite Htc; apply planes_tex_length; intros q _; reflexivity |].
  split; [rewrite Hix; reflexivity |].
  rewrite Hv, Hix, Hvc, Htc. split; [| split; [| split; [| ]]].
  - intros k Hk.
    do 36 (destruct k as [| k];
           [eexists; split; [reflexivity | split; [lia | reflexivity]] |]).
    lia.
  - intros face v Hf Hlt.
    do 6 (destruct face as [| face];
          [do 4 (destruct v as [| v]; [reflexivity |]); lia |]).
    lia.
  - intros k Hk.
    do 72 (destruct k as [| k]; [(left; reflexivity) || (right; reflexivity) |]).
    lia.
  - intros p k Hp Hk. unfold planes_tex.
    apply (planes_tex_lookup nbPlanes 48
             (fun p => cube_tex padW padH (get l p) (get t p) (get r p)
                         (get b p)));
      [intros q _; reflexivity | lia | lia].
Qed.

End FlatMeshTheorems.

(** X11. Over the reals, when the padding is at least 0 and at most a
    third of the width and half of the height of the rectangle, the
    texture coordinates that BuildCube gives to the four vertices of a
    face are inside the cell of the face in the atlas of three columns
    and two rows, and so inside the rectangle. *)
Theorem X11_cube_faces_sample_their_cells
    (padW padH left_ top_ right_ bottom_ : R) (face v : nat) :
  (0 <= padW <= (right_ - left_) / 3)%R ->
  (0 <= padH <= (bottom_ - top_) / 2)%R ->
  (face < 6)%nat -> (v < 4)%nat ->
  let tex := @cube_tex R Exact.real_ops padW padH left_ top_ right_ bottom_ in
  let s := nth ((face * 4 + v) * 2) tex 0%R in
  let t := nth ((face * 4 + v) * 2 + 1) tex 0%R in
  let col := IZR (fst (cube_cell face)) in
  let row := IZR (snd (cube_cell face)) in
  let width := (right_ - left_)%R in
  let height := (bottom_ - top_)%R in
  (left_ + col * width / 3 <= s <= left_ + (col + 1) * width / 3)%R
  /\ (top_ + row * height / 2 <= t <= top_ + (row + 1) * height / 2)%R
  /\ (left_ <= s <= right_)%R /\ (top_ <= t <= bottom_)%R.
Proof.
  intros Hw Hh Hf Hv tex s t col row width height.
  unfold s, t, col, row, width, height, tex, cube_tex.
  do 6 (destruct face as [| face];
        [do 4 (destruct v as [| v];
               [cbn [nth Nat.add Nat.mul cube_cell fst snd
                     fadd fsub fmul fdiv float_of_int Exact.real_ops];
                repeat split; lra |]); lia |]).
  lia.
Qed.

(** ** The texture coordinates of the sphere *)

Section SphereTexture.
Context {F : Type} `{FloatOps F}.
Variable indeterminate_float : nat -> F.
Variables nbPlanes nbLatBands nbLonBands : nat.
Variables rect_l rect_t rect_r rect_b : list F.
Local Open Scope cfloat_scope.

Abbreviation vertices := ((nbLatBands + 1) * (nbLonBands + 1))%nat.

Lemma uv_place_inj (p q k c : nat) :
  (k < vertices)%nat -> (c < vertices)%nat ->
  (p * (nbLatBands + 1) * (nbLonBands + 1) + k
   = q * (nbLatBands + 1) * (nbLonBands + 1) + c)%nat ->
  p = q /\ k = c.
Proof.
  intros Hk Hc Heq.
  assert (Hp : p = q).
  { destruct (Nat.lt_trichotomy p q) as [Hlt | [-> | Hgt]]; [| reflexivity |]; nia. }
  subst q. split; [reflexivity | lia].
Qed.

(** The writes of the plane loop at the vertex c = lat * (nbLonBands + 1)
    + lon. *)
Lemma sphere_uv_step (lat lon len : nat) (textureCoord : list F) :
  (lat < nbLatBands + 1)%nat -> (lon < nbLonBands + 1)%nat ->
  (nbPlanes * vertices * 2 <= len)%nat ->
  uvs_written indeterminate_float nbPlanes nbLatBands nbLonBands
    (lat * (nbLonBands + 1) + lon) len rect_l rect_t rect_r rect_b textureCoord ->
  uvs_written indeterminate_float nbPlanes nbLatBands nbLonBands
    (lat * (nbLonBands + 1) + lon + 1) len rect_l rect_t rect_r rect_b
    (for_loop nbPlanes (fun p textureCoord =>
       let off2 :=
         ((p * (nbLatBands + 1) * (nbLonBands + 1)
           + lat * (nbLonBands + 1) + lon) * 2)%nat in
       let width := at_ indeterminate_float rect_r p
                    -! at_ indeterminate_float rect_l p in
       let height := at_ indeterminate_float rect_b p
                     -! at_ indeterminate_float rect_t p in
       let u :=
         float_of_int (Z.of_nat lon) /! float_of_int (Z.of_nat nbLonBands)
           *! width in
       let v :=
         float_of_int (Z.of_nat lat) /! float_of_int (Z.of_nat nbLatBands)
           *! height in
       let textureCoord := <[off2 := u]> textureCoord in
       let textureCoord := <[(off2 + 1)%nat := v]> textureCoord in
       textureCoord) textureCoord).
Proof.
  intros Hlat Hlon Hlen [Hl Hw].
  set (c := (lat * (nbLonBands + 1) + lon)%nat) in *.
  assert (Hc : (c < vertices)%nat) by (unfold c; nia).
  assert (Hdiv : (c / (nbLonBands + 1) = lat)%nat).
  { symmetry. apply (Nat.div_unique c (nbLonBands + 1) lat lon); [lia |].
    unfold c. lia. }
  assert (Hmod : (c mod (nbLonBands + 1) = lon)%nat).
  { symmetry. apply (Nat.mod_unique c (nbLonBands + 1) lat lon); [lia |].
    unfold c. lia. }
  (* the planes below q are written at c, the others are as they were *)
  pose (Q := fun (q : nat) (tc : list F) =>
    length tc = len
    /\ forall p k, (p < nbPlanes)%nat ->
         (k < c \/ (k = c /\ p < q))%nat ->
         tc !! ((p * (nbLatBands + 1) * (nbLonBands + 1) + k) * 2)%nat
         = Some (fst (sphere_uv nbLatBands nbLonBands
             (at_ indeterminate_float rect_l p) (at_ indeterminate_float rect_t p)
             (at_ indeterminate_float rect_r p) (at_ indeterminate_float rect_b p)
             (k / (nbLonBands + 1)) (k mod (nbLonBands + 1))))
         /\ tc !! ((p * (nbLatBands + 1) * (nbLonBands + 1) + k) * 2 + 1)%nat
            = Some (snd (sphere_uv nbLatBands nbLonBands
             (at_ indeterminate_float rect_l p) (at_ indeterminate_float rect_t p)
             (at_ indeterminate_float rect_r p) (at_ indeterminate_float rect_b p)
             (k / (nbLonBands + 1)) (k mod (nbLonBands + 1))))).
  match goal with |- uvs_written _ _ _ _ _ _ _ _ _ _ ?t =>
    assert (HQ : Q nbPlanes t) end.
  { apply for_loop_ind.
    + split; [exact Hl |]. intros p k Hp [Hk | [_ Hq]]; [| lia].
      apply Hw; assumption.
    + intros q tc Hq [Hl' Hw']. cbv zeta. split.
      * rewrite !length_insert. exact Hl'.
      * intros p k Hp Hk.
        replace (q * (nbLatBands + 1) * (nbLonBands + 1)
                 + lat * (nbLonBands + 1) + lon)%nat
          with (q * (nbLatBands + 1) * (nbLonBands + 1) + c)%nat
          by (unfold c; lia).
        destruct (Nat.eq_dec k c) as [-> | Hkc];
          [destruct (Nat.eq_dec p q) as [-> | Hpq] |].
        -- rewrite Hdiv, Hmod. unfold sphere_uv. cbn [fst snd]. split.
           ++ rewrite list_lookup_insert_ne by lia.
              apply list_lookup_insert_eq. nia.
           ++ apply list_lookup_insert_eq. rewrite length_insert. nia.
        -- assert (Hne : (p * (nbLatBands + 1) * (nbLonBands + 1) + c
                          <> q * (nbLatBands + 1) * (nbLonBands + 1) + c)%nat).
           { intros Heq. apply uv_place_inj in Heq; [| exact Hc | exact Hc].
             lia. }
           rewrite !list_lookup_insert_ne by lia.
           apply Hw'; [exact Hp | lia].
        -- assert (Hk' : (k < c)%nat) by lia.
           assert (Hne : (p * (nbLatBands + 1) * (nbLonBands + 1) + k
                          <> q * (nbLatBands + 1) * (nbLonBands + 1) + c)%nat).
           { intros Heq. apply uv_place_inj in Heq; [| lia | exact Hc].
             lia. }
           rewrite !list_lookup_insert_ne by lia.
           apply Hw'; [exact Hp | lia]. }
  destruct HQ as [Hl' Hw']. split; [exact Hl' |].
  intros p k Hp Hk. apply Hw'; [exact Hp |].
  destruct (Nat.eq_dec k c); [right | left]; lia.
Qed.

Lemma sphere_uvs_written (len : nat) (vertexCoord textureCoord : list F) :
  (nbPlanes * vertices * 2 <= len)%nat ->
  length textureCoord = len ->
  uvs_written indeterminate_float nbPlanes nbLatBands nbLonBands vertices len
    rect_l rect_t rect_r rect_b
    (snd (sphere_coords indeterminate_float nbPlanes nbLatBands nbLonBands
            rect_l rect_t rect_r rect_b vertexCoord textureCoord)).
Proof.
  intros Hlen Hl. unfold sphere_coords.
  replace vertices with ((nbLatBands + 1) * (nbLonBands + 1))%nat by reflexivity.
  apply (for_loop_ind
    (fun lat s =>
       uvs_written indeterminate_float nbPlanes nbLatBands nbLonBands
         (lat * (nbLonBands + 1)) len rect_l rect_t rect_r rect_b (snd s))).
  - split; [exact Hl |]. intros p k _ Hk. lia.
  - intros lat [vc tc] Hlat Hrow. cbn [snd] in Hrow.
    destruct (sincosf _) as [sinTheta cosTheta].
    replace (Datatypes.S lat * (nbLonBands + 1))%nat
      with (lat * (nbLonBands + 1) + (nbLonBands + 1))%nat by lia.
    apply (for_loop_ind
      (fun lon s =>
         uvs_written indeterminate_float nbPlanes nbLatBands nbLonBands
           (lat * (nbLonBands + 1) + lon) len rect_l rect_t rect_r rect_b
           (snd s))).
    + rewrite Nat.add_0_r. exact Hrow.
    + intros lon [vc' tc'] Hlon Hcells. cbn [snd] in Hcells.
      replace (lat * (nbLonBands + 1) + Datatypes.S lon)%nat
        with (lat * (nbLonBands + 1) + lon + 1)%nat by lia.
      destruct (sincosf _) as [sinPhi cosPhi]. cbv zeta. cbn [snd].
      apply sphere_uv_step; [exact Hlat | exact Hlon | exact Hlen | exact Hcells].
Qed.

End SphereTexture.

(** The texture coordinates of the mesh of BuildSphere. *)
Lemma BuildSphere_texture (F : Type) (ops : FloatOps F)
    (indeterminate_float : nat -> F) (indeterminate_ushort : nat -> Z)
    (nbPlanes : nat) (l t r b : list F) (h : heap) :
  Z.of_nat nbPlanes <= PICTURE_PLANE_MAX -> alloc_fails h = false ->
  exists m h',
    BuildSphere indeterminate_float indeterminate_ushort nbPlanes l t r b h
    = (VLC_SUCCESS, Some m, h')
    /\ uvs_written indeterminate_float nbPlanes 128 128
         ((128 + 1) * (128 + 1)) (nbPlanes * ((128 + 1) * (128 + 1)) * 2)
         l t r b (textureCoord m).
Proof.
  intros Hplanes Hok. unfold PICTURE_PLANE_MAX in Hplanes.
  destruct sphere_counts as (Hnv & Hni & Hnc).
  unfold BuildSphere, BuildSphere_bands. rewrite Hnv, Hni.
  destruct (alloc_mesh_succeeds indeterminate_float indeterminate_ushort
              nbPlanes 16641 98304 h)
    as (m & -> & _ & _ & _ & Hv & Hi & _ & Htc & _);
    [unfold UINT_MAX; lia | exact Hok |].
  pose proof (sphere_uvs_written indeterminate_float nbPlanes 128 128
                l t r b (nbPlanes * ((128 + 1) * (128 + 1)) * 2)
                (vertexCoord m) (textureCoord m)) as Hwritten.
  destruct (sphere_coords _ _ _ _ _ _ _ _ _) as [vc tc].
  eexists. eexists. split; [reflexivity |].
  unfold fill_mesh. cbn [textureCoord snd] in Hwritten |- *.
  apply Hwritten; [lia |].
  rewrite Htc, uninit_floats_length.
  unfold wrap_unsigned, UINT_MAX. rewrite Z.mod_small by lia.
  apply Nat2Z.inj. rewrite Z2Nat.id by lia.
  rewrite !Nat2Z.inj_mul, !Nat2Z.inj_add. lia.
Qed.

(** X12. When its allocations succeed, BuildSphere writes the texture
    coordinates of every vertex in every plane, whatever the block held:
    for the vertex (lat, lon) of the plane p, u = (float) lon / 128 *
    (right[p] - left[p]) and v = (float) lat / 128 * (bottom[p] - top[p]),
    at the offset (p * 16641 + lat * 129 + lon) * 2.  Over the reals, for
    a rectangle with left <= right and top <= bottom, u goes from 0 at lon
    = 0 to right - left at lon = 128 and v from 0 at lat = 0 to bottom -
    top at lat = 128: the left and top edges of the rectangle are not
    added. *)
Theorem X12_sphere_texture_coordinates :
  (forall (F : Type) (ops : FloatOps F)
          (indeterminate_float : nat -> F) (indeterminate_ushort : nat -> Z)
          (nbPlanes : nat) (l t r b : list F) (h : heap),
     Z.of_nat nbPlanes <= PICTURE_PLANE_MAX -> alloc_fails h = false ->
     exists m h',
       BuildSphere indeterminate_float indeterminate_ushort nbPlanes l t r b h
       = (VLC_SUCCESS, Some m, h')
       /\ length (textureCoord m) = (nbPlanes * (129 * 129) * 2)%nat
       /\ forall p lat lon : nat,
            (p < nbPlanes)%nat -> (lat <= 128)%nat -> (lon <= 128)%nat ->
            let width := fsub (at_ indeterminate_float r p)
                              (at_ indeterminate_float l p) in
            let height := fsub (at_ indeterminate_float b p)
                               (at_ indeterminate_float t p) in
            let off := ((p * (129 * 129) + lat * 129 + lon) * 2)%nat in
            textureCoord m !! off
            = Some (fmul (fdiv (float_of_int (Z.of_nat lon)) (float_of_int 128))
                         width)
            /\ textureCoord m !! (off + 1)%nat
               = Some (fmul (fdiv (float_of_int (Z.of_nat lat))
                                  (float_of_int 128)) height))
  /\ (forall (left_ top_ right_ bottom_ : R) (lat lon : nat),
        (lat <= 128)%nat -> (lon <= 128)%nat ->
        (left_ <= right_)%R -> (top_ <= bottom_)%R ->
        let uv := @sphere_uv R Exact.real_ops 128 128
                    left_ top_ right_ bottom_ lat lon in
        (0 <= fst uv <= right_ - left_)%R /\ (0 <= snd uv <= bottom_ - top_)%R
        /\ (lon = 0%nat -> fst uv = 0%R)
        /\ (lon = 128%nat -> fst uv = (right_ - left_)%R)
        /\ (lat = 0%nat -> snd uv = 0%R)
        /\ (lat = 128%nat -> snd uv = (bottom_ - top_)%R)).
Proof.
  split.
  - intros F ops indeterminate_float indeterminate_ushort nbPlanes l t r b h
      Hplanes Hok.
    destruct (BuildSphere_texture F ops indeterminate_float indeterminate_ushort
                nbPlanes l t r b h Hplanes Hok) as (m & h' & E & Hl & Hw).
    exists m, h'. split; [exact E |]. split.
    + rewrite Hl. lia.
    + intros p lat lon Hp Hlat Hlon width height off.
      assert (Hk : (lat * 129 + lon < (128 + 1) * (128 + 1))%nat) by lia.
      specialize (Hw p (lat * 129 + lon)%nat Hp Hk). cbv zeta in Hw.
      replace ((lat * 129 + lon) / (128 + 1))%nat with lat in Hw
        by (apply (Nat.div_unique _ (128 + 1) lat lon); lia).
      replace ((lat * 129 + lon) mod (128 + 1))%nat with lon in Hw
        by (apply (Nat.mod_unique _ (128 + 1) lat lon); lia).
      replace ((p * (128 + 1) * (128 + 1) + (lat * 129 + lon)) * 2)%nat
        with off in Hw by (unfold off; lia).
      exact Hw.
  - intros left_ top_ right_ bottom_ lat lon Hlat Hlon Hw Hh uv.
    unfold uv, sphere_uv.
    cbn [fst snd fmul fdiv fsub float_of_int Exact.real_ops].
    change (Z.of_nat 128) with 128.
    assert (Hx : (0 <= IZR (Z.of_nat lon) / 128 <= 1)%R).
    { assert (H0 : (0 <= IZR (Z.of_nat lon) <= 128)%R).
      { split; [apply IZR_le; lia | apply IZR_le; lia]. }
      lra. }
    assert (Hy : (0 <= IZR (Z.of_nat lat) / 128 <= 1)%R).
    { assert (H0 : (0 <= IZR (Z.of_nat lat) <= 128)%R).
      { split; [apply IZR_le; lia | apply IZR_le; lia]. }
      lra. }
    split; [nra |]. split; [nra |].
    split; [intros ->; change (Z.of_nat 0) with 0; lra |].
    split; [intros ->; change (Z.of_nat 128) with 128; lra |].
    split; [intros ->; change (Z.of_nat 0) with 0; lra |].
    intros ->; change (Z.of_nat 128) with 128; lra.
Qed.

(** ** The heap and the meshes of the builders *)

Section BuilderMeshes.
Context {F : Type} `{FloatOps F}.
Variable indeterminate_float : nat -> F.
Variable indeterminate_ushort : nat -> Z.

Lemma free_three (h : heap) :
  heap_wf h ->
  let h3 :=
    {| heap_live :=
         heap_next h + 1 + 1 :: heap_next h + 1 :: heap_next h :: heap_live h;
       heap_next := heap_next h + 1 + 1 + 1;
       heap_outcomes := drop 3 (heap_outcomes h) |} in
  heap_live (free (heap_next h + 1 + 1)
               (free (heap_next h) (free (heap_next h + 1) h3)))
  = heap_live h.
Proof.
  intros Hwf h3. unfold free, h3. cbn [heap_live heap_next heap_outcomes].
  unfold heap_wf in Hwf.
  rewrite (free_other (heap_next h + 1) (heap_next h + 1 + 1)) by lia.
  rewrite (free_fresh (heap_next h + 1) (heap_next h :: heap_live h))
    by (constructor;
        [lia | eapply Forall_impl; [exact Hwf | cbv beta; intros; lia]]).
  rewrite (free_other (heap_next h) (heap_next h + 1 + 1)) by lia.
  rewrite (free_fresh (heap_next h) (heap_live h)) by exact Hwf.
  apply free_fresh.
  eapply Forall_impl; [exact Hwf | cbv beta; intros; lia].
Qed.

(** One call of vlc_alloc of a builder, on a heap whose outcomes are known. *)
Ltac step_alloc :=
  rewrite vlc_alloc_malloc
    by first [apply wrap_unsigned_range | unfold sizeof_GLfloat, sizeof_GLushort; lia];
  unfold malloc at 1;
  cbn [heap_outcomes heap_live heap_next tail].

(** The heap after alloc_mesh: the three blocks of the mesh are live, or
    none is. *)
Lemma alloc_mesh_heap (nbPlanes : nat) (nbVertices nbIndices : Z) (h : heap) :
  0 <= nbIndices <= UINT_MAX -> heap_wf h ->
  match alloc_mesh indeterminate_float indeterminate_ushort
          nbPlanes nbVertices nbIndices h with
  | (_, Some m, h') => granted h m h'
  | (_, None, h') =>
      heap_live h' = heap_live h /\ heap_next h <= heap_next h'
  end.
Proof.
  intros Hni Hwf. destruct h as [live next outcomes].
  unfold heap_wf in Hwf. cbn [heap_live heap_next] in Hwf.
  unfold alloc_mesh, granted.
  destruct outcomes as [| [|] [| [|] [| [|] rest]]];
    repeat step_alloc; unfold free; cbn [heap_live heap_next heap_outcomes drop];
    try (repeat split; reflexivity);
    (split; [| lia]);
    try reflexivity;
    try (rewrite free_fresh
           by (constructor;
               [lia | eapply Forall_impl; [exact Hwf | cbv beta; intros; lia]]));
    apply free_fresh; exact Hwf.
Qed.

(** The same of the builder that SetupCoords calls. *)
Lemma builder_of_heap (renderer : vlc_gl_renderer F) (l t r b : list F)
    (h : heap) :
  heap_wf h ->
  match builder_of indeterminate_float indeterminate_ushort renderer l t r b h with
  | (_, Some m, h') => granted h m h'
  | (_, None, h') =>
      heap_live h' = heap_live h /\ heap_next h <= heap_next h'
  end.
Proof.
  intros Hwf. unfold builder_of.
  destruct (projection_mode (fmt renderer)).
  - unfold BuildRectangle.
    pose proof (alloc_mesh_heap (tex_count (interop renderer)) 4 6 h) as Ha.
    destruct (alloc_mesh _ _ _ _ _ _) as [[ret [m |]] h'];
      apply Ha; try exact Hwf; unfold UINT_MAX; lia.
  - unfold BuildSphere, BuildSphere_bands.
    destruct sphere_counts as (-> & -> & _).
    pose proof (alloc_mesh_heap (tex_count (interop renderer)) 16641 98304 h)
      as Ha.
    destruct (alloc_mesh _ _ _ _ _ _) as [[ret [m |]] h'];
      [destruct (sphere_coords _ _ _ _ _ _ _ _ _) |];
      apply Ha; try exact Hwf; unfold UINT_MAX; lia.
  - unfold BuildCube.
    pose proof (alloc_mesh_heap (tex_count (interop renderer)) (4 * 6) (6 * 6) h)
      as Ha.
    destruct (alloc_mesh _ _ _ _ _ _) as [[ret [m |]] h'];
      apply Ha; try exact Hwf; unfold UINT_MAX; lia.
  - split; [reflexivity | lia].
Qed.

(** SetupCoords frees what its builder allocated. *)
Lemma SetupCoords_heap (renderer : vlc_gl_renderer F) (l t r b : list F)
    (gl : gl_state F) (h : heap) :
  heap_wf h ->
  let h' := snd (SetupCoords indeterminate_float indeterminate_ushort
                   renderer l t r b gl h) in
  heap_live h' = heap_live h /\ heap_next h <= heap_next h'.
Proof.
  intros Hwf h'. unfold h', SetupCoords.
  fold (builder_of indeterminate_float indeterminate_ushort renderer l t r b h).
  pose proof (builder_of_heap renderer l t r b h Hwf) as Hb.
  destruct (builder_of indeterminate_float indeterminate_ushort renderer l t r b h) as [[ret [m |]] hb]; cbn [snd].
  - destruct Hb as (-> & -> & -> & ->). split.
    + apply free_three. exact Hwf.
    + unfold free. cbn [heap_next]. lia.
  - exact Hb.
Qed.

(** X13. Draw frees what it allocates: on a heap where every live block
    is older than the next fresh one, the live blocks when Draw returns are
    those before it, whatever the projection mode, the source and the
    outcomes of malloc, and the heap is again such a heap.  So is the heap
    that SetupCoords leaves, which is the heap when DrawWithShaders is
    entered; the process stops there only when an assertion of
    DrawWithShaders fails. *)
Theorem X13_Draw_frees_what_it_allocates
    (NDEBUG : bool) (renderer : vlc_gl_renderer F) (source : video_format_t)
    (gl : gl_state F) (h : heap) :
  heap_wf h ->
  (forall (l t r b : list F) (gl0 : gl_state F),
     let h' := snd (SetupCoords indeterminate_float indeterminate_ushort
                      renderer l t r b gl0 h) in
     heap_live h' = heap_live h /\ heap_next h <= heap_next h' /\ heap_wf h')
  /\ match vlc_gl_renderer_Draw indeterminate_float indeterminate_ushort
            NDEBUG renderer source gl h with
     | Returns (_, _, _, h') =>
         heap_live h' = heap_live h /\ heap_next h <= heap_next h'
         /\ heap_wf h'
     | Stops => NDEBUG || draw_assertions renderer = false
     end.
Proof.
  intros Hwf.
  assert (Hkept : forall h', heap_live h' = heap_live h ->
                             heap_next h <= heap_next h' ->
                             heap_live h' = heap_live h
                             /\ heap_next h <= heap_next h' /\ heap_wf h').
  { intros h' Hl Hn. split; [exact Hl |]. split; [exact Hn |].
    unfold heap_wf in *. rewrite Hl.
    eapply Forall_impl; [exact Hwf | cbv beta; intros; lia]. }
  split.
  { intros l t r b gl0 h'.
    destruct (SetupCoords_heap renderer l t r b gl0 h Hwf) as [Hl Hn].
    apply Hkept; assumption. }
  destruct (source_changed source (last_source renderer)) eqn:Hchanged.
  - unfold vlc_gl_renderer_Draw. rewrite Hchanged.
    set (rs := TextureCropForStereo _ _ _).
    pose proof (SetupCoords_heap renderer (rect_left rs) (rect_top rs)
                  (rect_right rs) (rect_bottom rs)
                  (gl_do (glUseProgram (program_id renderer)) (gl_do glClear gl))
                  h Hwf) as Hs.
    cbv zeta in Hs.
    pose proof (SetupCoords_answer indeterminate_float indeterminate_ushort
                  renderer (rect_left rs) (rect_top rs)
                  (rect_right rs) (rect_bottom rs)
                  (gl_do (glUseProgram (program_id renderer)) (gl_do glClear gl))
                  h) as Ha.
    destruct (SetupCoords _ _ _ _ _ _ _ _ _) as [[[ret r'] gl'] hs].
    cbn [snd] in Hs. destruct Hs as [Hl Hn].
    destruct (negb (ret =? VLC_SUCCESS)) eqn:Eret;
      [apply Hkept; assumption |].
    rewrite DrawWithShaders_run.
    assert (Er : draw_assertions
                   (set_last_source
                      {| last_x_offset := i_x_offset source;
                         last_y_offset := i_y_offset source;
                         last_visible_width := i_visible_width source;
                         last_visible_height := i_visible_height source |} r')
                 = draw_assertions renderer).
    { destruct Ha as [(n & gl1 & h1 & [= _ -> _ _] & _)
                     | (ret1 & h1 & [= -> _ _ _] & Hret)].
      - reflexivity.
      - destruct Hret as [-> | ->]; discriminate Eret. }
    rewrite Er.
    destruct (NDEBUG || draw_assertions renderer);
      [apply Hkept; assumption | reflexivity].
  - rewrite (Draw_unchanged indeterminate_float indeterminate_ushort
               NDEBUG renderer source gl h Hchanged).
    destruct (NDEBUG || draw_assertions renderer);
      [apply Hkept; [reflexivity | lia] | reflexivity].
Qed.

(** The meshes of the three builders can be drawn. *)
Lemma BuildRectangle_valid (nbPlanes : nat) (l t r b : list F) (h : heap) :
  Z.of_nat nbPlanes <= PICTURE_PLANE_MAX -> alloc_fails h = false ->
  exists m h',
    BuildRectangle indeterminate_float indeterminate_ushort nbPlanes l t r b h
    = (VLC_SUCCESS, Some m, h')
    /\ mesh_valid nbPlanes m /\ nbVertices m = 4 /\ nbIndices m = 6.
Proof.
  intros Hplanes Hok.
  destruct (BuildRectangle_mesh indeterminate_float indeterminate_ushort
              nbPlanes l t r b h Hplanes Hok)
    as (m & h' & E & Hv & Hi & Hvc & Htc & Hix).
  exists m, h'. split; [exact E |]. split; [| split; [exact Hv | exact Hi]].
  unfold mesh_valid. rewrite Hv, Hi, Hvc, Hix, Htc.
  split; [lia |]. split; [reflexivity |]. split.
  { apply planes_tex_length. intros q _. reflexivity. }
  split; [reflexivity |].
  unfold rectangle_ind. repeat (constructor; [lia |]). constructor.
Qed.

Lemma BuildSphere_valid (nbPlanes : nat) (l t r b : list F) (h : heap) :
  Z.of_nat nbPlanes <= PICTURE_PLANE_MAX -> alloc_fails h = false ->
  exists m h',
    BuildSphere indeterminate_float indeterminate_ushort nbPlanes l t r b h
    = (VLC_SUCCESS, Some m, h')
    /\ mesh_valid nbPlanes m /\ nbVertices m = 129 * 129
    /\ nbIndices m = 128 * 128 * 3 * 2.
Proof.
  intros Hplanes Hok.
  destruct (BuildSphere_mesh F _ indeterminate_float indeterminate_ushort
              nbPlanes l t r b h Hok)
    as (m & h' & E & Hv & Hi & [Hl Hw] & [Hlv _]).
  destruct (BuildSphere_texture F _ indeterminate_float indeterminate_ushort
              nbPlanes l t r b h Hplanes Hok)
    as (m' & h'' & E' & [Hlt _]).
  rewrite E in E'. injection E' as <- <-.
  exists m, h'. split; [exact E |].
  split; [| split; [rewrite Hv | rewrite Hi]; reflexivity].
  unfold mesh_valid. rewrite Hv, Hi, Hlv, Hl, Hlt.
  assert (Hnat : Z.to_nat 16641 = (129 * 129)%nat).
  { apply Nat2Z.inj. rewrite Z2Nat.id by lia.
    rewrite Nat2Z.inj_mul. reflexivity. }
  rewrite Hnat.
  split; [lia |]. split; [lia |]. split; [lia |].
  split; [rewrite !Nat2Z.inj_mul; reflexivity |].
  apply Forall_lookup. intros k x Hx.
  assert (Hk : (k < 128 * 128 * 6)%nat).
  { rewrite <- Hl. eapply lookup_lt_Some. exact Hx. }
  rewrite Hw in Hx by exact Hk. injection Hx as <-.
  pose proof (sphere_index_bound 128 k Hk) as Hb.
  rewrite !Nat2Z.inj_mul, !Nat2Z.inj_add in Hb.
  unfold wrap_ushort. rewrite Z.mod_small by lia. lia.
Qed.

Lemma BuildCube_valid (nbPlanes : nat) (padW padH : F) (l t r b : list F)
    (h : heap) :
  Z.of_nat nbPlanes <= PICTURE_PLANE_MAX -> alloc_fails h = false ->
  exists m h',
    BuildCube indeterminate_float indeterminate_ushort nbPlanes padW padH
      l t r b h
    = (VLC_SUCCESS, Some m, h')
    /\ mesh_valid nbPlanes m /\ nbVertices m = 24 /\ nbIndices m = 36.
Proof.
  intros Hplanes Hok.
  destruct (BuildCube_mesh indeterminate_float indeterminate_ushort
              nbPlanes padW padH l t r b h Hplanes Hok)
    as (m & h' & E & Hv & Hi & Hvc & Htc & Hix).
  exists m, h'. split; [exact E |]. split; [| split; [exact Hv | exact Hi]].
  unfold mesh_valid. rewrite Hv, Hi, Hvc, Hix, Htc.
  split; [lia |]. split; [reflexivity |]. split.
  { apply planes_tex_length. intros q _. reflexivity. }
  split; [reflexivity |].
  unfold cube_ind. repeat (constructor; [lia |]). constructor.
Qed.

(** What the builder of the projection mode answers when its allocations
    succeed. *)
Lemma builder_of_mesh (renderer : vlc_gl_renderer F) (l t r b : list F)
    (h : heap) :
  has_builder (projection_mode (fmt renderer)) = true ->
  Z.of_nat (tex_count (interop renderer)) <= PICTURE_PLANE_MAX ->
  alloc_fails h = false ->
  exists m h',
    builder_of indeterminate_float indeterminate_ushort renderer l t r b h = (VLC_SUCCESS, Some m, h')
    /\ mesh_valid (tex_count (interop renderer)) m
    /\ nbIndices m = indices_of_mode (projection_mode (fmt renderer)).
Proof.
  intros Hmode Hplanes Hok. unfold builder_of, indices_of_mode.
  destruct (projection_mode (fmt renderer)); try discriminate Hmode.
  - destruct (BuildRectangle_valid (tex_count (interop renderer)) l t r b h
                Hplanes Hok) as (m & h' & E & Hm & _ & Hi).
    exists m, h'. split; [exact E | split; [exact Hm | exact Hi]].
  - destruct (BuildSphere_valid (tex_count (interop renderer)) l t r b h
                Hplanes Hok) as (m & h' & E & Hm & _ & Hi).
    exists m, h'. split; [exact E | split; [exact Hm | exact Hi]].
  - match goal with |- context [BuildCube _ _ ?n ?pw ?ph l t r b h] =>
      destruct (BuildCube_valid n pw ph l t r b h Hplanes Hok)
        as (m & h' & E & Hm & _ & Hi)
    end.
    exists m, h'. split; [exact E | split; [exact Hm | exact Hi]].
Qed.

(** X14. When their allocations succeed, for at most PICTURE_PLANE_MAX
    planes, the three builders answer a mesh that can be drawn: the
    position array has 3 entries for each vertex, the texture array 2 for
    each vertex of each plane, the index array nbIndices entries, and
    every index is at least 0 and below nbVertices.  The rectangle has 4
    vertices and 6 indices, the sphere 129 * 129 and 128 * 128 * 6, the
    cube 24 and 36. *)
Theorem X14_builders_return_drawable_meshes
    (nbPlanes : nat) (padW padH : F) (l t r b : list F) (h : heap) :
  Z.of_nat nbPlanes <= PICTURE_PLANE_MAX -> alloc_fails h = false ->
  (exists m h',
     BuildRectangle indeterminate_float indeterminate_ushort nbPlanes l t r b h
     = (VLC_SUCCESS, Some m, h')
     /\ mesh_valid nbPlanes m /\ nbVertices m = 4 /\ nbIndices m = 6)
  /\ (exists m h',
        BuildSphere indeterminate_float indeterminate_ushort nbPlanes l t r b h
        = (VLC_SUCCESS, Some m, h')
        /\ mesh_valid nbPlanes m /\ nbVertices m = 129 * 129
        /\ nbIndices m = 128 * 128 * 3 * 2)
  /\ (exists m h',
        BuildCube indeterminate_float indeterminate_ushort nbPlanes padW padH
          l t r b h
        = (VLC_SUCCESS, Some m, h')
        /\ mesh_valid nbPlanes m /\ nbVertices m = 24 /\ nbIndices m = 36).
Proof.
  intros Hplanes Hok. split; [| split].
  - apply BuildRectangle_valid; assumption.
  - apply BuildSphere_valid; assumption.
  - apply BuildCube_valid; assumption.
Qed.

End BuilderMeshes.

(** ** The upload and the draw call *)

Section UploadProperties.
Context {F : Type} `{FloatOps F}.
Variable indeterminate_float : nat -> F.
Variable indeterminate_ushort : nat -> Z.

Lemma upload_planes_buffers (n : nat) (name : nat -> Z) (size : Z)
    (data : nat -> gl_buffer_data F) (gl : gl_state F) :
  let gl' :=
    for_loop n (fun j gl =>
      let gl := gl_do (glBindBuffer GL_ARRAY_BUFFER (name j)) gl in
      gl_do (glBufferData GL_ARRAY_BUFFER size (data j)) gl) gl in
  gl_buffers gl'
  = rev (map (fun j => (name j, data j)) (seq 0 n)) ++ gl_buffers gl.
Proof.
  cbv zeta.
  apply (for_loop_ind
    (fun k gl' =>
       gl_buffers gl'
       = rev (map (fun j => (name j, data j)) (seq 0 k)) ++ gl_buffers gl)).
  - reflexivity.
  - intros j gl' _ IH. cbn [gl_do gl_buffers bound_buffer array_buffer_binding].
    rewrite IH, seq_S, map_app, rev_app_distr. reflexivity.
Qed.

(** What SetupCoords does with the mesh of its builder. *)
Lemma SetupCoords_upload (renderer : vlc_gl_renderer F) (l t r b : list F)
    (gl : gl_state F) (h : heap) (ret : Z) (m : mesh F) (h' : heap) :
  builder_of indeterminate_float indeterminate_ushort renderer l t r b h
  = (ret, Some m, h') ->
  exists gl' h'',
    SetupCoords indeterminate_float indeterminate_ushort renderer l t r b gl h
    = (VLC_SUCCESS, set_nb_indices (nbIndices m) renderer, gl', h'')
    /\ gl_buffers gl' = mesh_buffers renderer m ++ gl_buffers gl
    /\ array_buffer_binding gl' = vertex_buffer_object renderer
    /\ element_array_buffer_binding gl' = index_buffer_object renderer.
Proof.
  intros E. unfold SetupCoords.
  fold (builder_of indeterminate_float indeterminate_ushort renderer l t r b h).
  rewrite E.
  eexists. eexists. split; [reflexivity |].
  cbn [gl_do gl_buffers bound_buffer array_buffer_binding
       element_array_buffer_binding].
  split; [| split; reflexivity].
  unfold mesh_buffers. cbn [app]. do 2 f_equal.
  apply (upload_planes_buffers (tex_count (interop renderer))
           (fun j => nth j (texture_buffer_object renderer) 0)
           (nbVertices m * 2 * sizeof_GLfloat)
           (fun j => GLfloat_data
                       (take (Z.to_nat (nbVertices m) * 2)
                          (drop (j * Z.to_nat (nbVertices m) * 2)
                             (textureCoord m))))).
Qed.

(** X15. When the projection mode has a builder, the interop has at most
    PICTURE_PLANE_MAX planes and the allocations succeed, SetupCoords
    answers VLC_SUCCESS, stores the number of indices of the mesh in
    nb_indices and changes nothing else of the renderer, and fills the
    buffer objects in this order: for each plane the texture buffer of
    the plane with the 2 * nbVertices texture coordinates of the plane,
    the vertex buffer with the positions, the index buffer with the
    indices.  It leaves the vertex buffer and the index buffer bound. *)
Theorem X15_SetupCoords_uploads_the_mesh
    (renderer : vlc_gl_renderer F) (l t r b : list F)
    (gl : gl_state F) (h : heap) :
  has_builder (projection_mode (fmt renderer)) = true ->
  Z.of_nat (tex_count (interop renderer)) <= PICTURE_PLANE_MAX ->
  alloc_fails h = false ->
  exists m gl' h',
    SetupCoords indeterminate_float indeterminate_ushort renderer l t r b gl h
    = (VLC_SUCCESS, set_nb_indices (nbIndices m) renderer, gl', h')
    /\ mesh_valid (tex_count (interop renderer)) m
    /\ nbIndices m = indices_of_mode (projection_mode (fmt renderer))
    /\ gl_buffers gl' = mesh_buffers renderer m ++ gl_buffers gl
    /\ array_buffer_binding gl' = vertex_buffer_object renderer
    /\ element_array_buffer_binding gl' = index_buffer_object renderer
    /\ Forall (fun nd =>
                 exists data, snd nd = GLfloat_data data
                   /\ length data = (Z.to_nat (nbVertices m) * 2)%nat)
         (drop 2 (mesh_buffers renderer m)).
Proof.
  intros Hmode Hplanes Hok.
  destruct (builder_of_mesh indeterminate_float indeterminate_ushort
              renderer l t r b h Hmode Hplanes Hok)
    as (m & hb & E & Hvalid & Hi).
  destruct (SetupCoords_upload renderer l t r b gl h _ m hb E)
    as (gl' & h' & Es & Hbuf & Ha & He).
  exists m, gl', h'. split; [exact Es |]. split; [exact Hvalid |].
  split; [exact Hi |]. split; [exact Hbuf |]. split; [exact Ha |].
  split; [exact He |].
  unfold mesh_buffers. cbn [drop].
  destruct Hvalid as (_ & _ & Htc & _).
  apply Forall_rev, Forall_map, Forall_forall.
  intros j Hj. apply elem_of_seq in Hj. cbn [snd].
  eexists. split; [reflexivity |].
  rewrite length_take, length_drop, Htc. nia.
Qed.

Lemma drawn_trace (renderer : vlc_gl_renderer F) (gl : gl_state F) :
  let gl' := drawn renderer gl in
  (exists before,
     gl_calls gl' = before ++ [glDrawElements (nb_indices renderer)])
  /\ array_buffer_binding gl' = vertex_buffer_object renderer
  /\ element_array_buffer_binding gl' = index_buffer_object renderer
  /\ gl_buffers gl' = gl_buffers gl
  /\ active_textures (gl_calls gl')
     = active_textures (gl_calls gl)
       ++ map (fun j => GL_TEXTURE0 + Z.of_nat j)
            (seq 0 (tex_count (interop renderer)))
  /\ uniforms (gl_calls gl')
     = uniforms (gl_calls gl)
       ++ [ (uloc_TransformMatrix (loc renderer),
             match transform_matrix (interop renderer) with
             | Some tm => tm
             | None => identity
             end);
            (uloc_OrientationMatrix (loc renderer),
             OrientationMatrix (var renderer));
            (uloc_ProjectionMatrix (loc renderer),
             ProjectionMatrix (var renderer));
            (uloc_ViewMatrix (loc renderer), ViewMatrix (var renderer));
            (uloc_ZoomMatrix (loc renderer), ZoomMatrix (var renderer)) ].
Proof.
  intros gl'. unfold gl', drawn.
  set (gl1 := gl_do (prepare_shader _ _ _) gl).
  match goal with |- context [for_loop ?n ?body gl1] =>
    set (gl2 := for_loop n body gl1) end.
  assert (Hloop :
    gl_buffers gl2 = gl_buffers gl
    /\ active_textures (gl_calls gl2)
       = active_textures (gl_calls gl)
         ++ map (fun j => GL_TEXTURE0 + Z.of_nat j)
              (seq 0 (tex_count (interop renderer)))
    /\ uniforms (gl_calls gl2) = uniforms (gl_calls gl)).
  { unfold gl2.
    apply (for_loop_ind
      (fun k g =>
         gl_buffers g = gl_buffers gl
         /\ active_textures (gl_calls g)
            = active_textures (gl_calls gl)
              ++ map (fun j => GL_TEXTURE0 + Z.of_nat j) (seq 0 k)
         /\ uniforms (gl_calls g) = uniforms (gl_calls gl))).
    - unfold gl1, active_textures, uniforms. cbn [gl_do gl_calls gl_buffers].
      rewrite !flat_map_app. cbn [flat_map seq map]. rewrite !app_nil_r.
      repeat split; reflexivity.
    - intros j g _ (Hb & Ha & Hu).
      unfold active_textures, uniforms in *.
      cbn [gl_do gl_calls gl_buffers].
      rewrite !flat_map_app, Ha, Hu, Hb, seq_S, map_app.
      cbn [flat_map map Nat.add]. rewrite !app_nil_r, <- !app_assoc.
      repeat split; reflexivity. }
  destruct Hloop as (Hb & Ha & Hu).
  cbn [gl_do gl_calls gl_buffers array_buffer_binding
       element_array_buffer_binding].
  split; [eexists; reflexivity |].
  split; [reflexivity |]. split; [reflexivity |]. split; [exact Hb |].
  unfold active_textures, uniforms in *.
  rewrite !flat_map_app, Ha, Hu. cbn [flat_map]. rewrite !app_nil_r.
  rewrite <- !app_assoc. split; reflexivity.
Qed.

(** The assertions of DrawWithShaders, plane by plane. *)
Lemma draw_assertions_planes (renderer : vlc_gl_renderer F) :
  draw_assertions renderer = true
  <-> forall j, (j < tex_count (interop renderer))%nat ->
        nth j (textures renderer) 0 <> 0
        /\ nth j (aloc_MultiTexCoord (loc renderer)) 0 <> -1.
Proof.
  unfold draw_assertions. rewrite forallb_forall. split.
  - intros Hall j Hj.
    assert (Hin : In j (seq 0 (tex_count (interop renderer))))
      by (apply in_seq; lia).
    apply Hall in Hin. apply andb_true_iff in Hin as [Ht Ha].
    apply negb_true_iff in Ht, Ha. split; apply Z.eqb_neq; assumption.
  - intros Hall j Hj. apply in_seq in Hj.
    destruct (Hall j) as [Ht Ha]; [lia |].
    apply andb_true_iff. split; apply negb_true_iff, Z.eqb_neq; assumption.
Qed.

(** X17. DrawWithShaders returns when, for every plane j of the interop,
    textures[j] is not 0 and aloc.MultiTexCoord[j] is not -1, or when the
    assertions are compiled out; otherwise the process stops in it.  When
    it returns, it ends with glDrawElements for nb_indices indices, with
    the vertex buffer and the index buffer of the renderer bound, and has
    uploaded nothing.  It has selected the texture units GL_TEXTURE0,
    GL_TEXTURE0 + 1, ... one for each plane, in order, and set five
    matrices, in order: TransformMatrix, which is the identity when the
    interop gives none, OrientationMatrix, ProjectionMatrix, ViewMatrix
    and ZoomMatrix. *)
Theorem X17_DrawWithShaders_calls (NDEBUG : bool)
    (renderer : vlc_gl_renderer F) (gl : gl_state F) :
  (draw_assertions renderer = true
   <-> forall j, (j < tex_count (interop renderer))%nat ->
         nth j (textures renderer) 0 <> 0
         /\ nth j (aloc_MultiTexCoord (loc renderer)) 0 <> -1)
  /\ if NDEBUG || draw_assertions renderer
     then
       exists gl',
         DrawWithShaders NDEBUG renderer gl = Returns gl'
         /\ (exists before,
               gl_calls gl' = before ++ [glDrawElements (nb_indices renderer)])
         /\ array_buffer_binding gl' = vertex_buffer_object renderer
         /\ element_array_buffer_binding gl' = index_buffer_object renderer
         /\ gl_buffers gl' = gl_buffers gl
         /\ active_textures (gl_calls gl')
            = active_textures (gl_calls gl)
              ++ map (fun j => GL_TEXTURE0 + Z.of_nat j)
                   (seq 0 (tex_count (interop renderer)))
         /\ uniforms (gl_calls gl')
            = uniforms (gl_calls gl)
              ++ [ (uloc_TransformMatrix (loc renderer),
                    match transform_matrix (interop renderer) with
                    | Some tm => tm
                    | None => identity
                    end);
                   (uloc_OrientationMatrix (loc renderer),
                    OrientationMatrix (var renderer));
                   (uloc_ProjectionMatrix (loc renderer),
                    ProjectionMatrix (var renderer));
                   (uloc_ViewMatrix (loc renderer), ViewMatrix (var renderer));
                   (uloc_ZoomMatrix (loc renderer), ZoomMatrix (var renderer)) ]
     else DrawWithShaders NDEBUG renderer gl = Stops.
Proof.
  split; [apply draw_assertions_planes |].
  rewrite DrawWithShaders_run.
  destruct (NDEBUG || draw_assertions renderer); [| reflexivity].
  exists (drawn renderer gl). split; [reflexivity |].
  apply drawn_trace.
Qed.

(** X16. A call of Draw that builds a mesh and returns draws inside its
    buffers: its last call is glDrawElements with the count nb_indices,
    the buffer bound to GL_ELEMENT_ARRAY_BUFFER holds exactly that many
    indices, and, when the vertex buffer and the index buffer are two
    buffer objects, every index has its three coordinates in the buffer
    bound to GL_ARRAY_BUFFER.  Draw returns when the assertions of
    DrawWithShaders hold or are compiled out; when they do not, the
    process stops in it. *)
Theorem X16_Draw_draws_inside_its_buffers
    (NDEBUG : bool) (renderer : vlc_gl_renderer F) (source : video_format_t)
    (gl : gl_state F) (h : heap) :
  source_changed source (last_source renderer) = true ->
  has_builder (projection_mode (fmt renderer)) = true ->
  Z.of_nat (tex_count (interop renderer)) <= PICTURE_PLANE_MAX ->
  alloc_fails h = false ->
  if NDEBUG || draw_assertions renderer
  then
    exists renderer' gl' h' before ix,
      vlc_gl_renderer_Draw indeterminate_float indeterminate_ushort
        NDEBUG renderer source gl h
      = Returns (VLC_SUCCESS, renderer', gl', h')
      /\ gl_calls gl' = before ++ [glDrawElements (Z.of_nat (length ix))]
      /\ buffer_contents (gl_buffers gl') (element_array_buffer_binding gl')
         = Some (GLushort_data ix)
      /\ Z.of_nat (length ix)
         = indices_of_mode (projection_mode (fmt renderer))
      /\ nb_indices renderer' = Z.of_nat (length ix)
      /\ (vertex_buffer_object renderer <> index_buffer_object renderer ->
          exists vc,
            buffer_contents (gl_buffers gl') (array_buffer_binding gl')
            = Some (GLfloat_data vc)
            /\ Forall (fun i => 0 <= i
                                /\ (Z.to_nat i * 3 + 3 <= length vc)%nat)
                 ix)
  else
    vlc_gl_renderer_Draw indeterminate_float indeterminate_ushort
      NDEBUG renderer source gl h
    = Stops.
Proof.
  intros Hchanged Hmode Hplanes Hok.
  unfold vlc_gl_renderer_Draw. rewrite Hchanged.
  set (rs := TextureCropForStereo _ _ _).
  set (gl0 := gl_do (glUseProgram _) _).
  destruct (builder_of_mesh indeterminate_float indeterminate_ushort
              renderer (rect_left rs) (rect_top rs) (rect_right rs)
              (rect_bottom rs) h Hmode Hplanes Hok)
    as (m & hb & E & Hvalid & Hi).
  destruct (SetupCoords_upload renderer (rect_left rs) (rect_top rs)
              (rect_right rs) (rect_bottom rs) gl0 h _ m hb E)
    as (gl1 & h1 & -> & Hbuf & _ & _).
  cbn [negb Z.eqb VLC_SUCCESS].
  set (r' := set_last_source _ _).
  rewrite DrawWithShaders_run.
  change (draw_assertions r') with (draw_assertions renderer).
  destruct (NDEBUG || draw_assertions renderer); [| reflexivity].
  destruct (drawn_trace r' gl1)
    as ((before & Hcalls) & Ha & He & Hb & _).
  destruct Hvalid as (Hnv & Hvc & _ & Hlen & Hix).
  exists r', (drawn r' gl1), h1, before, (indices m).
  split; [reflexivity |].
  rewrite He, Ha, Hb, Hbuf, Hlen. unfold mesh_buffers.
  change (index_buffer_object r') with (index_buffer_object renderer).
  change (vertex_buffer_object r') with (vertex_buffer_object renderer).
  cbn [app buffer_contents]. rewrite Z.eqb_refl.
  split; [exact Hcalls |]. split; [reflexivity |]. split; [exact Hi |].
  split; [reflexivity |].
  intros Hne. exists (vertexCoord m).
  replace (index_buffer_object renderer =? vertex_buffer_object renderer)
    with false by (symmetry; apply Z.eqb_neq; lia).
  rewrite Z.eqb_refl. split; [reflexivity |].
  eapply Forall_impl; [exact Hix |]. cbv beta. intros i Hrange.
  split; [lia |]. rewrite Hvc. lia.
Qed.

End UploadProperties.

(** ** The rectangles of Draw *)

Section PlaneRects.
Context {F : Type} `{FloatOps F}.
Variable indeterminate_float : nat -> F.
Local Open Scope cfloat_scope.

(** The rectangle that Draw computes for each plane of the interop. *)
Lemma plane_rects_plane (renderer : vlc_gl_renderer F) (source : video_format_t) :
  Z.of_nat (tex_count (interop renderer)) <= PICTURE_PLANE_MAX ->
  let rs := plane_rects indeterminate_float renderer source in
  rects_hold (tex_count (interop renderer)) rs
  /\ forall j, (j < tex_count (interop renderer))%nat ->
       plane_rect indeterminate_float rs j
       = (float_of_int (wrap_unsigned (i_x_offset source + 0))
            *! scale_w renderer j,
          float_of_int (wrap_unsigned (i_y_offset source + 0))
            *! scale_h renderer j,
          float_of_int
            (wrap_unsigned (i_x_offset source + i_visible_width source))
            *! scale_w renderer j,
          float_of_int
            (wrap_unsigned (i_y_offset source + i_visible_height source))
            *! scale_h renderer j).
Proof.
  intros Hplanes rs. unfold PICTURE_PLANE_MAX in Hplanes.
  assert (Hinv :
    length (rect_left rs) = 5%nat /\ length (rect_top rs) = 5%nat
    /\ length (rect_right rs) = 5%nat /\ length (rect_bottom rs) = 5%nat
    /\ forall j, (j < tex_count (interop renderer))%nat ->
         plane_rect indeterminate_float rs j
         = (float_of_int (wrap_unsigned (i_x_offset source + 0))
              *! scale_w renderer j,
            float_of_int (wrap_unsigned (i_y_offset source + 0))
              *! scale_h renderer j,
            float_of_int
              (wrap_unsigned (i_x_offset source + i_visible_width source))
              *! scale_w renderer j,
            float_of_int
              (wrap_unsigned (i_y_offset source + i_visible_height source))
              *! scale_h renderer j)).
  { unfold rs, plane_rects.
    apply (for_loop_ind
      (fun k r =>
         length (rect_left r) = 5%nat /\ length (rect_top r) = 5%nat
         /\ length (rect_right r) = 5%nat /\ length (rect_bottom r) = 5%nat
         /\ forall j, (j < k)%nat ->
              plane_rect indeterminate_float r j
              = (float_of_int (wrap_unsigned (i_x_offset source + 0))
                   *! scale_w renderer j,
                 float_of_int (wrap_unsigned (i_y_offset source + 0))
                   *! scale_h renderer j,
                 float_of_int
                   (wrap_unsigned (i_x_offset source + i_visible_width source))
                   *! scale_w renderer j,
                 float_of_int
                   (wrap_unsigned (i_y_offset source + i_visible_height source))
                   *! scale_h renderer j))).
    - cbn [rect_left rect_top rect_right rect_bottom].
      rewrite uninit_floats_length.
      repeat (split; [reflexivity |]). intros j Hj. lia.
    - intros k r Hk (Hl & Ht & Hr & Hb & Hw).
      cbn [rect_left rect_top rect_right rect_bottom].
      rewrite !length_insert.
      repeat (split; [assumption |]).
      intros j Hj. unfold plane_rect.
      cbn [rect_left rect_top rect_right rect_bottom].
      destruct (Nat.eq_dec j k) as [-> | Hne].
      + rewrite !at_insert_eq by lia. reflexivity.
      + rewrite !at_insert_ne by lia. apply Hw. lia. }
  destruct Hinv as (Hl & Ht & Hr & Hb & Hw).
  split; [| exact Hw].
  unfold rects_hold. rewrite Hl, Ht, Hr, Hb. lia.
Qed.

End PlaneRects.

(** Over the reals, the rectangle of a plane of a picture that is not
    cropped, in a texture of the size of the plane. *)
Lemma plane_rects_whole (indeterminate_float : nat -> R)
    (renderer : vlc_gl_renderer R) (source : video_format_t) (j : nat)
    (tex : vlc_gl_tex_cfg) :
  Z.of_nat (tex_count (interop renderer)) <= PICTURE_PLANE_MAX ->
  (j < tex_count (interop renderer))%nat ->
  texs (interop renderer) !! j = Some tex ->
  i_x_offset source = 0 -> i_y_offset source = 0 ->
  0 < i_visible_width source <= UINT_MAX ->
  0 < i_visible_height source <= UINT_MAX ->
  0 < w_num tex -> 0 < w_den tex -> 0 < h_num tex -> 0 < h_den tex ->
  nth j (tex_width renderer) 0 * w_den tex
  = i_visible_width source * w_num tex ->
  nth j (tex_height renderer) 0 * h_den tex
  = i_visible_height source * h_num tex ->
  plane_rect indeterminate_float
    (@plane_rects R Exact.real_ops indeterminate_float renderer source) j
  = (0%R, 0%R, 1%R, 1%R).
Proof.
  intros Hplanes Hj Htex Hx Hy Hvw Hvh Hwn Hwd Hhn Hhd Hw Hh.
  destruct (@plane_rects_plane R Exact.real_ops indeterminate_float
              renderer source Hplanes) as [_ Hrect].
  rewrite (Hrect j Hj). unfold scale_w, scale_h.
  rewrite (nth_lookup_Some _ _ _ _ Htex).
  rewrite Hx, Hy. cbn [Z.add].
  rewrite !wrap_unsigned_small by (unfold UINT_MAX in *; lia).
  cbn [fmul fdiv float_of_int Exact.real_ops].
  set (tw := nth j (tex_width renderer) 0) in *.
  set (th := nth j (tex_height renderer) 0) in *.
  assert (Hwr : (IZR tw * IZR (w_den tex)
                 = IZR (i_visible_width source) * IZR (w_num tex))%R).
  { rewrite <- !mult_IZR. f_equal. exact Hw. }
  assert (Hhr : (IZR th * IZR (h_den tex)
                 = IZR (i_visible_height source) * IZR (h_num tex))%R).
  { rewrite <- !mult_IZR. f_equal. exact Hh. }
  assert (Hp : forall n, 0 < n -> (0 < IZR n)%R)
    by (intros n Hn; apply (IZR_lt 0); exact Hn).
  pose proof (Hp _ Hwn). pose proof (Hp _ Hwd).
  pose proof (Hp _ Hhn). pose proof (Hp _ Hhd).
  pose proof (Hp _ (proj1 Hvw)). pose proof (Hp _ (proj1 Hvh)).
  assert (Htw : (0 < IZR tw)%R) by nra.
  assert (Hth : (0 < IZR th)%R) by nra.
  rewrite !Z.add_0_l.
  f_equal; [f_equal; [f_equal |] |].
  - lra.
  - lra.
  - apply (Rmult_eq_reg_r (IZR tw * IZR (w_den tex))); [| nra].
    rewrite Hwr at 2. field. split; lra.
  - apply (Rmult_eq_reg_r (IZR th * IZR (h_den tex))); [| nra].
    rewrite Hhr at 2. field. split; lra.
Qed.

(** X18. The rectangles that Draw computes, for at most PICTURE_PLANE_MAX
    planes: the arrays have room for every plane, and the rectangle of the
    plane j is (x_offset * scale_w, y_offset * scale_h, (x_offset +
    visible_width) * scale_w, (y_offset + visible_height) * scale_h) with
    the sums in unsigned arithmetic and scale_w = (float) w.num / w.den /
    tex_width[j], scale_h alike.  Over the reals, for a picture that is
    not cropped in a texture of the size of the plane, tex_width[j] *
    w.den = visible_width * w.num and alike for the height, the rectangle
    is the unit square (0, 0, 1, 1). *)
Theorem X18_whole_picture_is_the_unit_square :
  (forall (F : Type) (ops : FloatOps F) (indeterminate_float : nat -> F)
          (renderer : vlc_gl_renderer F) (source : video_format_t),
     Z.of_nat (tex_count (interop renderer)) <= PICTURE_PLANE_MAX ->
     let rs := plane_rects indeterminate_float renderer source in
     rects_hold (tex_count (interop renderer)) rs
     /\ forall j, (j < tex_count (interop renderer))%nat ->
          plane_rect indeterminate_float rs j
          = (fmul (float_of_int (wrap_unsigned (i_x_offset source + 0)))
                  (scale_w renderer j),
             fmul (float_of_int (wrap_unsigned (i_y_offset source + 0)))
                  (scale_h renderer j),
             fmul (float_of_int
                     (wrap_unsigned
                        (i_x_offset source + i_visible_width source)))
                  (scale_w renderer j),
             fmul (float_of_int
                     (wrap_unsigned
                        (i_y_offset source + i_visible_height source)))
                  (scale_h renderer j)))
  /\ (forall (indeterminate_float : nat -> R) (renderer : vlc_gl_renderer R)
             (source : video_format_t) (j : nat) (tex : vlc_gl_tex_cfg),
        Z.of_nat (tex_count (interop renderer)) <= PICTURE_PLANE_MAX ->
        (j < tex_count (interop renderer))%nat ->
        texs (interop renderer) !! j = Some tex ->
        i_x_offset source = 0 -> i_y_offset source = 0 ->
        0 < i_visible_width source <= UINT_MAX ->
        0 < i_visible_height source <= UINT_MAX ->
        0 < w_num tex -> 0 < w_den tex -> 0 < h_num tex -> 0 < h_den tex ->
        nth j (tex_width renderer) 0 * w_den tex
        = i_visible_width source * w_num tex ->
        nth j (tex_height renderer) 0 * h_den tex
        = i_visible_height source * h_num tex ->
        plane_rect indeterminate_float
          (@plane_rects R Exact.real_ops indeterminate_float renderer source) j
        = (0%R, 0%R, 1%R, 1%R)).
Proof.
  split.
  - intros F ops junk renderer source Hplanes.
    apply plane_rects_plane. exact Hplanes.
  - apply plane_rects_whole.
Qed.

(** ** The sphere closes up; a flat picture from end to end *)

(** X19. Over the reals the sphere of BuildSphere closes up: on every
    parallel the last vertex, lon = 128, is at the position of the first,
    lon = 0; the vertices of the first parallel are all at the pole (0, 1,
    0) and those of the last at the pole (0, -1, 0). *)
Theorem X19_sphere_closes_up
    (indeterminate_float : nat -> R) (indeterminate_ushort : nat -> Z)
    (nbPlanes : nat) (l t r b : list R) (h : heap) :
  alloc_fails h = false ->
  exists m h',
    @BuildSphere R Exact.real_ops indeterminate_float indeterminate_ushort
      nbPlanes l t r b h
    = (VLC_SUCCESS, Some m, h')
    /\ (forall lat j : nat, (lat <= 128)%nat -> (j < 3)%nat ->
          vertexCoord m !! ((lat * 129 + 128) * 3 + j)%nat
          = vertexCoord m !! ((lat * 129 + 0) * 3 + j)%nat)
    /\ (forall lon j : nat, (lon <= 128)%nat -> (j < 3)%nat ->
          vertexCoord m !! ((0 * 129 + lon) * 3 + j)%nat
          = [0; 1; 0]%R !! j
          /\ vertexCoord m !! ((128 * 129 + lon) * 3 + j)%nat
             = [0; -1; 0]%R !! j).
Proof.
  intros Hok.
  destruct (BuildSphere_mesh R Exact.real_ops indeterminate_float
              indeterminate_ushort nbPlanes l t r b h Hok)
    as (m & h' & E & _ & _ & _ & [_ Hw]).
  exists m, h'. split; [exact E |].
  assert (Hvertex : forall lat lon j : nat,
    (lat <= 128)%nat -> (lon <= 128)%nat -> (j < 3)%nat ->
    vertexCoord m !! ((lat * 129 + lon) * 3 + j)%nat
    = [ (1 * (cos (IZR (Z.of_nat lon) * 2 * PI / 128)
              * sin (IZR (Z.of_nat lat) * PI / 128)))%R;
        (1 * cos (IZR (Z.of_nat lat) * PI / 128))%R;
        (1 * (sin (IZR (Z.of_nat lon) * 2 * PI / 128)
              * sin (IZR (Z.of_nat lat) * PI / 128)))%R ] !! j).
  { intros lat lon j Hlat Hlon Hj.
    replace ((lat * 129 + lon) * 3 + j)%nat
      with ((lat * (128 + 1) + lon) * 3 + j)%nat by lia.
    rewrite Hw by nia. unfold sphere_coordinate.
    destruct (vertex_of_place 128 lat lon j) as (-> & -> & ->);
      [lia | exact Hj |].
    destruct (sphere_vertex_real lat lon Hlon) as [-> _]. reflexivity. }
  assert (H2pi : (IZR (Z.of_nat 128) * 2 * PI / 128 = 2 * PI)%R).
  { change (Z.of_nat 128) with 128. field. }
  assert (Hpi : (IZR (Z.of_nat 128) * PI / 128 = PI)%R).
  { change (Z.of_nat 128) with 128. field. }
  assert (H0 : forall x : R, (IZR (Z.of_nat 0) * x / 128 = 0)%R).
  { intros x. change (Z.of_nat 0) with 0. field. }
  assert (H0' : forall x : R, (IZR (Z.of_nat 0) * 2 * x / 128 = 0)%R).
  { intros x. change (Z.of_nat 0) with 0. field. }
  split.
  - intros lat j Hlat Hj.
    rewrite !Hvertex by lia. rewrite H2pi, H0'.
    rewrite cos_2PI, sin_2PI, cos_0, sin_0. reflexivity.
  - intros lon j Hlon Hj. split.
    + rewrite Hvertex by lia. rewrite H0, sin_0, cos_0.
      destruct j as [| [| [| j]]]; [.. | lia]; cbn [lookup list_lookup];
        f_equal; ring.
    + rewrite Hvertex by lia. rewrite Hpi, sin_PI, cos_PI.
      destruct j as [| [| [| j]]]; [.. | lia]; cbn [lookup list_lookup];
        f_equal; ring.
Qed.

Lemma planes_tex_slice {A : Type} (nbPlanes k : nat) (tex : nat -> list A)
    (j : nat) :
  (forall q, (q < nbPlanes)%nat -> length (tex q) = k) ->
  (j < nbPlanes)%nat ->
  take k (drop (j * k) (concat (map tex (seq 0 nbPlanes)))) = tex j.
Proof.
  intros Hlen Hj.
  apply list_eq. intros i.
  destruct (Nat.lt_ge_cases i k) as [Hi | Hi].
  - rewrite lookup_take_lt by exact Hi. rewrite lookup_drop.
    apply planes_tex_lookup; assumption.
  - rewrite lookup_take_ge by exact Hi.
    symmetry. apply lookup_ge_None. rewrite Hlen by exact Hj. exact Hi.
Qed.

Section FlatDraw.
#[local] Existing Instance Exact.real_ops.

(** X20. Over the reals, Draw of a flat picture that is not cropped, in
    textures of the size of its planes, when the source has changed, the
    allocations succeed and the assertions of DrawWithShaders hold or are
    compiled out: Draw returns VLC_SUCCESS with 6 indices to draw, and the
    buffers hold the indices 0, 1, 2, 2, 1, 3, the four corners (-1, 1, -1), (-1, -1, -1), (1, 1, -1), (1, -1, -1) and, for
    each plane, the texture coordinates (0, 0), (0, bottom), (right, 0),
    (right, bottom), where (right, bottom) is (1, 1) without stereo, (1,
    1/2) for top-bottom stereo and (1/2, 1) for side-by-side stereo. *)
Theorem X20_Draw_flat_picture
    (indeterminate_float : nat -> R) (indeterminate_ushort : nat -> Z)
    (NDEBUG : bool)
    (renderer : vlc_gl_renderer R) (source : video_format_t)
    (gl : gl_state R) (h : heap) :
  projection_mode (fmt renderer) = PROJECTION_MODE_RECTANGULAR ->
  source_changed source (last_source renderer) = true ->
  Z.of_nat (tex_count (interop renderer)) <= PICTURE_PLANE_MAX ->
  alloc_fails h = false ->
  whole_picture renderer source ->
  NDEBUG || draw_assertions renderer = true ->
  let '(right_, bottom_) := left_eye (multiview_mode (fmt renderer)) in
  exists renderer' gl' h',
    @vlc_gl_renderer_Draw R Exact.real_ops indeterminate_float
      indeterminate_ushort NDEBUG renderer source gl h
    = Returns (VLC_SUCCESS, renderer', gl', h')
    /\ nb_indices renderer' = 6
    /\ gl_buffers gl'
       = (index_buffer_object renderer, GLushort_data [0; 1; 2; 2; 1; 3])
         :: (vertex_buffer_object renderer,
             GLfloat_data [-1; 1; -1;  -1; -1; -1;  1; 1; -1;  1; -1; -1]%R)
         :: rev (map (fun j =>
                        (nth j (texture_buffer_object renderer) 0,
                         GLfloat_data [0; 0;  0; bottom_;
                                       right_; 0;  right_; bottom_]%R))
                   (seq 0 (tex_count (interop renderer))))
         ++ gl_buffers gl.
Proof.
  intros Hmode Hchanged Hplanes Hok (Hx & Hy & Hvw & Hvh & Hfits) Hasserted.
  destruct (left_eye (multiview_mode (fmt renderer))) as [right_ bottom_] eqn:Eeye.
  unfold vlc_gl_renderer_Draw. rewrite Hchanged.
  set (rs0 := plane_rects indeterminate_float renderer source).
  set (rs := TextureCropForStereo indeterminate_float renderer rs0).
  set (gl0 := gl_do (glUseProgram _) _).
  (* the rectangles *)
  destruct (@plane_rects_plane R Exact.real_ops indeterminate_float
              renderer source Hplanes) as [Hhold _].
  fold rs0 in Hhold.
  assert (Hrs0 : forall j, (j < tex_count (interop renderer))%nat ->
            plane_rect indeterminate_float rs0 j = (0, 0, 1, 1)%R).
  { intros j Hj. destruct (Hfits j Hj) as (tex & Ht & ? & ? & ? & ? & ? & ?).
    apply (plane_rects_whole indeterminate_float renderer source j tex);
      assumption. }
  assert (Hrs : forall j, (j < tex_count (interop renderer))%nat ->
            plane_rect indeterminate_float rs j = (0, 0, right_, bottom_)%R).
  { intros j Hj. unfold rs, TextureCropForStereo.
    unfold left_eye in Eeye.
    destruct (multiview_mode (fmt renderer));
      injection Eeye as <- <-;
      rewrite ?(GetTextureCropParamsForStereo_plane indeterminate_float
                  _ _ _ rs0 j Hhold);
      replace (j <? tex_count (interop renderer))%nat with true
        by (symmetry; apply Nat.ltb_lt; exact Hj);
      rewrite (Hrs0 j Hj); try reflexivity;
      unfold crop_plane, at_, float_lit;
      cbn [nth fadd fsub fmul fdiv float_of_int Exact.real_ops];
      repeat f_equal; lra. }
  (* the mesh *)
  assert (Eb : builder_of indeterminate_float indeterminate_ushort renderer
                 (rect_left rs) (rect_top rs) (rect_right rs) (rect_bottom rs) h
               = BuildRectangle indeterminate_float indeterminate_ushort
                   (tex_count (interop renderer))
                   (rect_left rs) (rect_top rs) (rect_right rs) (rect_bottom rs) h).
  { unfold builder_of. rewrite Hmode. reflexivity. }
  destruct (BuildRectangle_mesh indeterminate_float indeterminate_ushort
              (tex_count (interop renderer))
              (rect_left rs) (rect_top rs) (rect_right rs) (rect_bottom rs) h
              Hplanes Hok)
    as (m & hb & E & Hv & Hi & Hvc & Htc & Hix).
  rewrite <- Eb in E.
  destruct (SetupCoords_upload indeterminate_float indeterminate_ushort
              renderer (rect_left rs) (rect_top rs) (rect_right rs)
              (rect_bottom rs) gl0 h _ m hb E)
    as (gl1 & h1 & -> & Hbuf & _ & _).
  cbn [negb Z.eqb VLC_SUCCESS].
  set (r' := set_last_source _ _).
  rewrite DrawWithShaders_run.
  change (draw_assertions r') with (draw_assertions renderer).
  rewrite Hasserted.
  destruct (drawn_trace r' gl1) as (_ & _ & _ & Hb & _).
  exists r', (drawn r' gl1), h1.
  split; [reflexivity |]. split; [exact Hi |].
  rewrite Hb, Hbuf. unfold mesh_buffers. rewrite Hix, Hvc, Hv.
  cbn [app]. change (gl_buffers gl0) with (gl_buffers gl).
  apply (f_equal2 cons); [reflexivity |].
  apply (f_equal2 cons); [reflexivity |].
  apply (f_equal2 app); [| reflexivity].
  apply (f_equal (@rev _)). apply map_ext_in. intros j Hj. apply in_seq in Hj.
  apply (f_equal2 pair); [reflexivity |]. apply (f_equal GLfloat_data).
  rewrite Htc. unfold planes_tex.
  change (Z.to_nat 4 * 2)%nat with 8%nat.
  replace (j * Z.to_nat 4 * 2)%nat with (j * 8)%nat by lia.
  rewrite (planes_tex_slice (tex_count (interop renderer)) 8)
    by first [intros q _; reflexivity | lia].
  pose proof (Hrs j (proj2 Hj)) as Hrect. unfold plane_rect in Hrect.
  injection Hrect as -> -> -> ->. reflexivity.
Qed.

End FlatDraw.

(** ** A projection without a mesh *)

Section UnsupportedMode.
Context {F : Type} `{FloatOps F}.
Variable indeterminate_float : nat -> F.
Variable indeterminate_ushort : nat -> Z.

(** X21. When the projection of the picture is none of the three that
    have a mesh, and the visible rectangle of the source has changed,
    vlc_gl_renderer_Draw returns VLC_EGENERIC after glClear and
    glUseProgram only: the renderer (its last source included), the heap
    and the buffer objects are as before, and nothing is drawn. *)
Theorem X21_Draw_without_builder
    (renderer : vlc_gl_renderer F) (source : video_format_t)
    (gl : gl_state F) (h : heap) :
  has_builder (projection_mode (fmt renderer)) = false ->
  source_changed source (last_source renderer) = true ->
  forall NDEBUG : bool,
  exists gl',
    vlc_gl_renderer_Draw indeterminate_float indeterminate_ushort
      NDEBUG renderer source gl h
    = Returns (VLC_EGENERIC, renderer, gl', h)
    /\ gl_calls gl'
       = gl_calls gl ++ [glClear; glUseProgram (program_id renderer)]
    /\ same_buffers gl gl'.
Proof.
  intros Hmode Hchanged NDEBUG.
  unfold vlc_gl_renderer_Draw. rewrite Hchanged.
  unfold SetupCoords.
  destruct (projection_mode (fmt renderer)); try discriminate Hmode.
  cbn [negb Z.eqb VLC_EGENERIC VLC_SUCCESS].
  eexists. split; [reflexivity |].
  split; [cbn [gl_do gl_calls]; rewrite <- app_assoc; reflexivity |].
  apply gl_enter_same_buffers.
Qed.

End UnsupportedMode.

(** ** A field of view that is not a number *)

(** X22. In binary32, vlc_gl_renderer_SetViewpoint accepts a viewpoint
    whose field of view is not a number: both comparisons of the range
    check are false, and so is the comparison with 0.001, so that the
    function returns VLC_SUCCESS, stores the reversed viewpoint and
    computes the matrices, and leaves f_fovx, f_fovy and f_z as they
    were. *)
Theorem X22_SetViewpoint_accepts_nan
    (lm : Binary.libm)
    (vlc_viewpoint_reverse : vlc_viewpoint_t spec_float -> vlc_viewpoint_t spec_float)
    (vlc_viewpoint_to_4x4 : vlc_viewpoint_t spec_float -> list spec_float)
    (FIELD_OF_VIEW_DEGREES_MAX FIELD_OF_VIEW_DEGREES_MIN : spec_float)
    (r : vlc_gl_renderer spec_float) (p_vp : vlc_viewpoint_t spec_float) :
  fov p_vp = S754_nan ->
  let r1 := set_vp (vlc_viewpoint_reverse p_vp) r in
  @vlc_gl_renderer_SetViewpoint spec_float (Binary.binary_ops lm)
    vlc_viewpoint_reverse vlc_viewpoint_to_4x4
    FIELD_OF_VIEW_DEGREES_MAX FIELD_OF_VIEW_DEGREES_MIN r p_vp
  = (VLC_SUCCESS,
     @getViewpointMatrixes spec_float (Binary.binary_ops lm)
       vlc_viewpoint_to_4x4 (projection_mode (fmt r)) r1).
Proof.
  intros Hnan r1. unfold vlc_gl_renderer_SetViewpoint. rewrite Hnan.
  cbn [flt fle fmul fdiv fsub fabsf Binary.binary_ops].
  rewrite ltb_nan_r, ltb_nan_l. cbn [orb].
  assert (Hconv :
    SFdiv Binary.prec32 Binary.emax32
      (SFmul Binary.prec32 Binary.emax32 S754_nan
         (@M_PI_f spec_float (Binary.binary_ops lm)))
      (@float_of_int spec_float (Binary.binary_ops lm) 180)
    = S754_nan) by reflexivity.
  rewrite Hconv.
  assert (Hdist : forall x, SFabs (SFsub Binary.prec32 Binary.emax32 S754_nan x)
                            = S754_nan).
  { intros x. destruct x as [[|] | [|] | | [|] m e]; reflexivity. }
  rewrite Hdist, leb_nan_r. reflexivity.
Qed.

(** ** Shaders and program *)

Import Link.

Section LinkProperties.
Context {F : Type}.
Import String.StringSyntax.
Local Open Scope string_scope.
Variable NDEBUG : bool.
Variable driver : gl_driver.
Variable glsl_version : Z.
Variable b_dump_shaders : bool.

Lemma goes_on_refl (w : world F) : goes_on w w.
Proof. split; [exists []; symmetry; apply app_nil_r | tauto]. Qed.

Lemma goes_on_trans (w1 w2 w3 : world F) :
  goes_on w1 w2 -> goes_on w2 w3 -> goes_on w1 w3.
Proof.
  intros [[l1 H1] K1] [[l2 H2] K2]. split.
  - exists (l1 ++ l2). rewrite H2, H1, app_assoc. reflexivity.
  - intros Hwf. destruct (K1 Hwf) as [Hwf2 E2].
    destruct (K2 Hwf2) as [Hwf3 E3]. split; [exact Hwf3 | congruence].
Qed.

Lemma bind_returns {A B : Type} (m : prog (F := F) A) (k : A -> prog B)
    (w w' : world F) (b : B) :
  bind m k w = Returns (b, w') ->
  exists a w1, m w = Returns (a, w1) /\ k a w1 = Returns (b, w').
Proof.
  unfold bind. destruct (m w) as [[a w1] |]; [| discriminate].
  intros E. exists a, w1. split; [reflexivity | exact E].
Qed.

Lemma malloc_free_kept (h : heap) :
  heap_wf h ->
  match malloc h with
  | (Some p, h1) =>
      heap_wf (free p h1) /\ heap_live (free p h1) = heap_live h
  | (None, h1) => heap_wf h1 /\ heap_live h1 = heap_live h
  end.
Proof.
  intros Hwf. unfold heap_wf in Hwf.
  destruct (malloc_cases h) as [[-> _] | [-> _]].
  - split; [exact Hwf | reflexivity].
  - unfold free, heap_wf. cbn [heap_live heap_next].
    rewrite free_fresh by exact Hwf.
    split; [| reflexivity].
    eapply Forall_impl; [exact Hwf | cbv beta; intros; lia].
Qed.

(** print_log leaves the renderer and the live blocks as they are. *)
Lemma print_log_run (get_log : vt_call) (format : String.string) (w : world F) :
  exists w',
    print_log get_log format w = Returns (tt, w')
    /\ the_renderer w' = the_renderer w /\ goes_on w w'
    /\ (forall c, In c (calls w') -> In c (calls w) \/ c = get_log
                                     \/ c = msg_Err format).
Proof.
  unfold print_log, bind, alloc.
  pose proof (malloc_free_kept (memory w)) as Hheap.
  destruct (malloc (memory w)) as [[p |] h1].
  - eexists. split; [reflexivity |]. split; [reflexivity |].
    cbn [calls memory the_renderer]. split.
    + split; [eexists; rewrite <- app_assoc; reflexivity | exact Hheap].
    + intros c Hc. rewrite !in_app_iff in Hc. cbn [In] in Hc.
      destruct Hc as [[Hc | [<- | []]] | [<- | []]]; auto.
  - eexists. split; [reflexivity |]. split; [reflexivity |].
    cbn [calls memory the_renderer]. split.
    + split; [exists []; symmetry; apply app_nil_r | exact Hheap].
    + intros c Hc. auto.
Qed.

Lemma goes_on_vt (c : vt_call) (w w1 : world F) :
  goes_on w w1 ->
  goes_on w {| calls := calls w1 ++ [c]; memory := memory w1;
               the_renderer := the_renderer w1 |}.
Proof.
  intros Hgo. apply (goes_on_trans _ w1); [exact Hgo |].
  split; [eexists; reflexivity | tauto].
Qed.

(** BuildVertexShader: no shader when the allocation of asprintf fails,
    the shader of the driver otherwise. *)
Lemma BuildVertexShader_run (plane_count : Z) (w : world F) :
  exists v w',
    BuildVertexShader driver glsl_version b_dump_shaders plane_count w
    = Returns (v, w')
    /\ the_renderer w' = the_renderer w /\ goes_on w w'
    /\ (head (heap_outcomes (memory w)) = Some false
        /\ v = 0 /\ calls w' = calls w
        \/ head (heap_outcomes (memory w)) <> Some false
           /\ v = vertex_shader_name driver
           /\ exists code,
                calls w'
                = calls w
                  ++ [CreateShader_vertex;
                      ShaderSource (vertex_shader_name driver) code]
                  ++ (if b_dump_shaders
                      then [msg_Dbg dump_format]
                      else [])
                  ++ [CompileShader (vertex_shader_name driver)]).
Proof.
  unfold BuildVertexShader, bind, alloc.
  pose proof (malloc_free_kept (memory w)) as Hheap.
  destruct (malloc_cases (memory w)) as [[E Hhead] | [E Hhead]];
    rewrite E in Hheap |- *.
  - eexists. eexists. split; [reflexivity |]. split; [reflexivity |].
    cbn [calls memory the_renderer]. split.
    + split; [exists []; symmetry; apply app_nil_r | exact Hheap].
    + left. split; [exact Hhead |]. split; reflexivity.
  - destruct b_dump_shaders;
      (eexists; eexists; split; [reflexivity |]; split; [reflexivity |];
       cbn [calls memory the_renderer]; split;
       [split; [eexists; rewrite <- !app_assoc; reflexivity | exact Hheap]
       | right; split; [exact Hhead |]; split; [reflexivity |];
         eexists; rewrite <- !app_assoc; reflexivity]).
Qed.

Lemma check_shader_run (shader : Z) (w : world F) :
  exists w',
    check_shader driver shader w = Returns (tt, w')
    /\ the_renderer w' = the_renderer w /\ goes_on w w'.
Proof.
  unfold check_shader, bind, vt.
  destruct (shader_info_log_length driver shader <=? 1).
  - eexists. split; [reflexivity |]. split; [reflexivity |].
    apply goes_on_vt, goes_on_refl.
  - match goal with |- context [print_log ?g ?f ?w1] =>
      destruct (print_log_run g f w1) as (w' & -> & Hr & Hgo & _)
    end.
    exists w'. split; [reflexivity |]. split; [exact Hr |].
    eapply goes_on_trans; [| exact Hgo]. apply goes_on_vt, goes_on_refl.
Qed.

(** The messages of the program and its status. *)
Lemma check_program_run (p : Z) (w : world F) :
  exists b w',
    check_program driver p w = Returns (b, w')
    /\ the_renderer w' = the_renderer w /\ goes_on w w'
    /\ b = negb (1 <? program_info_log_length driver)
           || program_link_status driver.
Proof.
  unfold check_program, bind, vt.
  destruct (1 <? program_info_log_length driver).
  - match goal with |- context [print_log ?g ?f ?w1] =>
      destruct (print_log_run g f w1) as (w' & -> & Hr & Hgo & _)
    end.
    assert (Hgo' : goes_on w w').
    { eapply goes_on_trans; [| exact Hgo]. apply goes_on_vt, goes_on_refl. }
    destruct (program_link_status driver);
      (eexists; eexists; split; [reflexivity |]; split; [exact Hr |];
       split; [| reflexivity]).
    + apply goes_on_vt. exact Hgo'.
    + apply goes_on_vt. cbn [calls memory the_renderer].
      apply (goes_on_vt _ w w'). exact Hgo'.
  - eexists. eexists. split; [reflexivity |]. split; [reflexivity |].
    split; [| reflexivity]. apply goes_on_vt, goes_on_refl.
Qed.

Lemma goes_on_calls (w w' : world F) (l : list vt_call) :
  calls w' = calls w ++ l -> memory w' = memory w -> goes_on w w'.
Proof.
  intros Hc Hm. unfold goes_on. rewrite Hm.
  split; [exists l; exact Hc | tauto].
Qed.

Lemma GET_LOC_run (x : location) (p : Z) (str : String.string)
    (w : world F) :
  let v := if is_attribute x then attrib_location driver str
           else uniform_location driver str in
  GET_LOC NDEBUG driver x p str w
  = if v =? -1 then
      if NDEBUG then
        Returns (false,
                 {| calls :=
                      calls (located driver x p str w)
                      ++ [msg_Err (if is_attribute x
                                   then "Unable to GetAttribLocation(%s)"
                                   else "Unable to GetUniformLocation(%s)")];
                    memory := memory w;
                    the_renderer :=
                      the_renderer (located driver x p str w) |})
      else Stops
    else Returns (true, located driver x p str w).
Proof.
  intros v. unfold GET_LOC, bind, vt, update, assert_, located. fold v.
  cbn [calls memory the_renderer].
  destruct (v =? -1), NDEBUG; reflexivity.
Qed.

Lemma GET_LOC_true (x : location) (p : Z) (str : String.string)
    (w w' : world F) :
  GET_LOC NDEBUG driver x p str w = Returns (true, w') ->
  (if is_attribute x then attrib_location driver str
   else uniform_location driver str) <> -1
  /\ w' = located driver x p str w.
Proof.
  rewrite GET_LOC_run. cbv zeta.
  destruct (_ =? -1) eqn:E.
  - destruct NDEBUG; discriminate.
  - intros [= <-]. split; [apply Z.eqb_neq; exact E | reflexivity].
Qed.

Lemma GET_LOC_found (x : location) (p : Z) (str : String.string)
    (w : world F) :
  (if is_attribute x then attrib_location driver str
   else uniform_location driver str) <> -1 ->
  GET_LOC NDEBUG driver x p str w
  = Returns (true, located driver x p str w).
Proof.
  intros Hv. rewrite GET_LOC_run. cbv zeta.
  apply Z.eqb_neq in Hv. rewrite Hv. reflexivity.
Qed.

Lemma and_then_true (step rest : prog (F := F) bool) (w w' : world F) :
  and_then step rest w = Returns (true, w') ->
  exists w1, step w = Returns (true, w1) /\ rest w1 = Returns (true, w').
Proof.
  unfold and_then, bind. destruct (step w) as [[[|] w1] |]; try discriminate.
  intros E. exists w1. split; [reflexivity | exact E].
Qed.

Lemma set_loc_same (r : vlc_gl_renderer F) : r = set_loc (loc r) r.
Proof. destruct r; reflexivity. Qed.

Lemma loc_step_and_then (step rest : prog (F := F) bool) :
  loc_step (F := F) NDEBUG step -> loc_step (F := F) NDEBUG rest ->
  loc_step (F := F) NDEBUG (and_then step rest).
Proof.
  intros Hs Hr w b w' E. unfold and_then, bind in E.
  destruct (step w) as [[[|] w1] |] eqn:E1; try discriminate.
  - destruct (Hs _ _ _ E1) as (G1 & (l1 & P1) & _).
    destruct (Hr _ _ _ E) as (G2 & (l2 & P2) & N2).
    split; [eapply goes_on_trans; eassumption |].
    split; [| exact N2].
    exists l2. rewrite P2, P1. reflexivity.
  - unfold ret in E. injection E as <- <-.
    exact (Hs _ _ _ E1).
Qed.

Lemma loc_step_GET_LOC (x : location) (p : Z) (str : String.string) :
  loc_step (F := F) NDEBUG (GET_LOC NDEBUG driver x p str).
Proof.
  intros w b w'. rewrite GET_LOC_run. cbv zeta.
  destruct (_ =? -1); [destruct NDEBUG eqn:EN |]; try discriminate;
    intros [= <- <-]; cbn [the_renderer located].
  - split; [| split; [eexists; reflexivity | reflexivity]].
    eapply goes_on_calls; [| reflexivity].
    cbn [calls located]. rewrite <- app_assoc. reflexivity.
  - split; [| split; [eexists; reflexivity | discriminate]].
    eapply goes_on_calls; reflexivity.
Qed.

Lemma loc_step_unused (i : nat) :
  loc_step (F := F) NDEBUG
    (bind (update (fun r : vlc_gl_renderer F =>
             set_loc (set_location (aloc_of_MultiTexCoord i) (-1) (loc r)) r))
          (fun _ => ret true)).
Proof.
  intros w b w'. unfold bind, update, ret. intros [= <- <-].
  cbn [the_renderer].
  split; [| split; [eexists; reflexivity | discriminate]].
  apply (goes_on_calls _ _ []); [symmetry; apply app_nil_r | reflexivity].
Qed.

Lemma loc_step_fetch (p : Z) :
  loc_step (F := F) NDEBUG
    (bind (vt (pf_fetch_locations p))
       (fun _ =>
          match fetch_locations driver with
          | None => fun _ => Stops
          | Some ret_ =>
              bind (assert_ NDEBUG (ret_ =? VLC_SUCCESS))
                (fun _ =>
                   if negb (ret_ =? VLC_SUCCESS) then
                     bind (vt (msg_Err "Unable to get locations from tex_conv"))
                       (fun _ => ret false)
                   else ret true)
          end)).
Proof.
  intros w b w'. unfold bind, vt, assert_, ret.
  destruct (fetch_locations driver) as [r |]; [| discriminate].
  destruct (r =? VLC_SUCCESS); cbn [negb orb].
  - rewrite orb_true_r. intros [= <- <-]. cbn [the_renderer].
    split; [| split; [exists (loc (the_renderer w)); apply set_loc_same
                     | discriminate]].
    eapply goes_on_calls; reflexivity.
  - rewrite orb_false_r. destruct NDEBUG; [| discriminate].
    intros [= <- <-]. cbn [the_renderer].
    split; [| split; [exists (loc (the_renderer w)); apply set_loc_same
                     | reflexivity]].
    eapply goes_on_calls; [| reflexivity].
    cbn [calls]. rewrite <- app_assoc. reflexivity.
Qed.

Lemma loc_step_fetch_all (p : Z) (interop : vlc_gl_interop F) :
  loc_step (F := F) NDEBUG (fetch_all_locations NDEBUG driver p interop).
Proof.
  unfold fetch_all_locations.
  do 7 (apply loc_step_and_then; [apply loc_step_GET_LOC |]).
  apply loc_step_and_then.
  { destruct (1 <? _); [apply loc_step_GET_LOC | apply loc_step_unused]. }
  apply loc_step_and_then.
  { destruct (2 <? _); [apply loc_step_GET_LOC | apply loc_step_unused]. }
  apply loc_step_fetch.
Qed.

Lemma GET_LOC_stores (x : location) (p : Z) (str : String.string)
    (w w' : world F) (l : renderer_loc) (r : vlc_gl_renderer F) :
  GET_LOC NDEBUG driver x p str w = Returns (true, w') ->
  the_renderer w = set_loc l r ->
  (if is_attribute x then attrib_location driver str
   else uniform_location driver str) <> -1
  /\ the_renderer w'
     = set_loc
         (set_location x
            (if is_attribute x then attrib_location driver str
             else uniform_location driver str) l) r.
Proof.
  intros E Hr. apply GET_LOC_true in E as (V & ->).
  split; [exact V |]. cbn [the_renderer located]. rewrite Hr. reflexivity.
Qed.

Lemma optional_GET_LOC_stores (c : bool) (i : nat) (p : Z)
    (str : String.string) (w w' : world F) (l : renderer_loc)
    (r : vlc_gl_renderer F) :
  (if c then GET_LOC NDEBUG driver (aloc_of_MultiTexCoord i) p str
   else bind (update (fun r : vlc_gl_renderer F =>
                 set_loc (set_location (aloc_of_MultiTexCoord i) (-1) (loc r))
                   r))
          (fun _ => ret true)) w
  = Returns (true, w') ->
  the_renderer w = set_loc l r ->
  (c = true -> attrib_location driver str <> -1)
  /\ the_renderer w'
     = set_loc
         (set_location (aloc_of_MultiTexCoord i)
            (if c then attrib_location driver str else -1) l) r.
Proof.
  intros E Hr. destruct c.
  - destruct (GET_LOC_stores _ _ _ _ _ _ _ E Hr) as (V & R).
    split; [intros _; exact V | exact R].
  - unfold bind, update, ret in E. injection E as <-.
    split; [discriminate |]. cbn [the_renderer]. rewrite Hr. reflexivity.
Qed.

(** When the block of the locations goes on to [return VLC_SUCCESS], every
    location it has asked for is valid, and the renderer holds them. *)
Lemma fetch_all_locations_true (p : Z) (w w' : world F) :
  fetch_all_locations NDEBUG driver p (interop (the_renderer w)) w
  = Returns (true, w') ->
  locations_found driver (tex_count (interop (the_renderer w)))
  /\ fetch_locations driver = Some VLC_SUCCESS
  /\ the_renderer w'
     = set_loc (linked_loc driver (tex_count (interop (the_renderer w)))
                  (loc (the_renderer w)))
         (the_renderer w).
Proof.
  unfold fetch_all_locations. intros E.
  set (n := tex_count (interop (the_renderer w))) in *.
  assert (R0 : exists r l0,
             the_renderer w = set_loc l0 r
             /\ r = the_renderer w /\ l0 = loc (the_renderer w)).
  { exists (the_renderer w), (loc (the_renderer w)).
    split; [destruct (the_renderer w); reflexivity | split; reflexivity]. }
  destruct R0 as (r & l0 & R0 & Hr & Hl0).
  apply and_then_true in E as (w1 & E1 & E).
  destruct (GET_LOC_stores _ _ _ _ _ _ _ E1 R0) as (V1 & R1). clear E1 R0.
  apply and_then_true in E as (w2 & E2 & E).
  destruct (GET_LOC_stores _ _ _ _ _ _ _ E2 R1) as (V2 & R2). clear E2 R1.
  apply and_then_true in E as (w3 & E3 & E).
  destruct (GET_LOC_stores _ _ _ _ _ _ _ E3 R2) as (V3 & R3). clear E3 R2.
  apply and_then_true in E as (w4 & E4 & E).
  destruct (GET_LOC_stores _ _ _ _ _ _ _ E4 R3) as (V4 & R4). clear E4 R3.
  apply and_then_true in E as (w5 & E5 & E).
  destruct (GET_LOC_stores _ _ _ _ _ _ _ E5 R4) as (V5 & R5). clear E5 R4.
  apply and_then_true in E as (w6 & E6 & E).
  destruct (GET_LOC_stores _ _ _ _ _ _ _ E6 R5) as (V6 & R6). clear E6 R5.
  apply and_then_true in E as (w7 & E7 & E).
  destruct (GET_LOC_stores _ _ _ _ _ _ _ E7 R6) as (V7 & R7). clear E7 R6.
  apply and_then_true in E as (w8 & E8 & E).
  destruct (optional_GET_LOC_stores _ _ _ _ _ _ _ _ E8 R7) as (V8 & R8).
  clear E8 R7.
  apply and_then_true in E as (w9 & E9 & E).
  destruct (optional_GET_LOC_stores _ _ _ _ _ _ _ _ E9 R8) as (V9 & R9).
  clear E9 R8.
  cbn [is_attribute] in V1, V2, V3, V4, V5, V6, V7.
  assert (Hfetch : fetch_locations driver = Some VLC_SUCCESS
                   /\ the_renderer w' = the_renderer w9).
  { unfold bind, vt, assert_, ret in E.
    destruct (fetch_locations driver) as [r' |]; [| discriminate].
    destruct (r' =? VLC_SUCCESS) eqn:Er; cbn [negb orb] in E.
    - rewrite orb_true_r in E. injection E as <-.
      apply Z.eqb_eq in Er. subst r'. split; reflexivity.
    - destruct (NDEBUG || false); discriminate. }
  destruct Hfetch as [Hf ->]. split; [| split; [exact Hf |]].
  - unfold locations_found. repeat (split; [assumption |]).
    split; intros Hn; apply Z.ltb_lt in Hn; auto.
  - rewrite R9. subst l0 r. reflexivity.
Qed.

Lemma finds_and_then (step rest : prog (F := F) bool) :
  finds step -> finds rest -> finds (F := F) (and_then step rest).
Proof.
  intros Hs Hr w. destruct (Hs w) as (w1 & E1).
  destruct (Hr w1) as (w2 & E2). exists w2.
  unfold and_then, bind. rewrite E1. exact E2.
Qed.

Lemma finds_GET_LOC (x : location) (p : Z) (str : String.string) :
  (if is_attribute x then attrib_location driver str
   else uniform_location driver str) <> -1 ->
  finds (F := F) (GET_LOC NDEBUG driver x p str).
Proof. intros V w. eexists. apply GET_LOC_found. exact V. Qed.

Lemma fetch_all_locations_found (p : Z) (interop : vlc_gl_interop F)
    (w : world F) :
  locations_found driver (tex_count interop) ->
  fetch_locations driver = Some VLC_SUCCESS ->
  exists w', fetch_all_locations NDEBUG driver p interop w
             = Returns (true, w').
Proof.
  intros (V1 & V2 & V3 & V4 & V5 & V6 & V7 & V8 & V9) Hf.
  revert w.
  change (finds (F := F) (fetch_all_locations NDEBUG driver p interop)).
  unfold fetch_all_locations.
  do 7 (apply finds_and_then;
        [apply finds_GET_LOC; cbn [is_attribute]; assumption |]).
  apply finds_and_then.
  { destruct (1 <? Z.of_nat (tex_count interop)) eqn:H1.
    - apply finds_GET_LOC. cbn [is_attribute]. apply V8, Z.ltb_lt, H1.
    - intros w. eexists. reflexivity. }
  apply finds_and_then.
  { destruct (2 <? Z.of_nat (tex_count interop)) eqn:H2.
    - apply finds_GET_LOC. cbn [is_attribute]. apply V9, Z.ltb_lt, H2.
    - intros w. eexists. reflexivity. }
  intros w. unfold bind, vt, assert_, ret. rewrite Hf.
  change (VLC_SUCCESS =? VLC_SUCCESS) with true. cbn [negb].
  rewrite orb_true_r. eexists. reflexivity.
Qed.

Lemma for_each_check_shader_run (l : list Z) (w : world F) :
  exists w',
    for_each l (check_shader driver) w = Returns (tt, w')
    /\ the_renderer w' = the_renderer w /\ goes_on w w'.
Proof.
  revert w. induction l as [| a l IH]; intros w.
  - exists w. split; [reflexivity |]. split; [reflexivity | apply goes_on_refl].
  - cbn [for_each]. unfold bind.
    destruct (check_shader_run a w) as (w1 & -> & Hr1 & Hgo1).
    destruct (IH w1) as (w2 & E2 & Hr2 & Hgo2).
    exists w2. split; [exact E2 |].
    split; [congruence | eapply goes_on_trans; eassumption].
Qed.

Lemma bind_vt {B : Type} (c : vt_call) (k : unit -> prog (F := F) B)
    (w : world F) :
  bind (vt c) k w
  = k tt {| calls := calls w ++ [c]; memory := memory w;
            the_renderer := the_renderer w |}.
Proof. reflexivity. Qed.

Lemma bind_update {B : Type} (f : vlc_gl_renderer F -> vlc_gl_renderer F)
    (k : unit -> prog (F := F) B) (w : world F) :
  bind (update f) k w
  = k tt {| calls := calls w; memory := memory w;
            the_renderer := f (the_renderer w) |}.
Proof. reflexivity. Qed.

(** The ways in which opengl_link_program returns. *)
Lemma opengl_link_program_cases (w w' : world F) (r : Z) :
  opengl_link_program NDEBUG driver glsl_version b_dump_shaders w
  = Returns (r, w') ->
  let n := tex_count (interop (the_renderer w)) in
  let v := vertex_shader_name driver in
  goes_on w w'
  /\ (r = VLC_EGENERIC /\ the_renderer w' = the_renderer w
      /\ (head (heap_outcomes (memory w)) = Some false /\ calls w' = calls w
          \/ head (heap_outcomes (memory w)) <> Some false
             /\ (exists code,
                   calls w'
                   = calls w
                     ++ [CreateShader_vertex; ShaderSource v code]
                     ++ (if b_dump_shaders then [msg_Dbg dump_format] else [])
                     ++ [CompileShader v]
                     ++ (if v =? 0 then []
                         else [opengl_fragment_shader_init
                                 (tex_target (interop (the_renderer w)))]))
             /\ (v = 0 \/ fragment_shader_name driver = 0))
      \/ r = VLC_EGENERIC
         /\ shaders_created driver w
         /\ (exists l,
               the_renderer w' = set_loc l (set_program_id 0 (the_renderer w)))
         /\ (exists l,
               calls w' = calls w ++ l ++ [DeleteProgram (program_name driver)])
         /\ ((1 <? program_info_log_length driver) = true
             /\ program_link_status driver = false
             \/ NDEBUG = true)
      \/ r = VLC_SUCCESS
         /\ shaders_created driver w
         /\ NDEBUG || link_assertion driver (interop (the_renderer w)) = true
         /\ locations_found driver n
         /\ fetch_locations driver = Some VLC_SUCCESS
         /\ negb (1 <? program_info_log_length driver)
            || program_link_status driver = true
         /\ the_renderer w'
            = set_loc (linked_loc driver n (loc (the_renderer w)))
                (set_program_id (program_name driver) (the_renderer w))).
Proof.
  intros E n v. unfold opengl_link_program in E.
  apply bind_returns in E as (r0 & w0 & E0 & E).
  unfold renderer_ in E0. injection E0 as <- <-.
  apply bind_returns in E as (v' & w1 & Ev & E).
  destruct (BuildVertexShader_run (Z.of_nat n) w)
    as (v1 & w1' & Ev' & Hr1 & Hgo1 & Hcase).
  fold n in Ev. rewrite Ev in Ev'. injection Ev' as <- <-.
  fold n in E. fold v in Hcase.
  destruct (v' =? 0) eqn:Hv0.
  { unfold ret in E. injection E as <- <-.
    split; [exact Hgo1 |]. left.
    split; [reflexivity |]. split; [exact Hr1 |].
    destruct Hcase as [(Hh & _ & Hc) | (Hh & -> & code & Hc)].
    - left. split; assumption.
    - right. split; [exact Hh |]. rewrite Hv0.
      split; [| left; apply Z.eqb_eq; exact Hv0].
      exists code. rewrite Hc, app_nil_r. reflexivity. }
  destruct Hcase as [(_ & -> & _) | (Hh & -> & code & Hc)];
    [discriminate Hv0 |].
  rewrite bind_vt in E.
  match type of E with ?k ?w2 = _ =>
    assert (Hgo2 : goes_on w w2) by (apply goes_on_vt; exact Hgo1)
  end.
  destruct (fragment_shader_name driver =? 0) eqn:Hf0.
  { unfold ret in E. injection E as <- <-.
    split; [exact Hgo2 |]. left.
    split; [reflexivity |]. split; [exact Hr1 |].
    right. split; [exact Hh |]. rewrite Hv0.
    split; [| right; apply Z.eqb_eq; exact Hf0].
    exists code. cbn [calls]. rewrite Hc, <- !app_assoc. reflexivity. }
  assert (Hcreated : shaders_created driver w).
  { split; [exact Hh |]. split; apply Z.eqb_neq; assumption. }
  apply bind_returns in E as ([] & w3 & E3 & E).
  unfold assert_ in E3.
  destruct (NDEBUG || _) eqn:Hassert in E3; [| discriminate].
  injection E3 as <-.
  apply bind_returns in E as ([] & w4 & E4 & E).
  match type of E4 with for_each ?l _ ?w2 = _ =>
    destruct (for_each_check_shader_run l w2) as (w4' & E4' & Hr4 & Hgo4)
  end.
  rewrite E4 in E4'. injection E4' as <-.
  cbn [the_renderer] in Hr4.
  assert (Hgo4' : goes_on w w4) by (eapply goes_on_trans; eassumption).
  clear E4 Hgo4 Hgo2 Hgo1.
  rewrite bind_vt, bind_update in E.
  do 5 rewrite bind_vt in E.
  cbn [calls memory the_renderer] in E.
  apply bind_returns in E as (ok & w5 & E5 & E).
  match type of E5 with and_then _ _ ?w0 = _ =>
    assert (Hgo5 : goes_on w w0
                   /\ the_renderer w0
                      = set_program_id (program_name driver) (the_renderer w));
      [| set (w6 := w0) in *]
  end.
  { split.
    - eapply goes_on_trans; [exact Hgo4' |].
      eapply goes_on_calls; [| reflexivity].
      cbn [calls]. rewrite <- !app_assoc. reflexivity.
    - cbn [the_renderer]. rewrite Hr4, Hr1. reflexivity. }
  destruct Hgo5 as [Hgo6 Hr6]. clearbody w6.
  unfold and_then in E5.
  apply bind_returns in E5 as (b & w7 & E7 & E5).
  destruct (check_program_run (program_name driver) w6)
    as (b' & w7' & E7' & Hr7 & Hgo7 & Hb).
  rewrite E7 in E7'. injection E7' as <- <-.
  assert (Hgo7' : goes_on w w7) by (eapply goes_on_trans; eassumption).
  destruct b.
  - pose proof (loc_step_fetch_all _ _ _ _ _ E5) as (Hgo8 & (l8 & Hr8) & Hn8).
    assert (Hgo8' : goes_on w w5) by (eapply goes_on_trans; eassumption).
    destruct ok.
    + unfold ret in E. injection E as <- <-.
      split; [exact Hgo8' |]. right. right.
      split; [reflexivity |]. split; [exact Hcreated |].
      split; [exact Hassert |].
      assert (Hi : interop (the_renderer w) = interop (the_renderer w7))
        by (rewrite Hr7, Hr6; reflexivity).
      rewrite Hi in E5.
      apply fetch_all_locations_true in E5 as (Hfound & Hfetch & Hr5).
      rewrite <- Hi in Hfound, Hr5.
      split; [exact Hfound |]. split; [exact Hfetch |].
      split; [symmetry; exact Hb |].
      rewrite Hr5, Hr7, Hr6. reflexivity.
    + rewrite bind_vt, bind_update in E. unfold ret in E.
      injection E as <- <-.
      split.
      { eapply goes_on_trans; [exact Hgo8' |].
        eapply goes_on_calls; reflexivity. }
      right. left. split; [reflexivity |]. split; [exact Hcreated |].
      cbn [calls the_renderer].
      split; [exists l8; rewrite Hr8, Hr7, Hr6; reflexivity |].
      split; [destruct Hgo8' as [[l Hl] _]; exists l;
              rewrite Hl, app_assoc; reflexivity |].
      right. apply Hn8. reflexivity.
  - unfold ret in E5. injection E5 as <- <-.
    rewrite bind_vt, bind_update in E. unfold ret in E.
    injection E as <- <-.
    split.
    { eapply goes_on_trans; [exact Hgo7' |].
      eapply goes_on_calls; reflexivity. }
    right. left. split; [reflexivity |]. split; [exact Hcreated |].
    cbn [calls the_renderer].
    split; [exists (loc (the_renderer w)); rewrite Hr7, Hr6; reflexivity |].
    split; [destruct Hgo7' as [[l Hl] _]; exists l;
            rewrite Hl, app_assoc; reflexivity |].
    left. symmetry in Hb. apply orb_false_iff in Hb as [Hb1 Hb2].
    split; [apply negb_false_iff; exact Hb1 | exact Hb2].
Qed.

Lemma bind_eq {A B : Type} (m : prog (F := F) A) (k : A -> prog B)
    (w w1 : world F) (a : A) :
  m w = Returns (a, w1) -> bind m k w = k a w1.
Proof. intros E. unfold bind. rewrite E. reflexivity. Qed.

(** opengl_link_program returns VLC_SUCCESS when nothing fails. *)
Lemma opengl_link_program_succeeds (w : world F) :
  let i := interop (the_renderer w) in
  shaders_created driver w ->
  NDEBUG || link_assertion driver i = true ->
  fetch_locations driver = Some VLC_SUCCESS ->
  negb (1 <? program_info_log_length driver)
  || program_link_status driver = true ->
  locations_found driver (tex_count i) ->
  exists w',
    opengl_link_program NDEBUG driver glsl_version b_dump_shaders w
    = Returns (VLC_SUCCESS, w').
Proof.
  intros i (Hh & Hv & Hf) Hassert Hfetch Hlink Hfound.
  unfold opengl_link_program.
  rewrite (bind_eq renderer_ _ w w (the_renderer w) eq_refl).
  fold i.
  destruct (BuildVertexShader_run (Z.of_nat (tex_count i)) w)
    as (v1 & w1 & Ev & Hr1 & Hgo1 & Hcase).
  rewrite (bind_eq _ _ _ _ _ Ev).
  destruct Hcase as [(Hh' & _) | (_ & -> & _)]; [contradiction |].
  apply Z.eqb_neq in Hv, Hf. rewrite Hv, bind_vt, Hf.
  erewrite bind_eq; cycle 1.
  { unfold assert_. rewrite Hassert.
    reflexivity. }
  match goal with |- exists _, bind (for_each ?l _) _ ?w2 = _ =>
    destruct (for_each_check_shader_run l w2) as (w4 & E4 & Hr4 & _)
  end.
  rewrite (bind_eq _ _ _ _ _ E4).
  rewrite bind_vt, bind_update. do 5 rewrite bind_vt.
  match goal with |- exists _, bind (and_then _ _) _ ?w0 = _ =>
    set (w6 := w0)
  end.
  destruct (check_program_run (program_name driver) w6)
    as (b & w7 & E7 & Hr7 & _ & Hb).
  rewrite Hlink in Hb. subst b.
  destruct (fetch_all_locations_found (program_name driver) i w7 Hfound Hfetch)
    as (w8 & E8).
  erewrite bind_eq; cycle 1.
  { unfold and_then. rewrite (bind_eq _ _ _ _ _ E7). exact E8. }
  exists w8. reflexivity.
Qed.

Lemma returns_bind {A B : Type} (m : prog (F := F) A) (k : A -> prog B) :
  returns m -> (forall a, returns (F := F) (k a)) ->
  returns (F := F) (bind m k).
Proof.
  intros Hm Hk w. destruct (Hm w) as (a & w1 & E1).
  destruct (Hk a w1) as (b & w2 & E2). exists b, w2.
  rewrite (bind_eq _ _ _ _ _ E1). exact E2.
Qed.

Lemma returns_ret {A : Type} (a : A) : returns (F := F) (ret a).
Proof. intros w. exists a, w. reflexivity. Qed.

Lemma returns_vt (c : vt_call) : returns (F := F) (vt c).
Proof. intros w. eexists. eexists. reflexivity. Qed.

Lemma returns_update (f : vlc_gl_renderer F -> vlc_gl_renderer F) :
  returns (F := F) (update f).
Proof. intros w. eexists. eexists. reflexivity. Qed.

Lemma returns_assert (c : bool) :
  NDEBUG = true -> returns (F := F) (assert_ NDEBUG c).
Proof.
  intros HN w. exists tt, w. unfold assert_. rewrite HN. reflexivity.
Qed.

Lemma returns_and_then (step rest : prog (F := F) bool) :
  returns step -> returns rest -> returns (F := F) (and_then step rest).
Proof.
  intros Hs Hr. apply returns_bind; [exact Hs |].
  intros [|]; [exact Hr | apply returns_ret].
Qed.

Lemma returns_GET_LOC (x : location) (p : Z) (str : String.string) :
  NDEBUG = true -> returns (F := F) (GET_LOC NDEBUG driver x p str).
Proof.
  intros HN w. rewrite GET_LOC_run. cbv zeta. rewrite HN.
  destruct (_ =? -1); eexists; eexists; reflexivity.
Qed.

Lemma returns_fetch_all_locations (p : Z) (interop : vlc_gl_interop F) :
  NDEBUG = true -> fetch_locations driver <> None ->
  returns (F := F) (fetch_all_locations NDEBUG driver p interop).
Proof.
  intros HN Hf. unfold fetch_all_locations.
  do 7 (apply returns_and_then; [apply returns_GET_LOC; exact HN |]).
  apply returns_and_then.
  { destruct (1 <? _); [apply returns_GET_LOC; exact HN |].
    apply returns_bind; [apply returns_update | intros _; apply returns_ret]. }
  apply returns_and_then.
  { destruct (2 <? _); [apply returns_GET_LOC; exact HN |].
    apply returns_bind; [apply returns_update | intros _; apply returns_ret]. }
  apply returns_bind; [apply returns_vt | intros _].
  destruct (fetch_locations driver) as [r |]; [| contradiction].
  apply returns_bind; [apply returns_assert; exact HN | intros _].
  destruct (negb _); [| apply returns_ret].
  apply returns_bind; [apply returns_vt | intros _; apply returns_ret].
Qed.

Lemma returns_opengl_link_program :
  NDEBUG = true -> fetch_locations driver <> None ->
  returns (F := F)
    (opengl_link_program NDEBUG driver glsl_version b_dump_shaders).
Proof.
  intros HN Hf. unfold opengl_link_program.
  apply returns_bind; [intros w; eexists; eexists; reflexivity | intros r].
  apply returns_bind.
  { intros w.
    destruct (BuildVertexShader_run (Z.of_nat (tex_count (interop r))) w)
      as (v & w' & E & _).
    exists v, w'. exact E. }
  intros v. destruct (v =? 0); [apply returns_ret |].
  apply returns_bind; [apply returns_vt | intros _].
  destruct (_ =? 0); [apply returns_ret |].
  apply returns_bind; [apply returns_assert; exact HN | intros _].
  apply returns_bind.
  { intros w. match goal with |- context [for_each ?l _] =>
      destruct (for_each_check_shader_run l w) as (w' & E & _) end.
    exists tt, w'. exact E. }
  intros _.
  apply returns_bind; [apply returns_vt | intros _].
  apply returns_bind; [apply returns_update | intros _].
  do 5 (apply returns_bind; [apply returns_vt | intros _]).
  apply returns_bind.
  { apply returns_and_then.
    - intros w. destruct (check_program_run (program_name driver) w)
        as (b & w' & E & _). exists b, w'. exact E.
    - apply returns_fetch_all_locations; assumption. }
  intros [|]; [apply returns_ret |].
  apply returns_bind; [apply returns_vt | intros _].
  apply returns_bind; [apply returns_update | intros _; apply returns_ret].
Qed.

End LinkProperties.

(** *** What opengl_link_program returns *)

Section LinkTheorems.
Context {F : Type}.
Variable driver : gl_driver.
Variable glsl_version : Z.
Variable b_dump_shaders : bool.

(** X23. opengl_link_program returns VLC_SUCCESS exactly when the
    allocation of asprintf is granted, the driver names both shaders, the
    assertion on the interop holds or is compiled out, the driver has a
    location for each of the five uniforms, for VertexPosition and for
    the MultiTexCoord of every plane, pf_fetch_locations returns
    VLC_SUCCESS, and the program has no message or its link status is
    true. *)
Theorem X23_link_succeeds_iff (NDEBUG : bool) (w : world F) :
  (exists w',
     opengl_link_program NDEBUG driver glsl_version b_dump_shaders w
     = Returns (VLC_SUCCESS, w'))
  <-> shaders_created driver w
      /\ NDEBUG || link_assertion driver (interop (the_renderer w)) = true
      /\ locations_found driver (tex_count (interop (the_renderer w)))
      /\ fetch_locations driver = Some VLC_SUCCESS
      /\ negb (1 <? program_info_log_length driver)
         || program_link_status driver = true.
Proof.
  split.
  - intros (w' & E).
    destruct (opengl_link_program_cases _ _ _ _ _ _ _ E)
      as (_ & [(Hr & _) | [(Hr & _) | (_ & Hc & Ha & Hl & Hf & Hs & _)]]);
      try discriminate Hr.
    repeat (split; [assumption |]). exact Hs.
  - intros (Hc & Ha & Hl & Hf & Hs).
    apply opengl_link_program_succeeds; assumption.
Qed.

(** X24. When opengl_link_program returns VLC_SUCCESS, it has changed
    program_id and the locations only, and every location that
    DrawWithShaders uses is valid: the five uniforms, VertexPosition and
    MultiTexCoord[0] are not -1, and, the array MultiTexCoord having
    three entries, MultiTexCoord[1] and [2] are not -1 when the interop
    has that plane and -1 when it has not. *)
Theorem X24_link_stores_valid_locations (NDEBUG : bool) (w w' : world F) :
  opengl_link_program NDEBUG driver glsl_version b_dump_shaders w
  = Returns (VLC_SUCCESS, w') ->
  length (aloc_MultiTexCoord (loc (the_renderer w))) = 3%nat ->
  let n := tex_count (interop (the_renderer w)) in
  let l := loc (the_renderer w') in
  the_renderer w'
  = set_loc l (set_program_id (program_name driver) (the_renderer w))
  /\ uloc_TransformMatrix l <> -1
  /\ uloc_OrientationMatrix l <> -1
  /\ uloc_ProjectionMatrix l <> -1
  /\ uloc_ViewMatrix l <> -1
  /\ uloc_ZoomMatrix l <> -1
  /\ aloc_VertexPosition l <> -1
  /\ nth 0 (aloc_MultiTexCoord l) 0 <> -1
  /\ (forall j, (1 <= j < 3)%nat ->
        (j < n)%nat /\ nth j (aloc_MultiTexCoord l) 0 <> -1
        \/ (n <= j)%nat /\ nth j (aloc_MultiTexCoord l) 0 = -1).
Proof.
  intros E Hlen n l.
  destruct (opengl_link_program_cases _ _ _ _ _ _ _ E)
    as (_ & [(Hr & _) | [(Hr & _) | (_ & _ & _ & Hfound & _ & _ & Hw)]]);
    try discriminate Hr.
  fold n in Hfound, Hw. subst l. rewrite Hw.
  cbn [loc set_loc linked_loc uloc_TransformMatrix uloc_OrientationMatrix
       uloc_ProjectionMatrix uloc_ViewMatrix uloc_ZoomMatrix
       aloc_VertexPosition aloc_MultiTexCoord].
  destruct Hfound as (V1 & V2 & V3 & V4 & V5 & V6 & V7 & V8 & V9).
  split; [reflexivity |].
  do 6 (split; [assumption |]).
  destruct (aloc_MultiTexCoord (loc (the_renderer w)))
    as [| a0 [| a1 [| a2 [| a3 t]]]]; try discriminate Hlen.
  split; [exact V7 |].
  intros j Hj.
  assert (Hcases : j = 1%nat \/ j = 2%nat) by lia.
  destruct Hcases as [-> | ->]; cbn.
  - destruct (1 <? Z.of_nat n) eqn:H1.
    + apply Z.ltb_lt in H1. left. split; [lia | apply V8; lia].
    + apply Z.ltb_ge in H1. right. split; [lia | reflexivity].
  - destruct (2 <? Z.of_nat n) eqn:H2.
    + apply Z.ltb_lt in H2. left. split; [lia | apply V9; lia].
    + apply Z.ltb_ge in H2. right. split; [lia | reflexivity].
Qed.

(** X25. When opengl_link_program returns something else than
    VLC_SUCCESS, it returns VLC_EGENERIC, and either it has left the
    renderer as it was and has not called CreateProgram, or its last call
    is DeleteProgram of the program it created and program_id is 0. *)
Theorem X25_link_failure_leaves_no_program (NDEBUG : bool) (w w' : world F)
    (r : Z) :
  opengl_link_program NDEBUG driver glsl_version b_dump_shaders w
  = Returns (r, w') ->
  r <> VLC_SUCCESS ->
  r = VLC_EGENERIC
  /\ (the_renderer w' = the_renderer w
      /\ (exists l, calls w' = calls w ++ l /\ ~ In CreateProgram l)
      \/ program_id (the_renderer w') = 0
         /\ exists l,
              calls w'
              = calls w ++ l ++ [DeleteProgram (program_name driver)]).
Proof.
  intros E Hr.
  destruct (opengl_link_program_cases _ _ _ _ _ _ _ E)
    as (_ & [(-> & Hw & Hc) | [(-> & _ & (l & Hw) & Hc & _) | (-> & _)]]);
    [| | contradiction].
  - split; [reflexivity |]. left. split; [exact Hw |].
    destruct Hc as [(_ & Hc) | (_ & (code & Hc) & _)].
    + exists []. rewrite app_nil_r. split; [exact Hc | intros []].
    + eexists. split; [exact Hc |].
      rewrite !in_app_iff. cbn [In].
      destruct b_dump_shaders, (vertex_shader_name driver =? 0); cbn [In];
        intuition discriminate.
  - split; [reflexivity |]. right. rewrite Hw. split; [reflexivity | exact Hc].
Qed.

(** X26. When the vertex shader is built and
    opengl_fragment_shader_init returns 0, opengl_link_program returns
    VLC_EGENERIC at once: its calls are CreateShader, ShaderSource, the
    dump when it is asked for, CompileShader and
    opengl_fragment_shader_init, and the vertex shader is not deleted. *)
Theorem X26_vertex_shader_is_not_deleted (NDEBUG : bool) (w : world F) :
  head (heap_outcomes (memory w)) <> Some false ->
  vertex_shader_name driver <> 0 ->
  fragment_shader_name driver = 0 ->
  exists w' code,
    opengl_link_program NDEBUG driver glsl_version b_dump_shaders w
    = Returns (VLC_EGENERIC, w')
    /\ the_renderer w' = the_renderer w
    /\ calls w'
       = calls w
         ++ [CreateShader_vertex;
             ShaderSource (vertex_shader_name driver) code]
         ++ (if b_dump_shaders then [msg_Dbg dump_format] else [])
         ++ [CompileShader (vertex_shader_name driver);
             opengl_fragment_shader_init
               (tex_target (interop (the_renderer w)))].
Proof.
  intros Hh Hv Hf.
  unfold opengl_link_program.
  rewrite (bind_eq renderer_ _ w w (the_renderer w) eq_refl).
  destruct (BuildVertexShader_run driver glsl_version b_dump_shaders
              (Z.of_nat (tex_count (interop (the_renderer w)))) w)
    as (v1 & w1 & Ev & Hr1 & _ & Hcase).
  rewrite (bind_eq _ _ _ _ _ Ev).
  destruct Hcase as [(Hh' & _) | (_ & -> & code & Hc)]; [contradiction |].
  apply Z.eqb_neq in Hv. rewrite Hv, bind_vt, Hf.
  change (0 =? 0) with true. cbv iota.
  eexists. exists code. split; [reflexivity |].
  cbn [calls the_renderer]. split; [exact Hr1 |].
  rewrite Hc, <- !app_assoc. reflexivity.
Qed.

(** X27. opengl_link_program frees what it allocates: when it returns,
    the live blocks of the heap are those of before, whatever the logs
    that it has printed. *)
Theorem X27_link_frees_what_it_allocates (NDEBUG : bool) (w w' : world F)
    (r : Z) :
  opengl_link_program NDEBUG driver glsl_version b_dump_shaders w
  = Returns (r, w') ->
  heap_wf (memory w) ->
  heap_wf (memory w') /\ heap_live (memory w') = heap_live (memory w).
Proof.
  intros E Hwf.
  destruct (opengl_link_program_cases _ _ _ _ _ _ _ E) as ((_ & Hheap) & _).
  exact (Hheap Hwf).
Qed.

(** X28. With the assertions compiled in, when the shaders are created
    and the link has not failed, a location that the driver does not have
    stops the process in opengl_link_program, on one of its assertions:
    the function does not return. *)
Theorem X28_missing_location_stops (w : world F) :
  shaders_created driver w ->
  negb (1 <? program_info_log_length driver)
  || program_link_status driver = true ->
  ~ locations_found driver (tex_count (interop (the_renderer w))) ->
  opengl_link_program false driver glsl_version b_dump_shaders w = Stops.
Proof.
  intros (Hh & Hv & Hf) Hs Hmissing.
  destruct (opengl_link_program false driver glsl_version b_dump_shaders w)
    as [[r w'] |] eqn:E; [exfalso | reflexivity].
  destruct (opengl_link_program_cases _ _ _ _ _ _ _ E)
    as (_ & [(_ & _ & Hc) | [(_ & _ & _ & _ & Hc) | (_ & _ & _ & Hl & _)]]).
  - destruct Hc as [(Hc & _) | (_ & _ & [Hc | Hc])]; contradiction.
  - destruct Hc as [(H1 & H2) | HN]; [| discriminate HN].
    rewrite H1, H2 in Hs. discriminate Hs.
  - contradiction.
Qed.

(** X29. With the assertions compiled out, in the same situation,
    opengl_link_program returns VLC_EGENERIC, after DeleteProgram of the
    program it created and with program_id 0. *)
Theorem X29_missing_location_is_an_error (w : world F) :
  shaders_created driver w ->
  fetch_locations driver <> None ->
  ~ locations_found driver (tex_count (interop (the_renderer w))) ->
  exists w' l,
    opengl_link_program true driver glsl_version b_dump_shaders w
    = Returns (VLC_EGENERIC, w')
    /\ program_id (the_renderer w') = 0
    /\ calls w' = calls w ++ l ++ [DeleteProgram (program_name driver)].
Proof.
  intros (Hh & Hv & Hf) Hfetch Hmissing.
  destruct (returns_opengl_link_program true driver glsl_version
              b_dump_shaders eq_refl Hfetch w) as (r & w' & E).
  destruct (opengl_link_program_cases _ _ _ _ _ _ _ E)
    as (_ & [(_ & _ & Hc) | [(-> & _ & (l & Hw) & (c & Hc) & _)
                            | (_ & _ & _ & Hl & _)]]).
  - destruct Hc as [(Hc & _) | (_ & _ & [Hc | Hc])]; contradiction.
  - exists w', c. split; [exact E |]. rewrite Hw.
    split; [reflexivity | exact Hc].
  - contradiction.
Qed.

End LinkTheorems.

(** ** The further properties on concrete inputs *)

(** In binary32, a viewpoint of 80 degrees given twice. *)
Lemma X1_witness_fov_80 :
  @vlc_gl_renderer_SetViewpoint spec_float Examples.ops
    Examples.reverse Examples.to_4x4 Examples.FOV_MAX Examples.FOV_MIN
    (snd (@vlc_gl_renderer_SetViewpoint spec_float Examples.ops
            Examples.reverse Examples.to_4x4 Examples.FOV_MAX Examples.FOV_MIN
            (Examples.renderer PROJECTION_MODE_EQUIRECTANGULAR MULTIVIEW_2D)
            (Examples.viewpoint 80)))
    (Examples.viewpoint 80)
  = @vlc_gl_renderer_SetViewpoint spec_float Examples.ops
      Examples.reverse Examples.to_4x4 Examples.FOV_MAX Examples.FOV_MIN
      (Examples.renderer PROJECTION_MODE_EQUIRECTANGULAR MULTIVIEW_2D)
      (Examples.viewpoint 80).
Proof.
  exact (@X1_SetViewpoint_idempotent spec_float Examples.ops
           (binary_distance Examples.libm_nan)
           Examples.reverse Examples.to_4x4 Examples.FOV_MAX Examples.FOV_MIN
           (Examples.renderer PROJECTION_MODE_EQUIRECTANGULAR MULTIVIEW_2D)
           (Examples.viewpoint 80)).
Defined.

(** A renderer in binary32 whose aspect ratio has been set is in sync, and
    stays so when it is given a viewpoint of 80 degrees. *)
Lemma X3_witness_fov_80 :
  @in_sync spec_float Examples.ops Examples.to_4x4 Examples.FOV_MAX
    SyncExample.renderer
  /\ @in_sync spec_float Examples.ops Examples.to_4x4 Examples.FOV_MAX
       (snd (@vlc_gl_renderer_SetViewpoint spec_float Examples.ops
               Examples.reverse Examples.to_4x4
               Examples.FOV_MAX Examples.FOV_MIN
               SyncExample.renderer (Examples.viewpoint 80))).
Proof.
  assert (Hsync : @in_sync spec_float Examples.ops Examples.to_4x4
                    Examples.FOV_MAX SyncExample.renderer).
  { repeat split; vm_compute; reflexivity. }
  split; [exact Hsync |].
  exact (@X3_SetViewpoint_keeps_in_sync spec_float Examples.ops
           Examples.reverse Examples.to_4x4 Examples.FOV_MAX Examples.FOV_MIN
           SyncExample.renderer (Examples.viewpoint 80) Hsync).
Defined.

(** With VLC's maximum of 150 degrees. *)
Lemma X4_witness_max_150 :
  (90 < 150)%R
  /\ (f_z (@UpdateZ R Exact.real_ops 150%R
             (Examples.real_renderer PROJECTION_MODE_EQUIRECTANGULAR
                MULTIVIEW_2D)) <= 0)%R.
Proof.
  assert (Hmax : (90 < 150)%R) by lra.
  split; [exact Hmax |].
  exact (proj2 (X4_zoom_range 150%R
                  (Examples.real_renderer PROJECTION_MODE_EQUIRECTANGULAR
                     MULTIVIEW_2D) Hmax)).
Defined.

(** In binary32, the renderer that SetViewpoint leaves for a field of view
    of 80 degrees, f_fovx = 11712707 * 2^-23, when the window becomes
    square. *)
Lemma X5_witness_fov_80 :
  Binary.leb (f_fovx (snd (ZoomExample.SetViewpoint 80)))
    (S754_finite false 13176794 (-23)) = true
  /\ f_fovx (snd (ZoomExample.SetViewpoint 80))
     = S754_finite false 11712707 (-23)
  /\ f_z (@vlc_gl_renderer_SetWindowAspectRatio spec_float ZoomExample.ops
            Examples.to_4x4 Examples.FOV_MAX
            (snd (ZoomExample.SetViewpoint 80)) (Binary.b32 1 0))
     = S754_zero false
  /\ ZoomMatrix
       (var (@vlc_gl_renderer_SetWindowAspectRatio spec_float ZoomExample.ops
               Examples.to_4x4 Examples.FOV_MAX
               (snd (ZoomExample.SetViewpoint 80)) (Binary.b32 1 0)))
     = @identity spec_float ZoomExample.ops.
Proof.
  assert (Hx : Binary.leb (f_fovx (snd (ZoomExample.SetViewpoint 80)))
                 (S754_finite false 13176794 (-23)) = true)
    by (vm_compute; reflexivity).
  split; [exact Hx |].
  split; [vm_compute; reflexivity |].
  exact (proj2 (proj2 (X5_no_zoom_below_threshold ZoomExample.libm_table
                         Examples.to_4x4 Examples.FOV_MAX
                         (snd (ZoomExample.SetViewpoint 80))
                         (Binary.b32 1 0) Hx))).
Defined.

(** A square window and a field of view of 90 degrees: the point (0, 0,
    -1000) of the far plane. *)
Lemma X6_witness_far_plane :
  (1 <> 0)%R /\ tan (PI / 2 / 2) <> 0%R
  /\ nth 2 (@mat4_vec R Exact.real_ops
              (@getProjectionMatrix R Exact.real_ops 1%R (PI / 2)%R)
              [0; 0; - 1000; 1]%R) 0%R
     = nth 3 (@mat4_vec R Exact.real_ops
                (@getProjectionMatrix R Exact.real_ops 1%R (PI / 2)%R)
                [0; 0; - 1000; 1]%R) 0%R.
Proof.
  assert (Hsar : (1 <> 0)%R) by lra.
  assert (Htan : tan (PI / 2 / 2) <> 0%R).
  { replace (PI / 2 / 2)%R with (PI / 4)%R by lra. rewrite tan_PI4. lra. }
  split; [exact Hsar |]. split; [exact Htan |].
  exact (proj2 (proj2 (proj2 (proj2
           (X6_projection_clip_volume 1%R (PI / 2)%R 0%R 0%R 1000%R Hsar Htan))))
           eq_refl).
Defined.

(** A square window. *)
Lemma X7_witness_square_window :
  (1 <> 0)%R
  /\ (tan (f_fovy
             (@vlc_gl_renderer_SetWindowAspectRatio R Exact.real_ops
                (fun _ => []) 150%R
                (Examples.real_renderer PROJECTION_MODE_EQUIRECTANGULAR
                   MULTIVIEW_2D) 1%R) / 2) * 1
      = tan (f_fovx (Examples.real_renderer PROJECTION_MODE_EQUIRECTANGULAR
                       MULTIVIEW_2D) / 2))%R.
Proof.
  assert (Hsar : (1 <> 0)%R) by lra.
  split; [exact Hsar |].
  exact (proj1 (X7_aspect_ratio_keeps_horizontal_fov (fun _ => []) 150%R
                  (Examples.real_renderer PROJECTION_MODE_EQUIRECTANGULAR
                     MULTIVIEW_2D) 1%R Hsar)).
Defined.

(** A rotation of 90 degrees and the corner (0, 1). *)
Lemma X8_witness_rotated_90 :
  (0 <= 0 <= 1)%R /\ (0 <= 1 <= 1)%R
  /\ exists s' t' : R,
       @mat4_vec R Exact.real_ops
         (@getOrientationTransformMatrix R Exact.real_ops ORIENT_ROTATED_90)
         (@tex_coord R Exact.real_ops 0%R 1%R)
       = @tex_coord R Exact.real_ops s' t'
       /\ (0 <= s' <= 1)%R /\ (0 <= t' <= 1)%R.
Proof.
  assert (Hs : (0 <= 0 <= 1)%R) by lra.
  assert (Ht : (0 <= 1 <= 1)%R) by lra.
  split; [exact Hs |]. split; [exact Ht |].
  destruct (X8_orientation_keeps_unit_square ORIENT_ROTATED_90 0%R 1%R Hs Ht)
    as (s' & t' & E & Hs' & Ht' & _).
  exists s', t'. split; [exact E |]. split; [exact Hs' | exact Ht'].
Defined.

(** One plane, on a heap where every call of malloc succeeds. *)
Lemma X9_witness_one_plane :
  Z.of_nat 1 <= PICTURE_PLANE_MAX
  /\ alloc_fails (Examples.heap_with []) = false
  /\ exists m h',
       @BuildRectangle spec_float Examples.ops
         Examples.junk_float Examples.junk_ushort 1
         [Examples.zero] [Examples.zero] [Binary.b32 1 0] [Binary.b32 1 0]
         (Examples.heap_with [])
       = (VLC_SUCCESS, Some m, h')
       /\ indices m = [0; 1; 2; 2; 1; 3]
       /\ length (textureCoord m) = 8%nat.
Proof.
  assert (Hplanes : Z.of_nat 1 <= PICTURE_PLANE_MAX)
    by (unfold PICTURE_PLANE_MAX; lia).
  split; [exact Hplanes |]. split; [reflexivity |].
  destruct (@X9_rectangle_mesh spec_float Examples.ops
              Examples.junk_float Examples.junk_ushort 1
              [Examples.zero] [Examples.zero] [Binary.b32 1 0] [Binary.b32 1 0]
              (Examples.heap_with []) Hplanes eq_refl)
    as (m & h' & E & _ & _ & _ & Htc & Hix & _).
  exists m, h'. split; [exact E |]. split; [exact Hix | exact Htc].
Defined.

Lemma X10_witness_one_plane :
  Z.of_nat 1 <= PICTURE_PLANE_MAX
  /\ alloc_fails (Examples.heap_with []) = false
  /\ exists m h',
       @BuildCube spec_float Examples.ops
         Examples.junk_float Examples.junk_ushort 1
         Examples.zero Examples.zero
         [Examples.zero] [Examples.zero] [Binary.b32 1 0] [Binary.b32 1 0]
         (Examples.heap_with [])
       = (VLC_SUCCESS, Some m, h')
       /\ nbVertices m = 24 /\ nbIndices m = 36
       /\ length (indices m) = 36%nat.
Proof.
  assert (Hplanes : Z.of_nat 1 <= PICTURE_PLANE_MAX)
    by (unfold PICTURE_PLANE_MAX; lia).
  split; [exact Hplanes |]. split; [reflexivity |].
  destruct (@X10_cube_mesh spec_float Examples.ops
              Examples.junk_float Examples.junk_ushort 1
              Examples.zero Examples.zero
              [Examples.zero] [Examples.zero] [Binary.b32 1 0] [Binary.b32 1 0]
              (Examples.heap_with []) Hplanes eq_refl)
    as (m & h' & E & Hv & Hi & _ & _ & Hl & _).
  exists m, h'. split; [exact E |]. split; [exact Hv |].
  split; [exact Hi | exact Hl].
Defined.

(** The unit square without padding: the first vertex of the front face. *)
Lemma X11_witness_front_face :
  (0 <= 0 <= (1 - 0) / 3)%R /\ (0 <= 0 <= (1 - 0) / 2)%R
  /\ (0 <= nth 0 (@cube_tex R Exact.real_ops 0 0 0 0 1 1)%R 0 <= 1)%R.
Proof.
  assert (Hw : (0 <= 0 <= (1 - 0) / 3)%R) by lra.
  assert (Hh : (0 <= 0 <= (1 - 0) / 2)%R) by lra.
  split; [exact Hw |]. split; [exact Hh |].
  assert (Hf : (0 < 6)%nat) by lia.
  assert (Hv : (0 < 4)%nat) by lia.
  exact (proj1 (proj2 (proj2
           (X11_cube_faces_sample_their_cells 0%R 0%R 0%R 0%R 1%R 1%R 0%nat 0%nat Hw Hh Hf Hv)))).
Defined.

(** One plane: the texture coordinates of the vertex (1, 2). *)
Lemma X12_witness_one_plane :
  Z.of_nat 1 <= PICTURE_PLANE_MAX
  /\ alloc_fails (Examples.heap_with []) = false
  /\ exists m h',
       @BuildSphere spec_float Examples.ops
         Examples.junk_float Examples.junk_ushort 1
         [Examples.zero] [Examples.zero] [Binary.b32 1 0] [Binary.b32 1 0]
         (Examples.heap_with [])
       = (VLC_SUCCESS, Some m, h')
       /\ textureCoord m !! ((0 * (129 * 129) + 1 * 129 + 2) * 2)%nat
          = Some (Binary.b32 1 (-6)).
Proof.
  assert (Hplanes : Z.of_nat 1 <= PICTURE_PLANE_MAX)
    by (unfold PICTURE_PLANE_MAX; lia).
  split; [exact Hplanes |]. split; [reflexivity |].
  destruct (proj1 X12_sphere_texture_coordinates spec_float Examples.ops
              Examples.junk_float Examples.junk_ushort 1%nat
              [Examples.zero] [Examples.zero] [Binary.b32 1 0] [Binary.b32 1 0]
              (Examples.heap_with []) Hplanes eq_refl)
    as (m & h' & E & _ & Huv).
  exists m, h'. split; [exact E |].
  assert (Hp : (0 < 1)%nat) by lia.
  assert (Hlat : (1 <= 128)%nat) by lia.
  assert (Hlon : (2 <= 128)%nat) by lia.
  exact (proj1 (Huv 0%nat 1%nat 2%nat Hp Hlat Hlon)).
Defined.

(** Draw on the empty heap, with its assertions, when every call of malloc
    succeeds: it returns VLC_SUCCESS, and no block is live. *)
Lemma X13_witness_draw :
  heap_wf (Examples.heap_with [])
  /\ DrawExample.code_of DrawExample.first_call_ok = Some VLC_SUCCESS
  /\ forall ret renderer' gl' h',
       DrawExample.first_call_ok = Returns (ret, renderer', gl', h') ->
       heap_live h' = [].
Proof.
  assert (Hwf : heap_wf (Examples.heap_with [])) by constructor.
  split; [exact Hwf |]. split; [vm_compute; reflexivity |].
  intros ret renderer' gl' h' E.
  pose proof (@X13_Draw_frees_what_it_allocates spec_float Examples.ops
                Examples.junk_float Examples.junk_ushort false
                DrawExample.renderer DrawExample.source Examples.gl0
                (Examples.heap_with []) Hwf) as [_ Hdraw].
  unfold DrawExample.first_call_ok, DrawExample.Draw in E.
  rewrite E in Hdraw. exact (proj1 Hdraw).
Defined.

Lemma X14_witness_one_plane :
  Z.of_nat 1 <= PICTURE_PLANE_MAX
  /\ alloc_fails (Examples.heap_with []) = false
  /\ exists m h',
       @BuildSphere spec_float Examples.ops
         Examples.junk_float Examples.junk_ushort 1
         [Examples.zero] [Examples.zero] [Binary.b32 1 0] [Binary.b32 1 0]
         (Examples.heap_with [])
       = (VLC_SUCCESS, Some m, h')
       /\ mesh_valid 1 m.
Proof.
  assert (Hplanes : Z.of_nat 1 <= PICTURE_PLANE_MAX)
    by (unfold PICTURE_PLANE_MAX; lia).
  split; [exact Hplanes |]. split; [reflexivity |].
  destruct (proj1 (proj2
              (@X14_builders_return_drawable_meshes spec_float Examples.ops
                 Examples.junk_float Examples.junk_ushort 1
                 Examples.zero Examples.zero
                 [Examples.zero] [Examples.zero]
                 [Binary.b32 1 0] [Binary.b32 1 0]
                 (Examples.heap_with []) Hplanes eq_refl)))
    as (m & h' & E & Hvalid & _).
  exists m, h'. split; [exact E | exact Hvalid].
Defined.

(** The flat picture of the examples. *)
Lemma X15_witness_flat_picture :
  has_builder (projection_mode (fmt DrawExample.renderer)) = true
  /\ Z.of_nat (tex_count (interop DrawExample.renderer)) <= PICTURE_PLANE_MAX
  /\ alloc_fails (Examples.heap_with []) = false
  /\ exists (m : mesh spec_float) gl' h',
       @SetupCoords spec_float Examples.ops
         Examples.junk_float Examples.junk_ushort DrawExample.renderer
         [Examples.zero] [Examples.zero] [Binary.b32 1 0] [Binary.b32 1 0]
         Examples.gl0 (Examples.heap_with [])
       = (VLC_SUCCESS, set_nb_indices (nbIndices m) DrawExample.renderer,
          gl', h')
       /\ nbIndices m = 6
       /\ element_array_buffer_binding gl' = 2.
Proof.
  assert (Hplanes :
    Z.of_nat (tex_count (interop DrawExample.renderer)) <= PICTURE_PLANE_MAX)
    by (unfold PICTURE_PLANE_MAX; cbn; lia).
  split; [reflexivity |]. split; [exact Hplanes |]. split; [reflexivity |].
  destruct (@X15_SetupCoords_uploads_the_mesh spec_float Examples.ops
              Examples.junk_float Examples.junk_ushort DrawExample.renderer
              [Examples.zero] [Examples.zero] [Binary.b32 1 0] [Binary.b32 1 0]
              Examples.gl0 (Examples.heap_with []) eq_refl Hplanes eq_refl)
    as (m & gl' & h' & E & _ & Hi & _ & _ & He & _).
  exists m, gl', h'. split; [exact E |]. split; [exact Hi | exact He].
Defined.

Lemma X16_witness_flat_picture :
  source_changed DrawExample.source (last_source DrawExample.renderer) = true
  /\ has_builder (projection_mode (fmt DrawExample.renderer)) = true
  /\ Z.of_nat (tex_count (interop DrawExample.renderer)) <= PICTURE_PLANE_MAX
  /\ alloc_fails (Examples.heap_with []) = false
  /\ exists renderer' gl' h' before (ix : list Z),
       DrawExample.first_call_ok = Returns (VLC_SUCCESS, renderer', gl', h')
       /\ gl_calls gl' = before ++ [glDrawElements (Z.of_nat (length ix))]
       /\ Z.of_nat (length ix) = 6.
Proof.
  assert (Hplanes :
    Z.of_nat (tex_count (interop DrawExample.renderer)) <= PICTURE_PLANE_MAX)
    by (unfold PICTURE_PLANE_MAX; cbn; lia).
  split; [reflexivity |]. split; [reflexivity |].
  split; [exact Hplanes |]. split; [reflexivity |].
  pose proof (@X16_Draw_draws_inside_its_buffers spec_float Examples.ops
                Examples.junk_float Examples.junk_ushort false
                DrawExample.renderer DrawExample.source Examples.gl0
                (Examples.heap_with []) eq_refl eq_refl Hplanes eq_refl)
    as Hdraw.
  assert (Hasserted : false || draw_assertions DrawExample.renderer = true)
    by reflexivity.
  rewrite Hasserted in Hdraw.
  destruct Hdraw
    as (r' & gl' & h' & before & ix & E & Hcalls & _ & Hlen & _).
  exists r', gl', h', before, ix.
  split; [exact E |]. split; [exact Hcalls | exact Hlen].
Defined.

(** The picture of the examples, whose only plane has the size of its
    texture, 720 by 576. *)
Lemma X18_witness_pal_picture :
  Z.of_nat (tex_count (interop (Examples.real_renderer
                                  PROJECTION_MODE_RECTANGULAR MULTIVIEW_2D)))
  <= PICTURE_PLANE_MAX
  /\ plane_rect (fun _ => 0%R)
       (@plane_rects R Exact.real_ops (fun _ => 0%R)
          (Examples.real_renderer PROJECTION_MODE_RECTANGULAR MULTIVIEW_2D)
          DrawExample.source) 0
     = (0%R, 0%R, 1%R, 1%R).
Proof.
  assert (Hplanes :
    Z.of_nat (tex_count (interop (Examples.real_renderer
                                    PROJECTION_MODE_RECTANGULAR MULTIVIEW_2D)))
    <= PICTURE_PLANE_MAX)
    by (unfold PICTURE_PLANE_MAX; cbn; lia).
  split; [exact Hplanes |].
  refine (proj2 X18_whole_picture_is_the_unit_square (fun _ => 0%R)
            (Examples.real_renderer PROJECTION_MODE_RECTANGULAR MULTIVIEW_2D)
            DrawExample.source 0%nat
            {| w_num := 1; w_den := 1; h_num := 1; h_den := 1 |}
            Hplanes _ eq_refl eq_refl eq_refl _ _ _ _ _ _ eq_refl eq_refl);
    cbn; unfold UINT_MAX; lia.
Defined.

(** On a heap where every call of malloc succeeds: the seam of the
    equator. *)
Lemma X19_witness_heap_grants :
  alloc_fails (Examples.heap_with []) = false
  /\ exists m h',
       @BuildSphere R Exact.real_ops (fun _ => 0%R) (fun _ => 0) 1
         [0%R] [0%R] [1%R] [1%R] (Examples.heap_with [])
       = (VLC_SUCCESS, Some m, h')
       /\ vertexCoord m !! ((64 * 129 + 128) * 3 + 0)%nat
          = vertexCoord m !! ((64 * 129 + 0) * 3 + 0)%nat.
Proof.
  split; [reflexivity |].
  destruct (X19_sphere_closes_up (fun _ => 0%R) (fun _ => 0) 1
              [0%R] [0%R] [1%R] [1%R] (Examples.heap_with []) eq_refl)
    as (m & h' & E & Hseam & _).
  exists m, h'. split; [exact E |].
  assert (Hlat : (64 <= 128)%nat) by lia.
  assert (Hj : (0 < 3)%nat) by lia.
  exact (Hseam 64%nat 0%nat Hlat Hj).
Defined.

(** The picture of the examples, drawn for the first time, with the
    assertions of DrawWithShaders. *)
Lemma X20_witness_pal_picture :
  whole_picture
    (Examples.real_renderer PROJECTION_MODE_RECTANGULAR MULTIVIEW_2D)
    DrawExample.source
  /\ false || draw_assertions
               (Examples.real_renderer PROJECTION_MODE_RECTANGULAR
                  MULTIVIEW_2D) = true
  /\ exists renderer' gl' h',
       @vlc_gl_renderer_Draw R Exact.real_ops (fun _ => 0%R) (fun _ => 0)
         false
         (Examples.real_renderer PROJECTION_MODE_RECTANGULAR MULTIVIEW_2D)
         DrawExample.source SyncExample.real_gl0 (Examples.heap_with [])
       = Returns (VLC_SUCCESS, renderer', gl', h')
       /\ nb_indices renderer' = 6
       /\ gl_buffers gl'
          = [ (2, GLushort_data [0; 1; 2; 2; 1; 3]);
              (1, GLfloat_data
                    [-1; 1; -1;  -1; -1; -1;  1; 1; -1;  1; -1; -1]%R);
              (3, GLfloat_data [0; 0;  0; 1;  1; 0;  1; 1]%R) ].
Proof.
  assert (Hwhole :
    whole_picture
      (Examples.real_renderer PROJECTION_MODE_RECTANGULAR MULTIVIEW_2D)
      DrawExample.source).
  { unfold whole_picture. cbn. unfold UINT_MAX.
    repeat (split; [lia |]).
    intros j Hj. assert (j = 0%nat) as -> by lia.
    exists {| w_num := 1; w_den := 1; h_num := 1; h_den := 1 |}.
    cbn. repeat split; lia. }
  assert (Hplanes :
    Z.of_nat (tex_count (interop (Examples.real_renderer
                                    PROJECTION_MODE_RECTANGULAR MULTIVIEW_2D)))
    <= PICTURE_PLANE_MAX)
    by (unfold PICTURE_PLANE_MAX; cbn; lia).
  split; [exact Hwhole |]. split; [reflexivity |].
  exact (X20_Draw_flat_picture (fun _ => 0%R) (fun _ => 0) false
           (Examples.real_renderer PROJECTION_MODE_RECTANGULAR MULTIVIEW_2D)
           DrawExample.source SyncExample.real_gl0 (Examples.heap_with [])
           eq_refl eq_refl Hplanes eq_refl Hwhole eq_refl).
Defined.

(** A picture in a projection that has no mesh. *)
Lemma X21_witness_unknown_projection :
  exists gl',
    DrawExample.Draw (Examples.renderer (PROJECTION_MODE_other 7) MULTIVIEW_2D)
      DrawExample.source Examples.gl0 (Examples.heap_with [])
    = Returns
        (VLC_EGENERIC, Examples.renderer (PROJECTION_MODE_other 7) MULTIVIEW_2D,
         gl', Examples.heap_with [])
    /\ gl_calls gl' = gl_calls Examples.gl0 ++ [glClear; glUseProgram 1]
    /\ same_buffers Examples.gl0 gl'.
Proof.
  exact (@X21_Draw_without_builder spec_float Examples.ops
           Examples.junk_float Examples.junk_ushort
           (Examples.renderer (PROJECTION_MODE_other 7) MULTIVIEW_2D)
           DrawExample.source Examples.gl0 (Examples.heap_with [])
           eq_refl eq_refl false).
Defined.

(** A viewpoint whose field of view is not a number. *)
Lemma X22_witness_nan :
  @vlc_gl_renderer_SetViewpoint spec_float Examples.ops
    Examples.reverse Examples.to_4x4 Examples.FOV_MAX Examples.FOV_MIN
    (Examples.renderer PROJECTION_MODE_EQUIRECTANGULAR MULTIVIEW_2D)
    {| yaw := Examples.zero; pitch := Examples.zero; roll := Examples.zero;
       fov := S754_nan |}
  = (VLC_SUCCESS,
     @getViewpointMatrixes spec_float Examples.ops Examples.to_4x4
       PROJECTION_MODE_EQUIRECTANGULAR
       (set_vp
          (Examples.reverse
             {| yaw := Examples.zero; pitch := Examples.zero;
                roll := Examples.zero; fov := S754_nan |})
          (Examples.renderer PROJECTION_MODE_EQUIRECTANGULAR MULTIVIEW_2D))).
Proof.
  exact (X22_SetViewpoint_accepts_nan Examples.libm_nan
           Examples.reverse Examples.to_4x4 Examples.FOV_MAX Examples.FOV_MIN
           (Examples.renderer PROJECTION_MODE_EQUIRECTANGULAR MULTIVIEW_2D)
           {| yaw := Examples.zero; pitch := Examples.zero;
              roll := Examples.zero; fov := S754_nan |}
           eq_refl).
Defined.

(** The program of a picture in one plane, linked. *)
Lemma X24_witness_one_plane :
  opengl_link_program false LinkExample.driver 120 false LinkExample.world0
  = Returns (VLC_SUCCESS, LinkExample.linked_world)
  /\ nth 0 (aloc_MultiTexCoord (loc (the_renderer LinkExample.linked_world))) 0
     <> -1
  /\ (forall j, (1 <= j < 3)%nat ->
        (j < 1)%nat
        /\ nth j (aloc_MultiTexCoord
                    (loc (the_renderer LinkExample.linked_world))) 0 <> -1
        \/ (1 <= j)%nat
           /\ nth j (aloc_MultiTexCoord
                       (loc (the_renderer LinkExample.linked_world))) 0 = -1).
Proof.
  assert (E : opengl_link_program false LinkExample.driver 120 false
                LinkExample.world0
              = Returns (VLC_SUCCESS, LinkExample.linked_world))
    by (vm_compute; reflexivity).
  split; [exact E |].
  pose proof (X24_link_stores_valid_locations LinkExample.driver 120 false
                false LinkExample.world0 LinkExample.linked_world E eq_refl)
    as (_ & _ & _ & _ & _ & _ & _ & H0 & H12).
  split; [exact H0 | exact H12].
Defined.

(** The same program, when the driver has no fragment shader. *)
Lemma X25_witness_no_fragment_shader :
  opengl_link_program false LinkExample.driver_without_fragment_shader 120
    false LinkExample.world0
  = Returns (VLC_EGENERIC, LinkExample.no_fragment_world)
  /\ (the_renderer LinkExample.no_fragment_world
      = the_renderer LinkExample.world0
      /\ (exists l,
            calls LinkExample.no_fragment_world
            = calls LinkExample.world0 ++ l
            /\ ~ In CreateProgram l)
      \/ program_id (the_renderer LinkExample.no_fragment_world) = 0
         /\ exists l,
              calls LinkExample.no_fragment_world
              = calls LinkExample.world0 ++ l ++ [DeleteProgram 3]).
Proof.
  assert (E : opengl_link_program false
                LinkExample.driver_without_fragment_shader 120 false
                LinkExample.world0
              = Returns (VLC_EGENERIC, LinkExample.no_fragment_world))
    by (vm_compute; reflexivity).
  split; [exact E |].
  refine (proj2 (X25_link_failure_leaves_no_program
                   LinkExample.driver_without_fragment_shader 120 false
                   false LinkExample.world0 LinkExample.no_fragment_world
                   VLC_EGENERIC E _)).
  discriminate.
Defined.

Lemma X26_witness_no_fragment_shader :
  exists w' code,
    opengl_link_program false LinkExample.driver_without_fragment_shader
      120 false LinkExample.world0
    = Returns (VLC_EGENERIC, w')
    /\ the_renderer w' = the_renderer LinkExample.world0
    /\ calls w'
       = calls LinkExample.world0
         ++ [CreateShader_vertex; ShaderSource 1 code]
         ++ []
         ++ [CompileShader 1; opengl_fragment_shader_init 3553].
Proof.
  refine (X26_vertex_shader_is_not_deleted
            LinkExample.driver_without_fragment_shader 120 false false
            LinkExample.world0 _ _ eq_refl); discriminate.
Defined.

(** Linking the program of a picture in one plane leaves the heap as it
    was. *)
Lemma X27_witness_one_plane :
  heap_wf (memory LinkExample.world0)
  /\ heap_wf (memory LinkExample.linked_world)
  /\ heap_live (memory LinkExample.linked_world)
     = heap_live (memory LinkExample.world0).
Proof.
  assert (Hwf : heap_wf (memory LinkExample.world0)) by constructor.
  split; [exact Hwf |].
  assert (E : opengl_link_program false LinkExample.driver 120 false
                LinkExample.world0
              = Returns (VLC_SUCCESS, LinkExample.linked_world))
    by (vm_compute; reflexivity).
  exact (X27_link_frees_what_it_allocates LinkExample.driver 120 false
           false LinkExample.world0 LinkExample.linked_world VLC_SUCCESS
           E Hwf).
Defined.

(** A program without the variable ViewMatrix: the process stops in
    opengl_link_program when the assertions are compiled in, and the
    function returns an error when they are not. *)
Lemma X28_witness_no_ViewMatrix :
  opengl_link_program false LinkExample.driver_without_ViewMatrix 120 false
    LinkExample.world0
  = Stops.
Proof.
  refine (X28_missing_location_stops LinkExample.driver_without_ViewMatrix
            120 false LinkExample.world0 _ eq_refl _).
  - split; [discriminate | split; discriminate].
  - intros (_ & _ & _ & V4 & _). apply V4. reflexivity.
Defined.

Lemma X29_witness_no_ViewMatrix :
  exists w' l,
    opengl_link_program true LinkExample.driver_without_ViewMatrix 120
      false LinkExample.world0
    = Returns (VLC_EGENERIC, w')
    /\ program_id (the_renderer w') = 0
    /\ calls w' = calls LinkExample.world0 ++ l ++ [DeleteProgram 3].
Proof.
  refine (X29_missing_location_is_an_error
            LinkExample.driver_without_ViewMatrix 120 false
            LinkExample.world0 _ _ _).
  - split; [discriminate | split; discriminate].
  - discriminate.
  - intros (_ & _ & _ & V4 & _). apply V4. reflexivity.
Defined.
